(** * The NoSIP plugin: an RTP bridge between WebRTC and a plain-RTP peer

    A shallow embedding of [plugins/janus_nosip.c]: the media state of a
    session, the SDES-SRTP bookkeeping, the two SDP passes
    ([janus_nosip_sdp_process], [janus_nosip_sdp_manipulate]), the port
    allocator, the [generate]/[process] branch of the request handler, the
    relay loop and the RTP ingress callback; then the RTCP ingress callback,
    the connection of the sockets, the configuration read by
    [janus_nosip_init], the session table with its watchdog and the
    [recording] request; followed by the properties established about
    them.

    Conventions.  C integers are [Z], the 16 bits of a [guint16] being cut
    where the code stores into one; a file descriptor is a [Z] with [-1]
    for "closed"; a [gboolean] or a one-bit field is a [bool]; a nullable
    [char *] is an [option string]; a [GList] is a [list].  What the plugin
    asks of the operating system and of the libraries it links against
    (libsrtp, GLib, the gateway core) is supplied from outside: pure helpers
    as the fields of [externals], answers of system calls as explicit
    arguments consumed in program order.  What the plugin does to the
    outside world is returned as a list of [effect]s, oldest first.
    Session structs live in a heap addressed by [Z], with [0] for NULL.
    Where the code hands a null string to [sscanf] or [strcmp] the call does
    not return: a predicate next to the function says when, and the handler
    has no result there. *)

From Stdlib Require Import ZArith List String Ascii Bool Lia.
Import ListNotations.

Local Open Scope string_scope.
Local Open Scope list_scope.
Local Open Scope Z_scope.

Set Implicit Arguments.

(** ** C library helpers used on strings *)

Definition tolower (c : ascii) : ascii :=
  let n := nat_of_ascii c in
  if ((65 <=? n) && (n <=? 90))%nat then ascii_of_nat (n + 32) else c.

Fixpoint strlower (s : string) : string :=
  match s with
  | EmptyString => EmptyString
  | String c t => String (tolower c) (strlower t)
  end.

(** [!strcasecmp(a, b)]: equality up to ASCII case. *)
Definition strcaseeq (a b : string) : bool :=
  String.eqb (strlower a) (strlower b).

(** [strstr(hay, needle) != NULL]. *)
Fixpoint strstr (hay needle : string) : bool :=
  String.prefix needle hay ||
  match hay with
  | EmptyString => false
  | String _ t => strstr t needle
  end.

(** ** Integer conversions *)

(** A value stored in a [uint16_t]. *)
Definition uint16 (z : Z) : Z := z mod 65536.

(** ** Parsed SDP ([sdp-utils.h]) *)

Inductive janus_sdp_mtype :=
| JANUS_SDP_AUDIO
| JANUS_SDP_VIDEO
| JANUS_SDP_APPLICATION
| JANUS_SDP_OTHER.

Inductive janus_sdp_mdirection :=
| JANUS_SDP_DEFAULT
| JANUS_SDP_SENDRECV
| JANUS_SDP_SENDONLY
| JANUS_SDP_RECVONLY
| JANUS_SDP_INACTIVE.

(** Modelled from the spec: [janus_sdp_attribute] of [sdp-utils.h], which is
    not among the sources; an attribute is a name and a value, either of
    which may be null. *)
Record janus_sdp_attribute := {
  a_name : option string;
  a_value : option string
}.

(** Modelled from the spec: [janus_sdp_mline] of [sdp-utils.h], with the
    members the plugin reads and writes: kind, port, profile, connection
    address, payload types in order, direction and attributes in order.
    The port is a [guint16] there: what the plugin stores in it is cut to
    16 bits. *)
Record janus_sdp_mline := {
  m_type : janus_sdp_mtype;
  m_port : Z;
  m_proto : option string;
  m_c_addr : option string;
  m_ptypes : list Z;
  m_direction : janus_sdp_mdirection;
  m_attributes : list janus_sdp_attribute
}.

(** Modelled from the spec: [janus_sdp] of [sdp-utils.h], with the
    session-level connection address and the media sections in order. *)
Record janus_sdp := {
  c_addr : option string;
  m_lines : list janus_sdp_mline
}.

Definition is_audio (t : janus_sdp_mtype) : bool :=
  match t with JANUS_SDP_AUDIO => true | _ => false end.

Definition is_video (t : janus_sdp_mtype) : bool :=
  match t with JANUS_SDP_VIDEO => true | _ => false end.

Definition is_sendonly_or_inactive (d : janus_sdp_mdirection) : bool :=
  match d with
  | JANUS_SDP_SENDONLY | JANUS_SDP_INACTIVE => true
  | _ => false
  end.

(** ** libsrtp *)

Inductive srtp_err_status_t :=
| srtp_err_status_ok
| srtp_err_status_fail
| srtp_err_status_auth_fail
| srtp_err_status_replay_fail
| srtp_err_status_replay_old
| srtp_err_status_other (code : Z).

Definition srtp_is_ok (r : srtp_err_status_t) : bool :=
  match r with srtp_err_status_ok => true | _ => false end.

Definition srtp_is_replay_fail (r : srtp_err_status_t) : bool :=
  match r with srtp_err_status_replay_fail => true | _ => false end.

Definition srtp_is_replay_old (r : srtp_err_status_t) : bool :=
  match r with srtp_err_status_replay_old => true | _ => false end.

(** The policy the plugin fills in: the authentication tag length chosen for
    RTP and RTCP (80 is the default profile) and the master key and salt. *)
Record srtp_policy_t := {
  policy_rtp : Z;
  policy_rtcp : Z;
  policy_key : list Z
}.

(** An SRTP context is what [srtp_create] built from a policy; [None] is the
    null handle. *)
Definition srtp_t := option srtp_policy_t.

(** Modelled from the spec: [SRTP_MASTER_LENGTH] of [rtpsrtp.h], the 30-byte
    master key and salt. *)
Definition SRTP_MASTER_LENGTH : Z := 30.

(** ** What the plugin links against *)

Record externals := {
  (** [janus_sdp_parse]: [None] when the text is rejected. *)
  janus_sdp_parse : string -> option janus_sdp;
  (** [janus_sdp_write]: the text of a parsed SDP, [None] for NULL. *)
  janus_sdp_write : janus_sdp -> option string;
  (** [sscanf(value, "%i AES_CM_128_HMAC_SHA1_%2d inline:%80s", ...)]:
      the tag, suite and key when all three conversions succeed. *)
  sscanf_crypto : string -> option (Z * Z * string);
  g_base64_decode : string -> list Z;
  g_base64_encode : list Z -> string;
  (** The status [srtp_create] returns for a policy. *)
  srtp_create : srtp_policy_t -> srtp_err_status_t;
  (** The key [srtp_crypto_get_random] draws for the media line at an index. *)
  srtp_crypto_get_random : nat -> list Z;
  (** [gateway->events_is_enabled()]. *)
  events_is_enabled : bool
}.

(** The globals set once by [janus_nosip_init]. *)
Record plugin_globals := {
  local_ip : string;
  rtp_range_min : Z;
  rtp_range_max : Z;
  notify_events : bool
}.

(** ** The media state of a session ([janus_nosip_media])

    Left out: [audio_pt_name] and [video_pt_name] (only read by the
    recording request), the four [srtp_policy_t] members (a context carries
    its policy) and the RTP switching context (owned by [rtp.c]). *)

(** The members the source declares twice, once as [audio_X] and once as
    [video_X]. *)
Record media_kind := {
  k_has : bool;
  k_rtp_fd : Z;
  k_rtcp_fd : Z;
  k_local_rtp_port : Z;
  k_remote_rtp_port : Z;
  k_local_rtcp_port : Z;
  k_remote_rtcp_port : Z;
  k_ssrc : Z;
  k_ssrc_peer : Z;
  k_pt : Z;
  k_srtp_in : srtp_t;
  k_srtp_out : srtp_t;
  k_srtp_suite_in : Z;
  k_srtp_suite_out : Z;
  k_send : bool
}.

Definition set_k_has (v : bool) (k : media_kind) : media_kind :=
  {| k_has := v; k_rtp_fd := k_rtp_fd k; k_rtcp_fd := k_rtcp_fd k;
     k_local_rtp_port := k_local_rtp_port k;
     k_remote_rtp_port := k_remote_rtp_port k;
     k_local_rtcp_port := k_local_rtcp_port k;
     k_remote_rtcp_port := k_remote_rtcp_port k; k_ssrc := k_ssrc k;
     k_ssrc_peer := k_ssrc_peer k; k_pt := k_pt k; k_srtp_in := k_srtp_in k;
     k_srtp_out := k_srtp_out k; k_srtp_suite_in := k_srtp_suite_in k;
     k_srtp_suite_out := k_srtp_suite_out k; k_send := k_send k |}.

Definition set_k_rtp_fd (v : Z) (k : media_kind) : media_kind :=
  {| k_has := k_has k; k_rtp_fd := v; k_rtcp_fd := k_rtcp_fd k;
     k_local_rtp_port := k_local_rtp_port k;
     k_remote_rtp_port := k_remote_rtp_port k;
     k_local_rtcp_port := k_local_rtcp_port k;
     k_remote_rtcp_port := k_remote_rtcp_port k; k_ssrc := k_ssrc k;
     k_ssrc_peer := k_ssrc_peer k; k_pt := k_pt k; k_srtp_in := k_srtp_in k;
     k_srtp_out := k_srtp_out k; k_srtp_suite_in := k_srtp_suite_in k;
     k_srtp_suite_out := k_srtp_suite_out k; k_send := k_send k |}.

Definition set_k_rtcp_fd (v : Z) (k : media_kind) : media_kind :=
  {| k_has := k_has k; k_rtp_fd := k_rtp_fd k; k_rtcp_fd := v;
     k_local_rtp_port := k_local_rtp_port k;
     k_remote_rtp_port := k_remote_rtp_port k;
     k_local_rtcp_port := k_local_rtcp_port k;
     k_remote_rtcp_port := k_remote_rtcp_port k; k_ssrc := k_ssrc k;
     k_ssrc_peer := k_ssrc_peer k; k_pt := k_pt k; k_srtp_in := k_srtp_in k;
     k_srtp_out := k_srtp_out k; k_srtp_suite_in := k_srtp_suite_in k;
     k_srtp_suite_out := k_srtp_suite_out k; k_send := k_send k |}.

Definition set_k_local_rtp_port (v : Z) (k : media_kind) : media_kind :=
  {| k_has := k_has k; k_rtp_fd := k_rtp_fd k; k_rtcp_fd := k_rtcp_fd k;
     k_local_rtp_port := v; k_remote_rtp_port := k_remote_rtp_port k;
     k_local_rtcp_port := k_local_rtcp_port k;
     k_remote_rtcp_port := k_remote_rtcp_port k; k_ssrc := k_ssrc k;
     k_ssrc_peer := k_ssrc_peer k; k_pt := k_pt k; k_srtp_in := k_srtp_in k;
     k_srtp_out := k_srtp_out k; k_srtp_suite_in := k_srtp_suite_in k;
     k_srtp_suite_out := k_srtp_suite_out k; k_send := k_send k |}.

Definition set_k_remote_rtp_port (v : Z) (k : media_kind) : media_kind :=
  {| k_has := k_has k; k_rtp_fd := k_rtp_fd k; k_rtcp_fd := k_rtcp_fd k;
     k_local_rtp_port := k_local_rtp_port k; k_remote_rtp_port := v;
     k_local_rtcp_port := k_local_rtcp_port k;
     k_remote_rtcp_port := k_remote_rtcp_port k; k_ssrc := k_ssrc k;
     k_ssrc_peer := k_ssrc_peer k; k_pt := k_pt k; k_srtp_in := k_srtp_in k;
     k_srtp_out := k_srtp_out k; k_srtp_suite_in := k_srtp_suite_in k;
     k_srtp_suite_out := k_srtp_suite_out k; k_send := k_send k |}.

Definition set_k_local_rtcp_port (v : Z) (k : media_kind) : media_kind :=
  {| k_has := k_has k; k_rtp_fd := k_rtp_fd k; k_rtcp_fd := k_rtcp_fd k;
     k_local_rtp_port := k_local_rtp_port k;
     k_remote_rtp_port := k_remote_rtp_port k; k_local_rtcp_port := v;
     k_remote_rtcp_port := k_remote_rtcp_port k; k_ssrc := k_ssrc k;
     k_ssrc_peer := k_ssrc_peer k; k_pt := k_pt k; k_srtp_in := k_srtp_in k;
     k_srtp_out := k_srtp_out k; k_srtp_suite_in := k_srtp_suite_in k;
     k_srtp_suite_out := k_srtp_suite_out k; k_send := k_send k |}.

Definition set_k_remote_rtcp_port (v : Z) (k : media_kind) : media_kind :=
  {| k_has := k_has k; k_rtp_fd := k_rtp_fd k; k_rtcp_fd := k_rtcp_fd k;
     k_local_rtp_port := k_local_rtp_port k;
     k_remote_rtp_port := k_remote_rtp_port k;
     k_local_rtcp_port := k_local_rtcp_port k; k_remote_rtcp_port := v;
     k_ssrc := k_ssrc k; k_ssrc_peer := k_ssrc_peer k; k_pt := k_pt k;
     k_srtp_in := k_srtp_in k; k_srtp_out := k_srtp_out k;
     k_srtp_suite_in := k_srtp_suite_in k;
     k_srtp_suite_out := k_srtp_suite_out k; k_send := k_send k |}.

Definition set_k_ssrc (v : Z) (k : media_kind) : media_kind :=
  {| k_has := k_has k; k_rtp_fd := k_rtp_fd k; k_rtcp_fd := k_rtcp_fd k;
     k_local_rtp_port := k_local_rtp_port k;
     k_remote_rtp_port := k_remote_rtp_port k;
     k_local_rtcp_port := k_local_rtcp_port k;
     k_remote_rtcp_port := k_remote_rtcp_port k; k_ssrc := v;
     k_ssrc_peer := k_ssrc_peer k; k_pt := k_pt k; k_srtp_in := k_srtp_in k;
     k_srtp_out := k_srtp_out k; k_srtp_suite_in := k_srtp_suite_in k;
     k_srtp_suite_out := k_srtp_suite_out k; k_send := k_send k |}.

Definition set_k_ssrc_peer (v : Z) (k : media_kind) : media_kind :=
  {| k_has := k_has k; k_rtp_fd := k_rtp_fd k; k_rtcp_fd := k_rtcp_fd k;
     k_local_rtp_port := k_local_rtp_port k;
     k_remote_rtp_port := k_remote_rtp_port k;
     k_local_rtcp_port := k_local_rtcp_port k;
     k_remote_rtcp_port := k_remote_rtcp_port k; k_ssrc := k_ssrc k;
     k_ssrc_peer := v; k_pt := k_pt k; k_srtp_in := k_srtp_in k;
     k_srtp_out := k_srtp_out k; k_srtp_suite_in := k_srtp_suite_in k;
     k_srtp_suite_out := k_srtp_suite_out k; k_send := k_send k |}.

Definition set_k_pt (v : Z) (k : media_kind) : media_kind :=
  {| k_has := k_has k; k_rtp_fd := k_rtp_fd k; k_rtcp_fd := k_rtcp_fd k;
     k_local_rtp_port := k_local_rtp_port k;
     k_remote_rtp_port := k_remote_rtp_port k;
     k_local_rtcp_port := k_local_rtcp_port k;
     k_remote_rtcp_port := k_remote_rtcp_port k; k_ssrc := k_ssrc k;
     k_ssrc_peer := k_ssrc_peer k; k_pt := v; k_srtp_in := k_srtp_in k;
     k_srtp_out := k_srtp_out k; k_srtp_suite_in := k_srtp_suite_in k;
     k_srtp_suite_out := k_srtp_suite_out k; k_send := k_send k |}.

Definition set_k_srtp_in (v : srtp_t) (k : media_kind) : media_kind :=
  {| k_has := k_has k; k_rtp_fd := k_rtp_fd k; k_rtcp_fd := k_rtcp_fd k;
     k_local_rtp_port := k_local_rtp_port k;
     k_remote_rtp_port := k_remote_rtp_port k;
     k_local_rtcp_port := k_local_rtcp_port k;
     k_remote_rtcp_port := k_remote_rtcp_port k; k_ssrc := k_ssrc k;
     k_ssrc_peer := k_ssrc_peer k; k_pt := k_pt k; k_srtp_in := v;
     k_srtp_out := k_srtp_out k; k_srtp_suite_in := k_srtp_suite_in k;
     k_srtp_suite_out := k_srtp_suite_out k; k_send := k_send k |}.

Definition set_k_srtp_out (v : srtp_t) (k : media_kind) : media_kind :=
  {| k_has := k_has k; k_rtp_fd := k_rtp_fd k; k_rtcp_fd := k_rtcp_fd k;
     k_local_rtp_port := k_local_rtp_port k;
     k_remote_rtp_port := k_remote_rtp_port k;
     k_local_rtcp_port := k_local_rtcp_port k;
     k_remote_rtcp_port := k_remote_rtcp_port k; k_ssrc := k_ssrc k;
     k_ssrc_peer := k_ssrc_peer k; k_pt := k_pt k; k_srtp_in := k_srtp_in k;
     k_srtp_out := v; k_srtp_suite_in := k_srtp_suite_in k;
     k_srtp_suite_out := k_srtp_suite_out k; k_send := k_send k |}.

Definition set_k_srtp_suite_in (v : Z) (k : media_kind) : media_kind :=
  {| k_has := k_has k; k_rtp_fd := k_rtp_fd k; k_rtcp_fd := k_rtcp_fd k;
     k_local_rtp_port := k_local_rtp_port k;
     k_remote_rtp_port := k_remote_rtp_port k;
     k_local_rtcp_port := k_local_rtcp_port k;
     k_remote_rtcp_port := k_remote_rtcp_port k; k_ssrc := k_ssrc k;
     k_ssrc_peer := k_ssrc_peer k; k_pt := k_pt k; k_srtp_in := k_srtp_in k;
     k_srtp_out := k_srtp_out k; k_srtp_suite_in := v;
     k_srtp_suite_out := k_srtp_suite_out k; k_send := k_send k |}.

Definition set_k_srtp_suite_out (v : Z) (k : media_kind) : media_kind :=
  {| k_has := k_has k; k_rtp_fd := k_rtp_fd k; k_rtcp_fd := k_rtcp_fd k;
     k_local_rtp_port := k_local_rtp_port k;
     k_remote_rtp_port := k_remote_rtp_port k;
     k_local_rtcp_port := k_local_rtcp_port k;
     k_remote_rtcp_port := k_remote_rtcp_port k; k_ssrc := k_ssrc k;
     k_ssrc_peer := k_ssrc_peer k; k_pt := k_pt k; k_srtp_in := k_srtp_in k;
     k_srtp_out := k_srtp_out k; k_srtp_suite_in := k_srtp_suite_in k;
     k_srtp_suite_out := v; k_send := k_send k |}.

Definition set_k_send (v : bool) (k : media_kind) : media_kind :=
  {| k_has := k_has k; k_rtp_fd := k_rtp_fd k; k_rtcp_fd := k_rtcp_fd k;
     k_local_rtp_port := k_local_rtp_port k;
     k_remote_rtp_port := k_remote_rtp_port k;
     k_local_rtcp_port := k_local_rtcp_port k;
     k_remote_rtcp_port := k_remote_rtcp_port k; k_ssrc := k_ssrc k;
     k_ssrc_peer := k_ssrc_peer k; k_pt := k_pt k; k_srtp_in := k_srtp_in k;
     k_srtp_out := k_srtp_out k; k_srtp_suite_in := k_srtp_suite_in k;
     k_srtp_suite_out := k_srtp_suite_out k; k_send := v |}.

Record janus_nosip_media := {
  remote_ip : option string;
  ready : bool;
  autoack : bool;
  require_srtp : bool;
  has_srtp_local : bool;
  has_srtp_remote : bool;
  audio_media : media_kind;
  video_media : media_kind;
  pipefd0 : Z;
  pipefd1 : Z;
  updated : bool
}.

Definition set_remote_ip (v : option string) (m : janus_nosip_media) : janus_nosip_media :=
  {| remote_ip := v; ready := ready m; autoack := autoack m;
     require_srtp := require_srtp m; has_srtp_local := has_srtp_local m;
     has_srtp_remote := has_srtp_remote m; audio_media := audio_media m;
     video_media := video_media m; pipefd0 := pipefd0 m;
     pipefd1 := pipefd1 m; updated := updated m |}.

Definition set_ready (v : bool) (m : janus_nosip_media) : janus_nosip_media :=
  {| remote_ip := remote_ip m; ready := v; autoack := autoack m;
     require_srtp := require_srtp m; has_srtp_local := has_srtp_local m;
     has_srtp_remote := has_srtp_remote m; audio_media := audio_media m;
     video_media := video_media m; pipefd0 := pipefd0 m;
     pipefd1 := pipefd1 m; updated := updated m |}.

Definition set_autoack (v : bool) (m : janus_nosip_media) : janus_nosip_media :=
  {| remote_ip := remote_ip m; ready := ready m; autoack := v;
     require_srtp := require_srtp m; has_srtp_local := has_srtp_local m;
     has_srtp_remote := has_srtp_remote m; audio_media := audio_media m;
     video_media := video_media m; pipefd0 := pipefd0 m;
     pipefd1 := pipefd1 m; updated := updated m |}.

Definition set_require_srtp (v : bool) (m : janus_nosip_media) : janus_nosip_media :=
  {| remote_ip := remote_ip m; ready := ready m; autoack := autoack m;
     require_srtp := v; has_srtp_local := has_srtp_local m;
     has_srtp_remote := has_srtp_remote m; audio_media := audio_media m;
     video_media := video_media m; pipefd0 := pipefd0 m;
     pipefd1 := pipefd1 m; updated := updated m |}.

Definition set_has_srtp_local (v : bool) (m : janus_nosip_media) : janus_nosip_media :=
  {| remote_ip := remote_ip m; ready := ready m; autoack := autoack m;
     require_srtp := require_srtp m; has_srtp_local := v;
     has_srtp_remote := has_srtp_remote m; audio_media := audio_media m;
     video_media := video_media m; pipefd0 := pipefd0 m;
     pipefd1 := pipefd1 m; updated := updated m |}.

Definition set_has_srtp_remote (v : bool) (m : janus_nosip_media) : janus_nosip_media :=
  {| remote_ip := remote_ip m; ready := ready m; autoack := autoack m;
     require_srtp := require_srtp m; has_srtp_local := has_srtp_local m;
     has_srtp_remote := v; audio_media := audio_media m;
     video_media := video_media m; pipefd0 := pipefd0 m;
     pipefd1 := pipefd1 m; updated := updated m |}.

Definition set_audio_media (v : media_kind) (m : janus_nosip_media) : janus_nosip_media :=
  {| remote_ip := remote_ip m; ready := ready m; autoack := autoack m;
     require_srtp := require_srtp m; has_srtp_local := has_srtp_local m;
     has_srtp_remote := has_srtp_remote m; audio_media := v;
     video_media := video_media m; pipefd0 := pipefd0 m;
     pipefd1 := pipefd1 m; updated := updated m |}.

Definition set_video_media (v : media_kind) (m : janus_nosip_media) : janus_nosip_media :=
  {| remote_ip := remote_ip m; ready := ready m; autoack := autoack m;
     require_srtp := require_srtp m; has_srtp_local := has_srtp_local m;
     has_srtp_remote := has_srtp_remote m; audio_media := audio_media m;
     video_media := v; pipefd0 := pipefd0 m; pipefd1 := pipefd1 m;
     updated := updated m |}.

Definition set_pipefd0 (v : Z) (m : janus_nosip_media) : janus_nosip_media :=
  {| remote_ip := remote_ip m; ready := ready m; autoack := autoack m;
     require_srtp := require_srtp m; has_srtp_local := has_srtp_local m;
     has_srtp_remote := has_srtp_remote m; audio_media := audio_media m;
     video_media := video_media m; pipefd0 := v; pipefd1 := pipefd1 m;
     updated := updated m |}.

Definition set_pipefd1 (v : Z) (m : janus_nosip_media) : janus_nosip_media :=
  {| remote_ip := remote_ip m; ready := ready m; autoack := autoack m;
     require_srtp := require_srtp m; has_srtp_local := has_srtp_local m;
     has_srtp_remote := has_srtp_remote m; audio_media := audio_media m;
     video_media := video_media m; pipefd0 := pipefd0 m; pipefd1 := v;
     updated := updated m |}.

Definition set_updated (v : bool) (m : janus_nosip_media) : janus_nosip_media :=
  {| remote_ip := remote_ip m; ready := ready m; autoack := autoack m;
     require_srtp := require_srtp m; has_srtp_local := has_srtp_local m;
     has_srtp_remote := has_srtp_remote m; audio_media := audio_media m;
     video_media := video_media m; pipefd0 := pipefd0 m;
     pipefd1 := pipefd1 m; updated := v |}.

(** The source's flat member names. *)
Abbreviation has_audio m := (k_has (audio_media m)) (only parsing).
Abbreviation has_video m := (k_has (video_media m)) (only parsing).
Abbreviation audio_rtp_fd m := (k_rtp_fd (audio_media m)) (only parsing).
Abbreviation video_rtp_fd m := (k_rtp_fd (video_media m)) (only parsing).
Abbreviation audio_rtcp_fd m := (k_rtcp_fd (audio_media m)) (only parsing).
Abbreviation video_rtcp_fd m := (k_rtcp_fd (video_media m)) (only parsing).
Abbreviation local_audio_rtp_port m := (k_local_rtp_port (audio_media m)) (only parsing).
Abbreviation local_video_rtp_port m := (k_local_rtp_port (video_media m)) (only parsing).
Abbreviation remote_audio_rtp_port m := (k_remote_rtp_port (audio_media m)) (only parsing).
Abbreviation remote_video_rtp_port m := (k_remote_rtp_port (video_media m)) (only parsing).
Abbreviation local_audio_rtcp_port m := (k_local_rtcp_port (audio_media m)) (only parsing).
Abbreviation local_video_rtcp_port m := (k_local_rtcp_port (video_media m)) (only parsing).
Abbreviation remote_audio_rtcp_port m := (k_remote_rtcp_port (audio_media m)) (only parsing).
Abbreviation remote_video_rtcp_port m := (k_remote_rtcp_port (video_media m)) (only parsing).
Abbreviation audio_ssrc m := (k_ssrc (audio_media m)) (only parsing).
Abbreviation video_ssrc m := (k_ssrc (video_media m)) (only parsing).
Abbreviation audio_ssrc_peer m := (k_ssrc_peer (audio_media m)) (only parsing).
Abbreviation video_ssrc_peer m := (k_ssrc_peer (video_media m)) (only parsing).
Abbreviation audio_pt m := (k_pt (audio_media m)) (only parsing).
Abbreviation video_pt m := (k_pt (video_media m)) (only parsing).
Abbreviation audio_srtp_in m := (k_srtp_in (audio_media m)) (only parsing).
Abbreviation video_srtp_in m := (k_srtp_in (video_media m)) (only parsing).
Abbreviation audio_srtp_out m := (k_srtp_out (audio_media m)) (only parsing).
Abbreviation video_srtp_out m := (k_srtp_out (video_media m)) (only parsing).
Abbreviation audio_srtp_suite_in m := (k_srtp_suite_in (audio_media m)) (only parsing).
Abbreviation video_srtp_suite_in m := (k_srtp_suite_in (video_media m)) (only parsing).
Abbreviation audio_srtp_suite_out m := (k_srtp_suite_out (audio_media m)) (only parsing).
Abbreviation video_srtp_suite_out m := (k_srtp_suite_out (video_media m)) (only parsing).
Abbreviation audio_send m := (k_send (audio_media m)) (only parsing).
Abbreviation video_send m := (k_send (video_media m)) (only parsing).

Definition set_has_audio (v : bool) (m : janus_nosip_media) : janus_nosip_media :=
  set_audio_media (set_k_has v (audio_media m)) m.
Definition set_has_video (v : bool) (m : janus_nosip_media) : janus_nosip_media :=
  set_video_media (set_k_has v (video_media m)) m.
Definition set_audio_rtp_fd (v : Z) (m : janus_nosip_media) : janus_nosip_media :=
  set_audio_media (set_k_rtp_fd v (audio_media m)) m.
Definition set_video_rtp_fd (v : Z) (m : janus_nosip_media) : janus_nosip_media :=
  set_video_media (set_k_rtp_fd v (video_media m)) m.
Definition set_audio_rtcp_fd (v : Z) (m : janus_nosip_media) : janus_nosip_media :=
  set_audio_media (set_k_rtcp_fd v (audio_media m)) m.
Definition set_video_rtcp_fd (v : Z) (m : janus_nosip_media) : janus_nosip_media :=
  set_video_media (set_k_rtcp_fd v (video_media m)) m.
Definition set_local_audio_rtp_port (v : Z) (m : janus_nosip_media) : janus_nosip_media :=
  set_audio_media (set_k_local_rtp_port v (audio_media m)) m.
Definition set_local_video_rtp_port (v : Z) (m : janus_nosip_media) : janus_nosip_media :=
  set_video_media (set_k_local_rtp_port v (video_media m)) m.
Definition set_remote_audio_rtp_port (v : Z) (m : janus_nosip_media) : janus_nosip_media :=
  set_audio_media (set_k_remote_rtp_port v (audio_media m)) m.
Definition set_remote_video_rtp_port (v : Z) (m : janus_nosip_media) : janus_nosip_media :=
  set_video_media (set_k_remote_rtp_port v (video_media m)) m.
Definition set_local_audio_rtcp_port (v : Z) (m : janus_nosip_media) : janus_nosip_media :=
  set_audio_media (set_k_local_rtcp_port v (audio_media m)) m.
Definition set_local_video_rtcp_port (v : Z) (m : janus_nosip_media) : janus_nosip_media :=
  set_video_media (set_k_local_rtcp_port v (video_media m)) m.
Definition set_remote_audio_rtcp_port (v : Z) (m : janus_nosip_media) : janus_nosip_media :=
  set_audio_media (set_k_remote_rtcp_port v (audio_media m)) m.
Definition set_remote_video_rtcp_port (v : Z) (m : janus_nosip_media) : janus_nosip_media :=
  set_video_media (set_k_remote_rtcp_port v (video_media m)) m.
Definition set_audio_ssrc (v : Z) (m : janus_nosip_media) : janus_nosip_media :=
  set_audio_media (set_k_ssrc v (audio_media m)) m.
Definition set_video_ssrc (v : Z) (m : janus_nosip_media) : janus_nosip_media :=
  set_video_media (set_k_ssrc v (video_media m)) m.
Definition set_audio_ssrc_peer (v : Z) (m : janus_nosip_media) : janus_nosip_media :=
  set_audio_media (set_k_ssrc_peer v (audio_media m)) m.
Definition set_video_ssrc_peer (v : Z) (m : janus_nosip_media) : janus_nosip_media :=
  set_video_media (set_k_ssrc_peer v (video_media m)) m.
Definition set_audio_pt (v : Z) (m : janus_nosip_media) : janus_nosip_media :=
  set_audio_media (set_k_pt v (audio_media m)) m.
Definition set_video_pt (v : Z) (m : janus_nosip_media) : janus_nosip_media :=
  set_video_media (set_k_pt v (video_media m)) m.
Definition set_audio_srtp_in (v : srtp_t) (m : janus_nosip_media) : janus_nosip_media :=
  set_audio_media (set_k_srtp_in v (audio_media m)) m.
Definition set_video_srtp_in (v : srtp_t) (m : janus_nosip_media) : janus_nosip_media :=
  set_video_media (set_k_srtp_in v (video_media m)) m.
Definition set_audio_srtp_out (v : srtp_t) (m : janus_nosip_media) : janus_nosip_media :=
  set_audio_media (set_k_srtp_out v (audio_media m)) m.
Definition set_video_srtp_out (v : srtp_t) (m : janus_nosip_media) : janus_nosip_media :=
  set_video_media (set_k_srtp_out v (video_media m)) m.
Definition set_audio_srtp_suite_in (v : Z) (m : janus_nosip_media) : janus_nosip_media :=
  set_audio_media (set_k_srtp_suite_in v (audio_media m)) m.
Definition set_video_srtp_suite_in (v : Z) (m : janus_nosip_media) : janus_nosip_media :=
  set_video_media (set_k_srtp_suite_in v (video_media m)) m.
Definition set_audio_srtp_suite_out (v : Z) (m : janus_nosip_media) : janus_nosip_media :=
  set_audio_media (set_k_srtp_suite_out v (audio_media m)) m.
Definition set_video_srtp_suite_out (v : Z) (m : janus_nosip_media) : janus_nosip_media :=
  set_video_media (set_k_srtp_suite_out v (video_media m)) m.
Definition set_audio_send (v : bool) (m : janus_nosip_media) : janus_nosip_media :=
  set_audio_media (set_k_send v (audio_media m)) m.
Definition set_video_send (v : bool) (m : janus_nosip_media) : janus_nosip_media :=
  set_video_media (set_k_send v (video_media m)) m.
(** [video ? session->media.video_X : session->media.audio_X]. *)
Definition kind_media (video : bool) (m : janus_nosip_media) : media_kind :=
  if video then video_media m else audio_media m.

Definition set_kind_media (video : bool) (k : media_kind)
    (m : janus_nosip_media) : janus_nosip_media :=
  if video then set_video_media k m else set_audio_media k m.

(** ** Sessions ([janus_nosip_session]) *)

(** A recorder is known by the file it writes. *)
Definition janus_recorder := string.

Record janus_nosip_session := {
  media : janus_nosip_media;
  sdp : option janus_sdp;
  arc : option janus_recorder;
  arc_peer : option janus_recorder;
  vrc : option janus_recorder;
  vrc_peer : option janus_recorder;
  hangingup : Z;
  destroyed : Z
}.

Definition set_media (v : janus_nosip_media) (s : janus_nosip_session)
    : janus_nosip_session :=
  {| media := v; sdp := sdp s; arc := arc s; arc_peer := arc_peer s;
     vrc := vrc s; vrc_peer := vrc_peer s; hangingup := hangingup s;
     destroyed := destroyed s |}.

Definition set_sdp (v : option janus_sdp) (s : janus_nosip_session)
    : janus_nosip_session :=
  {| media := media s; sdp := v; arc := arc s; arc_peer := arc_peer s;
     vrc := vrc s; vrc_peer := vrc_peer s; hangingup := hangingup s;
     destroyed := destroyed s |}.

Definition set_hangingup (v : Z) (s : janus_nosip_session)
    : janus_nosip_session :=
  {| media := media s; sdp := sdp s; arc := arc s; arc_peer := arc_peer s;
     vrc := vrc s; vrc_peer := vrc_peer s; hangingup := v;
     destroyed := destroyed s |}.

(** The state [janus_nosip_create_session] builds. *)
Definition new_media_kind : media_kind :=
  {| k_has := false; k_rtp_fd := -1; k_rtcp_fd := -1;
     k_local_rtp_port := 0; k_remote_rtp_port := 0;
     k_local_rtcp_port := 0; k_remote_rtcp_port := 0;
     k_ssrc := 0; k_ssrc_peer := 0; k_pt := -1;
     k_srtp_in := None; k_srtp_out := None;
     k_srtp_suite_in := 0; k_srtp_suite_out := 0; k_send := true |}.

Definition janus_nosip_create_session : janus_nosip_session :=
  {| media :=
       {| remote_ip := None; ready := false; autoack := true;
          require_srtp := false; has_srtp_local := false;
          has_srtp_remote := false;
          audio_media := new_media_kind; video_media := new_media_kind;
          pipefd0 := -1; pipefd1 := -1; updated := false |};
     sdp := None; arc := None; arc_peer := None; vrc := None;
     vrc_peer := None; hangingup := 0; destroyed := 0 |}.

(** ** SRTP bookkeeping *)

Section Plugin.

Variable G : plugin_globals.
Variable L : externals.

(** [janus_nosip_srtp_set_local]: draw a key, build the outbound context and
    hand back the key in base64; the second component is the string left in
    [*crypto], NULL when [srtp_create] failed.  A failed [srtp_create] is
    taken to leave the handle null. *)
Definition janus_nosip_srtp_set_local (draw : nat) (video : bool)
    (m : janus_nosip_media) : janus_nosip_media * option string :=
  let key := srtp_crypto_get_random L draw in
  let policy := {| policy_rtp := 80; policy_rtcp := 80; policy_key := key |} in
  let res := srtp_create L policy in
  if negb (srtp_is_ok res) then
    ((if video then set_video_srtp_out None m else set_audio_srtp_out None m),
     None)
  else
    ((if video then set_video_srtp_out (Some policy) m
      else set_audio_srtp_out (Some policy) m),
     Some (g_base64_encode L key)).

(** [janus_nosip_srtp_set_remote]: the return value, which the caller
    ignores, is dropped. *)
Definition janus_nosip_srtp_set_remote (video : bool) (crypto : string)
    (suite : Z) (m : janus_nosip_media) : janus_nosip_media :=
  let decoded := g_base64_decode L crypto in
  if Z.of_nat (List.length decoded) <? SRTP_MASTER_LENGTH then m
  else
    let tag := if suite =? 32 then 32 else 80 in
    let policy :=
      {| policy_rtp := tag; policy_rtcp := tag; policy_key := decoded |} in
    let res := srtp_create L policy in
    let ctx := if srtp_is_ok res then Some policy else None in
    if video then set_video_srtp_in ctx m else set_audio_srtp_in ctx m.

Definition janus_nosip_srtp_cleanup (m : janus_nosip_media)
    : janus_nosip_media :=
  let m := set_autoack true m in
  let m := set_require_srtp false m in
  let m := set_has_srtp_local false m in
  let m := set_has_srtp_remote false m in
  let m := set_audio_srtp_out None m in
  let m := set_audio_srtp_suite_out 0 m in
  let m := set_audio_srtp_in None m in
  let m := set_audio_srtp_suite_in 0 m in
  let m := set_video_srtp_out None m in
  let m := set_video_srtp_suite_out 0 m in
  let m := set_video_srtp_in None m in
  let m := set_video_srtp_suite_in 0 m in
  m.

(** ** Effects on the outside world *)

Inductive log_level := LOG_ERR | LOG_WARN | LOG_INFO | LOG_VERB | LOG_HUGE.

Inductive effect :=
| E_log (lvl : log_level)
| E_close (fd : Z)
| E_bind (fd : Z) (port : Z)
| E_pipe_write (fd : Z)
| E_pipe_read (fd : Z)
| E_connect_sockets
| E_close_pc
| E_header_update (video : bool) (step : Z)
| E_save_frame (rc : option janus_recorder) (len : Z)
| E_send (fd : Z) (len : Z)
| E_relay_rtp (video : bool) (len : Z)
| E_relay_rtcp (video : bool) (len : Z)
| E_notify_event (event : string)
| E_spawn_relay_thread.

(** ** Ingesting the peer's SDP ([janus_nosip_sdp_process]) *)

(** The function reads through a null pointer in two places, and the call
    then does not return: [strcmp(..., session->media.remote_ip)], made for
    an update only, while no remote address is known; and
    [sscanf(a->value, ...)] at a [crypto] attribute that has no value.  The
    definitions below give the state a call that returns has left;
    [janus_nosip_sdp_process_faults], after them, tells the calls that do
    not return, and what is given here for such a call stands for
    nothing. *)

(** [strcmp(addr, session->media.remote_ip) != 0], for a remote address
    that is there. *)
Definition addr_differs (addr : string) (remote : option string) : bool :=
  match remote with
  | Some r => negb (String.eqb addr r)
  | None => true
  end.

(** [strcmp] is handed a null [session->media.remote_ip]. *)
Definition strcmp_faults (remote : option string) : bool :=
  match remote with Some _ => false | None => true end.

(** [sscanf] is handed a null [a->value]: the attribute is named [crypto],
    on an audio or video line, and has no value. *)
Definition process_attribute_faults (mt : janus_sdp_mtype)
    (a : janus_sdp_attribute) : bool :=
  match a_name a with
  | None => false
  | Some name =>
    strcaseeq name "crypto" && (is_audio mt || is_video mt)
    && match a_value a with Some _ => false | None => true end
  end.

(** The body of the loop over [m->attributes], for one attribute.  At a
    [crypto] attribute without a value the code does not get past [sscanf]
    ([process_attribute_faults]); the state given for it here stands for
    nothing. *)
Definition process_attribute (mt : janus_sdp_mtype) (a : janus_sdp_attribute)
    (m : janus_nosip_media) : janus_nosip_media :=
  match a_name a with
  | None => m
  | Some name =>
    if strcaseeq name "crypto" then
      if is_audio mt || is_video mt then
        match
          match a_value a with Some v => sscanf_crypto L v | None => None end
        with
        | None => m
        | Some (_, suite, crypto) =>
          let video := is_video mt in
          let current_suite :=
            if video then video_srtp_suite_in m else audio_srtp_suite_in m in
          if current_suite =? 0 then
            let m := if video then set_video_srtp_suite_in suite m
                     else set_audio_srtp_suite_in suite m in
            let m := janus_nosip_srtp_set_remote video crypto suite m in
            set_has_srtp_remote true m
          else m
        end
      else m
    else m
  end.

Definition process_attributes (mt : janus_sdp_mtype)
    (attrs : list janus_sdp_attribute) (m : janus_nosip_media)
    : janus_nosip_media :=
  fold_left (fun m a => process_attribute mt a m) attrs m.

(** "Check which codec was negotiated eventually", shared by both passes. *)
Definition latch_pt (l : janus_sdp_mline) (m : janus_nosip_media)
    : janus_nosip_media :=
  let pt := match m_ptypes l with p :: _ => p | [] => -1 end in
  if pt >? -1 then
    if is_audio (m_type l) then set_audio_pt pt m else set_video_pt pt m
  else m.

(** The port, direction and address part of one media line, for the kind
    [video]; [changed] is the flag behind the caller's pointer. *)
Definition process_port (video : bool) (l : janus_sdp_mline)
    (st : janus_nosip_media * bool) : janus_nosip_media * bool :=
  let (m, changed) := st in
  let k := kind_media video m in
  if negb (m_port l =? 0) then
    let changed :=
      if negb (m_port l =? k_remote_rtp_port k) then true else changed in
    let k := set_k_has true k in
    let k := set_k_remote_rtp_port (m_port l) k in
    let k := set_k_remote_rtcp_port (m_port l + 1) k in
    let k := set_k_send (negb (is_sendonly_or_inactive (m_direction l))) k in
    (set_kind_media video k m, changed)
  else
    (set_kind_media video (set_k_send false k) m, changed).

(** The body of the loop over [sdp->m_lines], for one media line. *)
Definition process_mline (answer update : bool) (l : janus_sdp_mline)
    (st : janus_nosip_media * bool) : janus_nosip_media * bool :=
  let (m, changed) := st in
  let savp :=
    match m_proto l with
    | Some p => strcaseeq p "RTP/SAVP"
    | None => false
    end in
  let m := set_require_srtp (require_srtp m || savp) m in
  if negb (is_audio (m_type l) || is_video (m_type l)) then (m, changed)
  else
    let (m, changed) := process_port (is_video (m_type l)) l (m, changed) in
    let (m, changed) :=
      match m_c_addr l with
      | Some addr =>
        let changed :=
          if update && addr_differs addr (remote_ip m) then true
          else changed in
        (set_remote_ip (Some addr) m, changed)
      | None => (m, changed)
      end in
    if update then (m, changed)
    else
      let m := process_attributes (m_type l) (m_attributes l) m in
      let m := if answer then latch_pt l m else m in
      (m, changed).

(** The result is the media state, the flag left in [*changed] and the wake-up
    written to the pipe, if any. *)
Definition janus_nosip_sdp_process (m : janus_nosip_media) (parsed : janus_sdp)
    (answer update changed : bool)
    : janus_nosip_media * bool * list effect :=
  let (m, changed) :=
    match c_addr parsed with
    | Some addr =>
      let changed :=
        if update && addr_differs addr (remote_ip m) then true else changed in
      (set_remote_ip (Some addr) m, changed)
    | None => (m, changed)
    end in
  let (m, changed) :=
    fold_left (fun st l => process_mline answer update l st)
              (m_lines parsed) (m, changed) in
  if update && changed then
    let m := set_updated true m in
    (m, changed, if pipefd1 m >? 0 then [E_pipe_write (pipefd1 m)] else [])
  else (m, changed, []).

(** A null pointer is read while the media line [l] is gone through, [m]
    being the state the lines before it left: for an update at the [strcmp]
    of its connection address, otherwise at one of its attributes. *)
Definition process_mline_faults (update : bool) (l : janus_sdp_mline)
    (m : janus_nosip_media) : bool :=
  (is_audio (m_type l) || is_video (m_type l))
  && (if update then
        match m_c_addr l with
        | Some _ => strcmp_faults (remote_ip m)
        | None => false
        end
      else existsb (process_attribute_faults (m_type l)) (m_attributes l)).

Fixpoint process_mlines_fault (answer update : bool)
    (ls : list janus_sdp_mline) (st : janus_nosip_media * bool) : bool :=
  match ls with
  | [] => false
  | l :: rest =>
    process_mline_faults update l (fst st)
    || process_mlines_fault answer update rest
         (process_mline answer update l st)
  end.

(** The call reads through a null pointer and does not return. *)
Definition janus_nosip_sdp_process_faults (m : janus_nosip_media)
    (parsed : janus_sdp) (answer update changed : bool) : bool :=
  match c_addr parsed with
  | Some addr =>
    (update && strcmp_faults (remote_ip m))
    || process_mlines_fault answer update (m_lines parsed)
         (set_remote_ip (Some addr) m,
          if update && addr_differs addr (remote_ip m) then true
          else changed)
  | None => process_mlines_fault answer update (m_lines parsed) (m, changed)
  end.

(** ** Rewriting the application's SDP ([janus_nosip_sdp_manipulate]) *)

Definition set_m_rewrite (proto : string) (port : Z) (addr : string)
    (extra : list janus_sdp_attribute) (l : janus_sdp_mline)
    : janus_sdp_mline :=
  {| m_type := m_type l; m_port := port; m_proto := Some proto;
     m_c_addr := Some addr; m_ptypes := m_ptypes l;
     m_direction := m_direction l;
     m_attributes := m_attributes l ++ extra |}.

(** Modelled from the spec: what [janus_sdp_attribute_create("crypto",
    "1 AES_CM_128_HMAC_SHA1_80 inline:%s", crypto)] of [sdp-utils.c] builds,
    an attribute named [crypto] whose value is the format filled in; a null
    [crypto] prints as ["(null)"]. *)
Definition crypto_attribute (crypto : option string) : janus_sdp_attribute :=
  {| a_name := Some "crypto";
     a_value :=
       Some ("1 AES_CM_128_HMAC_SHA1_80 inline:" ++
             match crypto with Some c => c | None => "(null)" end)%string |}.

(** "if(session->media.has_srtp_local)": the suite noted, a local key drawn
    and the attribute to append.  The source notes the suite in
    [audio_srtp_suite_out] in the video branch too. *)
Definition offer_crypto (i : nat) (video : bool) (m : janus_nosip_media)
    : janus_nosip_media * list janus_sdp_attribute :=
  if has_srtp_local m then
    let m := set_audio_srtp_suite_out 80 m in
    let (m, crypto) := janus_nosip_srtp_set_local i video m in
    (m, [crypto_attribute crypto])
  else (m, []).

(** The body of the loop over [sdp->m_lines], for the line at index [i].
    [m->port] is a [guint16], so the local port, an [int], is stored cut to
    16 bits. *)
Definition manipulate_mline (answer : bool) (i : nat) (l : janus_sdp_mline)
    (m : janus_nosip_media) : janus_nosip_media * janus_sdp_mline :=
  let proto := if require_srtp m then "RTP/SAVP" else "RTP/AVP" in
  let '(m, port, extra) :=
    if is_audio (m_type l) then
      let (m, extra) := offer_crypto i false m in
      (m, uint16 (local_audio_rtp_port m), extra)
    else if is_video (m_type l) then
      let (m, extra) := offer_crypto i true m in
      (m, uint16 (local_video_rtp_port m), extra)
    else (m, m_port l, []) in
  let l' := set_m_rewrite proto port (local_ip G) extra l in
  let m :=
    if answer && (is_audio (m_type l) || is_video (m_type l))
    then latch_pt l m else m in
  (m, l').

Fixpoint manipulate_mlines (answer : bool) (i : nat)
    (ls : list janus_sdp_mline) (m : janus_nosip_media)
    : janus_nosip_media * list janus_sdp_mline :=
  match ls with
  | [] => (m, [])
  | l :: rest =>
    let (m, l') := manipulate_mline answer i l m in
    let (m, rest') := manipulate_mlines answer (S i) rest m in
    (m, l' :: rest')
  end.

(** The result is the media state, the SDP as rewritten in place and the text
    [janus_sdp_write] makes of it. *)
Definition janus_nosip_sdp_manipulate (m : janus_nosip_media)
    (parsed : janus_sdp) (answer : bool)
    : janus_nosip_media * janus_sdp * option string :=
  let (m, ls) := manipulate_mlines answer 0 (m_lines parsed) m in
  let parsed' := {| c_addr := c_addr parsed; m_lines := ls |} in
  (m, parsed', janus_sdp_write L parsed').

(** ** Binding local ports ([janus_nosip_allocate_local_ports]) *)

(** What the system answers during one turn of an allocation loop: the
    descriptors [socket] would return, the number [g_random_int_range] draws
    and whether each [bind] succeeds.  An answer to a call the turn does not
    make is ignored. *)
Record os_attempt := {
  os_socket_rtp : Z;
  os_socket_rtcp : Z;
  os_random : Z;
  os_bind_rtp : bool;
  os_bind_rtcp : bool
}.

(** The answers for one call: the turns of the loops, audio first, and the
    two ends [pipe] opens ([None] when it fails). *)
Record alloc_world := {
  aw_attempts : list os_attempt;
  aw_pipe : option (Z * Z)
}.

(** What GLib documents of [g_random_int_range (begin, end)]: a number in
    [begin, end), and [begin] itself when the interval is empty. *)
Definition g_random_int_range_returns (r : Z) : Prop :=
  if rtp_range_min G <? rtp_range_max G
  then rtp_range_min G <= r < rtp_range_max G
  else r = rtp_range_min G.

(** "Pick an even port for RTP": [if(rtp_port % 2) rtp_port++]. *)
Definition pick_even (rtp_port : Z) : Z :=
  if negb (Z.rem rtp_port 2 =? 0) then rtp_port + 1 else rtp_port.

(** [htons(port)] keeps the low 16 bits. *)
Definition htons (port : Z) : Z := port mod 65536.

(** The two [socket] calls at the head of a turn: a descriptor that is still
    open is kept. *)
Definition open_sockets (a : os_attempt) (k : media_kind) : media_kind :=
  let k := if k_rtp_fd k =? -1 then set_k_rtp_fd (os_socket_rtp a) k
           else k in
  let k := if k_rtcp_fd k =? -1 then set_k_rtcp_fd (os_socket_rtcp a) k
           else k in
  k.

Inductive loop_exit :=
| Loop_return (m : janus_nosip_media) (es : list effect)
| Loop_done (attempts : Z) (m : janus_nosip_media) (rest : list os_attempt)
            (es : list effect).

(** The [while] loop of one kind; the source spells it out once for audio and
    once for video.  [Loop_return] is its [return -1]; [None] means the
    answers ran out before the loop ended. *)
Fixpoint allocate_loop (video : bool) (attempts : Z) (m : janus_nosip_media)
    (tr : list os_attempt) (es : list effect) : option loop_exit :=
  let k := kind_media video m in
  if negb ((k_local_rtp_port k =? 0) || (k_local_rtcp_port k =? 0)) then
    Some (Loop_done attempts m tr es)
  else if attempts =? 0 then Some (Loop_return m es)
  else
    match tr with
    | [] => None
    | a :: tr' =>
      let k := open_sockets a k in
      if (k_rtp_fd k =? -1) || (k_rtcp_fd k =? -1) then
        Some (Loop_return (set_kind_media video k m) (es ++ [E_log LOG_ERR]))
      else
        let rtp_port := pick_even (os_random a) in
        let es := es ++ [E_bind (k_rtp_fd k) (htons rtp_port)] in
        if negb (os_bind_rtp a) then
          let es := es ++ [E_log LOG_ERR; E_close (k_rtp_fd k)] in
          let k := set_k_rtp_fd (-1) k in
          allocate_loop video (attempts - 1) (set_kind_media video k m) tr' es
        else
          let rtcp_port := rtp_port + 1 in
          let es := es ++ [E_bind (k_rtcp_fd k) (htons rtcp_port)] in
          if negb (os_bind_rtcp a) then
            let es := es ++ [E_log LOG_ERR; E_close (k_rtp_fd k);
                             E_close (k_rtcp_fd k)] in
            let k := set_k_rtcp_fd (-1) (set_k_rtp_fd (-1) k) in
            allocate_loop video (attempts - 1) (set_kind_media video k m)
                          tr' es
          else
            let k := set_k_local_rtp_port rtp_port k in
            let k := set_k_local_rtcp_port rtcp_port k in
            allocate_loop video attempts (set_kind_media video k m) tr' es
    end.

(** "Reset status", for one kind. *)
Definition reset_kind (k : media_kind) : media_kind * list effect :=
  let es1 := if negb (k_rtp_fd k =? -1) then [E_close (k_rtp_fd k)] else [] in
  let es2 :=
    if negb (k_rtcp_fd k =? -1) then [E_close (k_rtcp_fd k)] else [] in
  let k := set_k_rtp_fd (-1) k in
  let k := set_k_rtcp_fd (-1) k in
  let k := set_k_local_rtp_port 0 k in
  let k := set_k_local_rtcp_port 0 k in
  let k := set_k_ssrc 0 k in
  (k, es1 ++ es2).

(** "Reset status", the pipe. *)
Definition reset_pipe (m : janus_nosip_media) : janus_nosip_media * list effect :=
  let es1 := if pipefd0 m >? 0 then [E_close (pipefd0 m)] else [] in
  let m := if pipefd0 m >? 0 then set_pipefd0 (-1) m else m in
  let es2 := if pipefd1 m >? 0 then [E_close (pipefd1 m)] else [] in
  let m := if pipefd1 m >? 0 then set_pipefd1 (-1) m else m in
  (m, es1 ++ es2).

Definition reset_status (m : janus_nosip_media)
    : janus_nosip_media * list effect :=
  let (ka, esa) := reset_kind (audio_media m) in
  let m := set_audio_media ka m in
  let (kv, esv) := reset_kind (video_media m) in
  let m := set_video_media kv m in
  let (m, esp) := reset_pipe m in
  (m, esa ++ esv ++ esp).

(** The second component is the value returned, 0 or -1. *)
Definition janus_nosip_allocate_local_ports (w : alloc_world)
    (m : janus_nosip_media) : option (janus_nosip_media * Z * list effect) :=
  let (m, es) := reset_status m in
  let attempts := 100 in
  match
    if has_audio m then allocate_loop false attempts m (aw_attempts w) es
    else Some (Loop_done attempts m (aw_attempts w) es)
  with
  | None => None
  | Some (Loop_return m es) => Some (m, -1, es)
  | Some (Loop_done attempts m tr es) =>
    match
      if has_video m then allocate_loop true attempts m tr es
      else Some (Loop_done attempts m tr es)
    with
    | None => None
    | Some (Loop_return m es) => Some (m, -1, es)
    | Some (Loop_done _ m _ es) =>
      let m :=
        match aw_pipe w with
        | Some (r, wr) => set_pipefd1 wr (set_pipefd0 r m)
        | None => m
        end in
      Some (m, 0, es)
    end
  end.

(** ** The request handler ([janus_nosip_handler], [generate] and [process]) *)

Definition JANUS_NOSIP_ERROR_MISSING_ELEMENT : Z := 443.
Definition JANUS_NOSIP_ERROR_INVALID_ELEMENT : Z := 444.
Definition JANUS_NOSIP_ERROR_MISSING_SDP : Z := 446.
Definition JANUS_NOSIP_ERROR_INVALID_SDP : Z := 447.
Definition JANUS_NOSIP_ERROR_IO_ERROR : Z := 448.
Definition JANUS_NOSIP_ERROR_TOO_STRICT : Z := 450.

(** A [generate] or [process] message whose members have the JSON types
    [JANUS_VALIDATE_JSON_OBJECT] checks: which of the two requests it is,
    the [type] and [sdp] strings (of the JSEP for [generate], of the message
    itself for [process]) and the [srtp] string of the message, each [None]
    when absent. *)
Record nosip_request := {
  generate : bool;
  msg_sdp_type : option string;
  msg_sdp : option string;
  msg_srtp : option string
}.

(** What is pushed back to the application: the error envelope, or the
    [result] object (and, for [processed], the JSEP that mirrors the
    request). *)
Inductive reply :=
| Reply_error (error_code : Z) (error_cause : string)
| Reply_generated (type : string) (text : string)
| Reply_processed (srtp : option string) (type : string) (text : string).

Record handled := {
  h_session : janus_nosip_session;
  h_reply : reply;
  h_effects : list effect
}.

Definition fail (s : janus_nosip_session) (code : Z) (cause : string)
    (es : list effect) : option handled :=
  Some {| h_session := s; h_reply := Reply_error code cause;
          h_effects := es |}.

Definition notification (event : string) : list effect :=
  if notify_events G && events_is_enabled L then [E_notify_event event]
  else [].

(** "If this is an answer, start the media". *)
Definition start_media (offer : bool) (s : janus_nosip_session)
    : janus_nosip_session * list effect :=
  if negb offer then
    (set_media (set_ready true (media s)) s, [E_spawn_relay_thread])
  else (s, []).

(** "Going to negotiate audio...", "Going to negotiate video...": the two
    tests on the text of the SDP. *)
Definition mark_negotiated (text : string) (m : janus_nosip_media)
    : janus_nosip_media :=
  let m := if strstr text "m=audio" && negb (strstr text "m=audio 0")
           then set_has_audio true m else m in
  let m := if strstr text "m=video" && negb (strstr text "m=video 0")
           then set_has_video true m else m in
  m.

(** The [generate] branch, from "Allocate RTP ports and merge them with the
    anonymized SDP" on. *)
Definition handle_generate (w : alloc_world) (s : janus_nosip_session)
    (offer : bool) (text : string) (parsed : janus_sdp) : option handled :=
  let m := mark_negotiated text (media s) in
  match janus_nosip_allocate_local_ports w m with
  | None => None
  | Some (m, ret, es) =>
    if ret <? 0 then
      fail (set_media m s) JANUS_NOSIP_ERROR_IO_ERROR
           "Could not allocate RTP/RTCP ports" es
    else
      let '(m, parsed, written) :=
        janus_nosip_sdp_manipulate m parsed false in
      match written with
      | None =>
        fail (set_media m s) JANUS_NOSIP_ERROR_IO_ERROR
             "Could not allocate RTP/RTCP ports" es
      | Some out =>
        let s := set_hangingup 0 (set_sdp (Some parsed) (set_media m s)) in
        let es := es ++ notification "generated" in
        let (s, es') := start_media offer s in
        Some {| h_session := s;
                h_reply :=
                  Reply_generated (if offer then "offer" else "answer") out;
                h_effects := es ++ es' |}
      end
  end.

(** The [process] branch, from "We got a barebone offer or answer from our
    peer" on.  [None] when [janus_nosip_sdp_process] reads through a null
    pointer: the handler thread ends there, and the request is not
    answered. *)
Definition handle_process (s : janus_nosip_session) (offer : bool)
    (type text : string) (parsed : janus_sdp) : option handled :=
  let m := media s in
  let m := if offer then janus_nosip_srtp_cleanup m else m in
  if janus_nosip_sdp_process_faults m parsed (negb offer) false false
  then None
  else
  let '(m, _, es) :=
    janus_nosip_sdp_process m parsed (negb offer) false false in
  let s := set_media m s in
  if negb (has_audio m) && negb (has_video m) then
    fail s JANUS_NOSIP_ERROR_INVALID_SDP
         "No audio and no video being negotiated" es
  else
    match remote_ip m with
    | None => fail s JANUS_NOSIP_ERROR_INVALID_SDP "No remote IP address" es
    | Some _ =>
      let s := set_sdp (Some parsed) s in
      let es := es ++ notification "processed" in
      let srtp :=
        if has_srtp_remote m
        then Some (if require_srtp m then "sdes_mandatory"
                   else "sdes_optional")
        else None in
      let (s, es') := start_media offer s in
      Some {| h_session := s; h_reply := Reply_processed srtp type text;
              h_effects := es ++ es' |}
    end.

(** "SDES-SRTP is disabled by default, let's see if we need to enable it":
    [do_srtp] and [require_srtp] as the [srtp] member sets them, [None] for a
    value that is neither. *)
Definition srtp_flags (msg : nosip_request) : option (bool * bool) :=
  if generate msg then
    match msg_srtp msg with
    | None => Some (false, false)
    | Some srtp_text =>
      if strcaseeq srtp_text "sdes_optional" then Some (true, false)
      else if strcaseeq srtp_text "sdes_mandatory" then Some (true, true)
      else None
    end
  else Some (false, false).

(** What [generate] does with the flags before it parses the SDP: an offer
    starts from a clean SRTP state; an answer is refused ([None]) when SRTP
    is required and the peer offered none, and otherwise leaves the session
    as it is: its [do_srtp = do_srtp || has_srtp_remote] is stored in a
    local that is not read again. *)
Definition srtp_step (msg : nosip_request) (offer : bool)
    (flags : bool * bool) (s : janus_nosip_session)
    : option janus_nosip_session :=
  let (do_srtp, require) := flags in
  if generate msg then
    if offer then
      let m := janus_nosip_srtp_cleanup (media s) in
      let m := set_require_srtp require m in
      let m := set_has_srtp_local do_srtp m in
      Some (set_media m s)
    else if require_srtp (media s) && negb (has_srtp_remote (media s))
    then None
    else Some s
  else Some s.

(** Modelled from the spec: the part of [JANUS_VALIDATE_JSON_OBJECT] (of
    [utils.h]) that [process_parameters] brings into play, error 443 when
    [type] or [sdp] is missing from a [process] message; [generate] has no
    mandatory member of its own. *)
Definition missing_mandatory (msg : nosip_request) : bool :=
  negb (generate msg)
  && (match msg_sdp_type msg with None => true | Some _ => false end
      || match msg_sdp msg with None => true | Some _ => false end).

(** One message of the handler loop, for the two requests that share their
    code.  [None] when the answers of [w] do not cover the allocation of a
    [generate], and when the ingest of a [process] reads through a null
    pointer. *)
Definition janus_nosip_handler (w : alloc_world) (s : janus_nosip_session)
    (msg : nosip_request) : option handled :=
  if missing_mandatory msg then
    fail s JANUS_NOSIP_ERROR_MISSING_ELEMENT "Missing mandatory element" []
  else
  match msg_sdp msg with
  | None => fail s JANUS_NOSIP_ERROR_MISSING_SDP "Missing SDP" []
  | Some text =>
    match msg_sdp_type msg with
    | None =>
      fail s JANUS_NOSIP_ERROR_MISSING_SDP "Missing or invalid SDP type" []
    | Some type =>
      if negb (strcaseeq type "offer") && negb (strcaseeq type "answer") then
        fail s JANUS_NOSIP_ERROR_MISSING_SDP "Missing or invalid SDP type" []
      else
        let offer := strcaseeq type "offer" in
        if strstr text "m=application" then
          fail s JANUS_NOSIP_ERROR_MISSING_SDP
               "The NoSIP plugin does not support DataChannels" []
        else
          match srtp_flags msg with
          | None =>
            fail s JANUS_NOSIP_ERROR_INVALID_ELEMENT
              "Invalid element (srtp can only be sdes_optional or sdes_mandatory)"
              []
          | Some flags =>
            match srtp_step msg offer flags s with
            | None =>
              fail s JANUS_NOSIP_ERROR_TOO_STRICT
                "Can't generate answer: SDES-SRTP required, but caller didn't offer it"
                []
            | Some s =>
              match janus_sdp_parse L text with
              | None =>
                fail s JANUS_NOSIP_ERROR_MISSING_SDP "Error parsing SDP" []
              | Some parsed =>
                if generate msg then handle_generate w s offer text parsed
                else handle_process s offer type text parsed
              end
            end
          end
    end
  end.

(** ** RTP headers *)

(** Modelled from the spec: the [rtp_header] of [rtp.h], which is not among
    the sources.  A packet is the list of its bytes, and the two header
    words the plugin reads, timestamp and SSRC, are big-endian at their
    RFC 3550 offsets 4 and 8. *)
Definition be32 (buf : list Z) (off : nat) : Z :=
  nth off buf 0 * 16777216 + nth (off + 1) buf 0 * 65536
  + nth (off + 2) buf 0 * 256 + nth (off + 3) buf 0.

(** [ntohl(header->timestamp)]. *)
Definition rtp_timestamp (buf : list Z) : Z := be32 buf 4.

(** [ntohl(header->ssrc)]. *)
Definition rtp_ssrc (buf : list Z) : Z := be32 buf 8.

(** ** The relay thread ([janus_nosip_relay_thread]) *)

(** Event bits of [<poll.h>]. *)
Definition POLLIN : Z := 1.
Definition POLLERR : Z := 8.
Definition POLLHUP : Z := 16.

(** What the system answers for one descriptor of a [poll] that returned:
    its [revents], the [SO_ERROR] that [getsockopt] reads, what [recvfrom]
    returns and leaves in the buffer, and the status and length
    [srtp_unprotect] or [srtp_unprotect_rtcp] comes back with.  An answer to
    a call that is not made is ignored. *)
Record fd_answer := {
  fa_revents : Z;
  fa_so_error : Z;
  fa_recv : Z;
  fa_buffer : list Z;
  fa_unprotect : srtp_err_status_t;
  fa_unprotect_len : Z
}.

Inductive poll_answer :=
| Poll_eintr
| Poll_failed
| Poll_timeout
| Poll_ready (answers : list fd_answer).

(** One turn of the [while] loop as the outside world shapes it: the two
    session flags that other threads write, as the loop test reads them;
    what [inet_aton] returns should the remote address be looked at again;
    and the outcome of [poll]. *)
Record iteration := {
  it_destroyed : Z;
  it_hangingup : Z;
  it_inet_aton : Z;
  it_poll : poll_answer
}.

(** The local variables of the thread that outlive a packet. *)
Record relay_locals := {
  goon : bool;
  astep : Z;
  vstep : Z;
  ats : Z;
  vts : Z
}.

(** A [guint32] difference stored in an [int]. *)
Definition int_of_guint32_diff (a b : Z) : Z :=
  let d := (a - b) mod 4294967296 in
  if d <? 2147483648 then d else d - 4294967296.

(** The stride bookkeeping after [janus_rtp_header_update]. *)
Definition note_timestamp (video : bool) (timestamp : Z) (l : relay_locals)
    : relay_locals :=
  if video then
    if vts l =? 0 then
      {| goon := goon l; astep := astep l; vstep := vstep l; ats := ats l;
         vts := timestamp |}
    else if vstep l =? 0 then
      let d := int_of_guint32_diff timestamp (vts l) in
      {| goon := goon l; astep := astep l;
         vstep := if d <? 0 then 0 else d; ats := ats l; vts := vts l |}
    else l
  else
    if ats l =? 0 then
      {| goon := goon l; astep := astep l; vstep := vstep l;
         ats := timestamp; vts := vts l |}
    else if astep l =? 0 then
      let d := int_of_guint32_diff timestamp (ats l) in
      {| goon := goon l; astep := if d <? 0 then 0 else d;
         vstep := vstep l; ats := ats l; vts := vts l |}
    else l.

Definition stop_going (l : relay_locals) : relay_locals :=
  {| goon := false; astep := astep l; vstep := vstep l; ats := ats l;
     vts := vts l |}.

(** [res != srtp_err_status_ok && res != srtp_err_status_replay_fail &&
    res != srtp_err_status_replay_old]. *)
Definition unprotect_refused (res : srtp_err_status_t) : bool :=
  negb (srtp_is_ok res) && negb (srtp_is_replay_fail res)
  && negb (srtp_is_replay_old res).

(** How the body of the [for] loop over the descriptors ends. *)
Inductive scan_next := Scan_continue | Scan_break.

(** "Got an RTP/RTCP packet": the part of the body after [recvfrom]
    succeeded, which always ends in [continue]. *)
Definition relay_packet (fd : Z) (a : fd_answer) (s : janus_nosip_session)
    (l : relay_locals) : janus_nosip_session * relay_locals * list effect :=
  let m := media s in
  let bytes := fa_recv a in
  let video := (fd =? video_rtp_fd m) || (fd =? video_rtcp_fd m) in
  let rtcp := (fd =? audio_rtcp_fd m) || (fd =? video_rtcp_fd m) in
  if negb rtcp then
    let seen := rtp_ssrc (fa_buffer a) in
    let '(m, es) :=
      if negb (k_ssrc_peer (kind_media video m) =? seen) then
        ((if video then set_video_ssrc_peer seen m
          else set_audio_ssrc_peer seen m), [E_log LOG_VERB])
      else (m, []) in
    let s := set_media m s in
    if has_srtp_remote m && unprotect_refused (fa_unprotect a) then
      (s, l, es ++ [E_log LOG_ERR])
    else
      let bytes := if has_srtp_remote m then fa_unprotect_len a else bytes in
      let timestamp := rtp_timestamp (fa_buffer a) in
      let step :=
        if video then (if vstep l =? 0 then 4500 else vstep l)
        else (if astep l =? 0 then 960 else astep l) in
      let l := note_timestamp video timestamp l in
      (s, l,
       es ++ [E_header_update video step;
              E_save_frame (if video then vrc_peer s else arc_peer s) bytes;
              E_relay_rtp video bytes])
  else
    if has_srtp_remote m && unprotect_refused (fa_unprotect a) then
      (s, l, [E_log LOG_ERR])
    else
      let bytes := if has_srtp_remote m then fa_unprotect_len a else bytes in
      (s, l, [E_relay_rtcp video bytes]).

(** The body of the [for] loop, for the descriptor [fd]. *)
Definition relay_fd (pipe_fd fd : Z) (a : fd_answer)
    (s : janus_nosip_session) (l : relay_locals)
    : janus_nosip_session * relay_locals * list effect * scan_next :=
  let m := media s in
  if negb (Z.land (fa_revents a) (Z.lor POLLERR POLLHUP) =? 0) then
    if updated m then (s, l, [], Scan_break)
    else
      let error := fa_so_error a in
      if error =? 0 then (s, l, [], Scan_continue)
      else if error =? 111 then
        if fd =? audio_rtcp_fd m then
          (set_media (set_audio_rtcp_fd (-1) m) s, l,
           [E_log LOG_WARN; E_close (audio_rtcp_fd m)], Scan_continue)
        else if fd =? video_rtcp_fd m then
          (set_media (set_video_rtcp_fd (-1) m) s, l,
           [E_log LOG_WARN; E_close (video_rtcp_fd m)], Scan_continue)
        else (s, l, [], Scan_continue)
      else
        (s, stop_going l, [E_log LOG_ERR; E_log LOG_ERR; E_close_pc],
         Scan_break)
  else if negb (Z.land (fa_revents a) POLLIN =? 0) then
    if negb (pipe_fd =? -1) && (fd =? pipe_fd) then
      (s, l, [E_pipe_read pipe_fd], Scan_break)
    else if fa_recv a <? 0 then (s, l, [], Scan_continue)
    else
      let '(s, l, es) := relay_packet fd a s l in
      (s, l, es, Scan_continue)
  else (s, l, [], Scan_continue).

(** The [for] loop over the descriptors handed to [poll]. *)
Fixpoint relay_scan (pipe_fd : Z) (fds : list (Z * fd_answer))
    (s : janus_nosip_session) (l : relay_locals)
    : janus_nosip_session * relay_locals * list effect :=
  match fds with
  | [] => (s, l, [])
  | (fd, a) :: rest =>
    let '(s, l, es, next) := relay_fd pipe_fd fd a s l in
    match next with
    | Scan_break => (s, l, es)
    | Scan_continue =>
      let '(s, l, es') := relay_scan pipe_fd rest s l in
      (s, l, es ++ es')
    end
  end.

(** "Prepare poll": the descriptors that are open, in the order of the
    array. *)
Definition poll_fds (pipe_fd : Z) (m : janus_nosip_media) : list Z :=
  filter (fun fd => negb (fd =? -1))
         [audio_rtp_fd m; audio_rtcp_fd m; video_rtp_fd m; video_rtcp_fd m;
          pipe_fd].

(** What follows the loop: sockets and pipe closed, ports and SSRCs zeroed,
    SRTP state dropped. *)
Definition relay_teardown (s : janus_nosip_session)
    : janus_nosip_session * list effect :=
  let (m, es) := reset_status (media s) in
  (set_media (janus_nosip_srtp_cleanup m) s, es).

Definition set_flags (it : iteration) (s : janus_nosip_session)
    : janus_nosip_session :=
  {| media := media s; sdp := sdp s; arc := arc s; arc_peer := arc_peer s;
     vrc := vrc s; vrc_peer := vrc_peer s; hangingup := it_hangingup it;
     destroyed := it_destroyed it |}.

(** The [while] loop and what follows it.  The loop test reads [goon] first
    and the session flags only when it is set.  [None] means the turns
    supplied ran out while the loop was still going. *)
Fixpoint relay_loop (have_server_ip : bool) (pipe_fd : Z)
    (its : list iteration) (s : janus_nosip_session) (l : relay_locals)
    (es : list effect) : option (janus_nosip_session * list effect) :=
  if negb (goon l) then
    let (s, es') := relay_teardown s in Some (s, es ++ es')
  else
    match its with
    | [] => None
    | it :: rest =>
      let s := set_flags it s in
      if (destroyed s =? 0) && (hangingup s =? 0) then
        let '(s, es) :=
          if updated (media s) then
            (set_media (set_updated false (media s)) s,
             es ++ (if have_server_ip && (it_inet_aton it =? 0)
                    then [E_connect_sockets] else [E_log LOG_ERR]))
          else (s, es) in
        match it_poll it with
        | Poll_eintr => relay_loop have_server_ip pipe_fd rest s l
                                   (es ++ [E_log LOG_HUGE])
        | Poll_failed =>
          let (s, es') := relay_teardown s in
          Some (s, es ++ [E_log LOG_ERR; E_log LOG_ERR] ++ es')
        | Poll_timeout => relay_loop have_server_ip pipe_fd rest s l es
        | Poll_ready answers =>
          if negb (destroyed s =? 0) then
            let (s, es') := relay_teardown s in Some (s, es ++ es')
          else
            let '(s, l, es') :=
              relay_scan pipe_fd
                         (combine (poll_fds pipe_fd (media s)) answers) s l in
            relay_loop have_server_ip pipe_fd rest s l (es ++ es')
        end
      else
        let (s, es') := relay_teardown s in Some (s, es ++ es')
    end.

(** The thread: [have_server_ip] tells whether the remote address could be
    resolved. *)
Definition janus_nosip_relay_thread (have_server_ip : bool)
    (its : list iteration) (s : janus_nosip_session)
    : option (janus_nosip_session * list effect) :=
  relay_loop have_server_ip (pipefd0 (media s)) its s
    {| goon := true; astep := 0; vstep := 0; ats := 0; vts := 0 |}
    (if have_server_ip then [E_connect_sockets] else []).

(** ** RTP from the WebRTC side ([janus_nosip_incoming_rtp]) *)

(** The flags of the plugin and of the handle the callback looks at first. *)
Record plugin_state := {
  stopping : bool;
  initialized : bool;
  gateway : bool
}.

Record janus_plugin_session := {
  stopped : bool;
  plugin_handle : option janus_nosip_session
}.

(** What [srtp_protect] and [send] answer, if called. *)
Record rtp_answer := {
  ra_protect : srtp_err_status_t;
  ra_protected : Z;
  ra_send : Z
}.

(** The part of the callback that runs on a session that is there and not
    destroyed. *)
Definition incoming_rtp_session (video : bool) (buf : list Z) (len : Z)
    (a : rtp_answer) (s : janus_nosip_session)
    : janus_nosip_session * list effect :=
  let m := media s in
  if (video && negb (video_send m)) || (negb video && negb (audio_send m))
  then (s, [])
  else
    let '(m, es) :=
      if (video && (video_ssrc m =? 0)) || (negb video && (audio_ssrc m =? 0))
      then
        ((if video then set_video_ssrc (rtp_ssrc buf) m
          else set_audio_ssrc (rtp_ssrc buf) m), [E_log LOG_VERB])
      else (m, []) in
    let s := set_media m s in
    if (video && has_video m && negb (video_rtp_fd m =? -1))
       || (negb video && has_audio m && negb (audio_rtp_fd m =? -1))
    then
      let fd := if video then video_rtp_fd m else audio_rtp_fd m in
      let es := es ++ [E_save_frame (if video then vrc s else arc s) len] in
      if has_srtp_local m then
        if negb (srtp_is_ok (ra_protect a)) then (s, es ++ [E_log LOG_ERR])
        else
          (s, es ++ [E_send fd (ra_protected a)]
                 ++ (if ra_send a <? 0 then [E_log LOG_HUGE] else []))
      else
        (s, es ++ [E_send fd len]
               ++ (if ra_send a <? 0 then [E_log LOG_HUGE] else []))
    else (s, es).

(** The callback; the handle comes back with the session as it is left. *)
Definition janus_nosip_incoming_rtp (P : plugin_state)
    (handle : option janus_plugin_session) (video : bool) (buf : list Z)
    (len : Z) (a : rtp_answer)
    : option janus_plugin_session * list effect :=
  match handle with
  | None => (handle, [])
  | Some h =>
    if stopped h || stopping P || negb (initialized P) then (handle, [])
    else if gateway P then
      match plugin_handle h with
      | None => (handle, [E_log LOG_ERR])
      | Some s =>
        if negb (destroyed s =? 0) then (handle, [E_log LOG_ERR])
        else
          let (s, es) := incoming_rtp_session video buf len a s in
          (Some {| stopped := stopped h; plugin_handle := Some s |}, es)
      end
    else (handle, [])
  end.

End Plugin.

(** * The rest of the plugin *)

(** ** Calls beyond the effects above

    The parts of the plugin that follow also fix SSRCs in RTCP packets,
    connect sockets and drive recorders; a [call] is one of the effects
    above or one of those. *)

Inductive call :=
| Call (e : effect)
| Call_rtcp_fix_ssrc (video : bool) (newssrcl newssrcr : Z)
| Call_connect (fd : Z) (port : Z)
| Call_recorder_create (codec : option string) (filename : string)
| Call_recorder_close (rc : janus_recorder)
| Call_recorder_free (rc : janus_recorder).

(** ** RTCP from the WebRTC side ([janus_nosip_incoming_rtcp]) *)

(** The callback.  It writes nothing to the session, so only the calls it
    makes are returned; [a] is what [srtp_protect_rtcp] and [send] answer,
    if called. *)
Definition janus_nosip_incoming_rtcp (P : plugin_state)
    (handle : option janus_plugin_session) (video : bool) (len : Z)
    (a : rtp_answer) : list call :=
  match handle with
  | None => []
  | Some h =>
    if stopped h || stopping P || negb (initialized P) then []
    else if gateway P then
      match plugin_handle h with
      | None => [Call (E_log LOG_ERR)]
      | Some s =>
        if negb (destroyed s =? 0) then [Call (E_log LOG_ERR)]
        else
          let m := media s in
          if (video && has_video m && negb (video_rtcp_fd m =? -1))
             || (negb video && has_audio m && negb (audio_rtcp_fd m =? -1))
          then
            let fd := if video then video_rtcp_fd m else audio_rtcp_fd m in
            [Call (E_log LOG_HUGE);
             Call_rtcp_fix_ssrc video
               (if video then video_ssrc m else audio_ssrc m)
               (if video then video_ssrc_peer m else audio_ssrc_peer m)]
            ++ (if has_srtp_local m then
                  if negb (srtp_is_ok (ra_protect a))
                  then [Call (E_log LOG_ERR)]
                  else Call (E_send fd (ra_protected a))
                       :: (if ra_send a <? 0 then [Call (E_log LOG_HUGE)]
                           else [])
                else
                  Call (E_send fd len)
                  :: (if ra_send a <? 0 then [Call (E_log LOG_HUGE)] else []))
          else []
      end
    else []
  end.

(** ** Connecting the sockets ([janus_nosip_connect_sockets]) *)

(** What [connect] returns for each of the four sockets, if called. *)
Record connect_answers := {
  ca_audio_rtp : Z;
  ca_audio_rtcp : Z;
  ca_video_rtp : Z;
  ca_video_rtcp : Z
}.

(** One of the four blocks of the function: nothing for a remote port of 0,
    else [connect] to that port and two error lines when it returns -1. *)
Definition connect_socket (fd remote_port answer : Z) : list call :=
  if negb (remote_port =? 0) then
    Call_connect fd (htons remote_port)
    :: (if answer =? -1 then [Call (E_log LOG_ERR); Call (E_log LOG_ERR)]
        else [])
  else [].

(** The function, for a session and an address that are there; the relay
    loop's [E_connect_sockets] stands for one call of it. *)
Definition janus_nosip_connect_sockets (m : janus_nosip_media)
    (a : connect_answers) : list call :=
  (if updated m then [Call (E_log LOG_VERB)] else [])
  ++ connect_socket (audio_rtp_fd m) (remote_audio_rtp_port m) (ca_audio_rtp a)
  ++ connect_socket (audio_rtcp_fd m) (remote_audio_rtcp_port m)
                    (ca_audio_rtcp a)
  ++ connect_socket (video_rtp_fd m) (remote_video_rtp_port m) (ca_video_rtp a)
  ++ connect_socket (video_rtcp_fd m) (remote_video_rtcp_port m)
                    (ca_video_rtcp a).

(** ** Configuration ([janus_nosip_init]) *)

(** [strrchr(value, '-')], as the two strings the source makes of [value]
    by writing a NUL over the dash it finds: the text before the last dash
    and the text after it; [None] when there is no dash. *)
Fixpoint strrchr_dash (value : string) : option (string * string) :=
  match value with
  | EmptyString => None
  | String c rest =>
    match strrchr_dash rest with
    | Some (before, after) => Some (String c before, after)
    | None =>
      if Ascii.eqb c "-"%char then Some (EmptyString, rest) else None
    end
  end.

(** The three items of the [general] section the plugin reads, each [None]
    when the item or its value is missing. *)
Record janus_config := {
  cfg_local_ip : option string;
  cfg_rtp_port_range : option string;
  cfg_events : option string
}.

(** What the libraries answer during [janus_nosip_init]: [atoi]; the
    address the interface lookup ends with for a configured [local_ip]
    ([None] when any of its steps fails); [janus_is_true]; the address
    [janus_network_detect_local_ip_as_string] finds, if any; and whether
    each of the two threads could be started. *)
Record init_answers := {
  ia_atoi : string -> Z;
  ia_lookup_interface : string -> option string;
  ia_is_true : string -> bool;
  ia_detect_local_ip : option string;
  ia_watchdog_started : bool;
  ia_handler_started : bool
}.

(** The statics [janus_nosip_init] reads and writes; [st_local_ip] is NULL
    until the first call. *)
Record plugin_statics := {
  st_local_ip : option string;
  st_rtp_range_min : Z;
  st_rtp_range_max : Z;
  st_notify_events : bool;
  st_initialized : bool
}.

(** The statics as the program starts. *)
Definition initial_statics : plugin_statics :=
  {| st_local_ip := None; st_rtp_range_min := 10000;
     st_rtp_range_max := 60000; st_notify_events := true;
     st_initialized := false |}.

(** "Split in min and max port", with the swap and the default for 0 that
    follow. *)
Definition init_rtp_port_range (atoi : string -> Z) (value : string)
    (range : Z * Z) : Z * Z :=
  let (rtp_range_min, rtp_range_max) :=
    match strrchr_dash value with
    | Some (before, maxport) => (uint16 (atoi before), uint16 (atoi maxport))
    | None => range
    end in
  let (rtp_range_min, rtp_range_max) :=
    if rtp_range_min >? rtp_range_max then (rtp_range_max, rtp_range_min)
    else (rtp_range_min, rtp_range_max) in
  let rtp_range_max := if rtp_range_max =? 0 then 65535 else rtp_range_max in
  (rtp_range_min, rtp_range_max).

(** [janus_nosip_init], for a call that is not refused at once ("still
    stopping", null arguments): [config] is what [janus_config_parse] made
    of the file, [None] when it could not be read.  The result is the value
    returned and the statics as they are left. *)
Definition janus_nosip_init (a : init_answers) (config : option janus_config)
    (st : plugin_statics) : Z * plugin_statics :=
  let st :=
    match config with
    | None => st
    | Some cfg =>
      let ip :=
        match cfg_local_ip cfg with
        | Some value =>
          match ia_lookup_interface a value with
          | Some addr => Some addr
          | None => st_local_ip st
          end
        | None => st_local_ip st
        end in
      let (lo, hi) :=
        match cfg_rtp_port_range cfg with
        | Some value =>
          init_rtp_port_range (ia_atoi a) value
            (st_rtp_range_min st, st_rtp_range_max st)
        | None => (st_rtp_range_min st, st_rtp_range_max st)
        end in
      let events :=
        match cfg_events cfg with
        | Some value => ia_is_true a value
        | None => st_notify_events st
        end in
      {| st_local_ip := ip; st_rtp_range_min := lo; st_rtp_range_max := hi;
         st_notify_events := events; st_initialized := st_initialized st |}
    end in
  let ip :=
    match st_local_ip st with
    | Some addr => addr
    | None =>
      match ia_detect_local_ip a with
      | Some addr => addr
      | None => "127.0.0.1"
      end
    end in
  let st :=
    {| st_local_ip := Some ip; st_rtp_range_min := st_rtp_range_min st;
       st_rtp_range_max := st_rtp_range_max st;
       st_notify_events := st_notify_events st; st_initialized := true |} in
  if negb (ia_watchdog_started a) || negb (ia_handler_started a) then
    (-1, {| st_local_ip := st_local_ip st;
            st_rtp_range_min := st_rtp_range_min st;
            st_rtp_range_max := st_rtp_range_max st;
            st_notify_events := st_notify_events st;
            st_initialized := false |})
  else (0, st).

(** ** The session table

    ([janus_nosip_lookup_session], [janus_nosip_create_session],
    [janus_nosip_destroy_session], [janus_nosip_query_session],
    [janus_nosip_setup_media], [janus_nosip_hangup_media],
    [janus_nosip_watchdog] and the head of the handler loop.)

    A handle and a session struct are known by their addresses, with 0 for
    NULL.  The table holds the flags of the plugin, the keys of the hash
    table [sessions], the [plugin_handle] member of every handle, the
    session structs that are allocated and not yet freed, and the list
    [old_sessions].  An operation that reads a session struct through an
    address at which there is none (any more) has no result.  Each entry
    point is taken as a whole, as if it ran under [sessions_mutex] from its
    first line to its last; two of them running at the same time on
    different threads are not modelled. *)

Record session_table := {
  tb_state : plugin_state;
  tb_sessions : list Z;
  tb_plugin_handle : Z -> Z;
  tb_heap : Z -> option janus_nosip_session;
  tb_old_sessions : list Z
}.

Definition store_at (A : Type) (f : Z -> A) (k : Z) (v : A) : Z -> A :=
  fun x => if x =? k then v else f x.

Definition set_tb_heap (heap : Z -> option janus_nosip_session)
    (t : session_table) : session_table :=
  {| tb_state := tb_state t; tb_sessions := tb_sessions t;
     tb_plugin_handle := tb_plugin_handle t; tb_heap := heap;
     tb_old_sessions := tb_old_sessions t |}.

(** [g_atomic_int_get(&stopping) || !g_atomic_int_get(&initialized)]. *)
Definition not_running (t : session_table) : bool :=
  stopping (tb_state t) || negb (initialized (tb_state t)).

(** [g_hash_table_contains(sessions, handle)]. *)
Definition g_hash_table_contains (keys : list Z) (handle : Z) : bool :=
  existsb (Z.eqb handle) keys.

(** The keys after [g_hash_table_insert(sessions, handle, ...)]. *)
Definition g_hash_table_insert (keys : list Z) (handle : Z) : list Z :=
  if g_hash_table_contains keys handle then keys else handle :: keys.

(** The keys after [g_hash_table_remove(sessions, handle)]. *)
Definition g_hash_table_remove (keys : list Z) (handle : Z) : list Z :=
  filter (fun h => negb (h =? handle)) keys.

(** The session of a handle, NULL when the handle is not in the table. *)
Definition janus_nosip_lookup_session (t : session_table) (handle : Z) : Z :=
  if g_hash_table_contains (tb_sessions t) handle
  then tb_plugin_handle t handle else 0.

(** [janus_nosip_create_session] on the table: [fresh] is the address
    [g_malloc0] returns.  The first component is what is written to
    [*error], if anything. *)
Definition create_session (t : session_table) (handle fresh : Z)
    : option Z * session_table :=
  if not_running t then (Some (-1), t)
  else
    (None,
     {| tb_state := tb_state t;
        tb_sessions := g_hash_table_insert (tb_sessions t) handle;
        tb_plugin_handle := store_at (tb_plugin_handle t) handle fresh;
        tb_heap := store_at (tb_heap t) fresh (Some janus_nosip_create_session);
        tb_old_sessions := tb_old_sessions t |}).

Definition set_recorders (a ap v vp : option janus_recorder)
    (s : janus_nosip_session) : janus_nosip_session :=
  {| media := media s; sdp := sdp s; arc := a; arc_peer := ap; vrc := v;
     vrc_peer := vp; hangingup := hangingup s; destroyed := destroyed s |}.

Definition set_destroyed (v : Z) (s : janus_nosip_session)
    : janus_nosip_session :=
  {| media := media s; sdp := sdp s; arc := arc s; arc_peer := arc_peer s;
     vrc := vrc s; vrc_peer := vrc_peer s; hangingup := hangingup s;
     destroyed := v |}.

(** "Closed ... recording": close, log and free a recorder that is there. *)
Definition close_recorder (rc : option janus_recorder) : list call :=
  match rc with
  | Some r => [Call_recorder_close r; Call (E_log LOG_INFO);
               Call_recorder_free r]
  | None => []
  end.

(** [janus_nosip_hangup_media_internal].  [g_atomic_int_add] counts
    [hangingup] up in any case and returns what it was before. *)
Definition janus_nosip_hangup_media_internal (t : session_table) (handle : Z)
    : option (session_table * list call) :=
  let log := [Call (E_log LOG_INFO)] in
  if not_running t then Some (t, log)
  else
    let session := janus_nosip_lookup_session t handle in
    if session =? 0 then Some (t, log ++ [Call (E_log LOG_ERR)])
    else
      match tb_heap t session with
      | None => None
      | Some s =>
        if negb (destroyed s =? 0) then Some (t, log)
        else
          let before := hangingup s in
          let s := set_hangingup (before + 1) s in
          if negb (before =? 0) then
            Some (set_tb_heap (store_at (tb_heap t) session (Some s)) t, log)
          else
            let wake :=
              if pipefd1 (media s) >? 0
              then [Call (E_pipe_write (pipefd1 (media s)))] else [] in
            let closes :=
              close_recorder (arc s) ++ close_recorder (arc_peer s)
              ++ close_recorder (vrc s) ++ close_recorder (vrc_peer s) in
            let s := set_recorders None None None None s in
            Some (set_tb_heap (store_at (tb_heap t) session (Some s)) t,
                  log ++ wake ++ closes)
      end.

(** [janus_nosip_hangup_media]: the same under the table's mutex. *)
Definition janus_nosip_hangup_media (t : session_table) (handle : Z)
    : option (session_table * list call) :=
  janus_nosip_hangup_media_internal t handle.

(** [janus_nosip_destroy_session]; [now] is what
    [janus_get_monotonic_time] returns.  The first component is what is
    written to [*error], if anything. *)
Definition janus_nosip_destroy_session (t : session_table) (handle now : Z)
    : option (option Z * session_table * list call) :=
  if not_running t then Some (Some (-1), t, [])
  else
    let session := janus_nosip_lookup_session t handle in
    if session =? 0 then Some (Some (-2), t, [Call (E_log LOG_ERR)])
    else
      match tb_heap t session with
      | None => None
      | Some s =>
        if destroyed s =? 0 then
          match janus_nosip_hangup_media_internal t handle with
          | None => None
          | Some (t, calls) =>
            match tb_heap t session with
            | None => None
            | Some s =>
              let s := set_destroyed now s in
              Some (None,
                    {| tb_state := tb_state t;
                       tb_sessions :=
                         g_hash_table_remove (tb_sessions t) handle;
                       tb_plugin_handle := tb_plugin_handle t;
                       tb_heap := store_at (tb_heap t) session (Some s);
                       tb_old_sessions := tb_old_sessions t ++ [session] |},
                    Call (E_log LOG_VERB) :: calls)
            end
          end
        else Some (None, t, [])
      end.

(** [janus_nosip_setup_media]. *)
Definition janus_nosip_setup_media (t : session_table) (handle : Z)
    : option (session_table * list call) :=
  let log := [Call (E_log LOG_INFO)] in
  if not_running t then Some (t, log)
  else
    let session := janus_nosip_lookup_session t handle in
    if session =? 0 then Some (t, log ++ [Call (E_log LOG_ERR)])
    else
      match tb_heap t session with
      | None => None
      | Some s =>
        if negb (destroyed s =? 0) then Some (t, log)
        else
          Some (set_tb_heap
                  (store_at (tb_heap t) session (Some (set_hangingup 0 s))) t,
                log)
      end.

(** The JSON values [janus_nosip_query_session] builds. *)
#[warnings="-register-all"] Inductive json :=
| JSON_string (s : string)
| JSON_integer (z : Z)
| JSON_object (members : list (string * json)).

Definition yes_no (b : bool) : json :=
  JSON_string (if b then "yes" else "no").

(** A member for a recorder that is there. *)
Definition recording_member (key : string) (rc : option janus_recorder)
    : list (string * json) :=
  match rc with
  | Some filename => [(key, JSON_string filename)]
  | None => []
  end.

(** The [info] object, for a session that was found. *)
Definition session_info (s : janus_nosip_session) : json :=
  JSON_object
    ((match sdp s with
      | Some _ =>
        [("srtp-required", yes_no (require_srtp (media s)));
         ("sdes-local", yes_no (has_srtp_local (media s)));
         ("sdes-remote", yes_no (has_srtp_remote (media s)))]
      | None => []
      end)
     ++ (match arc s, vrc s, arc_peer s, vrc_peer s with
         | None, None, None, None => []
         | _, _, _, _ =>
           [("recording",
             JSON_object
               (recording_member "audio" (arc s)
                ++ recording_member "video" (vrc s)
                ++ recording_member "audio-peer" (arc_peer s)
                ++ recording_member "video-peer" (vrc_peer s)))]
         end)
     ++ [("destroyed", JSON_integer (destroyed s))]).

(** [janus_nosip_query_session]: the object returned, [None] for NULL. *)
Definition janus_nosip_query_session (t : session_table) (handle : Z)
    : option (option json * list call) :=
  if not_running t then Some (None, [])
  else
    let session := janus_nosip_lookup_session t handle in
    if session =? 0 then Some (None, [Call (E_log LOG_ERR)])
    else
      match tb_heap t session with
      | None => None
      | Some s => Some (Some (session_info s), [])
      end.

(** [5*G_USEC_PER_SEC]. *)
Definition grace_period : Z := 5000000.

(** The loop of the watchdog over [old_sessions]: the links that stay, the
    heap without the structs freed, and a log line for each of these. *)
Fixpoint reap (now : Z) (sl : list Z)
    (heap : Z -> option janus_nosip_session)
    : option (list Z * (Z -> option janus_nosip_session) * list call) :=
  match sl with
  | [] => Some ([], heap, [])
  | session :: rest =>
    if session =? 0 then
      match reap now rest heap with
      | Some (kept, heap, calls) => Some (session :: kept, heap, calls)
      | None => None
      end
    else
      match heap session with
      | None => None
      | Some s =>
        if now - destroyed s >=? grace_period then
          match reap now rest (store_at heap session None) with
          | Some (kept, heap, calls) =>
            Some (kept, heap, Call (E_log LOG_VERB) :: calls)
          | None => None
          end
        else
          match reap now rest heap with
          | Some (kept, heap, calls) => Some (session :: kept, heap, calls)
          | None => None
          end
      end
  end.

(** One turn of the loop of [janus_nosip_watchdog], at the time [now]. *)
Definition janus_nosip_watchdog (t : session_table) (now : Z)
    : option (session_table * list call) :=
  match tb_old_sessions t with
  | [] => Some (t, [])
  | _ :: _ =>
    match reap now (tb_old_sessions t) (tb_heap t) with
    | None => None
    | Some (kept, heap, calls) =>
      Some ({| tb_state := tb_state t; tb_sessions := tb_sessions t;
               tb_plugin_handle := tb_plugin_handle t; tb_heap := heap;
               tb_old_sessions := kept |},
            Call (E_log LOG_HUGE) :: calls)
    end
  end.

(** The head of the handler loop for a message taken off the queue, up to
    "Handle request": the session the message is for, or [None] when the
    message is dropped without a reply. *)
Definition handler_session (t : session_table) (handle : Z)
    : option (option Z * list call) :=
  if handle =? 0 then Some (None, [])
  else
    let session := janus_nosip_lookup_session t handle in
    if session =? 0 then Some (None, [Call (E_log LOG_ERR)])
    else
      match tb_heap t session with
      | None => None
      | Some s =>
        if negb (destroyed s =? 0) then Some (None, [])
        else Some (Some session, [])
      end.

(** One [generate] or [process] message of the handler loop, on the table:
    the reply pushed, if any.  [None] where [janus_nosip_handler] has no
    result, and where the table names a struct that is not there. *)
Definition handle_queued (G : plugin_globals) (L : externals)
    (w : alloc_world) (t : session_table) (handle : Z) (msg : nosip_request)
    : option (session_table * option reply * list call) :=
  match handler_session t handle with
  | None => None
  | Some (None, calls) => Some (t, None, calls)
  | Some (Some session, calls) =>
    match tb_heap t session with
    | None => None
    | Some s =>
      match janus_nosip_handler G L w s msg with
      | None => None
      | Some r =>
        Some (set_tb_heap
                (store_at (tb_heap t) session (Some (h_session r))) t,
              Some (h_reply r), calls ++ map Call (h_effects r))
      end
    end
  end.

(** ** The [recording] request of the handler *)

Definition JANUS_NOSIP_ERROR_RECORDING_ERROR : Z := 449.

(** A [recording] message whose members have the JSON types
    [JANUS_VALIDATE_JSON_OBJECT] checks: the [action] string, the four
    booleans and the [filename] string, each [None] when absent. *)
Record recording_request := {
  rec_action : option string;
  rec_audio : option bool;
  rec_video : option bool;
  rec_peer_audio : option bool;
  rec_peer_video : option bool;
  rec_filename : option string
}.

(** What the branch asks of the outside: the recorder
    [janus_recorder_create(NULL, codec, filename)] returns for a file name
    ([None] for NULL), and the texts that ["%p"] prints for the session and
    [SCNi64] for [janus_get_real_time()]. *)
Record recording_world := {
  rw_recorder_create : string -> option janus_recorder;
  rw_session_text : string;
  rw_now_text : string
}.

Inductive recording_reply :=
| Recording_error (error_code : Z) (error_cause : string)
| Recording_updated.

(** [audio ? json_is_true(audio) : FALSE]. *)
Definition json_flag (member : option bool) : bool :=
  match member with Some b => b | None => false end.

(** [g_snprintf(filename, 255, ...)]: at most 254 characters are kept. *)
Definition g_snprintf_255 (text : string) : string := substring 0 254 text.

(** The name of the file for one recorder: "Use the filename and path we
    have been provided", or "Build a filename". *)
Definition recording_filename (rw : recording_world) (base : option string)
    (given built : string) : string :=
  g_snprintf_255
    (match base with
     | Some b => b ++ given
     | None =>
       "nosip-" ++ rw_session_text rw ++ "-" ++ rw_now_text rw ++ built
     end)%string.

(** One [janus_recorder_create] with the error line that follows a NULL.
    The codec handed over is the [audio_pt_name] or [video_pt_name] of the
    session, which [janus_nosip_create_session] sets to NULL and nothing
    else in the file assigns. *)
Definition open_recorder (rw : recording_world) (filename : string)
    : option janus_recorder * list call :=
  let rc := rw_recorder_create rw filename in
  (rc,
   Call_recorder_create None filename
   :: match rc with None => [Call (E_log LOG_ERR)] | Some _ => [] end).

(** "Start recording something". *)
Definition start_recording (rw : recording_world) (base : option string)
    (record_audio record_video record_peer_audio record_peer_video : bool)
    (s : janus_nosip_session) : janus_nosip_session * list call :=
  let '(ap, vp, calls_peer) :=
    if record_peer_audio || record_peer_video then
      let '(ap, calls_a) :=
        if record_peer_audio then
          open_recorder rw
            (recording_filename rw base "-peer-audio" "-peer-audio")
        else (arc_peer s, []) in
      let '(vp, calls_v) :=
        if record_peer_video then
          open_recorder rw
            (recording_filename rw base "-peer-video" "-peer-video")
        else (vrc_peer s, []) in
      (ap, vp, Call (E_log LOG_INFO) :: calls_a ++ calls_v)
    else (arc_peer s, vrc_peer s, []) in
  let '(a, v, calls_user) :=
    if record_audio || record_video then
      let '(a, calls_a) :=
        if record_audio then
          open_recorder rw
            (recording_filename rw base "-user-audio" "-own-audio")
        else (arc s, []) in
      let '(v, calls_v) :=
        if record_video then
          let '(v, calls) :=
            open_recorder rw
              (recording_filename rw base "-user-video" "-own-video") in
          (v, calls ++ [Call (E_log LOG_VERB); Call (E_relay_rtcp true 12)])
        else (vrc s, []) in
      (a, v, Call (E_log LOG_INFO) :: calls_a ++ calls_v)
    else (arc s, vrc s, []) in
  (set_recorders a ap v vp s, calls_peer ++ calls_user).

(** One of the four blocks of "Stop recording something". *)
Definition stop_recorder (flag : bool) (rc : option janus_recorder)
    : option janus_recorder * list call :=
  if flag then (None, close_recorder rc) else (rc, []).

(** "Stop recording something". *)
Definition stop_recording
    (record_audio record_video record_peer_audio record_peer_video : bool)
    (s : janus_nosip_session) : janus_nosip_session * list call :=
  let '(a, calls_a) := stop_recorder record_audio (arc s) in
  let '(v, calls_v) := stop_recorder record_video (vrc s) in
  let '(ap, calls_ap) := stop_recorder record_peer_audio (arc_peer s) in
  let '(vp, calls_vp) := stop_recorder record_peer_video (vrc_peer s) in
  (set_recorders a ap v vp s, calls_a ++ calls_v ++ calls_ap ++ calls_vp).

(** The [recording] branch of the handler.  Modelled from the spec: the
    part of [JANUS_VALIDATE_JSON_OBJECT] (of [utils.h]) that
    [recording_parameters] brings into play, error 443 when [action] is
    missing. *)
Definition handle_recording (rw : recording_world) (s : janus_nosip_session)
    (req : recording_request)
    : janus_nosip_session * recording_reply * list call :=
  match rec_action req with
  | None =>
    (s, Recording_error JANUS_NOSIP_ERROR_MISSING_ELEMENT
          "Missing mandatory element", [])
  | Some action_text =>
    if negb (strcaseeq action_text "start")
       && negb (strcaseeq action_text "stop") then
      (s, Recording_error JANUS_NOSIP_ERROR_INVALID_ELEMENT
            "Invalid action (should be start|stop)", [Call (E_log LOG_ERR)])
    else
      let record_audio := json_flag (rec_audio req) in
      let record_video := json_flag (rec_video req) in
      let record_peer_audio := json_flag (rec_peer_audio req) in
      let record_peer_video := json_flag (rec_peer_video req) in
      if negb record_audio && negb record_video && negb record_peer_audio
         && negb record_peer_video then
        (s, Recording_error JANUS_NOSIP_ERROR_RECORDING_ERROR
              "Invalid request (at least one of audio, video, peer_audio and peer_video should be true)",
         [Call (E_log LOG_ERR)])
      else
        let '(s, calls) :=
          if strcaseeq action_text "start" then
            start_recording rw (rec_filename req) record_audio record_video
                            record_peer_audio record_peer_video s
          else
            stop_recording record_audio record_video record_peer_audio
                           record_peer_video s in
        (s, Recording_updated, calls)
  end.

(** A call that closes or frees a recorder. *)
Definition is_recorder_release (c : call) : bool :=
  match c with
  | Call_recorder_close _ | Call_recorder_free _ => true
  | _ => false
  end.

(** The PLI that starting a video recording sends to the WebRTC side. *)
Definition is_pli (c : call) : bool :=
  match c with
  | Call (E_relay_rtcp true 12) => true
  | _ => false
  end.

(** * Views of the media state

    Several passes leave most of the media state alone.  What a pass may
    write is blanked out here, so that "the rest is untouched" is an
    equation between two blanked states. *)

(** Without what the allocator writes for a kind: descriptors, local ports
    and local SSRC. *)
Definition blank_local (k : media_kind) : media_kind :=
  set_k_rtp_fd 0 (set_k_rtcp_fd 0 (set_k_local_rtp_port 0
    (set_k_local_rtcp_port 0 (set_k_ssrc 0 k)))).

(** Without anything [janus_nosip_allocate_local_ports] writes. *)
Definition blank_alloc (m : janus_nosip_media) : janus_nosip_media :=
  set_pipefd0 0 (set_pipefd1 0
    (set_audio_media (blank_local (audio_media m))
       (set_video_media (blank_local (video_media m)) m))).

(** Without what [janus_nosip_sdp_manipulate] writes for a kind: outbound
    context, outbound suite and payload type. *)
Definition blank_out (k : media_kind) : media_kind :=
  set_k_srtp_out None (set_k_srtp_suite_out 0 (set_k_pt 0 k)).

Definition blank_manipulate (m : janus_nosip_media) : janus_nosip_media :=
  set_audio_media (blank_out (audio_media m))
    (set_video_media (blank_out (video_media m)) m).

(** What neither [janus_nosip_srtp_cleanup] nor a [janus_nosip_sdp_process]
    that is not an update writes: the readiness and update flags, the pipe,
    and for each kind the descriptors, local ports and SSRCs. *)
Definition transport_kind (k : media_kind) : Z * Z * Z * Z * Z * Z :=
  (k_rtp_fd k, k_rtcp_fd k, k_local_rtp_port k, k_local_rtcp_port k,
   k_ssrc k, k_ssrc_peer k).

Definition transport (m : janus_nosip_media) :=
  (ready m, updated m, pipefd0 m, pipefd1 m,
   transport_kind (audio_media m), transport_kind (video_media m)).

(** The media state an allocation loop ends with. *)
Definition exit_media (e : loop_exit) : janus_nosip_media :=
  match e with Loop_return m _ => m | Loop_done _ m _ _ => m end.

(** What every turn of an allocation loop keeps true of the two local ports
    of its kind: still unset, or an even port and the next one. *)
Definition ports_paired (k : media_kind) : Prop :=
  (k_local_rtp_port k = 0 /\ k_local_rtcp_port k = 0)
  \/ (Z.even (k_local_rtp_port k) = true
      /\ k_local_rtcp_port k = k_local_rtp_port k + 1).

(** The two local ports of a kind are those of a turn in which both binds
    succeeded, taken from the draw of that turn, and both binds, on the
    descriptors the kind holds, are among the effects. *)
Definition bound_pair (attempts : list os_attempt) (k : media_kind)
    (es : list effect) : Prop :=
  exists a,
    In a attempts
    /\ os_bind_rtp a = true /\ os_bind_rtcp a = true
    /\ k_local_rtp_port k = pick_even (os_random a)
    /\ k_local_rtcp_port k = pick_even (os_random a) + 1
    /\ In (E_bind (k_rtp_fd k) (htons (k_local_rtp_port k))) es
    /\ In (E_bind (k_rtcp_fd k) (htons (k_local_rtcp_port k))) es.

(** The state [process] ingests the SDP into, and what the ingest makes of
    it. *)
Definition ingested (L : externals) (s : janus_nosip_session) (offer : bool)
    (parsed : janus_sdp) : janus_nosip_media :=
  fst (fst (janus_nosip_sdp_process L
              (if offer then janus_nosip_srtp_cleanup (media s) else media s)
              parsed (negb offer) false false)).

(** Whether that ingest reads through a null pointer. *)
Definition ingest_faults (L : externals) (s : janus_nosip_session)
    (offer : bool) (parsed : janus_sdp) : bool :=
  janus_nosip_sdp_process_faults L
    (if offer then janus_nosip_srtp_cleanup (media s) else media s)
    parsed (negb offer) false false.

(** A [crypto] attribute that [janus_nosip_sdp_process] can take a key
    from: its value is one [sscanf] reads in full. *)
Definition carries_key (L : externals) (a : janus_sdp_attribute) : bool :=
  match a_name a, a_value a with
  | Some name, Some v =>
    strcaseeq name "crypto"
    && match sscanf_crypto L v with Some _ => true | None => false end
  | _, _ => false
  end.

(** An audio or video line with such an attribute. *)
Definition offers_key (L : externals) (l : janus_sdp_mline) : bool :=
  (is_audio (m_type l) || is_video (m_type l))
  && existsb (carries_key L) (m_attributes l).

(** An audio or video line with a [crypto] attribute that has no value. *)
Definition valueless_crypto (l : janus_sdp_mline) : bool :=
  (is_audio (m_type l) || is_video (m_type l))
  && existsb (process_attribute_faults (m_type l)) (m_attributes l).

(** A character of the base64 alphabet, padding included. *)
Definition is_base64_char (c : ascii) : bool :=
  let n := nat_of_ascii c in
  (((65 <=? n) && (n <=? 90)) || ((97 <=? n) && (n <=? 122))
   || ((48 <=? n) && (n <=? 57)) || (n =? 43) || (n =? 47) || (n =? 61))%nat.

Fixpoint all_base64 (s : string) : bool :=
  match s with
  | EmptyString => true
  | String c t => is_base64_char c && all_base64 t
  end.

(** A text that can be a key in base64: not empty, and of that alphabet. *)
Definition is_base64 (s : string) : bool :=
  match s with
  | EmptyString => false
  | String _ _ => all_base64 s
  end.

(** What is left of [s] after the prefix [p], if it starts with it. *)
Fixpoint strip_prefix (p s : string) : option string :=
  match p with
  | EmptyString => Some s
  | String a p' =>
    match s with
    | EmptyString => None
    | String b s' => if Ascii.eqb a b then strip_prefix p' s' else None
    end
  end.

(** An attribute of the form [crypto:1 AES_CM_128_HMAC_SHA1_80 inline:<b64>],
    with a key in base64 after [inline:]; the ["(null)"] that a null key
    prints as is not one. *)
Definition is_sdes_crypto (a : janus_sdp_attribute) : bool :=
  match a_name a, a_value a with
  | Some n, Some v =>
    String.eqb n "crypto"
    && match strip_prefix "1 AES_CM_128_HMAC_SHA1_80 inline:" v with
       | Some key => is_base64 key
       | None => false
       end
  | _, _ => false
  end.

Definition count_sdes_crypto (l : janus_sdp_mline) : nat :=
  List.length (filter is_sdes_crypto (m_attributes l)).

(** What [janus_nosip_srtp_set_local] leaves in [*crypto] for the key drawn
    at the index [i]: the key in base64 when [srtp_create] accepted it, null
    otherwise. *)
Definition local_crypto (L : externals) (i : nat) : option string :=
  let key := srtp_crypto_get_random L i in
  if srtp_is_ok (srtp_create L {| policy_rtp := 80; policy_rtcp := 80;
                                  policy_key := key |})
  then Some (g_base64_encode L key) else None.

(** What [janus_nosip_sdp_manipulate] makes of a media line [l], read off the
    media state [m]: profile, port and address overwritten, and for an audio
    or video line one [crypto] attribute appended when local SDES is on. *)
Definition rewritten (G : plugin_globals) (L : externals)
    (m : janus_nosip_media) (l l' : janus_sdp_mline) : Prop :=
  m_type l' = m_type l
  /\ m_ptypes l' = m_ptypes l
  /\ m_direction l' = m_direction l
  /\ m_proto l' = Some (if require_srtp m then "RTP/SAVP" else "RTP/AVP")
  /\ m_c_addr l' = Some (local_ip G)
  /\ m_port l' = (if is_audio (m_type l)
                  then uint16 (local_audio_rtp_port m)
                  else if is_video (m_type l)
                       then uint16 (local_video_rtp_port m)
                       else m_port l)
  /\ exists i,
       m_attributes l'
       = m_attributes l
         ++ (if (is_audio (m_type l) || is_video (m_type l))
                && has_srtp_local m
             then [crypto_attribute (local_crypto L i)] else []).

(** An effect that records a frame or sends one to the peer. *)
Definition records_or_sends (e : effect) : bool :=
  match e with
  | E_save_frame _ _ | E_send _ _ => true
  | _ => false
  end.

(** ** What the properties below speak of *)

(** The error the allocator logs for a bind that failed. *)
Definition is_log_err (e : effect) : bool :=
  match e with E_log LOG_ERR => true | _ => false end.

(** A turn in which both sockets open but one of the two binds fails. *)
Definition bind_refused (a : os_attempt) : Prop :=
  os_socket_rtp a <> -1 /\ os_socket_rtcp a <> -1
  /\ os_bind_rtp a && os_bind_rtcp a = false.

(** What the peer's SDP says of one kind, as [janus_nosip_sdp_process]
    records it: whether the kind is negotiated, the peer's two ports and
    whether the peer wants to receive. *)
Definition negotiated_kind (k : media_kind) : bool * Z * Z * bool :=
  (k_has k, k_remote_rtp_port k, k_remote_rtcp_port k, k_send k).

(** The part of the media state that the attributes and payload types of
    the peer's SDP have no say in. *)
Definition negotiated (m : janus_nosip_media) :=
  (require_srtp m, remote_ip m, updated m, pipefd1 m,
   negotiated_kind (audio_media m), negotiated_kind (video_media m)).

(** A media line of the kind [video]. *)
Definition of_kind (video : bool) (l : janus_sdp_mline) : bool :=
  if video then is_video (m_type l) else is_audio (m_type l).

(** A media line that announces the profile RTP/SAVP. *)
Definition offers_savp (l : janus_sdp_mline) : bool :=
  match m_proto l with
  | Some p => strcaseeq p "RTP/SAVP"
  | None => false
  end.

(** The connection addresses [janus_nosip_sdp_process] looks at, in the
    order it does: the one of the session, then those of the audio and video
    lines. *)
Definition connection_addresses (parsed : janus_sdp) : list (option string) :=
  c_addr parsed
  :: map m_c_addr
         (filter (fun l => is_audio (m_type l) || is_video (m_type l))
                 (m_lines parsed)).

(** The last address given, [old] when there is none. *)
Definition last_address (addrs : list (option string)) (old : option string)
    : option string :=
  fold_left (fun acc a => match a with Some _ => a | None => acc end)
            addrs old.

(** What one media line does to the media state when its attributes and
    payload types are left aside. *)
Definition signalled (l : janus_sdp_mline) (m : janus_nosip_media)
    : janus_nosip_media :=
  let m := set_require_srtp (require_srtp m || offers_savp l) m in
  if negb (is_audio (m_type l) || is_video (m_type l)) then m
  else
    let m := fst (process_port (is_video (m_type l)) l (m, false)) in
    match m_c_addr l with
    | Some addr => set_remote_ip (Some addr) m
    | None => m
    end.

(** The inbound SDES state of a kind: the context and the suite noted. *)
Definition inbound_kind (k : media_kind) : srtp_t * Z :=
  (k_srtp_in k, k_srtp_suite_in k).

(** The outbound SDES state of a session. *)
Definition outbound (m : janus_nosip_media) :=
  (has_srtp_local m, audio_srtp_out m, video_srtp_out m,
   audio_srtp_suite_out m, video_srtp_suite_out m).

(** A media type of the kind [video]. *)
Definition type_of_kind (video : bool) (mt : janus_sdp_mtype) : bool :=
  if video then is_video mt else is_audio mt.

(** Contexts exist only where the flags say so: an outbound context only
    with [has_srtp_local], an inbound one only with [has_srtp_remote]. *)
Definition srtp_consistent (m : janus_nosip_media) : Prop :=
  (forall video : bool,
      k_srtp_out (kind_media video m) <> None -> has_srtp_local m = true)
  /\ (forall video : bool,
         k_srtp_in (kind_media video m) <> None -> has_srtp_remote m = true).

(** What [srtp_consistent] reads. *)
Definition contexts (m : janus_nosip_media) :=
  (has_srtp_local m, has_srtp_remote m, audio_srtp_out m, video_srtp_out m,
   audio_srtp_in m, video_srtp_in m).

(** The calls the port allocator makes: a log line, [close] or [bind]. *)
Definition is_allocator_call (e : effect) : bool :=
  match e with
  | E_log _ | E_close _ | E_bind _ _ => true
  | _ => false
  end.

Definition is_spawn (e : effect) : bool :=
  match e with E_spawn_relay_thread => true | _ => false end.

Definition is_pipe_write (e : effect) : bool :=
  match e with E_pipe_write _ => true | _ => false end.

(** The [type] a reply carries, if it is not an error. *)
Definition reply_type (r : reply) : option string :=
  match r with
  | Reply_error _ _ => None
  | Reply_generated type _ => Some type
  | Reply_processed _ type _ => Some type
  end.

(** A kind with nothing left of a call: no descriptor, no local port, no
    local SSRC, no SRTP context and no suite. *)
Definition kind_torn_down (k : media_kind) : Prop :=
  k_rtp_fd k = -1 /\ k_rtcp_fd k = -1
  /\ k_local_rtp_port k = 0 /\ k_local_rtcp_port k = 0 /\ k_ssrc k = 0
  /\ k_srtp_in k = None /\ k_srtp_out k = None
  /\ k_srtp_suite_in k = 0 /\ k_srtp_suite_out k = 0.

(** A turn of the relay loop that finds the session destroyed or hanging
    up. *)
Definition asked_to_stop (it : iteration) : Prop :=
  it_destroyed it <> 0 \/ it_hangingup it <> 0.

(** The strides handed to [janus_rtp_header_update] for one kind, in
    order. *)
Definition strides (video : bool) (es : list effect) : list Z :=
  flat_map (fun e =>
              match e with
              | E_header_update v step =>
                if Bool.eqb v video then [step] else []
              | _ => []
              end) es.

(** [vstep ? vstep : 4500] and [astep ? astep : 960], when nothing is
    noted. *)
Definition default_stride (video : bool) : Z := if video then 4500 else 960.

(** The locals of one kind: the stride noted and the timestamp kept. *)
Definition noted_stride (video : bool) (l : relay_locals) : Z :=
  if video then vstep l else astep l.

Definition first_timestamp (video : bool) (l : relay_locals) : Z :=
  if video then vts l else ats l.

(** What [recvfrom] leaves in the buffer, for every descriptor of every
    turn. *)
Definition received (its : list iteration) : list (list Z) :=
  flat_map (fun it =>
              match it_poll it with
              | Poll_ready answers => map fa_buffer answers
              | _ => []
              end) its.

(** The difference between the timestamps of two of the buffers [bs],
    as an [int]. *)
Definition timestamp_difference (bs : list (list Z)) (d : Z) : Prop :=
  exists b1 b2,
    In b1 bs /\ In b2 bs
    /\ d = int_of_guint32_diff (rtp_timestamp b2) (rtp_timestamp b1).

(** What the loop keeps true of the locals of a kind: the stride noted is
    0 or a positive timestamp difference, and the timestamp kept is 0 or
    that of a buffer. *)
Definition stride_locals (bs : list (list Z)) (video : bool)
    (l : relay_locals) : Prop :=
  0 <= noted_stride video l
  /\ (noted_stride video l <> 0 ->
      timestamp_difference bs (noted_stride video l))
  /\ (first_timestamp video l <> 0 ->
      exists b, In b bs /\ first_timestamp video l = rtp_timestamp b).

(** The strides [xs] handed over while the locals go from [l] to [l']: the
    default as long as no stride is noted, the stride noted from then
    on. *)
Definition stride_run (video : bool) (l : relay_locals) (xs : list Z)
    (l' : relay_locals) : Prop :=
  exists n k,
    xs = repeat (default_stride video) n
         ++ repeat (noted_stride video l') k
    /\ (noted_stride video l <> 0 ->
        n = 0%nat /\ noted_stride video l' = noted_stride video l)
    /\ (noted_stride video l' = 0 -> k = 0%nat).

(** The stride of an [E_header_update] is positive. *)
Definition stride_positive (e : effect) : Prop :=
  match e with
  | E_header_update _ step => 0 < step
  | _ => True
  end.

(** What a request did about the relay thread and about the wake-up pipe,
    read off its reply. *)
Definition relay_outcome (s : janus_nosip_session) (r : handled) : Prop :=
  let answer :=
    match reply_type (h_reply r) with
    | None => false
    | Some type => negb (strcaseeq type "offer")
    end in
  ready (media (h_session r)) = (if answer then true else ready (media s))
  /\ filter is_spawn (h_effects r)
     = (if answer then [E_spawn_relay_thread] else [])
  /\ updated (media (h_session r)) = updated (media s)
  /\ filter is_pipe_write (h_effects r) = [].

(** The discipline of the session table: every handle in the table points
    to a session struct that is there and not marked destroyed, two handles
    in the table never share a struct, and [old_sessions] lists, without
    repetition, structs that are there and marked destroyed. *)
Definition table_ok (t : session_table) : Prop :=
  (forall h, In h (tb_sessions t) ->
             tb_plugin_handle t h <> 0
             /\ exists s, tb_heap t (tb_plugin_handle t h) = Some s
                          /\ destroyed s = 0)
  /\ (forall h h', In h (tb_sessions t) -> In h' (tb_sessions t) ->
                   tb_plugin_handle t h = tb_plugin_handle t h' -> h = h')
  /\ (forall p, In p (tb_old_sessions t) ->
                p <> 0
                /\ exists s, tb_heap t p = Some s /\ destroyed s <> 0)
  /\ NoDup (tb_old_sessions t).

(** The table [janus_nosip_init] leaves: no session, nothing allocated. *)
Definition empty_table : session_table :=
  {| tb_state := {| stopping := false; initialized := true; gateway := true |};
     tb_sessions := []; tb_plugin_handle := fun _ => 0;
     tb_heap := fun _ => None; tb_old_sessions := [] |}.

(** The entry points that work on the table. *)
Inductive table_op :=
| Op_create (handle fresh : Z)
| Op_destroy (handle now : Z)
| Op_hangup (handle : Z)
| Op_setup (handle : Z)
| Op_query (handle : Z)
| Op_watchdog (now : Z)
| Op_message (w : alloc_world) (handle : Z) (msg : nosip_request).

(** The table an entry point leaves; no result when it reads a struct that
    is not there. *)
Definition apply_op (G : plugin_globals) (L : externals) (t : session_table)
    (op : table_op) : option session_table :=
  match op with
  | Op_create handle fresh => Some (snd (create_session t handle fresh))
  | Op_destroy handle now =>
    option_map (fun r => snd (fst r)) (janus_nosip_destroy_session t handle now)
  | Op_hangup handle => option_map fst (janus_nosip_hangup_media t handle)
  | Op_setup handle => option_map fst (janus_nosip_setup_media t handle)
  | Op_query handle =>
    option_map (fun _ => t) (janus_nosip_query_session t handle)
  | Op_watchdog now => option_map fst (janus_nosip_watchdog t now)
  | Op_message w handle msg =>
    option_map (fun r => fst (fst r)) (handle_queued G L w t handle msg)
  end.

(** What the environment owes an entry point: [g_malloc0] returns an
    address that is not NULL and not in use, the clock never reads 0, the
    system answers given with a message cover its port allocation, and the
    SDP of a message makes no ingest read through a null pointer. *)
Definition op_allowed (G : plugin_globals) (L : externals) (t : session_table)
    (op : table_op) : Prop :=
  match op with
  | Op_create _ fresh => fresh <> 0 /\ tb_heap t fresh = None
  | Op_destroy _ now => now <> 0
  | Op_message w _ msg =>
    forall s, janus_nosip_handler G L w s msg <> None
  | _ => True
  end.

(** A run of entry points, each allowed where it is applied. *)
Fixpoint run_ops (G : plugin_globals) (L : externals) (t : session_table)
    (ops : list table_op) : option session_table :=
  match ops with
  | [] => Some t
  | op :: rest =>
    match apply_op G L t op with
    | Some t' => run_ops G L t' rest
    | None => None
    end
  end.

Fixpoint ops_allowed (G : plugin_globals) (L : externals) (t : session_table)
    (ops : list table_op) : Prop :=
  match ops with
  | [] => True
  | op :: rest =>
    op_allowed G L t op
    /\ match apply_op G L t op with
       | Some t' => ops_allowed G L t' rest
       | None => True
       end
  end.

(** A struct the watchdog leaves for later at the time [now]: one that is
    there and was marked destroyed less than five seconds before. *)
Definition in_grace (now : Z) (heap : Z -> option janus_nosip_session)
    (p : Z) : bool :=
  match heap p with
  | Some s => negb (now - destroyed s >=? grace_period)
  | None => false
  end.

(** * Concrete runs

    Data for the examples below: a configuration, stand-ins for the
    libraries that behave as the real ones do on the few strings used here,
    a handful of SDP texts with the structure [janus_sdp_parse] makes of
    them, and system answers. *)

Definition crlf : string := String (ascii_of_nat 13) (String (ascii_of_nat 10) "").

Definition lines (ls : list string) : string :=
  fold_right (fun l acc => (l ++ crlf ++ acc)%string) "" ls.

Definition default_globals : plugin_globals :=
  {| local_ip := "192.0.2.1"; rtp_range_min := 10000;
     rtp_range_max := 60000; notify_events := true |}.

(** A WebRTC audio description, as the application hands it over for
    [generate]. *)
Definition webrtc_audio_text : string :=
  lines ["v=0"; "o=- 1 1 IN IP4 127.0.0.1"; "s=-"; "t=0 0";
         "m=audio 9 UDP/TLS/RTP/SAVPF 111"; "c=IN IP4 0.0.0.0";
         "a=sendrecv"; "a=rtpmap:111 opus/48000/2"].

Definition webrtc_audio : janus_sdp :=
  {| c_addr := None;
     m_lines :=
       [{| m_type := JANUS_SDP_AUDIO; m_port := 9;
           m_proto := Some "UDP/TLS/RTP/SAVPF"; m_c_addr := Some "0.0.0.0";
           m_ptypes := [111]; m_direction := JANUS_SDP_SENDRECV;
           m_attributes :=
             [{| a_name := Some "rtpmap";
                 a_value := Some "111 opus/48000/2" |}] |}] |}.

(** The same with audio switched off. *)
Definition webrtc_noaudio_text : string :=
  lines ["v=0"; "o=- 1 2 IN IP4 127.0.0.1"; "s=-"; "t=0 0";
         "m=audio 0 UDP/TLS/RTP/SAVPF 111"; "c=IN IP4 0.0.0.0";
         "a=inactive"].

Definition webrtc_noaudio : janus_sdp :=
  {| c_addr := None;
     m_lines :=
       [{| m_type := JANUS_SDP_AUDIO; m_port := 0;
           m_proto := Some "UDP/TLS/RTP/SAVPF"; m_c_addr := Some "0.0.0.0";
           m_ptypes := [111]; m_direction := JANUS_SDP_INACTIVE;
           m_attributes := [] |}] |}.

(** An audio offer whose media section already carries an SDES line. *)
Definition keyed_offer_text : string :=
  lines ["v=0"; "o=- 1 1 IN IP4 127.0.0.1"; "s=-"; "t=0 0";
         "m=audio 9 RTP/SAVP 0"; "c=IN IP4 0.0.0.0";
         "a=crypto:1 AES_CM_128_HMAC_SHA1_80 inline:AAAAAAAAAAAAAAAAAAAAAAAAAAAAAAAAAAAAAAAA"].

Definition peer_crypto_value : string :=
  "1 AES_CM_128_HMAC_SHA1_80 inline:AAAAAAAAAAAAAAAAAAAAAAAAAAAAAAAAAAAAAAAA".

Definition keyed_offer : janus_sdp :=
  {| c_addr := None;
     m_lines :=
       [{| m_type := JANUS_SDP_AUDIO; m_port := 9;
           m_proto := Some "RTP/SAVP"; m_c_addr := Some "0.0.0.0";
           m_ptypes := [0]; m_direction := JANUS_SDP_DEFAULT;
           m_attributes :=
             [{| a_name := Some "crypto";
                 a_value := Some peer_crypto_value |}] |}] |}.

(** The peer answers in plain RTP. *)
Definition plain_answer_text : string :=
  lines ["v=0"; "o=- 7 7 IN IP4 198.51.100.7"; "s=-";
         "c=IN IP4 198.51.100.7"; "t=0 0"; "m=audio 40000 RTP/AVP 0"].

Definition plain_answer : janus_sdp :=
  {| c_addr := Some "198.51.100.7";
     m_lines :=
       [{| m_type := JANUS_SDP_AUDIO; m_port := 40000;
           m_proto := Some "RTP/AVP"; m_c_addr := None;
           m_ptypes := [0]; m_direction := JANUS_SDP_DEFAULT;
           m_attributes := [] |}] |}.

(** The peer describes SDES-SRTP audio. *)
Definition peer_srtp_text : string :=
  lines ["v=0"; "o=- 7 7 IN IP4 198.51.100.7"; "s=-";
         "c=IN IP4 198.51.100.7"; "t=0 0"; "m=audio 40000 RTP/SAVP 0";
         "a=crypto:1 AES_CM_128_HMAC_SHA1_80 inline:AAAAAAAAAAAAAAAAAAAAAAAAAAAAAAAAAAAAAAAA"].

Definition peer_srtp : janus_sdp :=
  {| c_addr := Some "198.51.100.7";
     m_lines :=
       [{| m_type := JANUS_SDP_AUDIO; m_port := 40000;
           m_proto := Some "RTP/SAVP"; m_c_addr := None;
           m_ptypes := [0]; m_direction := JANUS_SDP_DEFAULT;
           m_attributes :=
             [{| a_name := Some "crypto";
                 a_value := Some peer_crypto_value |}] |}] |}.

(** The peer offers a rejected audio section and nothing else. *)
Definition rejected_offer_text : string :=
  lines ["v=0"; "o=- 7 7 IN IP4 198.51.100.7"; "s=-";
         "c=IN IP4 198.51.100.7"; "t=0 0"; "m=audio 0 RTP/SAVP 0"].

Definition rejected_offer : janus_sdp :=
  {| c_addr := Some "198.51.100.7";
     m_lines :=
       [{| m_type := JANUS_SDP_AUDIO; m_port := 0;
           m_proto := Some "RTP/SAVP"; m_c_addr := None;
           m_ptypes := [0]; m_direction := JANUS_SDP_DEFAULT;
           m_attributes := [] |}] |}.

(** The peer answers with SDES once more, with another key and the suite
    AES_CM_128_HMAC_SHA1_32. *)
Definition other_key_base64 : string :=
  "BBBBBBBBBBBBBBBBBBBBBBBBBBBBBBBBBBBBBBBB".

Definition other_crypto_value : string :=
  "1 AES_CM_128_HMAC_SHA1_32 inline:BBBBBBBBBBBBBBBBBBBBBBBBBBBBBBBBBBBBBBBB".

Definition rekeyed_answer_text : string :=
  lines ["v=0"; "o=- 7 8 IN IP4 198.51.100.7"; "s=-";
         "c=IN IP4 198.51.100.7"; "t=0 0"; "m=audio 40000 RTP/SAVP 0";
         "a=crypto:1 AES_CM_128_HMAC_SHA1_32 inline:BBBBBBBBBBBBBBBBBBBBBBBBBBBBBBBBBBBBBBBB"].

Definition rekeyed_answer : janus_sdp :=
  {| c_addr := Some "198.51.100.7";
     m_lines :=
       [{| m_type := JANUS_SDP_AUDIO; m_port := 40000;
           m_proto := Some "RTP/SAVP"; m_c_addr := None;
           m_ptypes := [0]; m_direction := JANUS_SDP_DEFAULT;
           m_attributes :=
             [{| a_name := Some "crypto";
                 a_value := Some other_crypto_value |}] |}] |}.

(** The peer's audio section has the line [a=crypto] and nothing after the
    name: the attribute has a name and no value. *)
Definition valueless_crypto_text : string :=
  lines ["v=0"; "o=- 7 9 IN IP4 198.51.100.7"; "s=-";
         "c=IN IP4 198.51.100.7"; "t=0 0"; "m=audio 40000 RTP/SAVP 0";
         "a=crypto"].

Definition valueless_crypto_offer : janus_sdp :=
  {| c_addr := Some "198.51.100.7";
     m_lines :=
       [{| m_type := JANUS_SDP_AUDIO; m_port := 40000;
           m_proto := Some "RTP/SAVP"; m_c_addr := None;
           m_ptypes := [0]; m_direction := JANUS_SDP_DEFAULT;
           m_attributes :=
             [{| a_name := Some "crypto"; a_value := None |}] |}] |}.

Definition zero_key : list Z := repeat 0 30.

Definition other_key : list Z := List.concat (repeat [4; 16; 65] 10).

Definition zero_key_base64 : string :=
  "AAAAAAAAAAAAAAAAAAAAAAAAAAAAAAAAAAAAAAAA".

Definition example_externals : externals :=
  {| janus_sdp_parse := fun text =>
       if String.eqb text webrtc_audio_text then Some webrtc_audio
       else if String.eqb text webrtc_noaudio_text
       then Some webrtc_noaudio
       else if String.eqb text keyed_offer_text then Some keyed_offer
       else if String.eqb text plain_answer_text then Some plain_answer
       else if String.eqb text peer_srtp_text then Some peer_srtp
       else if String.eqb text rejected_offer_text then Some rejected_offer
       else if String.eqb text rekeyed_answer_text then Some rekeyed_answer
       else if String.eqb text valueless_crypto_text
       then Some valueless_crypto_offer
       else None;
     janus_sdp_write := fun _ => Some "v=0";
     sscanf_crypto := fun value =>
       if String.eqb value peer_crypto_value
       then Some (1, 80, zero_key_base64)
       else if String.eqb value other_crypto_value
       then Some (1, 32, other_key_base64) else None;
     g_base64_decode := fun text =>
       if String.eqb text zero_key_base64 then zero_key
       else if String.eqb text other_key_base64 then other_key else [];
     g_base64_encode := fun _ => zero_key_base64;
     srtp_create := fun _ => srtp_err_status_ok;
     srtp_crypto_get_random := fun _ => zero_key;
     events_is_enabled := true |}.

(** The same libraries, with an [srtp_create] that refuses every policy. *)
Definition refusing_externals : externals :=
  {| janus_sdp_parse := janus_sdp_parse example_externals;
     janus_sdp_write := janus_sdp_write example_externals;
     sscanf_crypto := sscanf_crypto example_externals;
     g_base64_decode := g_base64_decode example_externals;
     g_base64_encode := g_base64_encode example_externals;
     srtp_create := fun _ => srtp_err_status_fail;
     srtp_crypto_get_random := srtp_crypto_get_random example_externals;
     events_is_enabled := events_is_enabled example_externals |}.

(** A range of one port, as [janus_nosip_init] accepts it. *)
Definition one_port_globals : plugin_globals :=
  {| local_ip := "192.0.2.1"; rtp_range_min := 20001;
     rtp_range_max := 20001; notify_events := true |}.

(** Sockets 7 and 8 bind at the first try to the port drawn. *)
Definition binds_at (port : Z) : alloc_world :=
  {| aw_attempts :=
       [{| os_socket_rtp := 7; os_socket_rtcp := 8; os_random := port;
           os_bind_rtp := true; os_bind_rtcp := true |}];
     aw_pipe := Some (9, 10) |}.

(** The first port drawn is taken, the second one is free. *)
Definition binds_at_second (busy port : Z) : alloc_world :=
  {| aw_attempts :=
       [{| os_socket_rtp := 7; os_socket_rtcp := 8; os_random := busy;
           os_bind_rtp := false; os_bind_rtcp := true |};
        {| os_socket_rtp := 11; os_socket_rtcp := 12; os_random := port;
           os_bind_rtp := true; os_bind_rtcp := true |}];
     aw_pipe := Some (9, 10) |}.

Definition generate_request (type text : string) (srtp : option string)
    : nosip_request :=
  {| generate := true; msg_sdp_type := Some type; msg_sdp := Some text;
     msg_srtp := srtp |}.

Definition process_request (type text : string) : nosip_request :=
  {| generate := false; msg_sdp_type := Some type; msg_sdp := Some text;
     msg_srtp := None |}.

(** What the handler makes of a request under the stand-ins above; the
    placeholder stands for a run the answers did not cover. *)
Definition run (w : alloc_world) (s : janus_nosip_session)
    (msg : nosip_request) : handled :=
  match janus_nosip_handler default_globals example_externals w s msg with
  | Some r => r
  | None => {| h_session := s; h_reply := Reply_error 0 ""; h_effects := [] |}
  end.

(** The session a request leaves behind. *)
Definition after (w : alloc_world) (s : janus_nosip_session)
    (msg : nosip_request) : janus_nosip_session :=
  h_session (run w s msg).

(** What the allocator returns, with a placeholder likewise. *)
Definition allocated (w : alloc_world) (m : janus_nosip_media)
    : janus_nosip_media * Z * list effect :=
  match janus_nosip_allocate_local_ports w m with
  | Some r => r
  | None => (m, -1, [])
  end.

(** A fresh session for which audio is negotiated. *)
Definition audio_only : janus_nosip_media :=
  set_has_audio true (media janus_nosip_create_session).

(** A session after [generate] of an offer with mandatory SDES. *)
Definition offered_mandatory : janus_nosip_session :=
  after (binds_at 20000) janus_nosip_create_session
        (generate_request "offer" webrtc_audio_text (Some "sdes_mandatory")).

(** A session after [process] of the peer's SDES offer. *)
Definition peer_offered_srtp : janus_nosip_session :=
  after (binds_at 20000) janus_nosip_create_session
        (process_request "offer" peer_srtp_text).

(** A session after [generate] of an offer with optional SDES. *)
Definition offered_optional : janus_nosip_session :=
  after (binds_at 20000) janus_nosip_create_session
        (generate_request "offer" webrtc_audio_text (Some "sdes_optional")).

(** The same once the peer's answer, which carries SDES, is processed. *)
Definition answered_srtp : janus_nosip_session :=
  after (binds_at 20000) offered_optional
        (process_request "answer" peer_srtp_text).

(** The session of [offered_mandatory] once the peer's plain-RTP answer is
    processed. *)
Definition answered_plain : janus_nosip_session :=
  after (binds_at 20000) offered_mandatory
        (process_request "answer" plain_answer_text).

(** An RTP packet of 172 bytes: version 2, payload type 0, sequence number
    1, timestamp 960, SSRC 0x12345678. *)
Definition rtp_packet : list Z :=
  [128; 0; 0; 1; 0; 0; 3; 192; 18; 52; 86; 120] ++ repeat 0 160.

(** A descriptor is readable and holds [rtp_packet]; [res] is what
    [srtp_unprotect] would say of it. *)
Definition packet_in (res : srtp_err_status_t) : fd_answer :=
  {| fa_revents := POLLIN; fa_so_error := 0; fa_recv := 172;
     fa_buffer := rtp_packet; fa_unprotect := res; fa_unprotect_len := 172 |}.

(** A later packet of the same stream: sequence number 2, timestamp
    1120. *)
Definition later_rtp_packet : list Z :=
  [128; 0; 0; 2; 0; 0; 4; 96; 18; 52; 86; 120] ++ repeat 0 160.

Definition later_packet_in : fd_answer :=
  {| fa_revents := POLLIN; fa_so_error := 0; fa_recv := 172;
     fa_buffer := later_rtp_packet; fa_unprotect := srtp_err_status_ok;
     fa_unprotect_len := 172 |}.

(** A descriptor reports POLLERR with the given [SO_ERROR]. *)
Definition socket_error (error : Z) : fd_answer :=
  {| fa_revents := POLLERR; fa_so_error := error; fa_recv := -1;
     fa_buffer := []; fa_unprotect := srtp_err_status_ok;
     fa_unprotect_len := 0 |}.

(** A turn of the relay loop while the session is alive. *)
Definition turn (p : poll_answer) : iteration :=
  {| it_destroyed := 0; it_hangingup := 0; it_inet_aton := 1; it_poll := p |}.

(** The turn at which the loop finds the session hanging up. *)
Definition hung_up : iteration :=
  {| it_destroyed := 0; it_hangingup := 1; it_inet_aton := 1;
     it_poll := Poll_timeout |}.

Definition live : plugin_state :=
  {| stopping := false; initialized := true; gateway := true |}.

Definition sent : rtp_answer :=
  {| ra_protect := srtp_err_status_ok; ra_protected := 182; ra_send := 182 |}.

(** ** More data for the examples *)

(** A turn in which the sockets open and the bind of the RTP port fails. *)
Definition refused_bind : os_attempt :=
  {| os_socket_rtp := 7; os_socket_rtcp := 8; os_random := 20000;
     os_bind_rtp := false; os_bind_rtcp := true |}.

(** [n] such turns in a row. *)
Definition always_refused (n : nat) : alloc_world :=
  {| aw_attempts := repeat refused_bind n; aw_pipe := Some (9, 10) |}.

(** The peer describes audio twice: the second line wins. *)
Definition second_audio_line : janus_sdp_mline :=
  {| m_type := JANUS_SDP_AUDIO; m_port := 40002;
     m_proto := Some "RTP/AVP"; m_c_addr := None;
     m_ptypes := [8]; m_direction := JANUS_SDP_SENDONLY;
     m_attributes := [] |}.

Definition peer_two_audio : janus_sdp :=
  {| c_addr := Some "198.51.100.7";
     m_lines :=
       [{| m_type := JANUS_SDP_AUDIO; m_port := 40000;
           m_proto := Some "RTP/AVP"; m_c_addr := None;
           m_ptypes := [0]; m_direction := JANUS_SDP_DEFAULT;
           m_attributes := [] |};
        second_audio_line] |}.

(** The only line of [plain_answer]. *)
Definition plain_answer_line : janus_sdp_mline :=
  {| m_type := JANUS_SDP_AUDIO; m_port := 40000;
     m_proto := Some "RTP/AVP"; m_c_addr := None;
     m_ptypes := [0]; m_direction := JANUS_SDP_DEFAULT;
     m_attributes := [] |}.

(** What the relay thread leaves, with a placeholder for a run that the
    turns given do not end. *)
Definition relayed (its : list iteration) (s : janus_nosip_session)
    : janus_nosip_session * list effect :=
  match janus_nosip_relay_thread true its s with
  | Some r => r
  | None => (s, [])
  end.

(** A configuration file that gives the port range the wrong way round. *)
Definition swapped_range_config : janus_config :=
  {| cfg_local_ip := None; cfg_rtp_port_range := Some "30000-20000";
     cfg_events := Some "no" |}.

(** Library answers for [janus_nosip_init]: [atoi] on the two numbers
    above, no interface, an address detected, both threads started. *)
Definition example_init_answers : init_answers :=
  {| ia_atoi := fun text =>
       if String.eqb text "30000" then 30000
       else if String.eqb text "20000" then 20000 else 0;
     ia_lookup_interface := fun _ => None;
     ia_is_true := fun text => String.eqb text "yes";
     ia_detect_local_ip := Some "192.0.2.1";
     ia_watchdog_started := true;
     ia_handler_started := true |}.

(** The table once a session is created for the handle 1, its struct at
    the address 100. *)
Definition one_session : session_table :=
  snd (create_session empty_table 1 100).

(** A session in a call: [generate] has opened its pipe, and the audio of
    the user is recorded. *)
Definition in_call_session : janus_nosip_session :=
  set_recorders (Some "/tmp/call-user-audio") None None None
    (after (binds_at 20000) janus_nosip_create_session
           (generate_request "offer" webrtc_audio_text None)).

(** The table that holds it for the handle 1. *)
Definition in_call_table : session_table :=
  set_tb_heap
    (store_at (tb_heap one_session) (tb_plugin_handle one_session 1)
              (Some in_call_session)) one_session.

(** The table [janus_nosip_destroy_session] leaves for the handle 1 at the
    time [now]. *)
Definition destroyed_at (now : Z) : session_table :=
  match janus_nosip_destroy_session one_session 1 now with
  | Some (_, t, _) => t
  | None => one_session
  end.

(** The table a turn of the watchdog leaves. *)
Definition reaped_at (t : session_table) (now : Z) : session_table :=
  match janus_nosip_watchdog t now with
  | Some (t', _) => t'
  | None => t
  end.

(** The life of one session: created, a [process] message, hung up,
    queried, destroyed at the time 7, reaped five seconds later, and a
    message that was still queued. *)
Definition one_session_life : list table_op :=
  [Op_create 1 100;
   Op_message (binds_at 20000) 1 (process_request "offer" peer_srtp_text);
   Op_setup 1; Op_hangup 1; Op_query 1; Op_destroy 1 7;
   Op_watchdog 5000007;
   Op_message (binds_at 20000) 1 (process_request "offer" peer_srtp_text)].

(** Every recorder can be created and is known by its file name. *)
Definition example_recording_world : recording_world :=
  {| rw_recorder_create := fun filename => Some filename;
     rw_session_text := "0x1"; rw_now_text := "7" |}.

Definition recording_of_video (action : string) : recording_request :=
  {| rec_action := Some action; rec_audio := None; rec_video := Some true;
     rec_peer_audio := Some true; rec_peer_video := None;
     rec_filename := Some "/tmp/call" |}.

(** A session that holds a recorder of the user's video already. *)
Definition recording_session : janus_nosip_session :=
  set_recorders None None (Some "/tmp/earlier-user-video") None
                janus_nosip_create_session.

(** * Properties *)

(** ** Record plumbing *)

Lemma kind_media_set_same video k m :
  kind_media video (set_kind_media video k m) = k.
Proof. destruct video; reflexivity. Qed.

Lemma kind_media_set_other video k m :
  kind_media (negb video) (set_kind_media video k m)
  = kind_media (negb video) m.
Proof. destruct video; reflexivity. Qed.

(** ** The port allocator *)

Lemma pick_even_even r : Z.even (pick_even r) = true.
Proof.
  unfold pick_even. destruct (Z.rem r 2 =? 0) eqn:E; simpl.
  - apply Z.eqb_eq, Z.rem_mod_eq_0 in E; [|lia].
    rewrite Zmod_even in E. destruct (Z.even r); [reflexivity|discriminate].
  - apply Z.eqb_neq in E. rewrite Z.rem_mod_eq_0 in E by lia.
    rewrite Zmod_even in E.
    rewrite Z.add_1_r, Z.even_succ, <- Z.negb_even.
    destruct (Z.even r); [exfalso; apply E; reflexivity|reflexivity].
Qed.

Lemma open_sockets_keeps a k :
  k_local_rtp_port (open_sockets a k) = k_local_rtp_port k
  /\ k_local_rtcp_port (open_sockets a k) = k_local_rtcp_port k
  /\ k_has (open_sockets a k) = k_has k.
Proof.
  unfold open_sockets.
  destruct (k_rtp_fd k =? -1); simpl;
    match goal with |- context [if ?c then _ else _] => destruct c end;
    simpl; auto.
Qed.

Lemma ports_paired_ext k k' :
  k_local_rtp_port k' = k_local_rtp_port k ->
  k_local_rtcp_port k' = k_local_rtcp_port k ->
  ports_paired k -> ports_paired k'.
Proof. unfold ports_paired. intros -> ->. auto. Qed.

Lemma allocate_loop_done video :
  forall tr attempts m es attempts' m' tr' es',
    ports_paired (kind_media video m) ->
    allocate_loop video attempts m tr es
    = Some (Loop_done attempts' m' tr' es') ->
    Z.even (k_local_rtp_port (kind_media video m')) = true
    /\ k_local_rtcp_port (kind_media video m')
       = k_local_rtp_port (kind_media video m') + 1
    /\ k_has (kind_media video m') = k_has (kind_media video m)
    /\ kind_media (negb video) m' = kind_media (negb video) m.
Proof.
  assert (stop : forall attempts m tr es attempts' m' tr' es',
             ports_paired (kind_media video m) ->
             negb ((k_local_rtp_port (kind_media video m) =? 0)
                   || (k_local_rtcp_port (kind_media video m) =? 0)) = true ->
             Some (Loop_done attempts m tr es)
             = Some (Loop_done attempts' m' tr' es') ->
             Z.even (k_local_rtp_port (kind_media video m')) = true
             /\ k_local_rtcp_port (kind_media video m')
                = k_local_rtp_port (kind_media video m') + 1
             /\ k_has (kind_media video m') = k_has (kind_media video m)
             /\ kind_media (negb video) m' = kind_media (negb video) m).
  { intros attempts m tr es attempts' m' tr' es' P Z0 H.
    inversion H; subst; clear H.
    apply negb_true_iff, orb_false_iff in Z0. destruct Z0 as [Z1 Z2].
    apply Z.eqb_neq in Z1, Z2.
    destruct P as [[P1 _]|[P1 P2]]; [contradiction|]. auto. }
  induction tr as [|a tr IH]; intros attempts m es attempts' m' tr' es' P H;
    simpl in H.
  - destruct (negb _) eqn:Z0 in H; [eapply stop; eassumption|].
    destruct (attempts =? 0); discriminate.
  - destruct (negb _) eqn:Z0 in H; [eapply stop; eassumption|].
    destruct (attempts =? 0); [discriminate|].
    destruct (open_sockets_keeps a (kind_media video m)) as (K1 & K2 & K3).
    set (k := open_sockets a (kind_media video m)) in *.
    destruct ((k_rtp_fd k =? -1) || (k_rtcp_fd k =? -1)); [discriminate|].
    assert (fin : forall k',
               k_has k' = k_has k ->
               Z.even (k_local_rtp_port (kind_media video m')) = true
               /\ k_local_rtcp_port (kind_media video m')
                  = k_local_rtp_port (kind_media video m') + 1
               /\ k_has (kind_media video m')
                  = k_has (kind_media video (set_kind_media video k' m))
               /\ kind_media (negb video) m'
                  = kind_media (negb video) (set_kind_media video k' m) ->
               Z.even (k_local_rtp_port (kind_media video m')) = true
               /\ k_local_rtcp_port (kind_media video m')
                  = k_local_rtp_port (kind_media video m') + 1
               /\ k_has (kind_media video m') = k_has (kind_media video m)
               /\ kind_media (negb video) m' = kind_media (negb video) m).
    { intros k' Hk (H1 & H2 & H3 & H4).
      rewrite kind_media_set_same in H3. rewrite kind_media_set_other in H4.
      repeat split; try assumption. congruence. }
    destruct (os_bind_rtp a); simpl in H;
      [destruct (os_bind_rtcp a); simpl in H|].
    + apply IH in H.
      * eapply fin; [|exact H]. reflexivity.
      * rewrite kind_media_set_same. right. simpl.
        split; [apply pick_even_even|reflexivity].
    + apply IH in H.
      * eapply fin; [|exact H]. reflexivity.
      * rewrite kind_media_set_same.
        eapply ports_paired_ext; [| |exact P]; simpl; assumption.
    + apply IH in H.
      * eapply fin; [|exact H]. reflexivity.
      * rewrite kind_media_set_same.
        eapply ports_paired_ext; [| |exact P]; simpl; assumption.
Qed.

Lemma reset_status_kinds m m0 es0 :
  reset_status m = (m0, es0) ->
  forall video,
    k_local_rtp_port (kind_media video m0) = 0
    /\ k_local_rtcp_port (kind_media video m0) = 0
    /\ k_rtp_fd (kind_media video m0) = -1
    /\ k_rtcp_fd (kind_media video m0) = -1
    /\ k_has (kind_media video m0) = k_has (kind_media video m).
Proof.
  unfold reset_status, reset_pipe. simpl.
  intros H video. inversion H; subst; clear H.
  repeat match goal with |- context [if ?c then _ else _] => destruct c end;
  destruct video; simpl; auto.
Qed.

(** One kind's block of the allocator: the loop when the kind is negotiated,
    nothing otherwise. *)
Lemma allocate_block video attempts m tr es attempts' m' tr' es' :
  ports_paired (kind_media video m) ->
  (if k_has (kind_media video m) then allocate_loop video attempts m tr es
   else Some (Loop_done attempts m tr es))
  = Some (Loop_done attempts' m' tr' es') ->
  (k_has (kind_media video m') = true ->
   Z.even (k_local_rtp_port (kind_media video m')) = true
   /\ k_local_rtcp_port (kind_media video m')
      = k_local_rtp_port (kind_media video m') + 1)
  /\ k_has (kind_media video m') = k_has (kind_media video m)
  /\ kind_media (negb video) m' = kind_media (negb video) m.
Proof.
  intros P H. destruct (k_has (kind_media video m)) eqn:Hk.
  - apply allocate_loop_done in H; [|exact P].
    destruct H as (H1 & H2 & H3 & H4). rewrite Hk in H3. auto.
  - inversion H; subst. rewrite Hk. repeat split; congruence.
Qed.

(** A loop that ends normally leaves the ports of a turn whose two binds
    succeeded. *)
Lemma allocate_loop_bound video all :
  forall tr attempts m es attempts' m' tr' es',
    (forall a, In a tr -> In a all) ->
    k_local_rtp_port (kind_media video m) = 0
    \/ bound_pair all (kind_media video m) es ->
    allocate_loop video attempts m tr es
    = Some (Loop_done attempts' m' tr' es') ->
    bound_pair all (kind_media video m') es'
    /\ (forall a, In a tr' -> In a all)
    /\ (forall e, In e es -> In e es').
Proof.
  assert (stop : forall attempts m tr es attempts' m' tr' es',
             (forall a, In a tr -> In a all) ->
             k_local_rtp_port (kind_media video m) = 0
             \/ bound_pair all (kind_media video m) es ->
             negb ((k_local_rtp_port (kind_media video m) =? 0)
                   || (k_local_rtcp_port (kind_media video m) =? 0)) = true ->
             Some (Loop_done attempts m tr es)
             = Some (Loop_done attempts' m' tr' es') ->
             bound_pair all (kind_media video m') es'
             /\ (forall a, In a tr' -> In a all)
             /\ (forall e, In e es -> In e es')).
  { intros attempts m tr es attempts' m' tr' es' Sub I Z0 H.
    inversion H; subst; clear H.
    apply negb_true_iff, orb_false_iff in Z0. destruct Z0 as [Z1 _].
    apply Z.eqb_neq in Z1. destruct I as [I|I]; [contradiction|]. auto. }
  induction tr as [|a tr IH];
    intros attempts m es attempts' m' tr' es' Sub I H; simpl in H.
  - destruct (negb _) eqn:Z0 in H; [eapply stop; eassumption|].
    destruct (attempts =? 0); discriminate.
  - destruct (negb _) eqn:Z0 in H; [eapply stop; eassumption|].
    destruct (attempts =? 0); [discriminate|].
    assert (R0 : k_local_rtp_port (kind_media video m) = 0).
    { destruct I as [I|(a0 & _ & _ & _ & P1 & P2 & _)]; [exact I|].
      apply negb_false_iff, orb_true_iff in Z0.
      destruct Z0 as [Z0|Z0]; apply Z.eqb_eq in Z0; [exact Z0|].
      exfalso. pose proof (pick_even_even (os_random a0)) as Ev.
      assert (X : pick_even (os_random a0) = -1) by lia.
      rewrite X in Ev. discriminate. }
    destruct (open_sockets_keeps a (kind_media video m)) as (K1 & K2 & _).
    set (k := open_sockets a (kind_media video m)) in *.
    destruct ((k_rtp_fd k =? -1) || (k_rtcp_fd k =? -1)); [discriminate|].
    assert (Sub' : forall x, In x tr -> In x all)
      by (intros x Hx; apply Sub; right; exact Hx).
    destruct (os_bind_rtp a) eqn:B1; simpl in H;
      [destruct (os_bind_rtcp a) eqn:B2; simpl in H|].
    + apply IH in H; [|exact Sub'|].
      * destruct H as (H1 & H2 & H3). repeat split; auto.
        intros e He. apply H3. rewrite ?in_app_iff. tauto.
      * right. rewrite kind_media_set_same. exists a.
        split; [apply Sub; left; reflexivity|].
        split; [exact B1|]. split; [exact B2|].
        split; [reflexivity|]. split; [reflexivity|].
        simpl. rewrite ?in_app_iff. simpl. tauto.
    + apply IH in H; [|exact Sub'|].
      * destruct H as (H1 & H2 & H3). repeat split; auto.
        intros e He. apply H3. rewrite ?in_app_iff. tauto.
      * left. rewrite kind_media_set_same. simpl. rewrite K1. exact R0.
    + apply IH in H; [|exact Sub'|].
      * destruct H as (H1 & H2 & H3). repeat split; auto.
        intros e He. apply H3. rewrite ?in_app_iff. tauto.
      * left. rewrite kind_media_set_same. simpl. rewrite K1. exact R0.
Qed.

Lemma bound_pair_more all k es es' :
  (forall e, In e es -> In e es') ->
  bound_pair all k es -> bound_pair all k es'.
Proof.
  intros Sub (a & H1 & H2 & H3 & H4 & H5 & H6 & H7).
  exists a. repeat split; auto.
Qed.

(** C6.  Whenever [janus_nosip_allocate_local_ports] returns 0 it has left
    the two flags as they were, and each kind that was negotiated when it
    was called has an even local RTP port and the port right above it as
    local RTCP port: the pair of a turn in which both binds succeeded, the
    RTP port being the number drawn in that turn rounded up to even, and
    the two binds, on the descriptors the kind now holds, were made. *)
Theorem allocate_local_ports_even_pairs w m m' es :
  janus_nosip_allocate_local_ports w m = Some (m', 0, es) ->
  has_audio m' = has_audio m
  /\ has_video m' = has_video m
  /\ forall video : bool,
       k_has (kind_media video m) = true ->
       let k := kind_media video m' in
       Z.even (k_local_rtp_port k) = true
       /\ k_local_rtcp_port k = k_local_rtp_port k + 1
       /\ bound_pair (aw_attempts w) k es.
Proof.
  unfold janus_nosip_allocate_local_ports.
  destruct (reset_status m) as [m0 es0] eqn:R.
  pose proof (reset_status_kinds R) as K.
  intros H.
  destruct (if has_audio m0 then _ else _)
    as [[m1 es1|attempts m1 tr es1]|] eqn:A in H; try discriminate.
  destruct (if has_video m1 then _ else _)
    as [[m2 es2|attempts2 m2 tr2 es2]|] eqn:V in H; try discriminate.
  destruct (K false) as (Ka1 & Ka2 & _ & _ & Ka5).
  destruct (K true) as (Kv1 & Kv2 & _ & _ & Kv5).
  simpl in Ka1, Ka2, Ka5, Kv1, Kv2, Kv5.
  pose proof A as A0. apply (allocate_block false) in A0.
  2:{ left. simpl. auto. }
  destruct A0 as (A1 & A2 & A3). simpl in A1, A2, A3.
  pose proof V as V0. apply (allocate_block true) in V0.
  2:{ left. simpl. rewrite A3. auto. }
  destruct V0 as (V1 & V2 & V3). simpl in V1, V2, V3.
  assert (E : audio_media m' = audio_media m2
              /\ video_media m' = video_media m2 /\ es = es2).
  { inversion H; subst. destruct (aw_pipe w) as [[r wr]|]; simpl; auto. }
  destruct E as (Ea & Ev & ->).
  (* what the audio loop bound is still there after the video loop *)
  assert (Ba : has_audio m = true ->
               bound_pair (aw_attempts w) (audio_media m1) es1
               /\ forall a, In a tr -> In a (aw_attempts w)).
  { intros Ha. rewrite <- Ka5 in Ha. simpl in A. rewrite Ha in A.
    apply (@allocate_loop_bound false (aw_attempts w)) in A;
      [|auto|left; exact Ka1].
    destruct A as (B & S & _). auto. }
  assert (Sa : forall a, In a tr -> In a (aw_attempts w)).
  { destruct (k_has (audio_media m)) eqn:Ha; [apply Ba; reflexivity|].
    simpl in A. rewrite Ka5 in A. inversion A; subst. auto. }
  assert (Mv : forall e, In e es1 -> In e es2).
  { destruct (k_has (video_media m1)) eqn:Hv; simpl in V.
    - apply (@allocate_loop_bound true (aw_attempts w)) in V;
        [|exact Sa|left; simpl; rewrite A3; exact Kv1].
      destruct V as (_ & _ & M). exact M.
    - inversion V; subst. auto. }
  split; [simpl; rewrite Ea, V3, A2; exact Ka5|].
  split; [simpl; rewrite Ev, V2, A3; exact Kv5|].
  intros video Hk. cbv zeta. destruct video; simpl in Hk |- *.
  - rewrite Ev.
    assert (Hv : k_has (video_media m1) = true)
      by (rewrite A3, Kv5; exact Hk).
    assert (Hv2 : k_has (video_media m2) = true) by (rewrite V2; exact Hv).
    destruct (V1 Hv2) as [V4 V5]. split; [exact V4|]. split; [exact V5|].
    simpl in V. rewrite Hv in V.
    apply (@allocate_loop_bound true (aw_attempts w)) in V;
      [|exact Sa|left; simpl; rewrite A3; exact Kv1].
    destruct V as (B & _). exact B.
  - rewrite Ea, V3.
    assert (Ha1 : k_has (audio_media m1) = true)
      by (rewrite A2, Ka5; exact Hk).
    destruct (A1 Ha1) as [A4 A5]. split; [exact A4|]. split; [exact A5|].
    eapply bound_pair_more; [exact Mv|]. apply Ba. exact Hk.
Qed.

(** *** What the allocator leaves alone *)

Lemma blank_alloc_set_kind video k m :
  blank_local k = blank_local (kind_media video m) ->
  blank_alloc (set_kind_media video k m) = blank_alloc m.
Proof.
  destruct video; unfold blank_alloc; simpl; intros ->; reflexivity.
Qed.

Lemma blank_local_open_sockets a k :
  blank_local (open_sockets a k) = blank_local k.
Proof.
  unfold open_sockets.
  destruct (k_rtp_fd k =? -1); simpl;
    match goal with |- context [if ?c then _ else _] => destruct c end;
    reflexivity.
Qed.

Lemma allocate_loop_blank video :
  forall tr attempts m es e,
    allocate_loop video attempts m tr es = Some e ->
    blank_alloc (exit_media e) = blank_alloc m.
Proof.
  induction tr as [|a tr IH]; intros attempts m es e H; simpl in H.
  - destruct (negb _) in H; [inversion H; reflexivity|].
    destruct (attempts =? 0); [inversion H; reflexivity|discriminate].
  - destruct (negb _) in H; [inversion H; reflexivity|].
    destruct (attempts =? 0); [inversion H; reflexivity|].
    pose proof (blank_local_open_sockets a (kind_media video m)) as B.
    set (k := open_sockets a (kind_media video m)) in *.
    destruct ((k_rtp_fd k =? -1) || (k_rtcp_fd k =? -1)).
    + inversion H; subst; simpl. apply blank_alloc_set_kind. exact B.
    + destruct (os_bind_rtp a); simpl in H;
        [destruct (os_bind_rtcp a); simpl in H|];
        apply IH in H; rewrite H; apply blank_alloc_set_kind;
        rewrite <- B; reflexivity.
Qed.
Lemma reset_status_blank m :
  blank_alloc (fst (reset_status m)) = blank_alloc m.
Proof.
  unfold reset_status, reset_pipe. simpl.
  repeat match goal with |- context [if ?c then _ else _] => destruct c end;
    reflexivity.
Qed.

Lemma allocate_local_ports_blank w m m' ret es :
  janus_nosip_allocate_local_ports w m = Some (m', ret, es) ->
  blank_alloc m' = blank_alloc m /\ (ret = 0 \/ ret = -1).
Proof.
  unfold janus_nosip_allocate_local_ports.
  pose proof (reset_status_blank m) as R.
  destruct (reset_status m) as [m0 es0]. simpl in R. intros H.
  assert (A : forall video attempts mm tr ees e,
             (if k_has (kind_media video mm)
              then allocate_loop video attempts mm tr ees
              else Some (Loop_done attempts mm tr ees)) = Some e ->
             blank_alloc (exit_media e) = blank_alloc mm).
  { intros video attempts mm tr ees e E.
    destruct (k_has (kind_media video mm)).
    - eapply allocate_loop_blank; eassumption.
    - inversion E; reflexivity. }
  destruct (if has_audio m0 then _ else _) as [e1|] eqn:A1 in H;
    [|discriminate].
  apply (A false) in A1.
  destruct e1 as [m1 es1|attempts m1 tr es1]; simpl in A1.
  { inversion H; subst. split; [congruence|auto]. }
  destruct (if has_video m1 then _ else _) as [e2|] eqn:A2 in H;
    [|discriminate].
  apply (A true) in A2.
  destruct e2 as [m2 es2|attempts2 m2 tr2 es2]; simpl in A2.
  { inversion H; subst. split; [congruence|auto]. }
  inversion H; subst. split; [|auto].
  rewrite <- R, <- A1, <- A2.
  destruct (aw_pipe w) as [[r wr]|]; reflexivity.
Qed.

(** A kind that is not negotiated comes out of a successful allocation with
    no socket and no port. *)
Lemma allocate_local_ports_unused w m m' es video :
  janus_nosip_allocate_local_ports w m = Some (m', 0, es) ->
  k_has (kind_media video m) = false ->
  k_rtp_fd (kind_media video m') = -1
  /\ k_rtcp_fd (kind_media video m') = -1
  /\ k_local_rtp_port (kind_media video m') = 0
  /\ k_local_rtcp_port (kind_media video m') = 0.
Proof.
  unfold janus_nosip_allocate_local_ports.
  destruct (reset_status m) as [m0 es0] eqn:R.
  pose proof (reset_status_kinds R) as K.
  intros H Hk.
  destruct (if has_audio m0 then _ else _)
    as [[m1 es1|attempts m1 tr es1]|] eqn:A in H; try discriminate.
  destruct (if has_video m1 then _ else _)
    as [[m2 es2|attempts2 m2 tr2 es2]|] eqn:V in H; try discriminate.
  assert (E : audio_media m' = audio_media m2
              /\ video_media m' = video_media m2).
  { inversion H; subst. destruct (aw_pipe w) as [[r wr]|]; simpl; auto. }
  destruct E as [Ea Ev].
  pose proof (K false) as (Ka1 & Ka2 & Ka3 & Ka4 & Ka5).
  pose proof (K true) as (Kv1 & Kv2 & Kv3 & Kv4 & Kv5).
  simpl in *.
  destruct video; simpl in *.
  - (* video is unused: its loop is skipped, audio's leaves it alone *)
    rewrite Ev.
    assert (V1 : video_media m1 = video_media m0).
    { destruct (k_has (audio_media m0)).
      - apply (allocate_loop_done false) in A; [|left; auto].
        destruct A as (_ & _ & _ & A). exact A.
      - inversion A; reflexivity. }
    assert (Hv : k_has (video_media m1) = false) by (rewrite V1; congruence).
    rewrite Hv in V. inversion V; subst. rewrite V1. auto.
  - rewrite Ea.
    assert (Ha : k_has (audio_media m0) = false) by congruence.
    rewrite Ha in A. inversion A; subst.
    assert (A2 : audio_media m2 = audio_media m1).
    { destruct (k_has (video_media m1)).
      - apply (allocate_loop_done true) in V; [|left; auto].
        destruct V as (_ & _ & _ & V). exact V.
      - inversion V; reflexivity. }
    rewrite A2. auto.
Qed.

(** *** Where the ports come from *)

Lemma pick_even_bounds r : r <= pick_even r <= r + 1.
Proof. unfold pick_even. destruct (negb _); lia. Qed.

(** The RTP port a loop ends with is a draw rounded up to even. *)
Lemma allocate_loop_drawn video (P : Z -> Prop) :
  forall tr attempts m es attempts' m' tr' es',
    Forall (fun a => P (os_random a)) tr ->
    k_local_rtp_port (kind_media video m) = 0
    \/ (exists r, P r /\ k_local_rtp_port (kind_media video m) = pick_even r) ->
    allocate_loop video attempts m tr es
    = Some (Loop_done attempts' m' tr' es') ->
    (k_local_rtp_port (kind_media video m') = 0
     \/ exists r, P r /\ k_local_rtp_port (kind_media video m') = pick_even r)
    /\ k_local_rtp_port (kind_media video m') <> 0
    /\ Forall (fun a => P (os_random a)) tr'.
Proof.
  assert (stop : forall attempts m tr es attempts' m' tr' es',
             Forall (fun a => P (os_random a)) tr ->
             k_local_rtp_port (kind_media video m) = 0
             \/ (exists r, P r
                           /\ k_local_rtp_port (kind_media video m)
                              = pick_even r) ->
             negb ((k_local_rtp_port (kind_media video m) =? 0)
                   || (k_local_rtcp_port (kind_media video m) =? 0)) = true ->
             Some (Loop_done attempts m tr es)
             = Some (Loop_done attempts' m' tr' es') ->
             (k_local_rtp_port (kind_media video m') = 0
              \/ exists r, P r
                           /\ k_local_rtp_port (kind_media video m')
                              = pick_even r)
             /\ k_local_rtp_port (kind_media video m') <> 0
             /\ Forall (fun a => P (os_random a)) tr').
  { intros attempts m tr es attempts' m' tr' es' F I Z0 H.
    inversion H; subst; clear H.
    apply negb_true_iff, orb_false_iff in Z0. destruct Z0 as [Z1 _].
    apply Z.eqb_neq in Z1. auto. }
  induction tr as [|a tr IH]; intros attempts m es attempts' m' tr' es' F I H;
    simpl in H.
  - destruct (negb _) eqn:Z0 in H; [eapply stop; eassumption|].
    destruct (attempts =? 0); discriminate.
  - destruct (negb _) eqn:Z0 in H; [eapply stop; eassumption|].
    destruct (attempts =? 0); [discriminate|].
    destruct (open_sockets_keeps a (kind_media video m)) as (K1 & _ & _).
    set (k := open_sockets a (kind_media video m)) in *.
    destruct ((k_rtp_fd k =? -1) || (k_rtcp_fd k =? -1)); [discriminate|].
    inversion F as [|a0 tr0 Pa Ftr]; subst.
    destruct (os_bind_rtp a); simpl in H;
      [destruct (os_bind_rtcp a); simpl in H|];
      apply IH in H; auto; rewrite kind_media_set_same; simpl.
    + right. exists (os_random a). auto.
    + rewrite K1. exact I.
    + rewrite K1. exact I.
Qed.

(** How far the configured port range is respected: when the range is not
    empty and every draw is one [g_random_int_range] may return, each
    negotiated kind gets its RTP port within the range and its RTCP port at
    most one above it. *)
Lemma allocate_local_ports_range G w m m' es (video : bool) :
  rtp_range_min G < rtp_range_max G ->
  Forall (fun a => g_random_int_range_returns G (os_random a))
         (aw_attempts w) ->
  janus_nosip_allocate_local_ports w m = Some (m', 0, es) ->
  k_has (kind_media video m') = true ->
  rtp_range_min G <= k_local_rtp_port (kind_media video m') <= rtp_range_max G
  /\ rtp_range_min G < k_local_rtcp_port (kind_media video m')
     <= rtp_range_max G + 1.
Proof.
  intros Hr F H Hk.
  assert (D : exists r,
             g_random_int_range_returns G r
             /\ k_local_rtp_port (kind_media video m') = pick_even r
             /\ k_local_rtcp_port (kind_media video m') = pick_even r + 1).
  { revert H. unfold janus_nosip_allocate_local_ports.
    destruct (reset_status m) as [m0 es0] eqn:R.
    pose proof (reset_status_kinds R) as K.
    intros H.
    destruct (if has_audio m0 then _ else _)
      as [[m1 es1|attempts m1 tr es1]|] eqn:A in H; try discriminate.
    destruct (if has_video m1 then _ else _)
      as [[m2 es2|attempts2 m2 tr2 es2]|] eqn:V in H; try discriminate.
    assert (E : audio_media m' = audio_media m2
                /\ video_media m' = video_media m2).
    { inversion H; subst. destruct (aw_pipe w) as [[r wr]|]; simpl; auto. }
    destruct E as [E1 E2].
    pose proof (K false) as (Ka1 & Ka2 & _).
    pose proof (K true) as (Kv1 & Kv2 & _).
    simpl in Ka1, Ka2, Kv1, Kv2.
    (* the audio block *)
    assert (A' : (has_audio m1 = true ->
                  exists r, g_random_int_range_returns G r
                            /\ local_audio_rtp_port m1 = pick_even r
                            /\ local_audio_rtcp_port m1 = pick_even r + 1)
                 /\ video_media m1 = video_media m0
                 /\ Forall (fun a => g_random_int_range_returns G
                                       (os_random a)) tr).
    { destruct (k_has (audio_media m0)) eqn:Ha.
      - pose proof A as A2.
        apply (allocate_loop_done false) in A2; [|left; simpl; tauto].
        destruct A2 as (_ & A3 & _ & A4). simpl in A3, A4.
        eapply (allocate_loop_drawn false) in A; [|exact F|left; exact Ka1].
        destruct A as ([A0|(r & Pr & A0)] & A1 & A5); [contradiction|].
        simpl in A0. repeat split; auto.
        intros _. exists r. rewrite A3, A0. auto.
      - inversion A; subst. rewrite Ha. repeat split; auto. discriminate. }
    destruct A' as (A1 & A3 & A4).
    assert (V' : (has_video m2 = true ->
                  exists r, g_random_int_range_returns G r
                            /\ local_video_rtp_port m2 = pick_even r
                            /\ local_video_rtcp_port m2 = pick_even r + 1)
                 /\ audio_media m2 = audio_media m1).
    { destruct (k_has (video_media m1)) eqn:Hv.
      - pose proof V as V2.
        apply (allocate_loop_done true) in V2;
          [|left; simpl; rewrite A3; tauto].
        destruct V2 as (_ & V3 & _ & V4). simpl in V3, V4.
        eapply (allocate_loop_drawn true) in V;
          [|exact A4|left; simpl; rewrite A3; exact Kv1].
        destruct V as ([V0|(r & Pr & V0)] & V1 & _); [contradiction|].
        simpl in V0. split; auto.
        intros _. exists r. rewrite V3, V0. auto.
      - inversion V; subst. rewrite Hv. split; auto. discriminate. }
    destruct V' as (V1 & V3).
    destruct video; simpl in Hk |- *.
    - rewrite E2 in *. apply V1. exact Hk.
    - rewrite E1, V3 in *. apply A1. exact Hk. }
  destruct D as (r & C & Er & Ec).
  unfold g_random_int_range_returns in C.
  apply Z.ltb_lt in Hr. rewrite Hr in C. apply Z.ltb_lt in Hr.
  pose proof (pick_even_bounds r) as B.
  rewrite Er, Ec. lia.
Qed.

(** ** Rewriting the application's SDP *)

Lemma set_local_blank L i video m :
  blank_manipulate (fst (janus_nosip_srtp_set_local L i video m))
  = blank_manipulate m.
Proof.
  unfold janus_nosip_srtp_set_local.
  destruct (negb _); destruct video; reflexivity.
Qed.

Lemma offer_crypto_blank L i video m :
  blank_manipulate (fst (offer_crypto L i video m)) = blank_manipulate m.
Proof.
  unfold offer_crypto. destruct (has_srtp_local m); [|reflexivity].
  pose proof (set_local_blank L i video (set_audio_srtp_suite_out 80 m)) as B.
  destruct (janus_nosip_srtp_set_local _ _ _ _) as [m1 c]. simpl in *.
  rewrite B. reflexivity.
Qed.

(** What [offer_crypto] appends: one [crypto] attribute when local SDES is
    on, nothing otherwise. *)
Lemma offer_crypto_extra L i video m :
  snd (offer_crypto L i video m)
  = if has_srtp_local m then [crypto_attribute (local_crypto L i)] else [].
Proof.
  unfold offer_crypto, janus_nosip_srtp_set_local, local_crypto.
  destruct (has_srtp_local m); [|reflexivity].
  destruct (srtp_is_ok _); reflexivity.
Qed.

Lemma latch_pt_blank l m : blank_manipulate (latch_pt l m) = blank_manipulate m.
Proof.
  unfold latch_pt.
  destruct (_ >? -1); [destruct (is_audio (m_type l))|]; reflexivity.
Qed.

Lemma manipulate_mline_blank G L answer i l m :
  blank_manipulate (fst (manipulate_mline G L answer i l m))
  = blank_manipulate m.
Proof.
  unfold manipulate_mline.
  pose proof (offer_crypto_blank L i false m) as Ba.
  pose proof (offer_crypto_blank L i true m) as Bv.
  destruct (offer_crypto L i false m) as [ma xa].
  destruct (offer_crypto L i true m) as [mv xv]. simpl in Ba, Bv.
  destruct (is_audio (m_type l)); [|destruct (is_video (m_type l))];
    destruct answer; simpl; rewrite ?latch_pt_blank; auto.
Qed.

Lemma manipulate_mlines_blank G L answer :
  forall ls i m,
    blank_manipulate (fst (manipulate_mlines G L answer i ls m))
    = blank_manipulate m.
Proof.
  induction ls as [|l ls IH]; intros i m; simpl; [reflexivity|].
  pose proof (manipulate_mline_blank G L answer i l m) as B.
  destruct (manipulate_mline G L answer i l m) as [m1 l1]. simpl in B.
  specialize (IH (S i) m1).
  destruct (manipulate_mlines G L answer (S i) ls m1) as [m2 ls2].
  simpl in *. congruence.
Qed.

Lemma sdp_manipulate_blank G L m parsed answer :
  blank_manipulate (fst (fst (janus_nosip_sdp_manipulate G L m parsed answer)))
  = blank_manipulate m.
Proof.
  unfold janus_nosip_sdp_manipulate.
  pose proof (manipulate_mlines_blank G L answer (m_lines parsed) 0 m) as B.
  destruct (manipulate_mlines _ _ _ _ _ _) as [m1 ls]. exact B.
Qed.

Lemma rewritten_ext G L m m1 l l' :
  blank_manipulate m1 = blank_manipulate m ->
  rewritten G L m1 l l' -> rewritten G L m l l'.
Proof.
  intros B.
  assert (E1 : require_srtp m1 = require_srtp m)
    by exact (f_equal require_srtp B).
  assert (E2 : has_srtp_local m1 = has_srtp_local m)
    by exact (f_equal has_srtp_local B).
  assert (E3 : local_audio_rtp_port m1 = local_audio_rtp_port m)
    by exact (f_equal (fun x => local_audio_rtp_port x) B).
  assert (E4 : local_video_rtp_port m1 = local_video_rtp_port m)
    by exact (f_equal (fun x => local_video_rtp_port x) B).
  unfold rewritten. rewrite E1, E2, E3, E4. auto.
Qed.

Lemma manipulate_mline_rewritten G L answer i l m :
  rewritten G L m l (snd (manipulate_mline G L answer i l m)).
Proof.
  unfold manipulate_mline.
  pose proof (offer_crypto_blank L i false m) as Ba.
  pose proof (offer_crypto_blank L i true m) as Bv.
  pose proof (offer_crypto_extra L i false m) as Xa.
  pose proof (offer_crypto_extra L i true m) as Xv.
  destruct (offer_crypto L i false m) as [ma xa].
  destruct (offer_crypto L i true m) as [mv xv]. simpl in Ba, Bv, Xa, Xv.
  pose proof (f_equal (fun x => local_audio_rtp_port x) Ba) as Pa.
  pose proof (f_equal (fun x => local_video_rtp_port x) Bv) as Pv.
  simpl in Pa, Pv.
  unfold rewritten.
  destruct (is_audio (m_type l)); [|destruct (is_video (m_type l))];
    simpl; repeat match goal with |- _ /\ _ => split end; auto.
  - rewrite Pa. reflexivity.
  - exists i. rewrite Xa. reflexivity.
  - rewrite Pv. reflexivity.
  - exists i. rewrite Xv. reflexivity.
  - exists i. reflexivity.
Qed.

Lemma manipulate_mlines_rewritten G L answer :
  forall ls i m,
    Forall2 (rewritten G L m) ls
            (snd (manipulate_mlines G L answer i ls m)).
Proof.
  induction ls as [|l ls IH]; intros i m; simpl; [constructor|].
  pose proof (manipulate_mline_rewritten G L answer i l m) as R.
  pose proof (manipulate_mline_blank G L answer i l m) as B.
  destruct (manipulate_mline G L answer i l m) as [m1 l1]. simpl in R, B.
  specialize (IH (S i) m1).
  destruct (manipulate_mlines G L answer (S i) ls m1) as [m2 ls2].
  simpl in *. constructor; [exact R|].
  eapply Forall2_impl; [|exact IH].
  intros a b. apply rewritten_ext. exact B.
Qed.

Lemma sdp_manipulate_rewritten G L m parsed answer :
  let '(m', parsed', written) :=
    janus_nosip_sdp_manipulate G L m parsed answer in
  Forall2 (rewritten G L m') (m_lines parsed) (m_lines parsed')
  /\ c_addr parsed' = c_addr parsed
  /\ written = janus_sdp_write L parsed'
  /\ blank_manipulate m' = blank_manipulate m.
Proof.
  unfold janus_nosip_sdp_manipulate.
  pose proof (manipulate_mlines_rewritten G L answer (m_lines parsed) 0 m) as R.
  pose proof (manipulate_mlines_blank G L answer (m_lines parsed) 0 m) as B.
  destruct (manipulate_mlines _ _ _ _ _ _) as [m1 ls]. simpl in *.
  repeat split; auto.
  eapply Forall2_impl; [|exact R].
  intros a b. apply rewritten_ext. symmetry. exact B.
Qed.



(** ** The [generate] branch of the handler *)

Lemma start_media_session offer s :
  fst (start_media offer s)
  = if offer then s else set_media (set_ready true (media s)) s.
Proof. unfold start_media. destruct offer; reflexivity. Qed.

(** The three ways [handle_generate] ends. *)
Lemma handle_generate_cases G L w s offer text parsed r :
  handle_generate G L w s offer text parsed = Some r ->
  exists m1 ret es1,
    janus_nosip_allocate_local_ports w (mark_negotiated text (media s))
    = Some (m1, ret, es1)
    /\ ((ret = -1
         /\ h_session r = set_media m1 s
         /\ exists cause, h_reply r = Reply_error 448 cause)
        \/ (ret = 0
            /\ exists m2 parsed' written,
                janus_nosip_sdp_manipulate G L m1 parsed false
                = (m2, parsed', written)
                /\ match written with
                   | None =>
                     h_session r = set_media m2 s
                     /\ exists cause, h_reply r = Reply_error 448 cause
                   | Some out =>
                     h_session r
                     = fst (start_media offer
                              (set_hangingup 0
                                 (set_sdp (Some parsed') (set_media m2 s))))
                     /\ h_reply r
                        = Reply_generated (if offer then "offer" else "answer")
                                          out
                   end)).
Proof.
  unfold handle_generate. intros H.
  destruct (janus_nosip_allocate_local_ports _ _) as [[[m1 ret] es1]|] eqn:A;
    [|discriminate].
  exists m1, ret, es1. split; [reflexivity|].
  destruct (allocate_local_ports_blank _ _ A) as [_ [R|R]]; subst ret;
    simpl in H.
  - right. split; [reflexivity|].
    destruct (janus_nosip_sdp_manipulate G L m1 parsed false)
      as [[m2 parsed'] written] eqn:M.
    exists m2, parsed', written. split; [reflexivity|].
    destruct written as [out|].
    + destruct (start_media offer _) as [s' es'] eqn:S in H.
      inversion H; subst; simpl. rewrite S. auto.
    + inversion H; subst; simpl. eauto.
  - left. inversion H; subst; simpl. eauto.
Qed.

Lemma mark_negotiated_blank text m :
  set_has_audio false (set_has_video false (mark_negotiated text m))
  = set_has_audio false (set_has_video false m).
Proof.
  unfold mark_negotiated.
  destruct (strstr text "m=audio" && _); destruct (strstr text "m=video" && _);
    reflexivity.
Qed.

(** The flags and descriptors [handle_generate] passes on: whatever the
    outcome, the SDES flags stay and each kind is negotiated as
    [mark_negotiated] left it. *)
Lemma handle_generate_keeps G L w s offer text parsed r :
  handle_generate G L w s offer text parsed = Some r ->
  require_srtp (media (h_session r)) = require_srtp (media s)
  /\ has_srtp_local (media (h_session r)) = has_srtp_local (media s)
  /\ has_srtp_remote (media (h_session r)) = has_srtp_remote (media s)
  /\ forall video,
       k_has (kind_media video (media (h_session r)))
       = k_has (kind_media video (mark_negotiated text (media s))).
Proof.
  intros H. apply handle_generate_cases in H.
  destruct H as (m1 & ret & es1 & A & H).
  apply allocate_local_ports_blank in A. destruct A as [A _].
  pose proof (mark_negotiated_blank text (media s)) as K.
  assert (F : forall m2,
             blank_manipulate m2 = blank_manipulate m1 ->
             require_srtp m2 = require_srtp (media s)
             /\ has_srtp_local m2 = has_srtp_local (media s)
             /\ has_srtp_remote m2 = has_srtp_remote (media s)
             /\ forall video,
                  k_has (kind_media video m2)
                  = k_has (kind_media video (mark_negotiated text (media s)))).
  { intros m2 B.
    pose proof (f_equal require_srtp B) as B1.
    pose proof (f_equal has_srtp_local B) as B2.
    pose proof (f_equal has_srtp_remote B) as B3.
    pose proof (f_equal (fun x => has_audio x) B) as B4.
    pose proof (f_equal (fun x => has_video x) B) as B5.
    pose proof (f_equal require_srtp A) as A1.
    pose proof (f_equal has_srtp_local A) as A2.
    pose proof (f_equal has_srtp_remote A) as A3.
    pose proof (f_equal (fun x => has_audio x) A) as A4.
    pose proof (f_equal (fun x => has_video x) A) as A5.
    pose proof (f_equal require_srtp K) as K1.
    pose proof (f_equal has_srtp_local K) as K2.
    pose proof (f_equal has_srtp_remote K) as K3.
    simpl in *.
    repeat split; try congruence.
    intros [|]; simpl; congruence. }
  destruct H as [(_ & S & _)|(_ & m2 & parsed' & written & M & H)].
  - rewrite S. simpl. apply F. reflexivity.
  - pose proof (sdp_manipulate_blank G L m1 parsed false) as B.
    rewrite M in B. simpl in B.
    destruct written as [out|]; destruct H as [S _]; rewrite S.
    + rewrite start_media_session. destruct offer; simpl;
        destruct (F m2 B) as (F1 & F2 & F3 & F4); repeat split; auto.
    + simpl. apply F. exact B.
Qed.
Lemma strcaseeq_true a b : strcaseeq a b = true -> strlower a = strlower b.
Proof. unfold strcaseeq. apply String.eqb_eq. Qed.

Lemma answer_is_not_offer type :
  strcaseeq type "answer" = true -> strcaseeq type "offer" = false.
Proof.
  intros H. apply strcaseeq_true in H. unfold strcaseeq. rewrite H.
  reflexivity.
Qed.


(** How a [generate] message ends: refused before the session is touched;
    or parsed after the SRTP step, and then refused by the parser or handed
    to [handle_generate]. *)
Lemma handler_generate_cases G L w s msg r :
  generate msg = true ->
  janus_nosip_handler G L w s msg = Some r ->
  (h_session r = s /\ h_effects r = []
   /\ exists code cause,
       h_reply r = Reply_error code cause
       /\ (code = 446 \/ code = 444 \/ code = 450))
  \/ exists type text flags s1,
       msg_sdp msg = Some text
       /\ msg_sdp_type msg = Some type
       /\ strstr text "m=application" = false
       /\ srtp_flags msg = Some flags
       /\ srtp_step msg (strcaseeq type "offer") flags s = Some s1
       /\ ((janus_sdp_parse L text = None /\ h_session r = s1
            /\ h_effects r = []
            /\ exists cause, h_reply r = Reply_error 446 cause)
           \/ exists parsed,
               janus_sdp_parse L text = Some parsed
               /\ handle_generate G L w s1 (strcaseeq type "offer") text
                                  parsed = Some r).
Proof.
  intros Hg H. unfold janus_nosip_handler, fail, missing_mandatory in H.
  rewrite Hg in H. simpl in H.
  destruct (msg_sdp msg) as [text|];
    [|inversion H; subst; left; simpl; eauto 8].
  destruct (msg_sdp_type msg) as [type|];
    [|inversion H; subst; left; simpl; eauto 8].
  destruct (negb (strcaseeq type "offer") && negb (strcaseeq type "answer"));
    [inversion H; subst; left; simpl; eauto 8|].
  destruct (strstr text "m=application") eqn:App;
    [inversion H; subst; left; simpl; eauto 8|].
  destruct (srtp_flags msg) as [flags|];
    [|inversion H; subst; left; simpl; eauto 8].
  destruct (srtp_step msg (strcaseeq type "offer") flags s) as [s1|] eqn:St;
    [|inversion H; subst; left; simpl; eauto 8].
  right. exists type, text, flags, s1. repeat split; auto.
  destruct (janus_sdp_parse L text) as [parsed|].
  - right. exists parsed. auto.
  - left. inversion H; subst; simpl. eauto 8.
Qed.

Lemma srtp_step_generate msg offer flags s s1 :
  generate msg = true ->
  srtp_step msg offer flags s = Some s1 ->
  (offer = true
   /\ s1 = set_media
             (set_has_srtp_local (fst flags)
                (set_require_srtp (snd flags)
                   (janus_nosip_srtp_cleanup (media s)))) s)
  \/ (offer = false /\ s1 = s
      /\ require_srtp (media s) && negb (has_srtp_remote (media s)) = false).
Proof.
  intros Hg H. unfold srtp_step in H. destruct flags as [do_srtp require].
  rewrite Hg in H. destruct offer.
  - left. inversion H; auto.
  - right. destruct (require_srtp (media s) && _); [discriminate|].
    inversion H; auto.
Qed.

(** What the specification asks of [generate] for an answer, first half:
    when the session requires SRTP and the peer offered none, a request that passed
    the earlier checks is answered 450 and nothing else happens. *)
Lemma generate_answer_too_strict G L w s msg type text :
  generate msg = true ->
  msg_sdp_type msg = Some type ->
  msg_sdp msg = Some text ->
  strcaseeq type "answer" = true ->
  strstr text "m=application" = false ->
  srtp_flags msg <> None ->
  require_srtp (media s) = true ->
  has_srtp_remote (media s) = false ->
  janus_nosip_handler G L w s msg
  = Some {| h_session := s;
            h_reply :=
              Reply_error 450
                "Can't generate answer: SDES-SRTP required, but caller didn't offer it";
            h_effects := [] |}.
Proof.
  intros Hg Ht Hs Ha App Fl Rq Rm.
  unfold janus_nosip_handler, missing_mandatory. rewrite Hg, Hs, Ht, Ha, App.
  rewrite (answer_is_not_offer _ Ha). simpl.
  destruct (srtp_flags msg) as [[d q]|]; [|contradiction].
  unfold srtp_step. rewrite Hg, Rq, Rm. reflexivity.
Qed.

(** The second half, that an answer inherits [has_srtp_local] from
    [has_srtp_remote], fails: an answer never changes [has_srtp_local]. *)
Lemma generate_answer_keeps_has_srtp_local G L w s msg type r :
  generate msg = true ->
  msg_sdp_type msg = Some type ->
  strcaseeq type "offer" = false ->
  janus_nosip_handler G L w s msg = Some r ->
  has_srtp_local (media (h_session r)) = has_srtp_local (media s).
Proof.
  intros Hg Ht Hoff H.
  apply handler_generate_cases in H; [|exact Hg].
  destruct H
    as [(S & _)|(type' & text & flags & s1 & _ & Ht' & _ & _ & St & C)].
  - rewrite S. reflexivity.
  - rewrite Ht in Ht'. inversion Ht'; subst type'. rewrite Hoff in *.
    apply srtp_step_generate in St; [|exact Hg].
    destruct St as [(O & _)|(_ & S1 & _)]; [discriminate|]. subst s1.
    destruct C as [(_ & S & _)|(parsed & _ & C)].
    + rewrite S. reflexivity.
    + apply handle_generate_keeps in C. tauto.
Qed.


Lemma mark_negotiated_zero_port text m (video : bool) :
  strstr text (if video then "m=video 0" else "m=audio 0") = true ->
  k_has (kind_media video (mark_negotiated text m))
  = k_has (kind_media video m).
Proof.
  unfold mark_negotiated. intros Z. destruct video; simpl.
  - rewrite Z, andb_false_r.
    destruct (strstr text "m=audio" && _); reflexivity.
  - rewrite Z, andb_false_r.
    destruct (strstr text "m=video" && _); reflexivity.
Qed.

Lemma srtp_cleanup_has m video :
  k_has (kind_media video (janus_nosip_srtp_cleanup m))
  = k_has (kind_media video m).
Proof. destruct video; reflexivity. Qed.

(** C9, as amended.  A [generate] whose SDP text contains ["m=audio 0"]
    (["m=video 0"]) does not mark that kind as negotiated: [has_audio]
    ([has_video]) is after the request what it was before.  The flag is
    never cleared, so the kind stays negotiated if an earlier request set
    it; when it was not set, a successful request leaves the kind without
    sockets and without local ports. *)
Theorem generate_zero_port_kind G L w s msg text r (video : bool) :
  generate msg = true ->
  msg_sdp msg = Some text ->
  strstr text (if video then "m=video 0" else "m=audio 0") = true ->
  janus_nosip_handler G L w s msg = Some r ->
  k_has (kind_media video (media (h_session r)))
  = k_has (kind_media video (media s))
  /\ (k_has (kind_media video (media s)) = false ->
      forall ty out,
        h_reply r = Reply_generated ty out ->
        k_rtp_fd (kind_media video (media (h_session r))) = -1
        /\ k_rtcp_fd (kind_media video (media (h_session r))) = -1
        /\ k_local_rtp_port (kind_media video (media (h_session r))) = 0
        /\ k_local_rtcp_port (kind_media video (media (h_session r))) = 0).
Proof.
  intros Hg Hs Z H.
  apply handler_generate_cases in H; [|exact Hg].
  destruct H as [(Sr & _ & code & cause & E & _)
                |(type & text' & flags & s1 & Hs' & Ht & _ & Fl & St & C)].
  { rewrite Sr. split; [reflexivity|]. intros _ ty out R.
    rewrite E in R. discriminate. }
  rewrite Hs in Hs'. inversion Hs'; subst text'.
  apply srtp_step_generate in St; [|exact Hg].
  assert (K1 : k_has (kind_media video (media s1))
               = k_has (kind_media video (media s))).
  { destruct St as [(_ & S1)|(_ & S1 & _)]; subst s1;
      [destruct video|]; reflexivity. }
  destruct C as [(_ & Sr & _ & cause & E)|(parsed & _ & C)].
  { rewrite Sr. split; [exact K1|]. intros _ ty out R.
    rewrite E in R. discriminate. }
  pose proof (handle_generate_keeps _ _ _ _ _ _ _ C) as (_ & _ & _ & K).
  pose proof (mark_negotiated_zero_port text (media s1) video Z) as K2.
  split; [rewrite K, K2; exact K1|].
  intros Hn ty out R.
  apply handle_generate_cases in C.
  destruct C as (m1 & ret & es1 & A & [(_ & _ & cause & E)|(R0 & C)]);
    [rewrite E in R; discriminate|].
  subst ret.
  destruct C as (m2 & parsed' & written & M & C).
  destruct written as [out'|];
    [|destruct C as (_ & cause & E); rewrite E in R; discriminate].
  destruct C as [Sr _].
  apply allocate_local_ports_unused with (video := video) in A;
    [|rewrite K2, K1; exact Hn].
  pose proof (sdp_manipulate_blank G L m1 parsed false) as B.
  rewrite M in B. simpl in B.
  assert (E : transport_kind (kind_media video m2)
              = transport_kind (kind_media video m1)).
  { destruct video; simpl.
    - exact (f_equal (fun x => transport_kind (video_media x)) B).
    - exact (f_equal (fun x => transport_kind (audio_media x)) B). }
  rewrite Sr, start_media_session.
  assert (E2 : forall offer,
             kind_media video (media (if offer : bool
                then set_hangingup 0 (set_sdp (Some parsed') (set_media m2 s1))
                else set_media (set_ready true (media (set_hangingup 0
                       (set_sdp (Some parsed') (set_media m2 s1)))))
                       (set_hangingup 0
                          (set_sdp (Some parsed') (set_media m2 s1)))))
             = kind_media video m2)
    by (intros [|]; destruct video; reflexivity).
  rewrite E2. unfold transport_kind in E. inversion E.
  destruct A as (A1 & A2 & A3 & A4). repeat split; congruence.
Qed.

(** ** Ingesting the peer's SDP *)

Lemma srtp_cleanup_transport m :
  transport (janus_nosip_srtp_cleanup m) = transport m.
Proof. reflexivity. Qed.

Lemma srtp_set_remote_transport L video crypto suite m :
  transport (janus_nosip_srtp_set_remote L video crypto suite m)
  = transport m.
Proof.
  unfold janus_nosip_srtp_set_remote.
  destruct (_ <? _); [reflexivity|]. destruct video; reflexivity.
Qed.

Lemma process_attribute_transport L mt a m :
  transport (process_attribute L mt a m) = transport m.
Proof.
  unfold process_attribute.
  destruct (a_name a) as [name|]; [|reflexivity].
  destruct (strcaseeq name "crypto"); [|reflexivity].
  destruct (is_audio mt || is_video mt); [|reflexivity].
  destruct (match a_value a with Some v => _ | None => _ end)
    as [[[tag suite] crypto]|]; [|reflexivity].
  destruct (_ =? 0); [|reflexivity].
  change (transport (set_has_srtp_remote true ?x)) with (transport x).
  rewrite srtp_set_remote_transport. destruct (is_video mt); reflexivity.
Qed.

Lemma process_attributes_transport L mt :
  forall attrs m, transport (process_attributes L mt attrs m) = transport m.
Proof.
  unfold process_attributes.
  induction attrs as [|a attrs IH]; intros m; simpl; [reflexivity|].
  rewrite IH. apply process_attribute_transport.
Qed.

Lemma latch_pt_transport l m : transport (latch_pt l m) = transport m.
Proof.
  unfold latch_pt.
  destruct (_ >? -1); [destruct (is_audio (m_type l))|]; reflexivity.
Qed.

Lemma process_port_transport video l st :
  transport (fst (process_port video l st)) = transport (fst st).
Proof.
  unfold process_port. destruct st as [m changed].
  destruct (negb (m_port l =? 0)); destruct video; reflexivity.
Qed.

Lemma process_mline_transport L answer l st :
  transport (fst (process_mline L answer false l st)) = transport (fst st).
Proof.
  unfold process_mline. destruct st as [m changed]. cbv beta iota.
  set (m0 := set_require_srtp _ m).
  destruct (negb (is_audio (m_type l) || is_video (m_type l)));
    [reflexivity|].
  pose proof (process_port_transport (is_video (m_type l)) l (m0, changed))
    as P.
  destruct (process_port _ _ _) as [m1 c1].
  change (transport (fst (m0, changed))) with (transport m) in P.
  change (fst (m, changed)) with m.
  destruct (m_c_addr l) as [addr|]; destruct answer; cbn [fst andb];
    rewrite ?latch_pt_transport, process_attributes_transport; exact P.
Qed.

Lemma process_mlines_transport L answer :
  forall ls st,
    transport (fst (fold_left (fun st l => process_mline L answer false l st)
                              ls st))
    = transport (fst st).
Proof.
  induction ls as [|l ls IH]; intros st; simpl; [reflexivity|].
  rewrite IH. apply process_mline_transport.
Qed.

(** A [janus_nosip_sdp_process] that is not an update writes nothing to the
    pipe and leaves the transport side of the session alone. *)
Lemma sdp_process_transport L m parsed answer changed :
  transport (fst (fst (janus_nosip_sdp_process L m parsed answer false
                                                changed)))
  = transport m
  /\ snd (janus_nosip_sdp_process L m parsed answer false changed) = [].
Proof.
  unfold janus_nosip_sdp_process.
  set (st0 := match c_addr parsed with
              | Some addr => _
              | None => (m, changed)
              end).
  assert (T0 : transport (fst st0) = transport m)
    by (subst st0; destruct (c_addr parsed); reflexivity).
  destruct st0 as [m0 c0]. simpl in T0.
  pose proof (process_mlines_transport L answer (m_lines parsed) (m0, c0))
    as T1.
  destruct (fold_left _ _ _) as [m1 c1]. simpl in *.
  split; [congruence|reflexivity].
Qed.

(** *** Calls that do not return *)

Lemma process_mlines_fault_static L answer :
  forall ls st,
    process_mlines_fault L answer false ls st = existsb valueless_crypto ls.
Proof.
  induction ls as [|l ls IH]; intros st; [reflexivity|].
  cbn [process_mlines_fault existsb]. rewrite IH. reflexivity.
Qed.

(** A call that is not an update reads through a null pointer exactly when
    an audio or video line carries a [crypto] attribute without a value. *)
Lemma sdp_process_faults_static L m parsed answer changed :
  janus_nosip_sdp_process_faults L m parsed answer false changed
  = existsb valueless_crypto (m_lines parsed).
Proof.
  unfold janus_nosip_sdp_process_faults.
  destruct (c_addr parsed); cbn [andb orb];
    apply process_mlines_fault_static.
Qed.

(** *** Where [has_srtp_remote] comes from *)

Lemma srtp_set_remote_flag L video crypto suite m :
  has_srtp_remote (janus_nosip_srtp_set_remote L video crypto suite m)
  = has_srtp_remote m.
Proof.
  unfold janus_nosip_srtp_set_remote.
  destruct (_ <? _); [reflexivity|]. destruct video; reflexivity.
Qed.






(** ** The [process] branch of the handler *)

(** The ways [handle_process] ends: not at all when the ingest reads
    through a null pointer, else in one of three replies. *)
Lemma handle_process_cases G L s offer type text parsed :
  let m := ingested L s offer parsed in
  if ingest_faults L s offer parsed
  then handle_process G L s offer type text parsed = None
  else
    exists r,
      handle_process G L s offer type text parsed = Some r
      /\ ((negb (has_audio m) && negb (has_video m) = true
           /\ r = {| h_session := set_media m s;
                     h_reply :=
                       Reply_error 447
                                   "No audio and no video being negotiated";
                     h_effects := [] |})
          \/ (negb (has_audio m) && negb (has_video m) = false
              /\ remote_ip m = None
              /\ r = {| h_session := set_media m s;
                        h_reply := Reply_error 447 "No remote IP address";
                        h_effects := [] |})
          \/ (negb (has_audio m) && negb (has_video m) = false
              /\ remote_ip m <> None
              /\ h_session r
                 = fst (start_media offer
                          (set_sdp (Some parsed) (set_media m s)))
              /\ h_reply r
                 = Reply_processed
                     (if has_srtp_remote m
                      then Some (if require_srtp m then "sdes_mandatory"
                                 else "sdes_optional")
                      else None) type text)).
Proof.
  unfold ingested, ingest_faults, handle_process.
  destruct (janus_nosip_sdp_process_faults L _ parsed (negb offer) false
                                           false); [reflexivity|].
  pose proof (sdp_process_transport L
                (if offer then janus_nosip_srtp_cleanup (media s)
                 else media s) parsed (negb offer) false) as [_ E].
  destruct (janus_nosip_sdp_process _ _ _ _ _ _) as [[m c] es].
  simpl in E. subst es. cbn [fst].
  destruct (negb (has_audio m) && negb (has_video m)) eqn:N.
  - eexists. split; [reflexivity|]. left. auto.
  - destruct (remote_ip m) as [ip|] eqn:R.
    + destruct (start_media offer (set_sdp (Some parsed) (set_media m s)))
        as [s' es'] eqn:S.
      eexists. split; [reflexivity|]. right. right.
      repeat split; try discriminate.
    + eexists. split; [reflexivity|]. right. left. auto.
Qed.

(** The same, for a call that ended. *)
Lemma handle_process_some G L s offer type text parsed r :
  handle_process G L s offer type text parsed = Some r ->
  let m := ingested L s offer parsed in
  ingest_faults L s offer parsed = false
  /\ ((negb (has_audio m) && negb (has_video m) = true
       /\ r = {| h_session := set_media m s;
                 h_reply :=
                   Reply_error 447 "No audio and no video being negotiated";
                 h_effects := [] |})
      \/ (negb (has_audio m) && negb (has_video m) = false
          /\ remote_ip m = None
          /\ r = {| h_session := set_media m s;
                    h_reply := Reply_error 447 "No remote IP address";
                    h_effects := [] |})
      \/ (negb (has_audio m) && negb (has_video m) = false
          /\ remote_ip m <> None
          /\ h_session r
             = fst (start_media offer (set_sdp (Some parsed) (set_media m s)))
          /\ h_reply r
             = Reply_processed
                 (if has_srtp_remote m
                  then Some (if require_srtp m then "sdes_mandatory"
                             else "sdes_optional")
                  else None) type text)).
Proof.
  intros H. cbv zeta.
  pose proof (handle_process_cases G L s offer type text parsed) as C.
  cbv zeta in C.
  destruct (ingest_faults L s offer parsed); [congruence|].
  destruct C as (r' & H' & C). rewrite H in H'. inversion H'; subst r'.
  split; [reflexivity|exact C].
Qed.

(** How a [process] message ends: refused with 443 or 446 before the
    session is touched, or parsed and handed to [handle_process]. *)
Lemma handler_process_cases G L w s msg :
  generate msg = false ->
  (exists r,
      janus_nosip_handler G L w s msg = Some r
      /\ h_session r = s /\ h_effects r = []
      /\ exists code cause,
          h_reply r = Reply_error code cause /\ (code = 443 \/ code = 446))
  \/ exists type text parsed,
       msg_sdp_type msg = Some type
       /\ msg_sdp msg = Some text
       /\ negb (strcaseeq type "offer") && negb (strcaseeq type "answer")
          = false
       /\ strstr text "m=application" = false
       /\ janus_sdp_parse L text = Some parsed
       /\ janus_nosip_handler G L w s msg
          = handle_process G L s (strcaseeq type "offer") type text parsed.
Proof.
  intros Hg.
  unfold janus_nosip_handler, fail, srtp_flags, srtp_step, missing_mandatory.
  rewrite Hg.
  destruct (msg_sdp_type msg) as [type|];
    [|left; eexists; split; [reflexivity|simpl; eauto 8]].
  destruct (msg_sdp msg) as [text|];
    [|left; eexists; split; [reflexivity|simpl; eauto 8]].
  simpl.
  destruct (negb (strcaseeq type "offer") && negb (strcaseeq type "answer"))
    eqn:Ty;
    [left; eexists; split; [reflexivity|simpl; eauto 8]|].
  destruct (strstr text "m=application") eqn:App;
    [left; eexists; split; [reflexivity|simpl; eauto 8]|].
  destruct (janus_sdp_parse L text) as [parsed|] eqn:P;
    [|left; eexists; split; [reflexivity|simpl; eauto 8]].
  right. exists type, text, parsed. auto 8.
Qed.

(** The same, for a message that was answered. *)
Lemma handler_process_some G L w s msg r :
  generate msg = false ->
  janus_nosip_handler G L w s msg = Some r ->
  (h_session r = s /\ h_effects r = []
   /\ exists code cause,
       h_reply r = Reply_error code cause /\ (code = 443 \/ code = 446))
  \/ exists type text parsed,
       msg_sdp_type msg = Some type
       /\ msg_sdp msg = Some text
       /\ janus_sdp_parse L text = Some parsed
       /\ handle_process G L s (strcaseeq type "offer") type text parsed
          = Some r.
Proof.
  intros Hg H.
  destruct (handler_process_cases G L w s msg Hg)
    as [(r0 & H0 & C)|(type & text & parsed & Ht & Hs & _ & _ & P & C)].
  - rewrite H in H0. inversion H0; subst r0. left. exact C.
  - right. exists type, text, parsed. rewrite <- C. auto.
Qed.

Lemma start_media_flags offer s :
  has_srtp_remote (media (fst (start_media offer s)))
  = has_srtp_remote (media s)
  /\ remote_ip (media (fst (start_media offer s))) = remote_ip (media s)
  /\ (forall video,
         k_has (kind_media video (media (fst (start_media offer s))))
         = k_has (kind_media video (media s)))
  /\ transport_kind (audio_media (media (fst (start_media offer s))))
     = transport_kind (audio_media (media s))
  /\ transport_kind (video_media (media (fst (start_media offer s))))
     = transport_kind (video_media (media s)).
Proof.
  rewrite start_media_session. destruct offer; simpl; repeat split;
    intros [|]; reflexivity.
Qed.


Lemma ingested_transport L s offer parsed :
  transport (ingested L s offer parsed) = transport (media s).
Proof.
  unfold ingested.
  destruct (sdp_process_transport L
              (if offer then janus_nosip_srtp_cleanup (media s) else media s)
              parsed (negb offer) false) as [T _].
  rewrite T. destruct offer; reflexivity.
Qed.

(** C3, as amended.  A [process] request is answered 447 only after its SDP
    has been ingested: the media state of the session is then what
    [janus_nosip_srtp_cleanup] (for an offer) followed by
    [janus_nosip_sdp_process] made of it, so the remote address and ports,
    [has_audio], [has_video], the direction gates, [require_srtp],
    [has_srtp_remote] and the SRTP contexts may all differ from before.
    What the request leaves as it was is the rest of the session: the stored
    SDP, the recorders, the [ready] and [updated] flags, the pipe, and for
    each kind the sockets, the local ports and the SSRCs; nothing is started
    or notified. *)
Theorem process_invalid_sdp_after_ingest G L w s msg r cause :
  generate msg = false ->
  janus_nosip_handler G L w s msg = Some r ->
  h_reply r = Reply_error 447 cause ->
  exists type text parsed,
    msg_sdp_type msg = Some type
    /\ msg_sdp msg = Some text
    /\ janus_sdp_parse L text = Some parsed
    /\ h_session r
       = set_media (ingested L s (strcaseeq type "offer") parsed) s
    /\ sdp (h_session r) = sdp s
    /\ transport (media (h_session r)) = transport (media s)
    /\ h_effects r = []
    /\ ((has_audio (media (h_session r)) = false
         /\ has_video (media (h_session r)) = false)
        \/ remote_ip (media (h_session r)) = None).
Proof.
  intros Hg H R.
  destruct (handler_process_some G L w s msg Hg H)
    as [(_ & _ & code & cause' & E & Cd)
       |(type & text & parsed & Ht & Hs & P & C)];
    [rewrite E in R; inversion R; exfalso; lia|].
  exists type, text, parsed.
  destruct (handle_process_some _ _ _ _ _ _ _ C) as (_ & C').
  destruct C' as [(N & Er)|[(N & I & Er)|(N & I & Sr & Er)]];
    try (rewrite Er in R; discriminate); subst r; simpl;
    repeat match goal with |- _ /\ _ => split end;
    auto using ingested_transport.
  left. apply andb_true_iff in N. destruct N as [N1 N2].
  apply negb_true_iff in N1, N2. auto.
Qed.

(** ** The relay loop *)

Lemma relay_loop_stopped have_server_ip pipe_fd its s l es :
  goon l = false ->
  relay_loop have_server_ip pipe_fd its s l es
  = Some (fst (relay_teardown s), es ++ snd (relay_teardown s)).
Proof.
  intros Hg. destruct its; simpl; rewrite Hg; simpl;
    destruct (relay_teardown s); reflexivity.
Qed.

(** C5, as amended.  For a descriptor on which [poll] reports POLLERR or
    POLLHUP while no session update is pending: [SO_ERROR = 0] is ignored;
    [SO_ERROR = ECONNREFUSED] never ends the loop, it closes the descriptor
    when this is the audio or the video RTCP socket and is ignored on any
    other descriptor, an RTP socket included; any other [SO_ERROR] asks the
    gateway to close the peer connection, leaves the remaining descriptors
    unvisited and makes the loop exit through its teardown. *)
Theorem relay_scan_socket_error pipe_fd fd a rest s l :
  Z.land (fa_revents a) (Z.lor POLLERR POLLHUP) <> 0 ->
  updated (media s) = false ->
  (fa_so_error a = 0 ->
   relay_scan pipe_fd ((fd, a) :: rest) s l = relay_scan pipe_fd rest s l)
  /\ (fa_so_error a = 111 ->
      let m := media s in
      let s' :=
        if fd =? audio_rtcp_fd m
        then set_media (set_audio_rtcp_fd (-1) m) s
        else if fd =? video_rtcp_fd m
             then set_media (set_video_rtcp_fd (-1) m) s
             else s in
      let closed :=
        if (fd =? audio_rtcp_fd m) || (fd =? video_rtcp_fd m)
        then [E_log LOG_WARN; E_close fd] else [] in
      relay_scan pipe_fd ((fd, a) :: rest) s l
      = (let '(s2, l2, es2) := relay_scan pipe_fd rest s' l in
         (s2, l2, closed ++ es2)))
  /\ (fa_so_error a <> 0 -> fa_so_error a <> 111 ->
      relay_scan pipe_fd ((fd, a) :: rest) s l
      = (s, stop_going l, [E_log LOG_ERR; E_log LOG_ERR; E_close_pc])
      /\ forall have_server_ip its es,
           relay_loop have_server_ip pipe_fd its s (stop_going l) es
           = Some (fst (relay_teardown s), es ++ snd (relay_teardown s))).
Proof.
  intros Hev Hup.
  assert (Ev : negb (Z.land (fa_revents a) (Z.lor POLLERR POLLHUP) =? 0)
               = true)
    by (apply negb_true_iff, Z.eqb_neq; exact Hev).
  repeat split.
  - intros E0. simpl. unfold relay_fd. rewrite Ev, Hup, E0. simpl.
    destruct (relay_scan pipe_fd rest s l) as [[s2 l2] es2]. reflexivity.
  - intros E1. simpl. unfold relay_fd. rewrite Ev, Hup, E1. simpl.
    destruct (fd =? audio_rtcp_fd (media s)) eqn:Fa.
    + apply Z.eqb_eq in Fa. rewrite <- Fa. simpl.
      destruct (relay_scan _ _ _ _) as [[s2 l2] es2]. reflexivity.
    + destruct (fd =? video_rtcp_fd (media s)) eqn:Fv.
      * apply Z.eqb_eq in Fv. rewrite <- Fv. simpl.
        destruct (relay_scan _ _ _ _) as [[s2 l2] es2]. reflexivity.
      * simpl. destruct (relay_scan _ _ _ _) as [[s2 l2] es2]. reflexivity.
  - simpl. unfold relay_fd. rewrite Ev, Hup.
    apply Z.eqb_neq in H, H0. rewrite H, H0. reflexivity.
  - intros. apply relay_loop_stopped. reflexivity.
Qed.

(** What becomes of an RTP packet from the peer when [srtp_unprotect] reports
    a replay: it is recorded and relayed all the same, with the length
    [srtp_unprotect] left. *)
Lemma relay_packet_replayed fd a s l :
  fd <> audio_rtcp_fd (media s) -> fd <> video_rtcp_fd (media s) ->
  has_srtp_remote (media s) = true ->
  fa_unprotect a = srtp_err_status_replay_fail
  \/ fa_unprotect a = srtp_err_status_replay_old ->
  let video := fd =? video_rtp_fd (media s) in
  let es := snd (relay_packet fd a s l) in
  In (E_save_frame (if video then vrc_peer s else arc_peer s)
                   (fa_unprotect_len a)) es
  /\ In (E_relay_rtp video (fa_unprotect_len a)) es.
Proof.
  intros Ha Hv Hr Hu video. unfold relay_packet.
  apply Z.eqb_neq in Ha, Hv. rewrite Ha, Hv, !orb_false_r. simpl.
  fold video.
  assert (U : unprotect_refused (fa_unprotect a) = false)
    by (destruct Hu as [-> | ->]; reflexivity).
  destruct (negb (k_ssrc_peer (kind_media video (media s)) =? _));
    destruct video; simpl; rewrite Hr, U; simpl; tauto.
Qed.

(** Any other failure of [srtp_unprotect] drops the packet with a log line:
    nothing is recorded, nothing is relayed. *)
Lemma relay_packet_refused fd a s l :
  has_srtp_remote (media s) = true ->
  unprotect_refused (fa_unprotect a) = true ->
  forall e, In e (snd (relay_packet fd a s l)) -> exists lvl, e = E_log lvl.
Proof.
  intros Hr Hu e. unfold relay_packet.
  destruct (negb (_ || _)).
  - destruct (negb (k_ssrc_peer _ =? _));
      destruct ((fd =? _) || (fd =? _)); simpl; rewrite Hr, Hu; simpl;
      intuition (subst; eauto).
  - rewrite Hr, Hu. simpl. intuition (subst; eauto).
Qed.

(** ** RTP from the WebRTC side *)

(** The case analysis of [incoming_rtp_session], the same for both kinds:
    gate, SSRC still unset or not, kind negotiated or not, socket open or
    not, and when the packet goes out, SRTP or not. *)
Ltac ingress_cases s a E :=
  destruct (k_send _); simpl in E;
    [|inversion E; subst; split; [auto|discriminate]];
  split; [discriminate|]; intros _;
  destruct (k_ssrc _ =? 0); simpl in E;
    (destruct (k_has _); simpl in E; [|inversion E; subst; simpl; auto]);
    (match type of E with
     | context [k_rtp_fd ?k =? -1] =>
       let F := fresh "F" in
       destruct (k_rtp_fd k =? -1) eqn:F; simpl in E;
         [inversion E; subst; simpl; auto|apply Z.eqb_neq in F]
     end);
    (split;
     [destruct (has_srtp_local (media s));
        [destruct (negb (srtp_is_ok (ra_protect a)))|];
        inversion E; reflexivity
     |intros [?|?]; [discriminate|contradiction]]).

(** C10.  On a live session, [janus_nosip_incoming_rtp] drops the packet
    and changes nothing when the direction gate of its kind is closed.
    When the gate is open, the local SSRC of the kind is taken from the RTP
    header if it was still 0 and kept otherwise, whether or not the kind is
    negotiated and whether or not its RTP socket is open; and when the kind
    is not negotiated or the socket is closed, nothing is recorded and
    nothing is sent. *)
Theorem incoming_rtp_latches_ssrc P h s (video : bool) buf len a :
  stopped h = false -> stopping P = false -> initialized P = true ->
  gateway P = true -> plugin_handle h = Some s -> destroyed s = 0 ->
  exists s' es,
    janus_nosip_incoming_rtp P (Some h) video buf len a
    = (Some {| stopped := stopped h; plugin_handle := Some s' |}, es)
    /\ (k_send (kind_media video (media s)) = false -> s' = s /\ es = [])
    /\ (k_send (kind_media video (media s)) = true ->
        k_ssrc (kind_media video (media s'))
        = (if k_ssrc (kind_media video (media s)) =? 0 then rtp_ssrc buf
           else k_ssrc (kind_media video (media s)))
        /\ (k_has (kind_media video (media s)) = false
            \/ k_rtp_fd (kind_media video (media s)) = -1 ->
            existsb records_or_sends es = false)).
Proof.
  intros H1 H2 H3 H4 H5 H6.
  unfold janus_nosip_incoming_rtp. rewrite H1, H2, H3, H4, H5, H6. simpl.
  destruct (incoming_rtp_session video buf len a s) as [s' es] eqn:E.
  exists s', es. split; [reflexivity|].
  unfold incoming_rtp_session in E.
  destruct video; simpl in *; ingress_cases s a E.
Qed.

(** ** The port allocator, continued *)

(** Draws that leave both ports of a pair non-zero. *)
Lemma pick_even_positive r : 0 < r -> 0 < pick_even r.
Proof. pose proof (pick_even_bounds r). lia. Qed.

Lemma allocate_loop_returns video :
  forall tr attempts m es,
    0 <= attempts ->
    Forall (fun a => 0 < os_random a) tr ->
    (Z.to_nat attempts <= List.length tr)%nat ->
    exists e,
      allocate_loop video attempts m tr es = Some e
      /\ match e with
         | Loop_return _ _ => True
         | Loop_done attempts' _ tr' _ =>
           0 <= attempts' <= attempts
           /\ Forall (fun a => 0 < os_random a) tr'
           /\ (List.length tr
               <= List.length tr' + Z.to_nat (attempts - attempts') + 1)%nat
           /\ (k_local_rtp_port (kind_media video m) = 0 -> 1 <= attempts')
         end.
Proof.
  induction tr as [|a tr IH]; intros attempts m es Ha F Hl; simpl.
  - destruct (negb _) eqn:Z0.
    + eexists. split; [reflexivity|]. simpl. repeat split; try lia; auto;
        try (intros Z1; rewrite Z1 in Z0; discriminate).
    + simpl in Hl. assert (attempts = 0) by lia. subst. simpl.
      eexists. split; [reflexivity|]. exact I.
  - destruct (negb _) eqn:Z0.
    + eexists. split; [reflexivity|]. simpl. repeat split; try lia; auto;
        try (intros Z1; rewrite Z1 in Z0; discriminate).
    + destruct (attempts =? 0) eqn:A0.
      { eexists. split; [reflexivity|]. exact I. }
      apply Z.eqb_neq in A0.
      set (k := open_sockets a (kind_media video m)).
      destruct ((k_rtp_fd k =? -1) || (k_rtcp_fd k =? -1)).
      { eexists. split; [reflexivity|]. exact I. }
      inversion F as [|a0 tr0 Pa Ftr]; subst.
      simpl in Hl.
      assert (Hl' : (Z.to_nat (attempts - 1) <= List.length tr)%nat) by lia.
      assert (Ha' : 0 <= attempts - 1) by lia.
      destruct (os_bind_rtp a); simpl;
        [destruct (os_bind_rtcp a); simpl|].
      * (* both binds succeed: the next test of the loop ends it *)
        destruct tr as [|b tr'];
          simpl; rewrite kind_media_set_same; simpl;
          pose proof (pick_even_positive Pa) as Pp;
          destruct (pick_even (os_random a) =? 0) eqn:E1;
            try (apply Z.eqb_eq in E1; lia);
          destruct (pick_even (os_random a) + 1 =? 0) eqn:E2;
            try (apply Z.eqb_eq in E2; lia);
          simpl; eexists; (split; [reflexivity|]); simpl;
          repeat split; try lia; auto.
      * edestruct (IH (attempts - 1)) as (e & E & P);
          [exact Ha'|exact Ftr|exact Hl'|].
        exists e. split; [exact E|].
        destruct e as [|attempts' m' tr' es']; [exact I|].
        destruct P as (P1 & P2 & P3 & P4).
        rewrite kind_media_set_same in P4. simpl in P4.
        destruct (open_sockets_keeps a (kind_media video m)) as (K1 & _ & _).
        fold k in K1.
        repeat split; try lia; auto;
          try (intros Z1; apply P4; congruence).
      * edestruct (IH (attempts - 1)) as (e & E & P);
          [exact Ha'|exact Ftr|exact Hl'|].
        exists e. split; [exact E|].
        destruct e as [|attempts' m' tr' es']; [exact I|].
        destruct P as (P1 & P2 & P3 & P4).
        rewrite kind_media_set_same in P4. simpl in P4.
        destruct (open_sockets_keeps a (kind_media video m)) as (K1 & _ & _).
        fold k in K1.
        repeat split; try lia; auto;
          try (intros Z1; apply P4; congruence).
Qed.

Lemma g_random_positive G r :
  0 < rtp_range_min G -> g_random_int_range_returns G r -> 0 < r.
Proof.
  unfold g_random_int_range_returns. intros H.
  destruct (rtp_range_min G <? rtp_range_max G); lia.
Qed.

(** The allocator always comes back.  With a port range that starts above
    zero, 101 turns of its two loops are enough whatever the system answers:
    a turn either binds a pair, which ends the loop of that kind, or uses up
    one of the 100 attempts the two loops share. *)
Theorem allocate_local_ports_returns G w m :
  0 < rtp_range_min G ->
  Forall (fun a => g_random_int_range_returns G (os_random a))
         (aw_attempts w) ->
  (101 <= List.length (aw_attempts w))%nat ->
  exists m' ret es,
    janus_nosip_allocate_local_ports w m = Some (m', ret, es)
    /\ (ret = 0 \/ ret = -1).
Proof.
  intros Hmin F Hl.
  assert (F' : Forall (fun a => 0 < os_random a) (aw_attempts w)).
  { eapply Forall_impl; [|exact F]. intros a. apply g_random_positive.
    exact Hmin. }
  assert (R : exists r, janus_nosip_allocate_local_ports w m = Some r).
  { unfold janus_nosip_allocate_local_ports.
    destruct (reset_status m) as [m0 es0] eqn:R.
    pose proof (reset_status_kinds R) as K.
    destruct (has_audio m0) eqn:Ha.
    - destruct (@allocate_loop_returns false (aw_attempts w) 100 m0 es0)
        as (e & E & P); [lia|exact F'|simpl; lia|].
      rewrite E. destruct e as [m1 es1|a1 m1 tr1 es1]; [eauto|].
      destruct P as (P1 & P2 & P3 & P4).
      specialize (P4 (proj1 (K false))).
      destruct (has_video m1); [|eauto].
      destruct (@allocate_loop_returns true tr1 a1 m1 es1)
        as (e & E2 & _); [lia|exact P2|lia|].
      rewrite E2. destruct e; eauto.
    - destruct (has_video m0); [|eauto].
      destruct (@allocate_loop_returns true (aw_attempts w) 100 m0 es0)
        as (e & E & _); [lia|exact F'|simpl; lia|].
      rewrite E. destruct e; eauto. }
  destruct R as ([[m' ret] es] & R).
  exists m', ret, es. split; [exact R|].
  apply allocate_local_ports_blank in R. tauto.
Qed.

Lemma open_sockets_open a k :
  os_socket_rtp a <> -1 -> os_socket_rtcp a <> -1 ->
  (k_rtp_fd (open_sockets a k) =? -1) || (k_rtcp_fd (open_sockets a k) =? -1)
  = false.
Proof.
  intros H1 H2. unfold open_sockets.
  destruct (k_rtp_fd k =? -1) eqn:E1; simpl;
    destruct (k_rtcp_fd k =? -1) eqn:E2; simpl;
    rewrite ?E1, ?E2; simpl;
    repeat match goal with
           | |- context [?x =? -1] =>
             let E := fresh in destruct (x =? -1) eqn:E;
             [apply Z.eqb_eq in E; congruence|]
           end; reflexivity.
Qed.

Lemma count_log_err_app es es' :
  List.length (filter is_log_err (es ++ es'))
  = (List.length (filter is_log_err es)
     + List.length (filter is_log_err es'))%nat.
Proof. rewrite filter_app, length_app. reflexivity. Qed.

Lemma allocate_loop_gives_up video :
  forall tr attempts m es,
    0 <= attempts ->
    Forall bind_refused tr ->
    (Z.to_nat attempts <= List.length tr)%nat ->
    k_local_rtp_port (kind_media video m) = 0 ->
    exists m' es',
      allocate_loop video attempts m tr es = Some (Loop_return m' es')
      /\ k_local_rtp_port (kind_media video m') = 0
      /\ k_local_rtcp_port (kind_media video m')
         = k_local_rtcp_port (kind_media video m)
      /\ List.length (filter is_log_err es')
         = (List.length (filter is_log_err es) + Z.to_nat attempts)%nat.
Proof.
  induction tr as [|a tr IH]; intros attempts m es Ha F Hl Z1; simpl;
    rewrite Z1; simpl.
  - simpl in Hl. assert (attempts = 0) by lia. subst. simpl.
    exists m, es. repeat split; auto.
  - destruct (attempts =? 0) eqn:A0.
    { apply Z.eqb_eq in A0. subst. exists m, es. repeat split; auto. }
    apply Z.eqb_neq in A0.
    inversion F as [|a0 tr0 (S1 & S2 & B) Ftr]; subst.
    rewrite (@open_sockets_open a (kind_media video m) S1 S2).
    destruct (open_sockets_keeps a (kind_media video m)) as (K1 & K2 & _).
    set (k := open_sockets a (kind_media video m)) in *.
    simpl in Hl.
    assert (Hl' : (Z.to_nat (attempts - 1) <= List.length tr)%nat) by lia.
    assert (Ha' : 0 <= attempts - 1) by lia.
    assert (N : (S (Z.to_nat (attempts - 1)) = Z.to_nat attempts)%nat) by lia.
    destruct (os_bind_rtp a); simpl;
      [destruct (os_bind_rtcp a); [discriminate|]; simpl|].
    + edestruct (IH (attempts - 1)) as (m' & es' & E & P1 & P2 & P3);
        [exact Ha'|exact Ftr|exact Hl'| |].
      2:{ exists m', es'. split; [exact E|].
          rewrite kind_media_set_same in P2. simpl in P2.
          repeat split; [exact P1|congruence|].
          rewrite P3, !count_log_err_app. simpl. lia. }
      rewrite kind_media_set_same. simpl. congruence.
    + edestruct (IH (attempts - 1)) as (m' & es' & E & P1 & P2 & P3);
        [exact Ha'|exact Ftr|exact Hl'| |].
      2:{ exists m', es'. split; [exact E|].
          rewrite kind_media_set_same in P2. simpl in P2.
          repeat split; [exact P1|congruence|].
          rewrite P3, !count_log_err_app. simpl. lia. }
      rewrite kind_media_set_same. simpl. congruence.
Qed.

Lemma reset_status_quiet m :
  filter is_log_err (snd (reset_status m)) = [].
Proof.
  unfold reset_status, reset_kind, reset_pipe. simpl.
  repeat match goal with |- context [if ?c then _ else _] => destruct c end;
    reflexivity.
Qed.

(** Giving up.  When some kind is negotiated and, turn after turn, the
    sockets open but a bind of the pair is refused, the allocator returns -1
    after exactly 100 refusals, with no local port set for the kind it was
    working on. *)
Theorem allocate_local_ports_gives_up w m :
  has_audio m || has_video m = true ->
  Forall bind_refused (aw_attempts w) ->
  (100 <= List.length (aw_attempts w))%nat ->
  exists m' es,
    janus_nosip_allocate_local_ports w m = Some (m', -1, es)
    /\ List.length (filter is_log_err es) = 100%nat
    /\ (let video := negb (has_audio m) in
        k_local_rtp_port (kind_media video m') = 0
        /\ k_local_rtcp_port (kind_media video m') = 0).
Proof.
  intros Hk F Hl. unfold janus_nosip_allocate_local_ports.
  pose proof (reset_status_quiet m) as Q.
  destruct (reset_status m) as [m0 es0] eqn:R.
  pose proof (reset_status_kinds R) as K. simpl in Q.
  destruct (K false) as (Ka1 & Ka2 & _ & _ & Ka5).
  destruct (K true) as (Kv1 & Kv2 & _ & _ & Kv5).
  simpl in Ka1, Ka2, Ka5, Kv1, Kv2, Kv5.
  rewrite Ka5. destruct (k_has (audio_media m)) eqn:Ha; simpl in Hk |- *.
  - destruct (@allocate_loop_gives_up false (aw_attempts w) 100 m0 es0)
      as (m' & es' & E & P1 & P2 & P3); [lia|exact F|simpl; lia|exact Ka1|].
    rewrite E. exists m', es'. split; [reflexivity|].
    simpl in P1, P2. rewrite Q in P3. simpl in P3.
    repeat split; [exact P3|exact P1|congruence].
  - rewrite Kv5, Hk.
    destruct (@allocate_loop_gives_up true (aw_attempts w) 100 m0 es0)
      as (m' & es' & E & P1 & P2 & P3); [lia|exact F|simpl; lia|exact Kv1|].
    rewrite E. exists m', es'. split; [reflexivity|].
    simpl in P1, P2. rewrite Q in P3. simpl in P3.
    repeat split; [exact P3|exact P1|congruence].
Qed.

(** Both ports of a negotiated kind come from one draw. *)
Lemma allocate_local_ports_drawn (P : Z -> Prop) w m m' es (video : bool) :
  Forall (fun a => P (os_random a)) (aw_attempts w) ->
  janus_nosip_allocate_local_ports w m = Some (m', 0, es) ->
  k_has (kind_media video m') = true ->
  exists r,
    P r
    /\ k_local_rtp_port (kind_media video m') = pick_even r
    /\ k_local_rtcp_port (kind_media video m') = pick_even r + 1.
Proof.
  intros F H Hk.
  revert H. unfold janus_nosip_allocate_local_ports.
  destruct (reset_status m) as [m0 es0] eqn:R.
  pose proof (reset_status_kinds R) as K.
  intros H.
  destruct (if has_audio m0 then _ else _)
    as [[m1 es1|attempts m1 tr es1]|] eqn:A in H; try discriminate.
  destruct (if has_video m1 then _ else _)
    as [[m2 es2|attempts2 m2 tr2 es2]|] eqn:V in H; try discriminate.
  assert (E : audio_media m' = audio_media m2
              /\ video_media m' = video_media m2).
  { inversion H; subst. destruct (aw_pipe w) as [[r wr]|]; simpl; auto. }
  destruct E as [E1 E2].
  pose proof (K false) as (Ka1 & Ka2 & _).
  pose proof (K true) as (Kv1 & Kv2 & _).
  simpl in Ka1, Ka2, Kv1, Kv2.
  assert (A' : (has_audio m1 = true ->
                exists r, P r
                          /\ local_audio_rtp_port m1 = pick_even r
                          /\ local_audio_rtcp_port m1 = pick_even r + 1)
               /\ video_media m1 = video_media m0
               /\ Forall (fun a => P (os_random a)) tr).
  { destruct (k_has (audio_media m0)) eqn:Ha.
    - pose proof A as A2.
      apply (allocate_loop_done false) in A2; [|left; simpl; tauto].
      destruct A2 as (_ & A3 & _ & A4). simpl in A3, A4.
      eapply (allocate_loop_drawn false) in A; [|exact F|left; exact Ka1].
      destruct A as ([A0|(r & Pr & A0)] & A1 & A5); [contradiction|].
      simpl in A0. repeat split; auto.
      intros _. exists r. rewrite A3, A0. auto.
    - inversion A; subst. rewrite Ha. repeat split; auto. discriminate. }
  destruct A' as (A1 & A3 & A4).
  assert (V' : (has_video m2 = true ->
                exists r, P r
                          /\ local_video_rtp_port m2 = pick_even r
                          /\ local_video_rtcp_port m2 = pick_even r + 1)
               /\ audio_media m2 = audio_media m1).
  { destruct (k_has (video_media m1)) eqn:Hv.
    - pose proof V as V2.
      apply (allocate_loop_done true) in V2;
        [|left; simpl; rewrite A3; tauto].
      destruct V2 as (_ & V3 & _ & V4). simpl in V3, V4.
      eapply (allocate_loop_drawn true) in V;
        [|exact A4|left; simpl; rewrite A3; exact Kv1].
      destruct V as ([V0|(r & Pr & V0)] & V1 & _); [contradiction|].
      simpl in V0. split; auto.
      intros _. exists r. rewrite V3, V0. auto.
    - inversion V; subst. rewrite Hv. split; auto. discriminate. }
  destruct V' as (V1 & V3).
  destruct video; simpl in Hk |- *.
  - rewrite E2 in *. apply V1. exact Hk.
  - rewrite E1, V3 in *. apply A1. exact Hk.
Qed.

Lemma Forall2_right (A B : Type) (R : A -> B -> Prop) (Q : B -> Prop) :
  forall xs ys,
    Forall2 R xs ys -> (forall x y, R x y -> Q y) -> Forall Q ys.
Proof.
  intros xs ys H HQ. induction H; constructor; eauto.
Qed.

(** What the application reads in a generated SDP.  With a port range
    that fits a [uint16_t], as the statics of the plugin do, and draws that
    [g_random_int_range] may return, every audio or video line of the SDP a
    successful [generate] stores and writes out carries the local RTP port
    of its kind, cut to 16 bits.  For a negotiated kind that port is even
    and has the local RTCP port right above it; when the lower end of the
    range is below the upper one it lies within the range and the line
    carries it as it is; with a range of one port it is that port rounded
    up to even, so one above the range when the port is odd.  For a kind
    that is not negotiated the line carries 0. *)
Theorem generate_advertises_bound_ports G L w s msg r ty out :
  generate msg = true ->
  0 <= rtp_range_min G ->
  rtp_range_max G <= 65535 ->
  Forall (fun a => g_random_int_range_returns G (os_random a))
         (aw_attempts w) ->
  janus_nosip_handler G L w s msg = Some r ->
  h_reply r = Reply_generated ty out ->
  exists parsed',
    sdp (h_session r) = Some parsed'
    /\ janus_sdp_write L parsed' = Some out
    /\ Forall
         (fun l' =>
            is_audio (m_type l') || is_video (m_type l') = true ->
            let k := kind_media (is_video (m_type l')) (media (h_session r)) in
            m_port l' = uint16 (k_local_rtp_port k)
            /\ if k_has k
               then Z.even (k_local_rtp_port k) = true
                    /\ k_local_rtcp_port k = k_local_rtp_port k + 1
                    /\ (if rtp_range_min G <? rtp_range_max G
                        then rtp_range_min G <= k_local_rtp_port k
                             <= rtp_range_max G
                             /\ m_port l' = k_local_rtp_port k
                        else k_local_rtp_port k
                             = pick_even (rtp_range_min G))
               else m_port l' = 0)
         (m_lines parsed').
Proof.
  intros Hg Hlo Hhi F H Rep.
  apply handler_generate_cases in H; [|exact Hg].
  destruct H as [(_ & _ & code & cause & E & _)
                |(type & text & flags & s1 & _ & _ & _ & _ & _ & C)];
    [rewrite E in Rep; discriminate|].
  destruct C as [(_ & _ & _ & cause & E)|(parsed & _ & C)];
    [rewrite E in Rep; discriminate|].
  apply handle_generate_cases in C.
  destruct C as (m1 & ret & es1 & A & C).
  destruct C as [(_ & _ & cause & E)|(-> & m2 & parsed' & written & M & C)];
    [rewrite E in Rep; discriminate|].
  pose proof (sdp_manipulate_rewritten G L m1 parsed false) as W.
  rewrite M in W. destruct W as (W1 & _ & W3 & W4).
  destruct written as [out'|];
    [|destruct C as (_ & cause & E); rewrite E in Rep; discriminate].
  destruct C as (S & E). rewrite E in Rep. inversion Rep; subst ty out'.
  exists parsed'.
  set (s2 := set_hangingup 0 (set_sdp (Some parsed') (set_media m2 s1))) in *.
  assert (Sd : sdp (h_session r) = Some parsed').
  { rewrite S, start_media_session. destruct (strcaseeq type "offer");
      reflexivity. }
  split; [exact Sd|]. split; [symmetry; exact W3|].
  (* the ports and flags of the session left behind are those the allocator
     made *)
  assert (Loc : forall video,
             k_local_rtp_port (kind_media video (media (h_session r)))
             = k_local_rtp_port (kind_media video m1)
             /\ k_local_rtcp_port (kind_media video (media (h_session r)))
                = k_local_rtcp_port (kind_media video m1)
             /\ k_has (kind_media video (media (h_session r)))
                = k_has (kind_media video m1)).
  { intros video.
    destruct (start_media_flags (strcaseeq type "offer") s2)
      as (_ & _ & Fk & Fa & Fv).
    rewrite <- S in Fk, Fa, Fv. specialize (Fk video).
    unfold transport_kind in Fa, Fv.
    pose proof (f_equal (fun x => local_audio_rtp_port x) W4) as B1.
    pose proof (f_equal (fun x => local_video_rtp_port x) W4) as B2.
    pose proof (f_equal (fun x => local_audio_rtcp_port x) W4) as B3.
    pose proof (f_equal (fun x => local_video_rtcp_port x) W4) as B4.
    pose proof (f_equal (fun x => has_audio x) W4) as B5.
    pose proof (f_equal (fun x => has_video x) W4) as B6.
    simpl in B1, B2, B3, B4, B5, B6.
    inversion Fa. inversion Fv.
    destruct video; simpl in *; repeat split; congruence. }
  eapply Forall2_right; [exact W1|].
  intros l l' (T1 & _ & _ & _ & _ & Hp & _) AV. simpl.
  rewrite T1 in *.
  destruct (Loc (is_video (m_type l))) as (L1 & L2 & L3).
  assert (Port : m_port l'
                 = uint16 (k_local_rtp_port
                             (kind_media (is_video (m_type l)) m1))).
  { pose proof (f_equal (fun x => local_audio_rtp_port x) W4) as B1.
    pose proof (f_equal (fun x => local_video_rtp_port x) W4) as B2.
    simpl in B1, B2. rewrite Hp.
    destruct (m_type l); simpl in *; try discriminate; congruence. }
  split; [congruence|].
  rewrite L1, L2, L3, Port.
  destruct (k_has (kind_media (is_video (m_type l)) m1)) eqn:Hk.
  - destruct (@allocate_local_ports_drawn
                (g_random_int_range_returns G) w _ m1 es1
                (is_video (m_type l)) F A Hk) as (d & Pd & D1 & D2).
    rewrite D1, D2. split; [apply pick_even_even|]. split; [reflexivity|].
    unfold g_random_int_range_returns in Pd.
    destruct (rtp_range_min G <? rtp_range_max G) eqn:Hr.
    + apply Z.ltb_lt in Hr. pose proof (pick_even_bounds d).
      split; [lia|]. unfold uint16. apply Z.mod_small. lia.
    + rewrite Pd. reflexivity.
  - pose proof A as A'. apply allocate_local_ports_blank in A'.
    destruct A' as [A' _].
    assert (Hk0 : k_has (kind_media (is_video (m_type l))
                                    (mark_negotiated text (media s1)))
                  = false).
    { pose proof (f_equal (fun x => has_audio x) A') as B5.
      pose proof (f_equal (fun x => has_video x) A') as B6.
      simpl in B5, B6.
      destruct (is_video (m_type l)); simpl in *; congruence. }
    destruct (@allocate_local_ports_unused w _ m1 es1 (is_video (m_type l))
                A Hk0) as (_ & _ & U & _).
    rewrite U. reflexivity.
Qed.

(** ** Ingesting the peer's SDP, continued *)

Lemma srtp_set_remote_negotiated L video crypto suite m :
  negotiated (janus_nosip_srtp_set_remote L video crypto suite m)
  = negotiated m.
Proof.
  unfold janus_nosip_srtp_set_remote.
  destruct (_ <? _); [reflexivity|]. destruct video; reflexivity.
Qed.

Lemma process_attribute_negotiated L mt a m :
  negotiated (process_attribute L mt a m) = negotiated m.
Proof.
  unfold process_attribute.
  destruct (a_name a) as [name|]; [|reflexivity].
  destruct (strcaseeq name "crypto"); [|reflexivity].
  destruct (is_audio mt || is_video mt); [|reflexivity].
  destruct (match a_value a with Some v => _ | None => None end)
    as [[[tag suite] crypto]|]; [|reflexivity].
  destruct (_ =? 0); [|reflexivity].
  change (negotiated (set_has_srtp_remote true ?x)) with (negotiated x).
  rewrite srtp_set_remote_negotiated. destruct (is_video mt); reflexivity.
Qed.

Lemma process_attributes_negotiated L mt :
  forall attrs m, negotiated (process_attributes L mt attrs m) = negotiated m.
Proof.
  unfold process_attributes.
  induction attrs as [|a attrs IH]; intros m; simpl; [reflexivity|].
  rewrite IH. apply process_attribute_negotiated.
Qed.

Lemma latch_pt_negotiated l m : negotiated (latch_pt l m) = negotiated m.
Proof.
  unfold latch_pt.
  destruct (_ >? -1); [destruct (is_audio (m_type l))|]; reflexivity.
Qed.

Lemma negotiated_fields m m' :
  negotiated m = negotiated m' ->
  require_srtp m = require_srtp m'
  /\ remote_ip m = remote_ip m'
  /\ updated m = updated m'
  /\ pipefd1 m = pipefd1 m'
  /\ forall video,
       negotiated_kind (kind_media video m)
       = negotiated_kind (kind_media video m').
Proof.
  unfold negotiated. intros H. inversion H.
  repeat split; auto. intros [|]; unfold negotiated_kind; simpl; congruence.
Qed.

Lemma process_port_media video l m changed :
  fst (process_port video l (m, changed))
  = fst (process_port video l (m, false)).
Proof. unfold process_port. destruct (negb _); reflexivity. Qed.

(** One media line, seen through [negotiated]: the attributes and the
    payload types drop out. *)
Lemma process_mline_negotiated L answer update l m changed :
  negotiated (fst (process_mline L answer update l (m, changed)))
  = negotiated (signalled l m).
Proof.
  unfold process_mline, signalled, offers_savp.
  destruct (negb (is_audio (m_type l) || is_video (m_type l)));
    [reflexivity|].
  cbv zeta.
  rewrite <- (process_port_media (is_video (m_type l)) l _ changed).
  destruct (process_port _ l _) as [m1 c1]. simpl fst.
  destruct (m_c_addr l) as [addr|]; destruct update; simpl fst;
    try reflexivity;
    destruct answer;
    rewrite ?latch_pt_negotiated, ?process_attributes_negotiated;
    reflexivity.
Qed.

Lemma process_port_fields video l m changed :
  let m' := fst (process_port video l (m, changed)) in
  require_srtp m' = require_srtp m
  /\ remote_ip m' = remote_ip m
  /\ updated m' = updated m
  /\ pipefd1 m' = pipefd1 m
  /\ kind_media (negb video) m' = kind_media (negb video) m
  /\ negotiated_kind (kind_media video m')
     = if negb (m_port l =? 0)
       then (true, m_port l, m_port l + 1,
             negb (is_sendonly_or_inactive (m_direction l)))
       else (k_has (kind_media video m),
             k_remote_rtp_port (kind_media video m),
             k_remote_rtcp_port (kind_media video m), false).
Proof.
  unfold process_port. destruct (negb (m_port l =? 0)); destruct video;
    simpl; repeat split; reflexivity.
Qed.

Lemma signalled_require_srtp l m :
  require_srtp (signalled l m) = require_srtp m || offers_savp l.
Proof.
  unfold signalled. destruct (negb _); [reflexivity|].
  cbv zeta.
  destruct (process_port_fields (is_video (m_type l)) l
              (set_require_srtp (require_srtp m || offers_savp l) m) false)
    as (P & _).
  cbv zeta in P.
  destruct (m_c_addr l);
    [change (require_srtp (set_remote_ip (Some s) ?x)) with (require_srtp x)|];
    rewrite P; reflexivity.
Qed.

(** What one media line does to the fields of [negotiated]. *)
Lemma process_mline_effect L answer update l m changed :
  let m' := fst (process_mline L answer update l (m, changed)) in
  let av := is_audio (m_type l) || is_video (m_type l) in
  require_srtp m' = require_srtp m || offers_savp l
  /\ remote_ip m'
     = (if av then match m_c_addr l with
                   | Some addr => Some addr
                   | None => remote_ip m
                   end
        else remote_ip m)
  /\ updated m' = updated m
  /\ pipefd1 m' = pipefd1 m
  /\ forall video,
       negotiated_kind (kind_media video m')
       = if of_kind video l
         then if negb (m_port l =? 0)
              then (true, m_port l, m_port l + 1,
                    negb (is_sendonly_or_inactive (m_direction l)))
              else (k_has (kind_media video m),
                    k_remote_rtp_port (kind_media video m),
                    k_remote_rtcp_port (kind_media video m), false)
         else negotiated_kind (kind_media video m).
Proof.
  cbv zeta.
  destruct (negotiated_fields (process_mline_negotiated L answer update l m
                                                        changed))
    as (N1 & N2 & N3 & N4 & N5).
  rewrite N1, N2, N3, N4. rewrite signalled_require_srtp.
  split; [reflexivity|].
  assert (K : forall video,
             negotiated_kind (kind_media video (signalled l m))
             = if of_kind video l
               then if negb (m_port l =? 0)
                    then (true, m_port l, m_port l + 1,
                          negb (is_sendonly_or_inactive (m_direction l)))
                    else (k_has (kind_media video m),
                          k_remote_rtp_port (kind_media video m),
                          k_remote_rtcp_port (kind_media video m), false)
               else negotiated_kind (kind_media video m)).
  { intros video. unfold signalled, of_kind.
    destruct (process_port_fields (is_video (m_type l)) l
                (set_require_srtp (require_srtp m || offers_savp l) m) false)
      as (_ & _ & _ & _ & P5 & P6).
    cbv zeta in P5, P6.
    set (mp := fst (process_port _ _ _)) in *.
    destruct (m_type l); simpl in *;
      destruct video; simpl;
      destruct (m_c_addr l); simpl; try reflexivity;
      try (rewrite P6; reflexivity);
      try (rewrite P5; reflexivity). }
  unfold signalled at 1 2.
  destruct (process_port_fields (is_video (m_type l)) l
              (set_require_srtp (require_srtp m || offers_savp l) m) false)
    as (_ & P2 & P3 & P4 & _).
  cbv zeta in P2, P3, P4.
  set (mp := fst (process_port _ _ _)) in *.
  repeat split.
  - destruct (is_audio (m_type l) || is_video (m_type l)); simpl;
      [|reflexivity].
    destruct (m_c_addr l); simpl; [reflexivity|exact P2].
  - unfold signalled. fold mp.
    destruct (is_audio (m_type l) || is_video (m_type l)); simpl;
      [|reflexivity].
    destruct (m_c_addr l); simpl; exact P3.
  - unfold signalled. fold mp.
    destruct (is_audio (m_type l) || is_video (m_type l)); simpl;
      [|reflexivity].
    destruct (m_c_addr l); simpl; exact P4.
  - intros video. rewrite N5. apply K.
Qed.

(** The media lines of an SDP, folded from the state the session-level
    address leaves. *)
Lemma sdp_process_shape L m parsed answer update changed :
  exists m0 c0 mf cf,
    m0 = match c_addr parsed with
         | Some addr => set_remote_ip (Some addr) m
         | None => m
         end
    /\ fold_left (fun st l => process_mline L answer update l st)
                 (m_lines parsed) (m0, c0) = (mf, cf)
    /\ janus_nosip_sdp_process L m parsed answer update changed
       = if update && cf
         then (set_updated true mf, cf,
               if pipefd1 mf >? 0 then [E_pipe_write (pipefd1 mf)] else [])
         else (mf, cf, []).
Proof.
  unfold janus_nosip_sdp_process.
  destruct (c_addr parsed) as [addr|].
  - destruct (fold_left _ _ _) as [mf cf] eqn:F.
    exists (set_remote_ip (Some addr) m); eexists; exists mf, cf.
    split; [reflexivity|]. split; [exact F|].
    destruct (update && cf); reflexivity.
  - destruct (fold_left _ _ _) as [mf cf] eqn:F.
    exists m, changed, mf, cf.
    split; [reflexivity|]. split; [exact F|].
    destruct (update && cf); reflexivity.
Qed.

(** [require_srtp] after the ingest: what it was, or some media line, of
    whatever type, announces RTP/SAVP. *)
Lemma sdp_process_require_srtp_after L m parsed answer update changed :
  require_srtp
    (fst (fst (janus_nosip_sdp_process L m parsed answer update changed)))
  = require_srtp m || existsb offers_savp (m_lines parsed).
Proof.
  destruct (sdp_process_shape L m parsed answer update changed)
    as (m0 & c0 & mf & cf & E0 & F & ->).
  assert (E : require_srtp m0 = require_srtp m)
    by (subst m0; destruct (c_addr parsed); reflexivity).
  assert (R : require_srtp mf
              = require_srtp m0 || existsb offers_savp (m_lines parsed)).
  { clear E E0. revert m0 c0 F.
    induction (m_lines parsed) as [|l ls IH]; intros m0 c0 F; cbn [fold_left] in F.
    - inversion F; subst. simpl. rewrite orb_false_r. reflexivity.
    - destruct (process_mline L answer update l (m0, c0)) as [m1 c1] eqn:P.
      apply IH in F. rewrite F. simpl.
      destruct (process_mline_effect L answer update l m0 c0) as (R & _).
      rewrite P in R. simpl in R. rewrite R, orb_assoc. reflexivity. }
  rewrite <- E, <- R. destruct (update && cf); reflexivity.
Qed.

(** A kind is negotiated after the ingest when it was before, or when some
    media line of that kind has a port other than 0: the flag is never
    taken back. *)
Lemma sdp_process_has_kind_after L m parsed answer update changed (video : bool) :
  k_has (kind_media video
           (fst (fst (janus_nosip_sdp_process L m parsed answer update
                                              changed))))
  = k_has (kind_media video m)
    || existsb (fun l => of_kind video l && negb (m_port l =? 0))
               (m_lines parsed).
Proof.
  destruct (sdp_process_shape L m parsed answer update changed)
    as (m0 & c0 & mf & cf & E0 & F & ->).
  assert (E : k_has (kind_media video m0) = k_has (kind_media video m))
    by (subst m0; destruct (c_addr parsed); destruct video; reflexivity).
  assert (R : k_has (kind_media video mf)
              = k_has (kind_media video m0)
                || existsb (fun l => of_kind video l && negb (m_port l =? 0))
                           (m_lines parsed)).
  { clear E E0. revert m0 c0 F.
    induction (m_lines parsed) as [|l ls IH]; intros m0 c0 F; cbn [fold_left] in F.
    - inversion F; subst. simpl. rewrite orb_false_r. reflexivity.
    - destruct (process_mline L answer update l (m0, c0)) as [m1 c1] eqn:P.
      apply IH in F. rewrite F. simpl.
      destruct (process_mline_effect L answer update l m0 c0)
        as (_ & _ & _ & _ & K).
      rewrite P in K. simpl in K. specialize (K video).
      assert (K1 : k_has (kind_media video m1)
                   = k_has (kind_media video m0)
                     || of_kind video l && negb (m_port l =? 0)).
      { unfold negotiated_kind in K.
        destruct (of_kind video l); destruct (negb (m_port l =? 0));
          injection K as -> _ _ _; cbn [andb];
          rewrite ?orb_true_r, ?orb_false_r; reflexivity. }
      rewrite K1, orb_assoc. reflexivity. }
  rewrite <- E, <- R. destruct (update && cf); destruct video; reflexivity.
Qed.

Lemma last_address_app xs ys old :
  last_address (xs ++ ys) old = last_address ys (last_address xs old).
Proof. unfold last_address. apply fold_left_app. Qed.

(** The remote address after the ingest is the last one given, taking the
    address of the session first and then those of the audio and video
    lines in order; an address on a line of another type is not looked
    at. *)
Theorem sdp_process_remote_ip L m parsed answer update changed :
  remote_ip
    (fst (fst (janus_nosip_sdp_process L m parsed answer update changed)))
  = last_address (connection_addresses parsed) (remote_ip m).
Proof.
  destruct (sdp_process_shape L m parsed answer update changed)
    as (m0 & c0 & mf & cf & E0 & F & ->).
  unfold connection_addresses.
  change (?a :: ?l) with ([a] ++ l). rewrite last_address_app.
  assert (E : remote_ip m0 = last_address [c_addr parsed] (remote_ip m))
    by (subst m0; destruct (c_addr parsed); reflexivity).
  rewrite <- E. clear E E0.
  assert (R : remote_ip mf
              = last_address
                  (map m_c_addr
                       (filter (fun l => is_audio (m_type l)
                                         || is_video (m_type l))
                               (m_lines parsed)))
                  (remote_ip m0)).
  { revert m0 c0 F.
    induction (m_lines parsed) as [|l ls IH]; intros m0 c0 F; cbn [fold_left] in F.
    - inversion F; subst. reflexivity.
    - destruct (process_mline L answer update l (m0, c0)) as [m1 c1] eqn:P.
      apply IH in F. rewrite F. simpl.
      destruct (process_mline_effect L answer update l m0 c0)
        as (_ & A & _).
      rewrite P in A. simpl in A. rewrite A.
      destruct (is_audio (m_type l) || is_video (m_type l)); simpl;
        [|reflexivity].
      destruct (m_c_addr l); reflexivity. }
  rewrite <- R. destruct (update && cf); reflexivity.
Qed.

(** The ingest only raises.  [require_srtp] after the ingest is what it was
    or true because some media line, of whatever type, announces RTP/SAVP;
    a kind is negotiated after it when it was before or when some media
    line of the kind has a port other than 0.  Neither flag is ever taken
    back, so a peer that drops SRTP or media of a kind in a later SDP leaves
    them set. *)
Theorem sdp_process_only_raises L m parsed answer update changed :
  let m' :=
    fst (fst (janus_nosip_sdp_process L m parsed answer update changed)) in
  require_srtp m' = require_srtp m || existsb offers_savp (m_lines parsed)
  /\ forall video : bool,
       k_has (kind_media video m')
       = k_has (kind_media video m)
         || existsb (fun l => of_kind video l && negb (m_port l =? 0))
                    (m_lines parsed).
Proof.
  cbv zeta. split.
  - apply sdp_process_require_srtp_after.
  - intros video. apply sdp_process_has_kind_after.
Qed.

Lemma process_mlines_other_kind L answer update (video : bool) :
  forall ls st,
    Forall (fun l => of_kind video l = false) ls ->
    negotiated_kind
      (kind_media video
         (fst (fold_left (fun st l => process_mline L answer update l st)
                         ls st)))
    = negotiated_kind (kind_media video (fst st)).
Proof.
  induction ls as [|l ls IH]; intros [m c] F; cbn [fold_left];
    [reflexivity|].
  inversion F as [|l0 ls0 Hl Fls]; subst.
  rewrite IH by exact Fls.
  destruct (process_mline_effect L answer update l m c) as (_ & _ & _ & _ & K).
  rewrite (K video), Hl. reflexivity.
Qed.

(** What the last media line of a kind leaves of that kind, [k1] being the
    kind as the lines before it left it. *)
Lemma sdp_process_last_line L m parsed answer update changed
    (video : bool) pre l post :
  m_lines parsed = pre ++ l :: post ->
  of_kind video l = true ->
  Forall (fun l' => of_kind video l' = false) post ->
  exists k1,
    negotiated_kind
      (kind_media video
         (fst (fst (janus_nosip_sdp_process L m parsed answer update
                                            changed))))
    = if negb (m_port l =? 0)
      then (true, m_port l, m_port l + 1,
            negb (is_sendonly_or_inactive (m_direction l)))
      else (k_has k1, k_remote_rtp_port k1, k_remote_rtcp_port k1, false).
Proof.
  intros Hls Hl Hpost.
  destruct (sdp_process_shape L m parsed answer update changed)
    as (m0 & c0 & mf & cf & _ & F & ->).
  assert (E : kind_media video
                (fst (fst (if update && cf
                           then (set_updated true mf, cf,
                                 if pipefd1 mf >? 0
                                 then [E_pipe_write (pipefd1 mf)] else [])
                           else (mf, cf, []))))
              = kind_media video mf)
    by (destruct (update && cf); destruct video; reflexivity).
  rewrite E. clear E.
  rewrite Hls, fold_left_app in F. cbn [fold_left] in F.
  destruct (fold_left _ pre (m0, c0)) as [m1 c1].
  pose proof (@process_mlines_other_kind L answer update video post
                (process_mline L answer update l (m1, c1)) Hpost) as K.
  rewrite F in K. change (fst (mf, cf)) with mf in K.
  destruct (process_mline_effect L answer update l m1 c1)
    as (_ & _ & _ & _ & K1).
  rewrite (K1 video), Hl in K. exists (kind_media video m1). exact K.
Qed.

(** The last media line of a kind decides.  With a port other than 0 it
    marks the kind negotiated, gives the peer's RTP port, puts the peer's
    RTCP port right above it and opens the direction gate unless the line
    says [sendonly] or [inactive]; with port 0 it shuts the gate. *)
Theorem sdp_process_last_line_decides L m parsed answer update changed
    (video : bool) pre l post :
  m_lines parsed = pre ++ l :: post ->
  of_kind video l = true ->
  Forall (fun l' => of_kind video l' = false) post ->
  let k :=
    kind_media video
      (fst (fst (janus_nosip_sdp_process L m parsed answer update changed)))
  in
  (m_port l <> 0 ->
   k_has k = true
   /\ k_remote_rtp_port k = m_port l
   /\ k_remote_rtcp_port k = m_port l + 1
   /\ k_send k = negb (is_sendonly_or_inactive (m_direction l)))
  /\ (m_port l = 0 -> k_send k = false).
Proof.
  intros Hls Hl Hpost. cbv zeta.
  destruct (@sdp_process_last_line L m parsed answer update changed video
              pre l post Hls Hl Hpost) as (k1 & K).
  unfold negotiated_kind in K. split.
  - intros Hp. apply Z.eqb_neq in Hp. rewrite Hp in K. simpl in K.
    injection K as -> -> -> ->. auto.
  - intros Hp. rewrite Hp in K. simpl in K.
    injection K as _ _ _ ->. reflexivity.
Qed.

(** *** SDES lines *)

Lemma srtp_set_remote_other L (video : bool) crypto suite m :
  kind_media (negb video) (janus_nosip_srtp_set_remote L video crypto suite m)
  = kind_media (negb video) m
  /\ has_srtp_remote (janus_nosip_srtp_set_remote L video crypto suite m)
     = has_srtp_remote m
  /\ outbound (janus_nosip_srtp_set_remote L video crypto suite m)
     = outbound m
  /\ k_srtp_suite_in
       (kind_media video (janus_nosip_srtp_set_remote L video crypto suite m))
     = k_srtp_suite_in (kind_media video m).
Proof.
  unfold janus_nosip_srtp_set_remote.
  destruct (_ <? _); [auto|]. destruct video; repeat split; reflexivity.
Qed.


Lemma process_attribute_inbound L mt a m (video : bool) :
  (type_of_kind video mt = true ->
   k_srtp_suite_in (kind_media video m) <> 0) ->
  inbound_kind (kind_media video (process_attribute L mt a m))
  = inbound_kind (kind_media video m).
Proof.
  intros H. unfold process_attribute.
  destruct (a_name a) as [name|]; [|reflexivity].
  destruct (strcaseeq name "crypto"); [|reflexivity].
  destruct (is_audio mt || is_video mt) eqn:Hav; [|reflexivity].
  destruct (match a_value a with Some v => _ | None => None end)
    as [[[tag suite] crypto]|]; [|reflexivity].
  destruct (_ =? 0) eqn:C; [|reflexivity].
  apply Z.eqb_eq in C.
  change (kind_media ?v (set_has_srtp_remote true ?x)) with (kind_media v x).
  destruct mt; try discriminate; destruct video; simpl in H, C |- *;
    try (exfalso; apply H; [reflexivity|exact C]);
    match goal with
    | |- context [janus_nosip_srtp_set_remote L ?v ?c ?s ?x] =>
      destruct (@srtp_set_remote_other L v c s x) as (O & _)
    end; simpl in O; rewrite O; reflexivity.
Qed.

Lemma process_attributes_inbound L mt (video : bool) :
  forall attrs m,
    (type_of_kind video mt = true ->
     k_srtp_suite_in (kind_media video m) <> 0) ->
    inbound_kind (kind_media video (process_attributes L mt attrs m))
    = inbound_kind (kind_media video m).
Proof.
  unfold process_attributes.
  induction attrs as [|a attrs IH]; intros m H; simpl; [reflexivity|].
  pose proof (process_attribute_inbound L mt a m video H) as E.
  rewrite IH; [exact E|].
  intros T. unfold inbound_kind in E. injection E as _ E. rewrite E. auto.
Qed.

Lemma process_port_inbound v l st (video : bool) :
  inbound_kind (kind_media video (fst (process_port v l st)))
  = inbound_kind (kind_media video (fst st)).
Proof.
  destruct st as [m c]. unfold process_port.
  destruct (negb _); destruct v; destruct video; reflexivity.
Qed.

Lemma latch_pt_inbound l m (video : bool) :
  inbound_kind (kind_media video (latch_pt l m))
  = inbound_kind (kind_media video m).
Proof.
  unfold latch_pt.
  destruct (_ >? -1); [destruct (is_audio (m_type l))|];
    destruct video; reflexivity.
Qed.

Lemma process_mline_inbound L answer update l m changed (video : bool) :
  k_srtp_suite_in (kind_media video m) <> 0 ->
  inbound_kind
    (kind_media video (fst (process_mline L answer update l (m, changed))))
  = inbound_kind (kind_media video m).
Proof.
  intros H. unfold process_mline.
  destruct (negb _); [destruct video; reflexivity|].
  cbv zeta.
  pose proof (process_port_inbound (is_video (m_type l)) l
                (set_require_srtp
                   (require_srtp m
                    || match m_proto l with
                       | Some p => strcaseeq p "RTP/SAVP"
                       | None => false
                       end) m, changed) video) as P.
  destruct (process_port _ l _) as [m1 c1]. simpl fst in P.
  assert (P' : inbound_kind (kind_media video m1)
               = inbound_kind (kind_media video m))
    by (rewrite P; destruct video; reflexivity).
  clear P.
  assert (A : forall m2,
             inbound_kind (kind_media video m2)
             = inbound_kind (kind_media video m) ->
             inbound_kind
               (kind_media video
                  (process_attributes L (m_type l) (m_attributes l) m2))
             = inbound_kind (kind_media video m)).
  { intros m2 E.
    rewrite process_attributes_inbound; [exact E|].
    intros _. unfold inbound_kind in E. injection E as _ E.
    rewrite E. exact H. }
  assert (S : forall addr,
             inbound_kind (kind_media video (set_remote_ip (Some addr) m1))
             = inbound_kind (kind_media video m)).
  { intros addr. rewrite <- P'. destruct video; reflexivity. }
  destruct (m_c_addr l) as [addr|]; destruct update; destruct answer;
    cbn [fst]; rewrite ?latch_pt_inbound; auto.
Qed.

(** A key in place stays.  Once a suite is noted for a kind, an ingest that
    is not preceded by [janus_nosip_srtp_cleanup] leaves the inbound context
    and suite of that kind as they are, whatever SDES lines the SDP
    carries. *)
Theorem sdp_process_keeps_inbound_key L m parsed answer update changed
    (video : bool) :
  k_srtp_suite_in (kind_media video m) <> 0 ->
  let m' :=
    fst (fst (janus_nosip_sdp_process L m parsed answer update changed)) in
  k_srtp_in (kind_media video m') = k_srtp_in (kind_media video m)
  /\ k_srtp_suite_in (kind_media video m')
     = k_srtp_suite_in (kind_media video m).
Proof.
  intros H. cbv zeta.
  destruct (sdp_process_shape L m parsed answer update changed)
    as (m0 & c0 & mf & cf & E0 & F & ->).
  assert (E : inbound_kind (kind_media video m0)
              = inbound_kind (kind_media video m))
    by (subst m0; destruct (c_addr parsed); destruct video; reflexivity).
  assert (R : inbound_kind (kind_media video mf)
              = inbound_kind (kind_media video m0)).
  { assert (H0 : k_srtp_suite_in (kind_media video m0) <> 0).
    { unfold inbound_kind in E. injection E as _ E. rewrite E. exact H. }
    clear E E0 H. revert m0 c0 F H0.
    induction (m_lines parsed) as [|l ls IH]; intros m0 c0 F H0;
      cbn [fold_left] in F.
    - inversion F; subst. reflexivity.
    - pose proof (@process_mline_inbound L answer update l m0 c0 video H0)
        as P.
      destruct (process_mline L answer update l (m0, c0)) as [m1 c1].
      simpl fst in P. apply IH in F; [congruence|].
      unfold inbound_kind in P. injection P as _ P. rewrite P. exact H0. }
  assert (Fin : inbound_kind
                  (kind_media video
                     (fst (fst (if update && cf
                                then (set_updated true mf, cf,
                                      if pipefd1 mf >? 0
                                      then [E_pipe_write (pipefd1 mf)]
                                      else [])
                                else (mf, cf, [])))))
                = inbound_kind (kind_media video m)).
  { rewrite <- E, <- R. destruct (update && cf); destruct video;
      reflexivity. }
  unfold inbound_kind in Fin. injection Fin as F1 F2. auto.
Qed.

(** *** Contexts and flags *)

Lemma srtp_consistent_ext m m' :
  contexts m' = contexts m -> srtp_consistent m -> srtp_consistent m'.
Proof.
  unfold contexts, srtp_consistent. intros E [O I].
  injection E as E1 E2 E3 E4 E5 E6. split; intros [|]; simpl; intros H.
  - rewrite E1. apply (O true). simpl. congruence.
  - rewrite E1. apply (O false). simpl. congruence.
  - rewrite E2. apply (I true). simpl. congruence.
  - rewrite E2. apply (I false). simpl. congruence.
Qed.

Lemma srtp_cleanup_consistent m d q :
  srtp_consistent
    (set_has_srtp_local d (set_require_srtp q (janus_nosip_srtp_cleanup m))).
Proof.
  split; intros [|]; simpl; intros H; exfalso; apply H; reflexivity.
Qed.

Lemma manipulate_mlines_without_sdes G L :
  forall ls i m,
    has_srtp_local m = false ->
    fst (manipulate_mlines G L false i ls m) = m.
Proof.
  induction ls as [|l ls IH]; intros i m H; simpl; [reflexivity|].
  assert (E : fst (manipulate_mline G L false i l m) = m).
  { unfold manipulate_mline, offer_crypto. rewrite H.
    destruct (is_audio (m_type l)); [|destruct (is_video (m_type l))];
      reflexivity. }
  destruct (manipulate_mline G L false i l m) as [m1 l1]. simpl in E.
  subst m1. specialize (IH (S i) m H).
  destruct (manipulate_mlines G L false (S i) ls m) as [m2 ls2]. exact IH.
Qed.

Lemma sdp_manipulate_consistent G L m parsed :
  srtp_consistent m ->
  srtp_consistent (fst (fst (janus_nosip_sdp_manipulate G L m parsed false))).
Proof.
  intros C.
  pose proof (sdp_manipulate_blank G L m parsed false) as B.
  destruct (has_srtp_local m) eqn:Hl.
  - destruct C as [_ I].
    pose proof (f_equal has_srtp_local B) as B1.
    pose proof (f_equal has_srtp_remote B) as B2.
    pose proof (f_equal (fun x => audio_srtp_in x) B) as B3.
    pose proof (f_equal (fun x => video_srtp_in x) B) as B4.
    simpl in B1, B2, B3, B4.
    split; intros [|]; simpl; intros H; try congruence.
    + rewrite B2. apply (I true). simpl. congruence.
    + rewrite B2. apply (I false). simpl. congruence.
  - unfold janus_nosip_sdp_manipulate.
    pose proof (@manipulate_mlines_without_sdes G L (m_lines parsed) 0 m Hl)
      as E.
    destruct (manipulate_mlines _ _ _ _ _ _) as [m1 ls]. simpl in E |- *.
    subst m1. exact C.
Qed.

Lemma process_attribute_outbound L mt a m :
  outbound (process_attribute L mt a m) = outbound m.
Proof.
  unfold process_attribute.
  destruct (a_name a) as [name|]; [|reflexivity].
  destruct (strcaseeq name "crypto"); [|reflexivity].
  destruct (is_audio mt || is_video mt); [|reflexivity].
  destruct (match a_value a with Some v => _ | None => None end)
    as [[[tag suite] crypto]|]; [|reflexivity].
  destruct (_ =? 0); [|reflexivity].
  change (outbound (set_has_srtp_remote true ?x)) with (outbound x).
  match goal with
  | |- context [janus_nosip_srtp_set_remote L ?v ?c ?s ?x] =>
    destruct (@srtp_set_remote_other L v c s x) as (_ & _ & O & _)
  end.
  rewrite O. destruct (is_video mt); reflexivity.
Qed.

(** An attribute either changes nothing or raises [has_srtp_remote]. *)
Lemma process_attribute_raises L mt a m :
  process_attribute L mt a m = m
  \/ has_srtp_remote (process_attribute L mt a m) = true.
Proof.
  unfold process_attribute.
  destruct (a_name a) as [name|]; [|auto].
  destruct (strcaseeq name "crypto"); [|auto].
  destruct (is_audio mt || is_video mt); [|auto].
  destruct (match a_value a with Some v => _ | None => None end)
    as [[[tag suite] crypto]|]; [|auto].
  destruct (_ =? 0); auto.
Qed.

Lemma process_attributes_consistent L mt :
  forall attrs m,
    srtp_consistent m -> srtp_consistent (process_attributes L mt attrs m).
Proof.
  unfold process_attributes.
  induction attrs as [|a attrs IH]; intros m C; simpl; [exact C|].
  apply IH.
  pose proof (process_attribute_outbound L mt a m) as O.
  destruct (process_attribute_raises L mt a m) as [E|E];
    [rewrite E; exact C|].
  destruct C as [Co _]. unfold outbound in O. injection O as O1 O2 O3 _ _.
  split; intros [|]; simpl; intros H; try exact E.
  - rewrite O1. apply (Co true). simpl. congruence.
  - rewrite O1. apply (Co false). simpl. congruence.
Qed.

Lemma process_mline_consistent L answer update l m changed :
  srtp_consistent m ->
  srtp_consistent (fst (process_mline L answer update l (m, changed))).
Proof.
  intros C. unfold process_mline.
  destruct (negb _);
    [eapply srtp_consistent_ext; [|exact C]; reflexivity|].
  cbv zeta.
  assert (P : contexts
                (fst (process_port (is_video (m_type l)) l
                        (set_require_srtp
                           (require_srtp m
                            || match m_proto l with
                               | Some p => strcaseeq p "RTP/SAVP"
                               | None => false
                               end) m, changed)))
              = contexts m).
  { unfold process_port. destruct (negb _); destruct (is_video (m_type l));
      reflexivity. }
  destruct (process_port _ l _) as [m1 c1]. simpl fst in P.
  assert (C1 : srtp_consistent m1)
    by (eapply srtp_consistent_ext; [exact P|exact C]).
  assert (C2 : forall addr, srtp_consistent (set_remote_ip (Some addr) m1))
    by (intros addr; eapply srtp_consistent_ext; [|exact C1]; reflexivity).
  assert (Lp : forall m2, srtp_consistent m2 -> srtp_consistent (latch_pt l m2)).
  { intros m2 H. eapply srtp_consistent_ext; [|exact H].
    unfold latch_pt.
    destruct (_ >? -1); [destruct (is_audio (m_type l))|]; reflexivity. }
  destruct (m_c_addr l) as [addr|]; destruct update; destruct answer;
    cbn [fst]; auto using process_attributes_consistent.
Qed.

Lemma sdp_process_consistent L m parsed answer update changed :
  srtp_consistent m ->
  srtp_consistent
    (fst (fst (janus_nosip_sdp_process L m parsed answer update changed))).
Proof.
  intros C.
  destruct (sdp_process_shape L m parsed answer update changed)
    as (m0 & c0 & mf & cf & E0 & F & ->).
  assert (C0 : srtp_consistent m0).
  { subst m0. destruct (c_addr parsed); [|exact C].
    eapply srtp_consistent_ext; [|exact C]; reflexivity. }
  assert (Cf : srtp_consistent mf).
  { clear E0 C. revert m0 c0 F C0.
    induction (m_lines parsed) as [|l ls IH]; intros m0 c0 F C0;
      cbn [fold_left] in F.
    - inversion F; subst. exact C0.
    - pose proof (@process_mline_consistent L answer update l m0 c0 C0) as P.
      destruct (process_mline L answer update l (m0, c0)) as [m1 c1].
      eapply IH; [exact F|exact P]. }
  destruct (update && cf); [|exact Cf].
  eapply srtp_consistent_ext; [|exact Cf]; reflexivity.
Qed.

(** Contexts follow the flags.  On a session that has no outbound SRTP
    context without [has_srtp_local] and no inbound one without
    [has_srtp_remote], as a fresh session is, no [generate] or [process]
    request, whatever its outcome, leaves such a context behind. *)
Theorem handler_keeps_srtp_consistent G L w s msg r :
  srtp_consistent (media s) ->
  janus_nosip_handler G L w s msg = Some r ->
  srtp_consistent (media (h_session r)).
Proof.
  intros C H. destruct (generate msg) eqn:Hg.
  - apply handler_generate_cases in H; [|exact Hg].
    destruct H as [(S & _)
                  |(type & text & flags & s1 & _ & _ & _ & _ & St & H)];
      [rewrite S; exact C|].
    assert (C1 : srtp_consistent (media s1)).
    { apply srtp_step_generate in St; [|exact Hg].
      destruct St as [(_ & ->)|(_ & -> & _)]; [|exact C].
      apply srtp_cleanup_consistent. }
    destruct H as [(_ & S & _)|(parsed & _ & H)]; [rewrite S; exact C1|].
    apply handle_generate_cases in H.
    destruct H as (m1 & ret & es1 & A & H).
    apply allocate_local_ports_blank in A. destruct A as [A _].
    assert (Cm : srtp_consistent m1).
    { eapply srtp_consistent_ext; [|exact C1].
      pose proof (mark_negotiated_blank text (media s1)) as K.
      unfold contexts.
      pose proof (f_equal has_srtp_local A) as A1.
      pose proof (f_equal has_srtp_remote A) as A2.
      pose proof (f_equal (fun x => audio_srtp_out x) A) as A3.
      pose proof (f_equal (fun x => video_srtp_out x) A) as A4.
      pose proof (f_equal (fun x => audio_srtp_in x) A) as A5.
      pose proof (f_equal (fun x => video_srtp_in x) A) as A6.
      pose proof (f_equal has_srtp_local K) as K1.
      pose proof (f_equal has_srtp_remote K) as K2.
      pose proof (f_equal (fun x => audio_srtp_out x) K) as K3.
      pose proof (f_equal (fun x => video_srtp_out x) K) as K4.
      pose proof (f_equal (fun x => audio_srtp_in x) K) as K5.
      pose proof (f_equal (fun x => video_srtp_in x) K) as K6.
      simpl in *. congruence. }
    destruct H as [(_ & S & _)|(_ & m2 & parsed' & written & M & H)];
      [rewrite S; exact Cm|].
    pose proof (@sdp_manipulate_consistent G L m1 parsed Cm) as C2.
    rewrite M in C2. simpl in C2.
    destruct written as [out|]; destruct H as [S _]; rewrite S;
      [|exact C2].
    rewrite start_media_session.
    destruct (strcaseeq type "offer"); [exact C2|].
    eapply srtp_consistent_ext; [|exact C2]; reflexivity.
  - pose proof (handler_process_some G L w s msg Hg H) as Cs.
    destruct Cs as [(S & _)|(type & text & parsed & _ & _ & _ & Hp)];
      [rewrite S; exact C|].
    destruct (handle_process_some _ _ _ _ _ _ _ Hp) as (_ & Cs).
    assert (Ci : srtp_consistent
                   (ingested L s (strcaseeq type "offer") parsed)).
    { unfold ingested. apply sdp_process_consistent.
      destruct (strcaseeq type "offer"); [|exact C].
      pose proof (srtp_cleanup_consistent (media s) false false) as K.
      eapply srtp_consistent_ext; [|exact K]. reflexivity. }
    destruct Cs as [(_ & ->)|[(_ & _ & ->)|(_ & _ & S & _)]];
      try exact Ci.
    rewrite S, start_media_session.
    destruct (strcaseeq type "offer"); [exact Ci|].
    eapply srtp_consistent_ext; [|exact Ci]; reflexivity.
Qed.

(** ** The handler as a whole *)

Lemma allocate_loop_calls video :
  forall tr attempts m es e,
    forallb is_allocator_call es = true ->
    allocate_loop video attempts m tr es = Some e ->
    forallb is_allocator_call
            (match e with Loop_return _ es' => es' | Loop_done _ _ _ es' => es'
             end) = true.
Proof.
  induction tr as [|a tr IH]; intros attempts m es e Hes H; simpl in H.
  - destruct (negb _) in H; [inversion H; exact Hes|].
    destruct (attempts =? 0); [inversion H; exact Hes|discriminate].
  - destruct (negb _) in H; [inversion H; exact Hes|].
    destruct (attempts =? 0); [inversion H; exact Hes|].
    set (k := open_sockets a (kind_media video m)) in *.
    destruct ((k_rtp_fd k =? -1) || (k_rtcp_fd k =? -1)).
    + inversion H; subst. rewrite forallb_app, Hes. reflexivity.
    + destruct (os_bind_rtp a); simpl in H;
        [destruct (os_bind_rtcp a); simpl in H|];
        apply IH in H; auto;
        rewrite ?forallb_app, Hes; reflexivity.
Qed.

Lemma allocate_local_ports_calls w m m' ret es :
  janus_nosip_allocate_local_ports w m = Some (m', ret, es) ->
  forallb is_allocator_call es = true.
Proof.
  unfold janus_nosip_allocate_local_ports.
  assert (R : forallb is_allocator_call (snd (reset_status m)) = true).
  { unfold reset_status, reset_kind, reset_pipe. simpl.
    repeat match goal with |- context [if ?c then _ else _] => destruct c end;
      reflexivity. }
  destruct (reset_status m) as [m0 es0]. simpl in R. intros H.
  assert (A : forall video attempts mm tr ees e,
             forallb is_allocator_call ees = true ->
             (if k_has (kind_media video mm)
              then allocate_loop video attempts mm tr ees
              else Some (Loop_done attempts mm tr ees)) = Some e ->
             forallb is_allocator_call
                     (match e with
                      | Loop_return _ es' => es'
                      | Loop_done _ _ _ es' => es'
                      end) = true).
  { intros video attempts mm tr ees e Hes E.
    destruct (k_has (kind_media video mm)).
    - eapply allocate_loop_calls; eassumption.
    - inversion E; exact Hes. }
  destruct (if has_audio m0 then _ else _) as [e1|] eqn:A1 in H;
    [|discriminate].
  apply (A false) in A1; [|exact R].
  destruct e1 as [m1 es1|attempts m1 tr es1].
  { inversion H; subst. exact A1. }
  destruct (if has_video m1 then _ else _) as [e2|] eqn:A2 in H;
    [|discriminate].
  apply (A true) in A2; [|exact A1].
  destruct e2 as [m2 es2|attempts2 m2 tr2 es2]; inversion H; subst; exact A2.
Qed.

Lemma allocator_calls_filter (p : effect -> bool) es :
  (forall e, is_allocator_call e = true -> p e = false) ->
  forallb is_allocator_call es = true ->
  filter p es = [].
Proof.
  intros Hp. induction es as [|e es IH]; simpl; [reflexivity|].
  intros H. apply andb_true_iff in H. destruct H as [He Hes].
  rewrite (Hp e He). auto.
Qed.

Lemma notification_filter G L (p : effect -> bool) event :
  (forall ev, p (E_notify_event ev) = false) ->
  filter p (notification G L event) = [].
Proof.
  intros Hp. unfold notification.
  destruct (notify_events G && events_is_enabled L); simpl;
    rewrite ?Hp; reflexivity.
Qed.

Lemma relay_outcome_refused s code cause :
  relay_outcome s {| h_session := s; h_reply := Reply_error code cause;
                     h_effects := [] |}.
Proof. repeat split. Qed.

Lemma handle_generate_outcome G L w s offer text parsed r :
  handle_generate G L w s offer text parsed = Some r ->
  relay_outcome s r.
Proof.
  unfold handle_generate, fail. intros H.
  destruct (janus_nosip_allocate_local_ports w _)
    as [[[m1 ret] es1]|] eqn:A; [|discriminate].
  pose proof (allocate_local_ports_calls _ _ A) as Calls.
  apply allocate_local_ports_blank in A. destruct A as [A _].
  pose proof (mark_negotiated_blank text (media s)) as K.
  assert (M1 : ready m1 = ready (media s) /\ updated m1 = updated (media s)).
  { pose proof (f_equal ready A) as A1.
    pose proof (f_equal updated A) as A2.
    pose proof (f_equal ready K) as K1.
    pose proof (f_equal updated K) as K2.
    simpl in *. split; congruence. }
  destruct M1 as [M1r M1u].
  assert (Sp : filter is_spawn es1 = [])
    by (apply allocator_calls_filter; [intros []; simpl; congruence
                                      |exact Calls]).
  assert (Pw : filter is_pipe_write es1 = [])
    by (apply allocator_calls_filter; [intros []; simpl; congruence
                                      |exact Calls]).
  destruct (ret <? 0).
  { inversion H; subst. unfold relay_outcome. simpl. auto. }
  pose proof (sdp_manipulate_blank G L m1 parsed false) as B.
  destruct (janus_nosip_sdp_manipulate G L m1 parsed false)
    as [[m2 parsed'] written]. simpl in B.
  assert (M2 : ready m2 = ready (media s) /\ updated m2 = updated (media s)).
  { pose proof (f_equal ready B) as B1.
    pose proof (f_equal updated B) as B2.
    simpl in *. split; congruence. }
  destruct M2 as [M2r M2u].
  destruct written as [out|].
  2:{ inversion H; subst. unfold relay_outcome. simpl. auto. }
  unfold start_media in H.
  destruct offer; simpl in H; inversion H; subst; unfold relay_outcome; simpl;
    rewrite !filter_app, Sp, Pw,
      (@notification_filter G L is_spawn "generated"),
      (@notification_filter G L is_pipe_write "generated");
    auto.
Qed.

Lemma handle_process_outcome G L s offer type text parsed r :
  offer = strcaseeq type "offer" ->
  handle_process G L s offer type text parsed = Some r ->
  relay_outcome s r.
Proof.
  unfold handle_process, fail. intros Ho H.
  destruct (janus_nosip_sdp_process_faults L _ parsed (negb offer) false
                                           false); [discriminate|].
  pose proof (sdp_process_transport L
                (if offer then janus_nosip_srtp_cleanup (media s)
                 else media s) parsed (negb offer) false) as [T E].
  destruct (janus_nosip_sdp_process L _ parsed (negb offer) false false)
    as [[m1 c1] es1]. simpl in T, E. subst es1.
  assert (M1 : ready m1 = ready (media s) /\ updated m1 = updated (media s)).
  { assert (T' : transport m1 = transport (media s)).
    { rewrite T. destruct offer; [apply srtp_cleanup_transport|reflexivity]. }
    unfold transport in T'. inversion T'. auto. }
  destruct M1 as [M1r M1u].
  destruct (negb (has_audio m1) && negb (has_video m1)).
  { inversion H; subst. unfold relay_outcome. simpl. auto. }
  destruct (remote_ip m1).
  2:{ inversion H; subst. unfold relay_outcome. simpl. auto. }
  unfold start_media in H.
  destruct offer; simpl in H; inversion H; subst; unfold relay_outcome; simpl;
    rewrite <- Ho; simpl;
    rewrite ?filter_app,
      (@notification_filter G L is_spawn "processed"),
      (@notification_filter G L is_pipe_write "processed");
    auto.
Qed.

Lemma relay_outcome_from s s1 r :
  ready (media s1) = ready (media s) ->
  updated (media s1) = updated (media s) ->
  relay_outcome s1 r -> relay_outcome s r.
Proof. unfold relay_outcome. intros -> ->. auto. Qed.

Lemma handler_relay_outcome G L w s msg r :
  janus_nosip_handler G L w s msg = Some r -> relay_outcome s r.
Proof.
  intros H. destruct (generate msg) eqn:Hg.
  - apply handler_generate_cases in H; [|exact Hg].
    destruct H as [(S & E & code & cause & Rp & _)
                  |(type & text & flags & s1 & _ & Ht & _ & _ & St & H)].
    { unfold relay_outcome. rewrite S, E, Rp. simpl. auto. }
    assert (S1 : ready (media s1) = ready (media s)
                 /\ updated (media s1) = updated (media s)).
    { apply srtp_step_generate in St; [|exact Hg].
      destruct St as [(_ & ->)|(_ & -> & _)]; auto. }
    destruct S1 as [S1r S1u].
    destruct H as [(_ & S & E & cause & Rp)|(parsed & _ & H)].
    { unfold relay_outcome. rewrite S, E, Rp. simpl. auto. }
    apply handle_generate_outcome in H.
    eapply relay_outcome_from; eassumption.
  - pose proof (handler_process_some G L w s msg Hg H) as Cs.
    destruct Cs as [(S & E & code & cause & Rp & _)
                   |(type & text & parsed & _ & _ & _ & Hp)].
    { unfold relay_outcome. rewrite S, E, Rp. simpl. auto. }
    eapply handle_process_outcome; [reflexivity|exact Hp].
Qed.

(** Answers start the relay.  A request sets [ready] and starts a relay
    thread exactly when it succeeds and its [type] is not [offer], and then
    it starts one whether or not the session was [ready] already; any other
    request leaves [ready] as it was and starts none. *)
Theorem relay_started_by_answers G L w s msg r :
  janus_nosip_handler G L w s msg = Some r ->
  let answer :=
    match reply_type (h_reply r) with
    | None => false
    | Some type => negb (strcaseeq type "offer")
    end in
  ready (media (h_session r)) = (if answer then true else ready (media s))
  /\ filter is_spawn (h_effects r)
     = (if answer then [E_spawn_relay_thread] else []).
Proof.
  intros H. apply handler_relay_outcome in H.
  destruct H as (H1 & H2 & _). auto.
Qed.

(** No request passes the SDP on as an update: whatever the request, the
    [updated] flag is left as it was and nothing is written to the wake-up
    pipe of the relay thread. *)
Theorem handler_never_signals_update G L w s msg r :
  janus_nosip_handler G L w s msg = Some r ->
  updated (media (h_session r)) = updated (media s)
  /\ filter is_pipe_write (h_effects r) = [].
Proof.
  intros H. apply handler_relay_outcome in H.
  destruct H as (_ & _ & H3 & H4). auto.
Qed.

Lemma handle_generate_errors G L w s offer text parsed r code cause :
  handle_generate G L w s offer text parsed = Some r ->
  h_reply r = Reply_error code cause -> code = 448.
Proof.
  intros H Rp. apply handle_generate_cases in H.
  destruct H as (m1 & ret & es1 & _ & H).
  destruct H as [(_ & _ & c & E)|(_ & m2 & parsed' & written & _ & H)].
  - rewrite E in Rp. inversion Rp. reflexivity.
  - destruct written; destruct H as (_ & H).
    + rewrite H in Rp. discriminate.
    + destruct H as (c & E). rewrite E in Rp. inversion Rp. reflexivity.
Qed.

Lemma handle_process_errors G L s offer type text parsed r code cause :
  handle_process G L s offer type text parsed = Some r ->
  h_reply r = Reply_error code cause -> code = 447.
Proof.
  intros H Rp.
  destruct (handle_process_some _ _ _ _ _ _ _ H) as (_ & Cs).
  destruct Cs as [(_ & ->)|[(_ & _ & ->)|(_ & _ & _ & E)]]; simpl in Rp.
  - inversion Rp. reflexivity.
  - inversion Rp. reflexivity.
  - rewrite E in Rp. discriminate.
Qed.

(** Refusals that cost nothing.  A request answered with 443, 444 or 450,
    and a [process] request answered with 446, leaves the session exactly
    as it was and has no effect on the outside. *)
Theorem handler_refusal_leaves_session G L w s msg r code cause :
  janus_nosip_handler G L w s msg = Some r ->
  h_reply r = Reply_error code cause ->
  code = 443 \/ code = 444 \/ code = 450
  \/ (code = 446 /\ generate msg = false) ->
  h_session r = s /\ h_effects r = [].
Proof.
  intros H Rp Hc. destruct (generate msg) eqn:Hg.
  - apply handler_generate_cases in H; [|exact Hg].
    destruct H as [(S & E & _)
                  |(type & text & flags & s1 & _ & _ & _ & _ & _ & H)];
      [auto|].
    exfalso. destruct H as [(_ & _ & _ & c & E)|(parsed & _ & H)].
    + rewrite E in Rp. inversion Rp; subst.
      destruct Hc as [Hc|[Hc|[Hc|[_ Hc]]]]; discriminate.
    + pose proof (@handle_generate_errors _ _ _ _ _ _ _ _ _ _ H Rp) as ->.
      destruct Hc as [Hc|[Hc|[Hc|[Hc _]]]]; discriminate.
  - pose proof (handler_process_some G L w s msg Hg H) as Cs.
    destruct Cs as [(S & E & _)|(type & text & parsed & _ & _ & _ & Hp)];
      [auto|].
    exfalso.
    pose proof (@handle_process_errors _ _ _ _ _ _ _ _ _ _ Hp Rp) as ->.
    destruct Hc as [Hc|[Hc|[Hc|[Hc _]]]]; discriminate.
Qed.

(** A refusal that costs the keys.  When [generate] is asked for an offer
    and the parser rejects the SDP, the reply is error 446, yet the SRTP
    state of the session is already gone: [janus_nosip_srtp_cleanup] has
    run and the two flags are set as the request asked. *)
Theorem generate_offer_unparsed_clears_srtp G L w s msg type text do_srtp
    require :
  generate msg = true ->
  msg_sdp msg = Some text ->
  msg_sdp_type msg = Some type ->
  strcaseeq type "offer" = true ->
  strstr text "m=application" = false ->
  srtp_flags msg = Some (do_srtp, require) ->
  janus_sdp_parse L text = None ->
  janus_nosip_handler G L w s msg
  = Some {| h_session :=
              set_media
                (set_has_srtp_local do_srtp
                   (set_require_srtp require
                      (janus_nosip_srtp_cleanup (media s)))) s;
            h_reply := Reply_error 446 "Error parsing SDP";
            h_effects := [] |}.
Proof.
  intros Hg Hs Ht Ho App Fl Pa.
  unfold janus_nosip_handler, missing_mandatory.
  rewrite Hg, Hs, Ht, Ho, App, Fl. simpl.
  unfold srtp_step. rewrite Hg. rewrite Pa. reflexivity.
Qed.

(** ** The relay thread as a whole *)

Lemma relay_loop_ends have_server_ip pipe_fd :
  forall its s l es s' es',
    relay_loop have_server_ip pipe_fd its s l es = Some (s', es') ->
    exists s0, s' = fst (relay_teardown s0).
Proof.
  assert (T : forall s es s' es',
             (let (s1, es1) := relay_teardown s in Some (s1, es ++ es1))
             = Some (s', es') ->
             exists s0, s' = fst (relay_teardown s0)).
  { intros s es s' es' H. exists s.
    destruct (relay_teardown s) as [s1 es1]. inversion H. reflexivity. }
  induction its as [|it its IH]; intros s l es s' es' H; cbn [relay_loop] in H.
  - destruct (negb (goon l)); [eapply T; exact H|discriminate].
  - destruct (negb (goon l)); [eapply T; exact H|].
    change (destroyed (set_flags it s)) with (it_destroyed it) in H.
    change (hangingup (set_flags it s)) with (it_hangingup it) in H.
    destruct ((it_destroyed it =? 0) && (it_hangingup it =? 0));
      [|eapply T; exact H].
    destruct (if updated (media s) then _ else _) as [s1 es1].
    destruct (it_poll it) as [| | |answers].
    + eapply IH; exact H.
    + destruct (relay_teardown s1) as [s2 es2] eqn:E. inversion H; subst.
      exists s1. rewrite E. reflexivity.
    + eapply IH; exact H.
    + destruct (negb (destroyed s1 =? 0)); [eapply T; exact H|].
      destruct (relay_scan _ _ _ _) as [[s2 l2] es2].
      eapply IH; exact H.
Qed.

Lemma relay_teardown_torn_down s :
  let m' := media (fst (relay_teardown s)) in
  (forall video, kind_torn_down (kind_media video m'))
  /\ has_srtp_local m' = false /\ has_srtp_remote m' = false
  /\ require_srtp m' = false
  /\ pipefd0 m' <= 0 /\ pipefd1 m' <= 0.
Proof.
  unfold relay_teardown, reset_status, reset_kind, reset_pipe.
  cbv zeta. simpl.
  destruct (pipefd0 (media s) >? 0) eqn:P0;
    destruct (pipefd1 (media s) >? 0) eqn:P1; simpl;
    rewrite ?P1; simpl;
    (split; [intros [|]; repeat split|]);
    repeat split; try lia;
    try (rewrite Z.gtb_ltb in P0; apply Z.ltb_ge in P0; lia);
    try (rewrite Z.gtb_ltb in P1; apply Z.ltb_ge in P1; lia).
Qed.

(** What the relay thread leaves behind.  Whichever way the thread ends,
    the session has no descriptor, local port, local SSRC or SRTP context
    left for either kind, the three SRTP flags are down and neither end of
    the pipe is a descriptor above 0. *)
Theorem relay_thread_leaves_torn_down have_server_ip its s s' es :
  janus_nosip_relay_thread have_server_ip its s = Some (s', es) ->
  (forall video, kind_torn_down (kind_media video (media s')))
  /\ has_srtp_local (media s') = false
  /\ has_srtp_remote (media s') = false
  /\ require_srtp (media s') = false
  /\ pipefd0 (media s') <= 0 /\ pipefd1 (media s') <= 0.
Proof.
  unfold janus_nosip_relay_thread. intros H.
  apply relay_loop_ends in H. destruct H as (s0 & ->).
  apply relay_teardown_torn_down.
Qed.

(** The relay thread stops when asked.  If some turn finds the session
    destroyed or hanging up, the loop ends, at that turn at the latest,
    whatever the descriptors report before. *)
Theorem relay_loop_stops_when_asked have_server_ip pipe_fd :
  forall its s l es,
    Exists asked_to_stop its ->
    exists r, relay_loop have_server_ip pipe_fd its s l es = Some r.
Proof.
  assert (T : forall s es,
             exists r,
               (let (s1, es1) := relay_teardown s in Some (s1, es ++ es1))
               = Some r).
  { intros s es. destruct (relay_teardown s) as [s1 es1]. eauto. }
  induction its as [|it its IH]; intros s l es E; cbn [relay_loop].
  - inversion E.
  - destruct (negb (goon l)); [apply T|].
    change (destroyed (set_flags it s)) with (it_destroyed it).
    change (hangingup (set_flags it s)) with (it_hangingup it).
    destruct ((it_destroyed it =? 0) && (it_hangingup it =? 0)) eqn:Fl;
      [|apply T].
    assert (E' : Exists asked_to_stop its).
    { inversion E as [x xs [D|Hu]|]; subst; [| |assumption];
        apply andb_true_iff in Fl; destruct Fl as [F1 F2];
        apply Z.eqb_eq in F1, F2; contradiction. }
    destruct (if updated (media s) then _ else _) as [s1 es1].
    destruct (it_poll it) as [| | |answers].
    + apply IH. exact E'.
    + destruct (relay_teardown s1) as [s2 es2]. eauto.
    + apply IH. exact E'.
    + destruct (negb (destroyed s1 =? 0)); [apply T|].
      destruct (relay_scan _ _ _ _) as [[s2 l2] es2].
      apply IH. exact E'.
Qed.

(** The peer's SSRC follows the packets.  An RTP packet read from a socket
    sets the peer SSRC of its kind to the SSRC in its header before SRTP is
    consulted, so also when [srtp_unprotect] then refuses the packet; the
    other kind is left alone, and an RTCP packet changes nothing in the
    session. *)
Theorem relay_packet_latches_peer_ssrc fd a s l :
  let m := media s in
  let video := (fd =? video_rtp_fd m) || (fd =? video_rtcp_fd m) in
  let rtcp := (fd =? audio_rtcp_fd m) || (fd =? video_rtcp_fd m) in
  let s' := fst (fst (relay_packet fd a s l)) in
  if rtcp then s' = s
  else
    k_ssrc_peer (kind_media video (media s')) = rtp_ssrc (fa_buffer a)
    /\ k_ssrc_peer (kind_media (negb video) (media s'))
       = k_ssrc_peer (kind_media (negb video) m).
Proof.
  cbv zeta. unfold relay_packet.
  set (video := (fd =? video_rtp_fd (media s)) || (fd =? video_rtcp_fd (media s))).
  destruct ((fd =? audio_rtcp_fd (media s)) || (fd =? video_rtcp_fd (media s)));
    simpl negb; cbv iota.
  - destruct (has_srtp_remote (media s) && _); reflexivity.
  - destruct (negb (k_ssrc_peer (kind_media video (media s))
                    =? rtp_ssrc (fa_buffer a))) eqn:E.
    + destruct video; simpl;
        match goal with
        | |- context [if ?c then _ else _] => destruct c
        end; simpl; auto.
    + apply negb_false_iff, Z.eqb_eq in E.
      match goal with
      | |- context [if ?c then _ else _] => destruct c
      end; simpl; auto.
Qed.

Lemma int_of_guint32_diff_range a b :
  -2147483648 <= int_of_guint32_diff a b < 2147483648.
Proof.
  unfold int_of_guint32_diff.
  pose proof (Z.mod_pos_bound (a - b) 4294967296 ltac:(lia)).
  destruct (_ <? 2147483648) eqn:E;
    [apply Z.ltb_lt in E|apply Z.ltb_ge in E]; lia.
Qed.

Lemma note_timestamp_steps video timestamp l :
  0 <= astep l -> 0 <= vstep l ->
  0 <= astep (note_timestamp video timestamp l)
  /\ 0 <= vstep (note_timestamp video timestamp l)
  /\ goon (note_timestamp video timestamp l) = goon l.
Proof.
  intros Ha Hv. unfold note_timestamp.
  destruct video.
  - destruct (vts l =? 0); [simpl; auto|].
    destruct (vstep l =? 0); [|auto]. simpl.
    destruct (_ <? 0) eqn:E; [|apply Z.ltb_ge in E]; auto with zarith.
  - destruct (ats l =? 0); [simpl; auto|].
    destruct (astep l =? 0); [|auto]. simpl.
    destruct (_ <? 0) eqn:E; [|apply Z.ltb_ge in E]; auto with zarith.
Qed.

Lemma relay_packet_strides fd a s l :
  0 <= astep l -> 0 <= vstep l ->
  let '(_, l', es) := relay_packet fd a s l in
  0 <= astep l' /\ 0 <= vstep l' /\ goon l' = goon l
  /\ Forall stride_positive es.
Proof.
  intros Ha Hv. unfold relay_packet.
  set (video := (fd =? video_rtp_fd (media s)) || (fd =? video_rtcp_fd (media s))).
  destruct (negb ((fd =? audio_rtcp_fd (media s))
                  || (fd =? video_rtcp_fd (media s)))).
  - destruct (if negb _ then _ else _) as [m1 es1] eqn:E1.
    assert (F1 : Forall stride_positive es1).
    { destruct (negb _) in E1; inversion E1; subst; repeat constructor. }
    destruct (has_srtp_remote m1 && _).
    + repeat split; auto. apply Forall_app. split; [exact F1|].
      repeat constructor.
    + destruct (note_timestamp_steps video (rtp_timestamp (fa_buffer a)) l
                  Ha Hv) as (N1 & N2 & N3).
      repeat split; auto. apply Forall_app. split; [exact F1|].
      constructor; [|repeat constructor].
      simpl. destruct video.
      * destruct (vstep l =? 0) eqn:Z0; [lia|apply Z.eqb_neq in Z0; lia].
      * destruct (astep l =? 0) eqn:Z0; [lia|apply Z.eqb_neq in Z0; lia].
  - destruct (has_srtp_remote (media s) && _); repeat split; auto;
      repeat constructor.
Qed.

Lemma relay_fd_strides pipe_fd fd a s l :
  0 <= astep l -> 0 <= vstep l ->
  let '(_, l', es, _) := relay_fd pipe_fd fd a s l in
  0 <= astep l' /\ 0 <= vstep l' /\ Forall stride_positive es.
Proof.
  intros Ha Hv. unfold relay_fd.
  destruct (negb (Z.land (fa_revents a) (Z.lor POLLERR POLLHUP) =? 0)).
  - destruct (updated (media s)); [repeat split; auto|].
    destruct (fa_so_error a =? 0); [repeat split; auto|].
    destruct (fa_so_error a =? 111).
    + destruct (fd =? audio_rtcp_fd (media s));
        [|destruct (fd =? video_rtcp_fd (media s))];
        repeat split; auto; repeat constructor.
    + repeat split; auto; repeat constructor.
  - destruct (negb (Z.land (fa_revents a) POLLIN =? 0));
      [|repeat split; auto].
    destruct (negb (pipe_fd =? -1) && (fd =? pipe_fd));
      [repeat split; auto; repeat constructor|].
    destruct (fa_recv a <? 0); [repeat split; auto|].
    pose proof (@relay_packet_strides fd a s l Ha Hv) as P.
    destruct (relay_packet fd a s l) as [[s1 l1] es1]. tauto.
Qed.

Lemma relay_scan_strides pipe_fd :
  forall fds s l,
    0 <= astep l -> 0 <= vstep l ->
    let '(_, l', es) := relay_scan pipe_fd fds s l in
    0 <= astep l' /\ 0 <= vstep l' /\ Forall stride_positive es.
Proof.
  induction fds as [|[fd a] fds IH]; intros s l Ha Hv; cbn [relay_scan].
  - repeat split; auto.
  - pose proof (@relay_fd_strides pipe_fd fd a s l Ha Hv) as P.
    destruct (relay_fd pipe_fd fd a s l) as [[[s1 l1] es1] next].
    destruct P as (P1 & P2 & P3).
    destruct next; [|repeat split; auto].
    specialize (IH s1 l1 P1 P2).
    destruct (relay_scan pipe_fd fds s1 l1) as [[s2 l2] es2].
    destruct IH as (I1 & I2 & I3).
    repeat split; auto. apply Forall_app. auto.
Qed.

Lemma relay_teardown_strides s :
  Forall stride_positive (snd (relay_teardown s)).
Proof.
  unfold relay_teardown, reset_status, reset_kind, reset_pipe.
  cbv zeta. simpl.
  repeat match goal with |- context [if ?c then _ else _] => destruct c end;
    simpl; repeat constructor.
Qed.

Lemma relay_loop_strides have_server_ip pipe_fd :
  forall its s l es s' es',
    0 <= astep l -> 0 <= vstep l ->
    Forall stride_positive es ->
    relay_loop have_server_ip pipe_fd its s l es = Some (s', es') ->
    Forall stride_positive es'.
Proof.
  assert (T : forall s es s' es',
             Forall stride_positive es ->
             (let (s1, es1) := relay_teardown s in Some (s1, es ++ es1))
             = Some (s', es') ->
             Forall stride_positive es').
  { intros s es s' es' F H.
    pose proof (relay_teardown_strides s) as R.
    destruct (relay_teardown s) as [s1 es1]. inversion H; subst.
    apply Forall_app. auto. }
  induction its as [|it its IH]; intros s l es s' es' Ha Hv F H;
    cbn [relay_loop] in H.
  - destruct (negb (goon l)); [eapply T; eassumption|discriminate].
  - destruct (negb (goon l)); [eapply T; eassumption|].
    destruct (_ && _) in H; [|eapply T; eassumption].
    destruct (if updated (media (set_flags it s)) then _ else _)
      as [s1 es1] eqn:U.
    assert (F1 : Forall stride_positive es1).
    { destruct (updated _) in U; inversion U; subst; [|exact F].
      apply Forall_app. split; [exact F|].
      destruct (_ && _); repeat constructor. }
    destruct (it_poll it) as [| | |answers].
    + eapply IH; [exact Ha|exact Hv| |exact H].
      apply Forall_app. split; [exact F1|repeat constructor].
    + pose proof (relay_teardown_strides s1) as R.
      destruct (relay_teardown s1) as [s2 es2]. inversion H; subst.
      apply Forall_app. split; [exact F1|].
      constructor; [exact I|]. constructor; [exact I|exact R].
    + eapply IH; [exact Ha|exact Hv|exact F1|exact H].
    + destruct (negb (destroyed s1 =? 0)); [eapply T; eassumption|].
      pose proof (@relay_scan_strides pipe_fd
                    (combine (poll_fds pipe_fd (media s1)) answers) s1 l
                    Ha Hv) as P.
      destruct (relay_scan _ _ _ _) as [[s2 l2] es2].
      destruct P as (P1 & P2 & P3).
      eapply IH; [exact P1|exact P2| |exact H].
      apply Forall_app. auto.
Qed.

(** *** Which strides *)

Lemma strides_app video es1 es2 :
  strides video (es1 ++ es2) = strides video es1 ++ strides video es2.
Proof. unfold strides. apply flat_map_app. Qed.

Lemma stride_run_refl video l : stride_run video l [] l.
Proof.
  exists 0%nat, 0%nat. repeat split; auto.
Qed.

Lemma stride_run_trans video l xs1 l1 xs2 l2 :
  stride_run video l xs1 l1 -> stride_run video l1 xs2 l2 ->
  stride_run video l (xs1 ++ xs2) l2.
Proof.
  intros (n1 & k1 & E1 & A1 & B1) (n2 & k2 & E2 & A2 & B2).
  destruct (Z.eq_dec (noted_stride video l1) 0) as [Z0|N0].
  - rewrite (B1 Z0) in E1. cbn [repeat] in E1. rewrite app_nil_r in E1.
    exists (n1 + n2)%nat, k2. subst xs1 xs2.
    rewrite repeat_app, app_assoc. split; [reflexivity|].
    split; [|exact B2].
    intros N. destruct (A1 N) as [_ X]. congruence.
  - destruct (A2 N0) as [-> X]. cbn [repeat app] in E2.
    exists n1, (k1 + k2)%nat. subst xs1 xs2.
    rewrite X, repeat_app, app_assoc. split; [reflexivity|].
    split.
    + intros N. destruct (A1 N) as [Y1 Y2]. split; congruence.
    + intros Z0. congruence.
Qed.

Lemma note_timestamp_run bs video (vid : bool) b l :
  In b bs -> stride_locals bs video l ->
  let step :=
    if vid then (if vstep l =? 0 then 4500 else vstep l)
    else (if astep l =? 0 then 960 else astep l) in
  let l' := note_timestamp vid (rtp_timestamp b) l in
  stride_run video l (if Bool.eqb vid video then [step] else []) l'
  /\ stride_locals bs video l'.
Proof.
  intros Hb (I1 & I2 & I3). cbv zeta.
  assert (Same : forall l', noted_stride video l' = noted_stride video l ->
                            first_timestamp video l'
                            = first_timestamp video l ->
                            stride_locals bs video l').
  { intros l' E1 E2. unfold stride_locals. rewrite E1, E2. auto. }
  assert (Other : forall l', noted_stride video l' = noted_stride video l ->
                             stride_run video l [] l').
  { intros l' E1. exists 0%nat, 0%nat. repeat split; auto. }
  assert (One : forall l', noted_stride video l' = noted_stride video l ->
                           stride_run video l
                             [if noted_stride video l =? 0
                              then default_stride video
                              else noted_stride video l] l').
  { intros l' E1. destruct (Z.eqb_spec (noted_stride video l) 0) as [Z0|N0].
    - exists 1%nat, 0%nat. repeat split; auto; intros; congruence.
    - exists 0%nat, 1%nat. rewrite E1. repeat split; auto; intros; congruence. }
  unfold note_timestamp.
  destruct vid; destruct video; cbn [Bool.eqb];
    unfold noted_stride, first_timestamp, default_stride in *;
    cbn beta iota in *.
  - (* a video packet, the video locals *)
    destruct (Z.eqb_spec (vts l) 0) as [T0|T1].
    + split; [apply One; reflexivity|].
      unfold stride_locals, noted_stride, first_timestamp. simpl.
      repeat split; auto. intros _. exists b. auto.
    + destruct (Z.eqb_spec (vstep l) 0) as [S0|S1].
      * split.
        { exists 1%nat, 0%nat. simpl. repeat split; auto; intros; congruence. }
        unfold stride_locals, noted_stride, first_timestamp. simpl.
        destruct (_ <? 0) eqn:D; [repeat split; auto; lia|].
        apply Z.ltb_ge in D. repeat split; auto.
        intros _. destruct (I3 T1) as (b1 & Hb1 & E1).
        exists b1, b. rewrite <- E1. auto.
      * split; [apply One|apply Same]; reflexivity.
  - split; [apply Other|apply Same];
      destruct (vts l =? 0); try reflexivity;
      destruct (vstep l =? 0); reflexivity.
  - split; [apply Other|apply Same];
      destruct (ats l =? 0); try reflexivity;
      destruct (astep l =? 0); reflexivity.
  - (* an audio packet, the audio locals *)
    destruct (Z.eqb_spec (ats l) 0) as [T0|T1].
    + split; [apply One; reflexivity|].
      unfold stride_locals, noted_stride, first_timestamp. simpl.
      repeat split; auto. intros _. exists b. auto.
    + destruct (Z.eqb_spec (astep l) 0) as [S0|S1].
      * split.
        { exists 1%nat, 0%nat. simpl. repeat split; auto; intros; congruence. }
        unfold stride_locals, noted_stride, first_timestamp. simpl.
        destruct (_ <? 0) eqn:D; [repeat split; auto; lia|].
        apply Z.ltb_ge in D. repeat split; auto.
        intros _. destruct (I3 T1) as (b1 & Hb1 & E1).
        exists b1, b. rewrite <- E1. auto.
      * split; [apply One|apply Same]; reflexivity.
Qed.

Lemma relay_packet_run bs video fd a s l :
  In (fa_buffer a) bs -> stride_locals bs video l ->
  let '(_, l', es) := relay_packet fd a s l in
  stride_run video l (strides video es) l' /\ stride_locals bs video l'.
Proof.
  intros Hb I. unfold relay_packet.
  set (vid := (fd =? video_rtp_fd (media s)) || (fd =? video_rtcp_fd (media s))).
  destruct (negb ((fd =? audio_rtcp_fd (media s))
                  || (fd =? video_rtcp_fd (media s)))).
  - destruct (if negb _ then _ else _) as [m1 es1] eqn:E1.
    assert (F1 : strides video es1 = []).
    { destruct (negb _) in E1; inversion E1; subst; reflexivity. }
    destruct (has_srtp_remote m1 && _).
    + rewrite strides_app, F1. split; [apply stride_run_refl|exact I].
    + rewrite strides_app, F1. cbn [app strides flat_map].
      rewrite app_nil_r.
      exact (@note_timestamp_run bs video vid (fa_buffer a) l Hb I).
  - destruct (has_srtp_remote (media s) && _);
      (split; [apply stride_run_refl|exact I]).
Qed.

Lemma relay_fd_run bs video pipe_fd fd a s l :
  In (fa_buffer a) bs -> stride_locals bs video l ->
  let '(_, l', es, _) := relay_fd pipe_fd fd a s l in
  stride_run video l (strides video es) l' /\ stride_locals bs video l'.
Proof.
  intros Hb I. unfold relay_fd.
  assert (N : stride_run video l [] l /\ stride_locals bs video l)
    by (split; [apply stride_run_refl|exact I]).
  assert (Ns : stride_run video l [] (stop_going l)
               /\ stride_locals bs video (stop_going l)).
  { split; [exists 0%nat, 0%nat; destruct video; repeat split; auto|].
    destruct I as (I1 & I2 & I3). destruct video; repeat split; auto. }
  destruct (negb (Z.land (fa_revents a) (Z.lor POLLERR POLLHUP) =? 0)).
  - destruct (updated (media s)); [exact N|].
    destruct (fa_so_error a =? 0); [exact N|].
    destruct (fa_so_error a =? 111).
    + destruct (fd =? audio_rtcp_fd (media s));
        [|destruct (fd =? video_rtcp_fd (media s))]; exact N.
    + exact Ns.
  - destruct (negb (Z.land (fa_revents a) POLLIN =? 0)); [|exact N].
    destruct (negb (pipe_fd =? -1) && (fd =? pipe_fd)); [exact N|].
    destruct (fa_recv a <? 0); [exact N|].
    pose proof (@relay_packet_run bs video fd a s l Hb I) as P.
    destruct (relay_packet fd a s l) as [[s1 l1] es1]. exact P.
Qed.

Lemma relay_scan_run bs video pipe_fd :
  forall fds s l,
    (forall fd a, In (fd, a) fds -> In (fa_buffer a) bs) ->
    stride_locals bs video l ->
    let '(_, l', es) := relay_scan pipe_fd fds s l in
    stride_run video l (strides video es) l' /\ stride_locals bs video l'.
Proof.
  induction fds as [|[fd a] fds IH]; intros s l Sub I; cbn [relay_scan].
  - split; [apply stride_run_refl|exact I].
  - assert (Hb : In (fa_buffer a) bs) by (apply (Sub fd); left; reflexivity).
    pose proof (@relay_fd_run bs video pipe_fd fd a s l Hb I) as P.
    destruct (relay_fd pipe_fd fd a s l) as [[[s1 l1] es1] next].
    destruct P as (P1 & P2).
    destruct next; [|auto].
    assert (Sub' : forall fd' a', In (fd', a') fds -> In (fa_buffer a') bs)
      by (intros fd' a' H; apply (Sub fd'); right; exact H).
    specialize (IH s1 l1 Sub' P2).
    destruct (relay_scan pipe_fd fds s1 l1) as [[s2 l2] es2].
    destruct IH as (Q1 & Q2).
    rewrite strides_app. split; [|exact Q2].
    eapply stride_run_trans; eassumption.
Qed.

Lemma relay_teardown_no_strides video s :
  strides video (snd (relay_teardown s)) = [].
Proof.
  unfold relay_teardown, reset_status, reset_kind, reset_pipe.
  cbv zeta. simpl.
  repeat match goal with |- context [if ?c then _ else _] => destruct c end;
    reflexivity.
Qed.

Lemma relay_loop_run bs video have_server_ip pipe_fd :
  forall its s l es s' es',
    (forall b, In b (received its) -> In b bs) ->
    stride_locals bs video l ->
    relay_loop have_server_ip pipe_fd its s l es = Some (s', es') ->
    exists xs l',
      strides video es' = strides video es ++ xs
      /\ stride_run video l xs l'
      /\ stride_locals bs video l'.
Proof.
  assert (T : forall s l es s' es',
             stride_locals bs video l ->
             (let (s1, es1) := relay_teardown s in Some (s1, es ++ es1))
             = Some (s', es') ->
             exists xs l',
               strides video es' = strides video es ++ xs
               /\ stride_run video l xs l'
               /\ stride_locals bs video l').
  { intros s l es s' es' I H.
    pose proof (relay_teardown_no_strides video s) as R.
    destruct (relay_teardown s) as [s1 es1]. inversion H; subst.
    exists [], l. rewrite strides_app. simpl in R. rewrite R.
    split; [reflexivity|]. split; [apply stride_run_refl|exact I]. }
  induction its as [|it its IH]; intros s l es s' es' Sub I H;
    cbn [relay_loop] in H.
  - destruct (negb (goon l)); [eapply T; eassumption|discriminate].
  - destruct (negb (goon l)); [eapply T; eassumption|].
    destruct (_ && _) in H; [|eapply T; eassumption].
    destruct (if updated (media (set_flags it s)) then _ else _)
      as [s1 es1] eqn:U.
    assert (F1 : strides video es1 = strides video es).
    { destruct (updated _) in U; inversion U; subst; [|reflexivity].
      rewrite strides_app. destruct (_ && _); simpl; apply app_nil_r. }
    assert (Sub' : forall b, In b (received its) -> In b bs).
    { intros b Hb. apply Sub. unfold received. cbn [flat_map].
      apply in_or_app. right. exact Hb. }
    destruct (it_poll it) as [| | |answers] eqn:Po.
    + apply IH in H; [|exact Sub'|exact I].
      destruct H as (xs & l' & E & R & I').
      exists xs, l'. rewrite E, strides_app, F1. simpl.
      rewrite app_nil_r. auto.
    + pose proof (relay_teardown_no_strides video s1) as R.
      destruct (relay_teardown s1) as [s2 es2]. inversion H; subst.
      exists [], l. rewrite !strides_app, F1. simpl in R |- *. rewrite R.
      split; [reflexivity|]. split; [apply stride_run_refl|exact I].
    + apply IH in H; [|exact Sub'|exact I].
      destruct H as (xs & l' & E & R & I').
      exists xs, l'. rewrite E, F1. auto.
    + destruct (negb (destroyed s1 =? 0)).
      { destruct (T _ _ _ _ _ I H) as (xs & l' & E & R & I').
        exists xs, l'. rewrite E, F1. auto. }
      assert (Sc : forall fd a,
                 In (fd, a) (combine (poll_fds pipe_fd (media s1)) answers) ->
                 In (fa_buffer a) bs).
      { intros fd a Hc. apply in_combine_r in Hc. apply Sub.
        unfold received. cbn [flat_map]. rewrite Po.
        apply in_or_app. left. apply in_map. exact Hc. }
      pose proof (@relay_scan_run bs video pipe_fd _ s1 l Sc I) as P.
      destruct (relay_scan _ _ _ _) as [[s2 l2] es2].
      destruct P as (P1 & P2).
      apply IH in H; [|exact Sub'|exact P2].
      destruct H as (xs & l' & E & R & I').
      exists (strides video es2 ++ xs), l'.
      rewrite E, strides_app, F1, app_assoc.
      split; [reflexivity|]. split; [|exact I'].
      eapply stride_run_trans; eassumption.
Qed.

(** The stride handed to [janus_rtp_header_update] is always positive.  For
    each kind the strides handed over are, in order, 960 for audio and 4500
    for video some number of times and then, from the packet after the one
    at which a stride is noted, that stride every time: a positive
    difference, as an [int], between the timestamps of two packets
    received; a difference that is negative as an [int] is never noted. *)
Theorem relay_thread_strides_positive have_server_ip its s s' es :
  janus_nosip_relay_thread have_server_ip its s = Some (s', es) ->
  Forall stride_positive es
  /\ forall video : bool,
       exists n k d,
         strides video es
         = repeat (default_stride video) n ++ repeat d k
         /\ 0 < d
         /\ (k <> 0%nat -> timestamp_difference (received its) d).
Proof.
  unfold janus_nosip_relay_thread. intros H. split.
  - eapply relay_loop_strides; [| | |exact H]; simpl; try lia.
    destruct have_server_ip; repeat constructor.
  - intros video.
    apply (@relay_loop_run (received its) video) in H; [|auto|].
    + destruct H as (xs & l' & E & (n & k & X & _ & K0) & (I1 & I2 & _)).
      assert (E0 : strides video
                     (if have_server_ip then [E_connect_sockets] else [])
                   = []) by (destruct have_server_ip; reflexivity).
      rewrite E0 in E. cbn [app] in E.
      destruct (Z.eq_dec (noted_stride video l') 0) as [Z0|N0].
      * exists n, 0%nat, 1. rewrite E, X, (K0 Z0).
        split; [reflexivity|]. split; [lia|]. intros N. contradiction.
      * exists n, k, (noted_stride video l'). rewrite E, X.
        split; [reflexivity|]. split; [lia|]. intros _. exact (I2 N0).
    + destruct video; unfold stride_locals, noted_stride, first_timestamp;
        simpl; repeat split; try lia; intros N; contradiction.
Qed.

(** ** RTCP from the WebRTC side *)

(** RTCP passes the direction gate.  Whether the peer asked not to be sent
    media of a kind has no bearing on [janus_nosip_incoming_rtcp]: with the
    gate of the kind set either way the callback makes the same calls. *)
Theorem incoming_rtcp_ignores_direction P h s (video gate : bool) len a :
  plugin_handle h = Some s ->
  let gated :=
    set_media
      (set_kind_media video (set_k_send gate (kind_media video (media s)))
                      (media s)) s in
  janus_nosip_incoming_rtcp P
    (Some {| stopped := stopped h; plugin_handle := Some gated |}) video len a
  = janus_nosip_incoming_rtcp P (Some h) video len a.
Proof.
  intros Hs. cbv zeta. unfold janus_nosip_incoming_rtcp. rewrite Hs.
  destruct video; reflexivity.
Qed.

(** ** Configuration *)

Lemma init_rtp_port_range_ordered atoi value lo hi :
  0 <= lo <= 65535 -> 0 <= hi <= 65535 ->
  let (lo', hi') := init_rtp_port_range atoi value (lo, hi) in
  0 <= lo' <= hi' /\ 0 < hi' <= 65535.
Proof.
  intros Hlo Hhi. unfold init_rtp_port_range, uint16.
  destruct (strrchr_dash value) as [[before maxport]|].
  - pose proof (Z.mod_pos_bound (atoi before) 65536 ltac:(lia)).
    pose proof (Z.mod_pos_bound (atoi maxport) 65536 ltac:(lia)).
    destruct (_ >? _) eqn:E;
      [apply Z.gtb_lt in E|rewrite Z.gtb_ltb in E; apply Z.ltb_ge in E];
      cbv beta iota zeta;
      match goal with
      | |- context [if ?x =? 0 then _ else _] => destruct (Z.eqb_spec x 0)
      end; lia.
  - destruct (_ >? _) eqn:E;
      [apply Z.gtb_lt in E|rewrite Z.gtb_ltb in E; apply Z.ltb_ge in E];
      cbv beta iota zeta;
      match goal with
      | |- context [if ?x =? 0 then _ else _] => destruct (Z.eqb_spec x 0)
      end; lia.
Qed.

(** The port range after [janus_nosip_init].  Starting from a range that is
    ordered, with both ends in a [uint16_t] and an upper end above 0, as the
    initial 10000-60000 is, the range the call leaves is again such a
    range, whatever the configuration file says and whatever [atoi] makes
    of it; and the local address is set. *)
Theorem init_leaves_ordered_range a config st :
  0 <= st_rtp_range_min st <= st_rtp_range_max st ->
  0 < st_rtp_range_max st <= 65535 ->
  let st' := snd (janus_nosip_init a config st) in
  0 <= st_rtp_range_min st' <= st_rtp_range_max st'
  /\ 0 < st_rtp_range_max st' <= 65535
  /\ st_local_ip st' <> None.
Proof.
  intros Hlo Hhi. cbv zeta. unfold janus_nosip_init.
  set (st1 := match config with Some cfg => _ | None => st end).
  assert (R : 0 <= st_rtp_range_min st1 <= st_rtp_range_max st1
              /\ 0 < st_rtp_range_max st1 <= 65535).
  { subst st1. destruct config as [cfg|]; [|auto].
    destruct (cfg_rtp_port_range cfg) as [value|]; simpl; [|auto].
    pose proof (@init_rtp_port_range_ordered (ia_atoi a) value
                  (st_rtp_range_min st) (st_rtp_range_max st)
                  ltac:(lia) ltac:(lia)) as O.
    destruct (init_rtp_port_range _ _ _) as [lo' hi']. simpl. exact O. }
  clearbody st1.
  destruct (negb (ia_watchdog_started a) || negb (ia_handler_started a));
    simpl; repeat split; try tauto; discriminate.
Qed.

(** ** The session table *)

Lemma store_at_same (A : Type) (f : Z -> A) k v : store_at f k v k = v.
Proof. unfold store_at. rewrite Z.eqb_refl. reflexivity. Qed.

Lemma store_at_other (A : Type) (f : Z -> A) k v x :
  x <> k -> store_at f k v x = f x.
Proof.
  intros H. unfold store_at. apply Z.eqb_neq in H. rewrite H. reflexivity.
Qed.

Lemma g_hash_table_contains_In keys handle :
  g_hash_table_contains keys handle = true <-> In handle keys.
Proof.
  unfold g_hash_table_contains. rewrite existsb_exists. split.
  - intros (x & I & E). apply Z.eqb_eq in E. subst. exact I.
  - intros I. exists handle. split; [exact I|apply Z.eqb_refl].
Qed.

Lemma g_hash_table_insert_In keys handle h :
  In h (g_hash_table_insert keys handle) <-> h = handle \/ In h keys.
Proof.
  unfold g_hash_table_insert.
  destruct (g_hash_table_contains keys handle) eqn:C.
  - apply g_hash_table_contains_In in C. split; [auto|].
    intros [->|I]; assumption.
  - simpl. split; intros [E|I]; auto.
Qed.

Lemma g_hash_table_remove_In keys handle h :
  In h (g_hash_table_remove keys handle) <-> h <> handle /\ In h keys.
Proof.
  unfold g_hash_table_remove. rewrite filter_In, negb_true_iff, Z.eqb_neq.
  tauto.
Qed.

(** A session found by [janus_nosip_lookup_session] in a table that keeps
    the discipline. *)
Lemma lookup_session_found t handle :
  table_ok t ->
  janus_nosip_lookup_session t handle <> 0 ->
  In handle (tb_sessions t)
  /\ janus_nosip_lookup_session t handle = tb_plugin_handle t handle
  /\ exists s, tb_heap t (tb_plugin_handle t handle) = Some s
               /\ destroyed s = 0.
Proof.
  intros (I & _) H. unfold janus_nosip_lookup_session in *.
  destruct (g_hash_table_contains _ _) eqn:C; [|contradiction].
  apply g_hash_table_contains_In in C.
  destruct (I handle C) as (_ & S). auto.
Qed.

(** Rewriting the struct of a handle in the table, keeping it alive. *)
Lemma table_ok_store t handle s' :
  table_ok t ->
  In handle (tb_sessions t) ->
  destroyed s' = 0 ->
  table_ok (set_tb_heap
              (store_at (tb_heap t) (tb_plugin_handle t handle) (Some s')) t).
Proof.
  intros (I & Lk & K & N) Hin Hd.
  set (p := tb_plugin_handle t handle).
  destruct (I handle Hin) as (_ & s0 & Hs0 & Hd0).
  split; [|split; [|split]]; simpl.
  - intros h Hh. destruct (I h Hh) as (P0 & s & Hs & Hds).
    split; [exact P0|].
    destruct (Z.eq_dec (tb_plugin_handle t h) p) as [E|E].
    + rewrite E, store_at_same. eauto.
    + rewrite store_at_other by exact E. eauto.
  - exact Lk.
  - intros q Hq. destruct (K q Hq) as (Q0 & s & Hs & Hds).
    split; [exact Q0|].
    destruct (Z.eq_dec q p) as [E|E].
    + exfalso. subst q. fold p in Hs0. congruence.
    + rewrite store_at_other by exact E. eauto.
  - exact N.
Qed.

Lemma create_session_ok t handle fresh :
  table_ok t -> fresh <> 0 -> tb_heap t fresh = None ->
  table_ok (snd (create_session t handle fresh)).
Proof.
  intros Ok F0 Ff. unfold create_session.
  destruct (not_running t); [exact Ok|].
  destruct Ok as (I & Lk & K & N).
  assert (Live : forall h, In h (tb_sessions t) ->
                           tb_plugin_handle t h <> fresh).
  { intros h Hh E. destruct (I h Hh) as (_ & s & Hs & _).
    rewrite E in Hs. congruence. }
  split; [|split; [|split]]; simpl.
  - intros h Hh. apply g_hash_table_insert_In in Hh.
    destruct (Z.eq_dec h handle) as [->|Ne].
    + rewrite !store_at_same. split; [exact F0|]. eauto.
    + destruct Hh as [E|Hh]; [contradiction|].
      rewrite (store_at_other _ _ Ne).
      rewrite (store_at_other _ _ (Live h Hh)). apply I. exact Hh.
  - intros h h' Hh Hh' E. apply g_hash_table_insert_In in Hh, Hh'.
    destruct (Z.eq_dec h handle) as [->|Ne];
      destruct (Z.eq_dec h' handle) as [->|Ne']; [reflexivity| | |].
    + exfalso. rewrite store_at_same, (store_at_other _ _ Ne') in E.
      destruct Hh' as [E'|Hh']; [contradiction|].
      apply (Live h' Hh'). congruence.
    + exfalso. rewrite store_at_same, (store_at_other _ _ Ne) in E.
      destruct Hh as [E'|Hh]; [contradiction|].
      apply (Live h Hh). congruence.
    + rewrite (store_at_other _ _ Ne), (store_at_other _ _ Ne') in E.
      destruct Hh as [E'|Hh]; [contradiction|].
      destruct Hh' as [E'|Hh']; [contradiction|]. auto.
  - intros p Hp. destruct (K p Hp) as (P0 & s & Hs & Hd).
    split; [exact P0|].
    rewrite store_at_other by congruence. eauto.
  - exact N.
Qed.

(** What [janus_nosip_hangup_media_internal] does to a table that keeps the
    discipline: it is defined, and only the struct of the handle may
    change, which stays alive. *)
Lemma hangup_media_ok t handle :
  table_ok t ->
  exists t' calls,
    janus_nosip_hangup_media_internal t handle = Some (t', calls)
    /\ table_ok t'
    /\ tb_state t' = tb_state t
    /\ tb_sessions t' = tb_sessions t
    /\ tb_plugin_handle t' = tb_plugin_handle t
    /\ tb_old_sessions t' = tb_old_sessions t
    /\ (forall p, p <> tb_plugin_handle t handle ->
                  tb_heap t' p = tb_heap t p).
Proof.
  intros Ok. unfold janus_nosip_hangup_media_internal.
  destruct (not_running t); [eauto 10|].
  destruct (janus_nosip_lookup_session t handle =? 0) eqn:Z0; [eauto 10|].
  apply Z.eqb_neq in Z0.
  destruct (lookup_session_found _ Ok Z0) as (Hin & -> & s & Hs & Hd).
  rewrite Hs, Hd. simpl.
  destruct (hangingup s =? 0); simpl;
    eexists; eexists; (split; [reflexivity|]);
    (split; [apply table_ok_store; [exact Ok|exact Hin|exact Hd]|]);
    simpl; repeat split; auto;
    intros p Hp; apply store_at_other; exact Hp.
Qed.

Lemma setup_media_ok t handle :
  table_ok t ->
  exists t' calls,
    janus_nosip_setup_media t handle = Some (t', calls) /\ table_ok t'.
Proof.
  intros Ok. unfold janus_nosip_setup_media.
  destruct (not_running t); [eauto|].
  destruct (janus_nosip_lookup_session t handle =? 0) eqn:Z0; [eauto|].
  apply Z.eqb_neq in Z0.
  destruct (lookup_session_found _ Ok Z0) as (Hin & -> & s & Hs & Hd).
  rewrite Hs, Hd. simpl.
  eexists; eexists; split; [reflexivity|].
  apply table_ok_store; [exact Ok|exact Hin|exact Hd].
Qed.

Lemma query_session_ok t handle :
  table_ok t ->
  exists r, janus_nosip_query_session t handle = Some r.
Proof.
  intros Ok. unfold janus_nosip_query_session.
  destruct (not_running t); [eauto|].
  destruct (janus_nosip_lookup_session t handle =? 0) eqn:Z0; [eauto|].
  apply Z.eqb_neq in Z0.
  destruct (lookup_session_found _ Ok Z0) as (Hin & -> & s & Hs & Hd).
  rewrite Hs. eauto.
Qed.

Lemma destroy_session_ok t handle now :
  table_ok t -> now <> 0 ->
  exists r,
    janus_nosip_destroy_session t handle now = Some r
    /\ table_ok (snd (fst r)).
Proof.
  intros Ok Hnow. unfold janus_nosip_destroy_session.
  destruct (not_running t); [eauto|].
  destruct (janus_nosip_lookup_session t handle =? 0) eqn:Z0; [eauto|].
  apply Z.eqb_neq in Z0.
  destruct (lookup_session_found _ Ok Z0) as (Hin & E & s & Hs & Hd).
  rewrite E, Hs, Hd. simpl.
  destruct (hangup_media_ok handle Ok)
    as (t1 & calls & Hh & Ok1 & E1 & E2 & E3 & E4 & E5).
  rewrite Hh.
  destruct Ok1 as (I & Lk & K & N).
  assert (Hin1 : In handle (tb_sessions t1)) by (rewrite E2; exact Hin).
  destruct (I handle Hin1) as (P0 & s1 & Hs1 & Hd1).
  rewrite E3 in Hs1, P0. rewrite Hs1.
  eexists. split; [reflexivity|]. simpl.
  set (p := tb_plugin_handle t handle) in *.
  split; [|split; [|split]]; simpl.
  - intros h Hh'. apply g_hash_table_remove_In in Hh'.
    destruct Hh' as [Ne Hh']. destruct (I h Hh') as (Q0 & s2 & Hs2 & Hd2).
    split; [exact Q0|].
    rewrite store_at_other; [eauto|].
    intros Ep. apply Ne. apply Lk; [exact Hh'|exact Hin1|].
    rewrite Ep, E3. reflexivity.
  - intros h h' Hh' Hh'' Eq. apply g_hash_table_remove_In in Hh', Hh''.
    apply Lk; tauto.
  - intros q Hq. apply in_app_iff in Hq. destruct Hq as [Hq|[<-|[]]].
    + destruct (K q Hq) as (Q0 & s2 & Hs2 & Hd2). split; [exact Q0|].
      rewrite store_at_other; [eauto|]. intros ->. congruence.
    + split; [exact P0|]. rewrite store_at_same. eauto.
  - apply NoDup_app; [exact N|repeat constructor; auto| ].
    intros q Hq [<-|[]].
    destruct (K p Hq) as (_ & s2 & Hs2 & Hd2). congruence.
Qed.

Lemma reap_ok now :
  forall sl heap,
    NoDup sl ->
    (forall p, In p sl -> p <> 0 /\ exists s, heap p = Some s) ->
    exists heap' calls,
      reap now sl heap = Some (filter (in_grace now heap) sl, heap', calls)
      /\ (forall p, heap' p
                    = if existsb (Z.eqb p) sl && negb (in_grace now heap p)
                      then None else heap p).
Proof.
  induction sl as [|p rest IH]; intros heap N Live; cbn [reap filter].
  - exists heap, []. split; [reflexivity|]. intros p. reflexivity.
  - inversion N as [|p0 rest0 Np Nrest]; subst.
    destruct (Live p (or_introl eq_refl)) as (P0 & s & Hs).
    apply Z.eqb_neq in P0. rewrite P0. rewrite Hs.
    unfold in_grace at 1. rewrite Hs.
    destruct (now - destroyed s >=? grace_period) eqn:Ex; cbn [negb].
    + (* freed: the rest is scanned with the struct gone *)
      destruct (IH (store_at heap p None) Nrest) as (heap' & calls & R & Hh).
      { intros q Hq. destruct (Live q (or_intror Hq)) as (Q0 & s' & Hs').
        split; [exact Q0|]. exists s'.
        rewrite store_at_other; [exact Hs'|]. intros ->. contradiction. }
      assert (Fe : filter (in_grace now (store_at heap p None)) rest
                   = filter (in_grace now heap) rest).
      { apply filter_ext_in. intros q Hq. unfold in_grace.
        rewrite store_at_other; [reflexivity|]. intros ->. contradiction. }
      rewrite R, Fe. eexists; eexists. split; [reflexivity|].
      intros q. rewrite Hh. cbn [existsb].
      destruct (Z.eqb_spec q p) as [->|Ne].
      * cbn [orb]. unfold in_grace at 2. rewrite Hs, Ex. cbn [negb andb].
        rewrite store_at_same.
        destruct (existsb (Z.eqb p) rest && _); reflexivity.
      * cbn [orb]. unfold in_grace at 1. rewrite (store_at_other _ _ Ne).
        fold (in_grace now heap q). reflexivity.
    + destruct (IH heap Nrest) as (heap' & calls & R & Hh).
      { intros q Hq. apply Live. right. exact Hq. }
      rewrite R. eexists; eexists. split; [reflexivity|].
      intros q. rewrite Hh. cbn [existsb].
      destruct (Z.eqb_spec q p) as [->|Ne]; [|reflexivity].
      cbn [orb]. unfold in_grace. rewrite Hs, Ex. cbn [negb andb].
      rewrite andb_false_r. reflexivity.
Qed.

(** One turn of the watchdog on a table that keeps the discipline: it is
    defined, it keeps from [old_sessions], in order, exactly the structs
    marked destroyed less than five seconds before and frees the others,
    and it touches nothing else. *)
Lemma watchdog_ok t now :
  table_ok t ->
  exists t' calls,
    janus_nosip_watchdog t now = Some (t', calls)
    /\ table_ok t'
    /\ tb_state t' = tb_state t
    /\ tb_sessions t' = tb_sessions t
    /\ tb_plugin_handle t' = tb_plugin_handle t
    /\ tb_old_sessions t'
       = filter (in_grace now (tb_heap t)) (tb_old_sessions t)
    /\ (forall p, tb_heap t' p
                  = if existsb (Z.eqb p) (tb_old_sessions t)
                       && negb (in_grace now (tb_heap t) p)
                    then None else tb_heap t p).
Proof.
  intros Ok. pose proof Ok as (I & Lk & K & N).
  unfold janus_nosip_watchdog.
  destruct (tb_old_sessions t) as [|p0 rest] eqn:Old.
  - exists t, []. split; [reflexivity|]. split; [exact Ok|].
    repeat split; simpl; auto.
  - rewrite <- Old in *.
    destruct (@reap_ok now (tb_old_sessions t) (tb_heap t) N)
      as (heap' & calls & R & Hh).
    { intros p Hp. destruct (K p Hp) as (P0 & s & Hs & _). eauto. }
    rewrite R. eexists; eexists. split; [reflexivity|].
    split; [|simpl; repeat split; auto].
    split; [|split; [|split]]; simpl.
    + intros h Hin. destruct (I h Hin) as (P0 & s & Hs & Hd).
      split; [exact P0|]. exists s. split; [|exact Hd].
      rewrite Hh.
      destruct (existsb _ _) eqn:Ex; [|exact Hs].
      exfalso. apply existsb_exists in Ex. destruct Ex as (q & Hq & E).
      apply Z.eqb_eq in E. subst q.
      destruct (K _ Hq) as (_ & s' & Hs' & Hd'). congruence.
    + exact Lk.
    + intros p Hp. apply filter_In in Hp. destruct Hp as [Hp G].
      destruct (K p Hp) as (P0 & s & Hs & Hd).
      split; [exact P0|]. exists s. split; [|exact Hd].
      rewrite Hh, G. cbn [negb]. rewrite andb_false_r. exact Hs.
    + apply NoDup_filter. exact N.
Qed.

Lemma handler_keeps_destroyed G L w s msg r :
  janus_nosip_handler G L w s msg = Some r ->
  destroyed (h_session r) = destroyed s.
Proof.
  intros H. destruct (generate msg) eqn:Hg.
  - apply handler_generate_cases in H; [|exact Hg].
    destruct H as [(S & _)
                  |(type & text & flags & s1 & _ & _ & _ & _ & St & H)];
      [rewrite S; reflexivity|].
    assert (D1 : destroyed s1 = destroyed s).
    { apply srtp_step_generate in St; [|exact Hg].
      destruct St as [(_ & ->)|(_ & -> & _)]; reflexivity. }
    destruct H as [(_ & S & _)|(parsed & _ & H)]; [rewrite S; exact D1|].
    apply handle_generate_cases in H.
    destruct H as (m1 & ret & es1 & _ & H).
    destruct H as [(_ & S & _)|(_ & m2 & parsed' & written & _ & H)];
      [rewrite S; exact D1|].
    destruct written as [out|]; destruct H as [S _]; rewrite S;
      [|exact D1].
    rewrite start_media_session.
    destruct (strcaseeq type "offer"); exact D1.
  - pose proof (handler_process_some G L w s msg Hg H) as Cs.
    destruct Cs as [(S & _)|(type & text & parsed & _ & _ & _ & Hp)];
      [rewrite S; reflexivity|].
    destruct (handle_process_some _ _ _ _ _ _ _ Hp) as (_ & Cs).
    destruct Cs as [(_ & ->)|[(_ & _ & ->)|(_ & _ & S & _)]];
      try reflexivity.
    rewrite S, start_media_session.
    destruct (strcaseeq type "offer"); reflexivity.
Qed.

Lemma handle_queued_ok G L w t handle msg :
  table_ok t ->
  (forall s, janus_nosip_handler G L w s msg <> None) ->
  exists r,
    handle_queued G L w t handle msg = Some r
    /\ table_ok (fst (fst r)).
Proof.
  intros Ok Cover. unfold handle_queued, handler_session.
  destruct (handle =? 0); [eauto|].
  destruct (janus_nosip_lookup_session t handle =? 0) eqn:Z0; [eauto|].
  apply Z.eqb_neq in Z0.
  destruct (lookup_session_found _ Ok Z0) as (Hin & -> & s & Hs & Hd).
  rewrite Hs, Hd. simpl. rewrite Hs.
  destruct (janus_nosip_handler G L w s msg) as [r|] eqn:H;
    [|exfalso; apply (Cover s); exact H].
  eexists. split; [reflexivity|]. simpl.
  apply table_ok_store; [exact Ok|exact Hin|].
  rewrite (handler_keeps_destroyed _ _ _ _ _ H). exact Hd.
Qed.

Lemma apply_op_ok G L t op :
  table_ok t -> op_allowed G L t op ->
  exists t', apply_op G L t op = Some t' /\ table_ok t'.
Proof.
  intros Ok A. destruct op as [h fresh|h now|h|h|h|now|w h msg]; simpl.
  - destruct A as [F0 Ff]. eexists. split; [reflexivity|].
    apply create_session_ok; assumption.
  - destruct (destroy_session_ok h Ok A) as (r & -> & Ok'). simpl. eauto.
  - unfold janus_nosip_hangup_media.
    destruct (hangup_media_ok h Ok) as (t' & calls & -> & Ok' & _).
    simpl. eauto.
  - destruct (setup_media_ok h Ok) as (t' & calls & -> & Ok'). simpl. eauto.
  - destruct (query_session_ok h Ok) as (r & ->). simpl. eauto.
  - destruct (watchdog_ok now Ok) as (t' & calls & -> & Ok' & _).
    simpl. eauto.
  - destruct (@handle_queued_ok G L w t h msg Ok A) as (r & -> & Ok').
    simpl. eauto.
Qed.

Lemma empty_table_ok : table_ok empty_table.
Proof.
  repeat split; simpl; try contradiction. constructor.
Qed.

(** No entry point reads a session that has been freed.  Starting from the
    empty table, whatever entry points are called one after the other, with
    [g_malloc0] handing out unused addresses, a clock that never reads 0,
    enough system answers for each message and no SDP at which the ingest
    reads through a null pointer, every call finds the
    struct it reads and the table keeps its discipline: a handle in the
    table points to a live struct that is not marked destroyed, and the
    watchdog frees only structs that no handle in the table points to. *)
Theorem session_table_never_dangles G L ops :
  ops_allowed G L empty_table ops ->
  exists t, run_ops G L empty_table ops = Some t /\ table_ok t.
Proof.
  generalize empty_table_ok. generalize empty_table.
  induction ops as [|op ops IH]; intros t Ok A; simpl in *.
  - eauto.
  - destruct A as [A1 A2].
    destruct (apply_op_ok G L op Ok A1) as (t' & E & Ok').
    rewrite E in A2 |- *. apply IH; assumption.
Qed.

Lemma ops_allowed_cons G L t op rest :
  op_allowed G L t op ->
  (forall t', apply_op G L t op = Some t' -> ops_allowed G L t' rest) ->
  ops_allowed G L t (op :: rest).
Proof.
  intros A R. cbn [ops_allowed]. split; [exact A|].
  destruct (apply_op G L t op) as [t'|]; [apply R; reflexivity|exact I].
Qed.

Lemma process_is_answered G L w msg :
  generate msg = false ->
  (forall text parsed,
      msg_sdp msg = Some text ->
      janus_sdp_parse L text = Some parsed ->
      existsb valueless_crypto (m_lines parsed) = false) ->
  forall s, janus_nosip_handler G L w s msg <> None.
Proof.
  intros Hg Hv s.
  destruct (@handler_process_cases G L w s msg Hg)
    as [(r & E & _)|(type & text & parsed & _ & Hs & _ & _ & P & E)];
    rewrite E; [discriminate|].
  pose proof (handle_process_cases G L s (strcaseeq type "offer") type text
                parsed) as X. cbv zeta in X.
  unfold ingest_faults in X.
  rewrite sdp_process_faults_static, (Hv text parsed Hs P) in X.
  destruct X as (r & -> & _). discriminate.
Qed.

(** The normal way [janus_nosip_destroy_session] ends on a table that keeps
    the discipline. *)
Lemma destroy_session_done t handle now t' calls :
  table_ok t ->
  janus_nosip_destroy_session t handle now = Some (None, t', calls) ->
  not_running t = false
  /\ In handle (tb_sessions t)
  /\ tb_state t' = tb_state t
  /\ tb_sessions t' = g_hash_table_remove (tb_sessions t) handle
  /\ tb_plugin_handle t' = tb_plugin_handle t
  /\ tb_old_sessions t'
     = tb_old_sessions t ++ [tb_plugin_handle t handle]
  /\ (exists s, tb_heap t' (tb_plugin_handle t handle) = Some s
                /\ destroyed s = now)
  /\ tb_plugin_handle t handle <> 0.
Proof.
  intros Ok. unfold janus_nosip_destroy_session.
  destruct (not_running t) eqn:Run; [discriminate|].
  destruct (janus_nosip_lookup_session t handle =? 0) eqn:Z0; [discriminate|].
  apply Z.eqb_neq in Z0.
  destruct (lookup_session_found _ Ok Z0) as (Hin & E & s & Hs & Hd).
  rewrite E in Z0 |- *. rewrite Hs, Hd. simpl.
  destruct (hangup_media_ok handle Ok)
    as (t1 & calls1 & Hh & Ok1 & E1 & E2 & E3 & E4 & E5).
  rewrite Hh.
  destruct Ok1 as (I & _).
  assert (Hin1 : In handle (tb_sessions t1)) by (rewrite E2; exact Hin).
  destruct (I handle Hin1) as (_ & s1 & Hs1 & _).
  rewrite E3 in Hs1. rewrite Hs1.
  intros H. inversion H; subst; clear H. simpl.
  repeat split; auto; try congruence.
  rewrite store_at_same. eauto.
Qed.

(** A destroyed handle is unknown.  Once [janus_nosip_destroy_session] has
    gone through for a handle, no entry point finds a session for it: the
    lookup gives NULL, a second destruction ends with error -2, a query
    returns NULL, [hangup_media] and [setup_media] only log, and a message
    still queued for the handle is dropped without a reply; none of them
    changes the table. *)
Theorem destroyed_handle_is_unknown t handle now t' calls :
  table_ok t ->
  janus_nosip_destroy_session t handle now = Some (None, t', calls) ->
  janus_nosip_lookup_session t' handle = 0
  /\ (forall later,
         janus_nosip_destroy_session t' handle later
         = Some (Some (-2), t', [Call (E_log LOG_ERR)]))
  /\ janus_nosip_query_session t' handle
     = Some (None, [Call (E_log LOG_ERR)])
  /\ janus_nosip_hangup_media t' handle
     = Some (t', [Call (E_log LOG_INFO); Call (E_log LOG_ERR)])
  /\ janus_nosip_setup_media t' handle
     = Some (t', [Call (E_log LOG_INFO); Call (E_log LOG_ERR)])
  /\ (forall G L w msg,
         exists logs, handle_queued G L w t' handle msg = Some (t', None, logs)).
Proof.
  intros Ok H.
  destruct (@destroy_session_done t handle now t' calls Ok H)
    as (Run & _ & E1 & E2 & _ & _ & _ & _).
  assert (Run' : not_running t' = false)
    by (unfold not_running in *; rewrite E1; exact Run).
  assert (Lk : janus_nosip_lookup_session t' handle = 0).
  { unfold janus_nosip_lookup_session.
    destruct (g_hash_table_contains (tb_sessions t') handle) eqn:C;
      [|reflexivity].
    apply g_hash_table_contains_In in C. rewrite E2 in C.
    apply g_hash_table_remove_In in C. destruct C as [C _].
    exfalso. apply C. reflexivity. }
  split; [exact Lk|].
  unfold janus_nosip_destroy_session, janus_nosip_query_session,
    janus_nosip_hangup_media, janus_nosip_hangup_media_internal,
    janus_nosip_setup_media, handle_queued, handler_session.
  rewrite Run', Lk. simpl.
  repeat split; auto.
  intros G L w msg. destruct (handle =? 0); eauto.
Qed.

(** The grace period.  A struct whose handle was destroyed at the time
    [now] stays where it is, marked destroyed, and the handle goes on
    pointing to it; a turn of the watchdog less than five seconds later
    leaves it there, and a turn from five seconds on frees it and takes it
    off [old_sessions], while the handle still holds its address. *)
Theorem destroyed_session_outlives_grace t handle now t' calls later t''
    calls' :
  table_ok t -> now <> 0 ->
  janus_nosip_destroy_session t handle now = Some (None, t', calls) ->
  janus_nosip_watchdog t' later = Some (t'', calls') ->
  let p := tb_plugin_handle t handle in
  p <> 0
  /\ (exists s, tb_heap t' p = Some s /\ destroyed s = now)
  /\ tb_plugin_handle t' handle = p
  /\ tb_plugin_handle t'' handle = p
  /\ if later - now >=? grace_period
     then tb_heap t'' p = None /\ ~ In p (tb_old_sessions t'')
     else tb_heap t'' p = tb_heap t' p /\ In p (tb_old_sessions t'').
Proof.
  intros Ok Hnow H W. cbv zeta.
  destruct (@destroy_session_done t handle now t' calls Ok H)
    as (_ & _ & _ & _ & E3 & E4 & (s & Hs & Hd) & P0).
  destruct (destroy_session_ok handle Ok Hnow) as (r & H' & Ok').
  rewrite H in H'. inversion H'; subst r. simpl in Ok'. clear H'.
  destruct (watchdog_ok later Ok')
    as (t2 & calls2 & W' & _ & _ & _ & F3 & F4 & F5).
  rewrite W in W'. inversion W'; subst t2 calls2. clear W'.
  set (p := tb_plugin_handle t handle) in *.
  assert (InOld : In p (tb_old_sessions t'))
    by (rewrite E4; apply in_app_iff; right; left; reflexivity).
  assert (Ex : existsb (Z.eqb p) (tb_old_sessions t') = true).
  { apply existsb_exists. exists p. split; [exact InOld|apply Z.eqb_refl]. }
  assert (G : in_grace later (tb_heap t') p
              = negb (later - now >=? grace_period)).
  { unfold in_grace. rewrite Hs, Hd. reflexivity. }
  repeat split; eauto.
  - rewrite E3. reflexivity.
  - rewrite F3, E3. reflexivity.
  - rewrite F5, Ex, G, F4.
    destruct (later - now >=? grace_period); simpl.
    + split; [reflexivity|]. intros Hin. apply filter_In in Hin.
      rewrite G in Hin. destruct Hin. discriminate.
    + split; [reflexivity|]. apply filter_In. rewrite G. auto.
Qed.

Lemma hangup_media_first t handle p s :
  not_running t = false ->
  janus_nosip_lookup_session t handle = p -> p <> 0 ->
  tb_heap t p = Some s -> destroyed s = 0 -> hangingup s = 0 ->
  janus_nosip_hangup_media_internal t handle
  = Some (set_tb_heap
            (store_at (tb_heap t) p
               (Some (set_recorders None None None None (set_hangingup 1 s))))
            t,
          [Call (E_log LOG_INFO)]
          ++ (if pipefd1 (media s) >? 0
              then [Call (E_pipe_write (pipefd1 (media s)))] else [])
          ++ close_recorder (arc s) ++ close_recorder (arc_peer s)
          ++ close_recorder (vrc s) ++ close_recorder (vrc_peer s)).
Proof.
  intros Run Lk P0 Hs Hd Hh. unfold janus_nosip_hangup_media_internal.
  apply Z.eqb_neq in P0. rewrite Run, Lk, P0, Hs, Hd, Hh. reflexivity.
Qed.

Lemma hangup_media_again t handle p s :
  not_running t = false ->
  janus_nosip_lookup_session t handle = p -> p <> 0 ->
  tb_heap t p = Some s -> destroyed s = 0 -> hangingup s <> 0 ->
  janus_nosip_hangup_media_internal t handle
  = Some (set_tb_heap
            (store_at (tb_heap t) p
               (Some (set_hangingup (hangingup s + 1) s))) t,
          [Call (E_log LOG_INFO)]).
Proof.
  intros Run Lk P0 Hs Hd Hh. unfold janus_nosip_hangup_media_internal.
  apply Z.eqb_neq in P0, Hh. rewrite Run, Lk, P0, Hs, Hd, Hh. reflexivity.
Qed.

(** Hanging up once.  The first [hangup_media] on a live session counts
    [hangingup] up to 1, wakes the relay thread when the pipe is open, and
    closes and forgets the four recorders; a second one only counts up and
    logs: the thread is not woken and no recorder is touched again. *)
Theorem hangup_media_acts_once t handle s :
  table_ok t -> not_running t = false ->
  In handle (tb_sessions t) ->
  tb_heap t (tb_plugin_handle t handle) = Some s ->
  hangingup s = 0 ->
  let p := tb_plugin_handle t handle in
  let s1 := set_recorders None None None None (set_hangingup 1 s) in
  exists t1 t2,
    janus_nosip_hangup_media t handle
    = Some (t1,
            [Call (E_log LOG_INFO)]
            ++ (if pipefd1 (media s) >? 0
                then [Call (E_pipe_write (pipefd1 (media s)))] else [])
            ++ close_recorder (arc s) ++ close_recorder (arc_peer s)
            ++ close_recorder (vrc s) ++ close_recorder (vrc_peer s))
    /\ tb_heap t1 p = Some s1
    /\ janus_nosip_hangup_media t1 handle = Some (t2, [Call (E_log LOG_INFO)])
    /\ tb_heap t2 p = Some (set_hangingup 2 s1).
Proof.
  intros Ok Run Hin Hs Hh. cbv zeta.
  destruct Ok as (I & _). destruct (I handle Hin) as (P0 & s' & Hs' & Hd).
  rewrite Hs in Hs'. inversion Hs'; subst s'. clear Hs'.
  assert (C : g_hash_table_contains (tb_sessions t) handle = true)
    by (apply g_hash_table_contains_In; exact Hin).
  set (p := tb_plugin_handle t handle) in *.
  set (s1 := set_recorders None None None None (set_hangingup 1 s)).
  set (t1 := set_tb_heap (store_at (tb_heap t) p (Some s1)) t).
  assert (Lk : janus_nosip_lookup_session t handle = p)
    by (unfold janus_nosip_lookup_session; rewrite C; reflexivity).
  assert (Lk1 : janus_nosip_lookup_session t1 handle = p)
    by (unfold janus_nosip_lookup_session; simpl; rewrite C; reflexivity).
  assert (Hs1 : tb_heap t1 p = Some s1) by apply store_at_same.
  exists t1.
  exists (set_tb_heap
            (store_at (tb_heap t1) p
               (Some (set_hangingup (hangingup s1 + 1) s1))) t1).
  unfold janus_nosip_hangup_media.
  split; [apply hangup_media_first; assumption|].
  split; [exact Hs1|].
  split.
  - apply hangup_media_again; try assumption; simpl; try lia.
  - simpl. rewrite store_at_same. reflexivity.
Qed.

(** ** The [recording] request *)

Lemma stop_is_not_start action :
  strcaseeq action "stop" = true -> strcaseeq action "start" = false.
Proof.
  intros H. apply strcaseeq_true in H. unfold strcaseeq. rewrite H.
  reflexivity.
Qed.

Lemma open_recorder_calls rw filename :
  filter is_recorder_release (snd (open_recorder rw filename)) = []
  /\ filter is_pli (snd (open_recorder rw filename)) = []
  /\ fst (open_recorder rw filename) = rw_recorder_create rw filename.
Proof.
  unfold open_recorder. simpl.
  destruct (rw_recorder_create rw filename); auto.
Qed.

(** The slots a [start] leaves. *)
Lemma start_recording_slots rw base (a v pa pv : bool) s :
  fst (start_recording rw base a v pa pv s)
  = set_recorders
      (if a then rw_recorder_create rw
                   (recording_filename rw base "-user-audio" "-own-audio")
       else arc s)
      (if pa then rw_recorder_create rw
                    (recording_filename rw base "-peer-audio" "-peer-audio")
       else arc_peer s)
      (if v then rw_recorder_create rw
                   (recording_filename rw base "-user-video" "-own-video")
       else vrc s)
      (if pv then rw_recorder_create rw
                    (recording_filename rw base "-peer-video" "-peer-video")
       else vrc_peer s)
      s.
Proof.
  unfold start_recording, open_recorder.
  destruct a; destruct v; destruct pa; destruct pv; reflexivity.
Qed.

(** Starting a recording.  A [start] with some flag set is always answered
    [recordingupdated], also when a recorder could not be created.  Each
    slot whose flag is set is overwritten with what
    [janus_recorder_create] returned for its file name, and a recorder that
    was in the slot is neither closed nor freed; the other slots and the
    rest of the session stay as they are.  A PLI goes to the WebRTC side
    exactly when the user's video is among the flags. *)
Theorem recording_start_overwrites rw s req action :
  rec_action req = Some action ->
  strcaseeq action "start" = true ->
  let record_audio := json_flag (rec_audio req) in
  let record_video := json_flag (rec_video req) in
  let record_peer_audio := json_flag (rec_peer_audio req) in
  let record_peer_video := json_flag (rec_peer_video req) in
  record_audio || record_video || record_peer_audio || record_peer_video
  = true ->
  let name := recording_filename rw (rec_filename req) in
  let slot (flag : bool) filename (old : option janus_recorder) :=
    if flag then rw_recorder_create rw filename else old in
  let '(s', reply, calls) := handle_recording rw s req in
  reply = Recording_updated
  /\ s' = set_recorders
            (slot record_audio (name "-user-audio" "-own-audio") (arc s))
            (slot record_peer_audio (name "-peer-audio" "-peer-audio")
                  (arc_peer s))
            (slot record_video (name "-user-video" "-own-video") (vrc s))
            (slot record_peer_video (name "-peer-video" "-peer-video")
                  (vrc_peer s))
            s
  /\ filter is_recorder_release calls = []
  /\ filter is_pli calls
     = (if record_video then [Call (E_relay_rtcp true 12)] else []).
Proof.
  intros Ha Hs. cbv zeta. intros Hf.
  unfold handle_recording. rewrite Ha, Hs. cbn [negb andb].
  assert (Nf : negb (json_flag (rec_audio req))
               && negb (json_flag (rec_video req))
               && negb (json_flag (rec_peer_audio req))
               && negb (json_flag (rec_peer_video req)) = false).
  { destruct (json_flag (rec_audio req)); destruct (json_flag (rec_video req));
      destruct (json_flag (rec_peer_audio req));
      destruct (json_flag (rec_peer_video req)); try reflexivity;
      discriminate. }
  rewrite Nf. unfold start_recording.
  set (n := recording_filename rw (rec_filename req)).
  destruct (open_recorder_calls rw (n "-peer-audio" "-peer-audio"))
    as (A1 & A2 & A3).
  destruct (open_recorder_calls rw (n "-peer-video" "-peer-video"))
    as (B1 & B2 & B3).
  destruct (open_recorder_calls rw (n "-user-audio" "-own-audio"))
    as (C1 & C2 & C3).
  destruct (open_recorder_calls rw (n "-user-video" "-own-video"))
    as (D1 & D2 & D3).
  destruct (open_recorder rw (n "-peer-audio" "-peer-audio")) as [pa ca].
  destruct (open_recorder rw (n "-peer-video" "-peer-video")) as [pv cv].
  destruct (open_recorder rw (n "-user-audio" "-own-audio")) as [ua cua].
  destruct (open_recorder rw (n "-user-video" "-own-video")) as [uv cuv].
  simpl in A1, A2, A3, B1, B2, B3, C1, C2, C3, D1, D2, D3.
  subst pa pv ua uv. clear Nf Hf.
  destruct (json_flag (rec_audio req)); destruct (json_flag (rec_video req));
    destruct (json_flag (rec_peer_audio req));
    destruct (json_flag (rec_peer_video req));
    cbn [orb fst snd]; (split; [reflexivity|]); (split; [reflexivity|]);
    repeat first [rewrite filter_app
                 |rewrite A1|rewrite A2|rewrite B1|rewrite B2
                 |rewrite C1|rewrite C2|rewrite D1|rewrite D2
                 |progress cbn [filter is_recorder_release is_pli app]];
    split; reflexivity.
Qed.

(** Stopping what was started.  When a [start] is followed by a [stop] with
    the same flags, the [stop] is answered [recordingupdated] and releases
    exactly the recorders the [start] obtained, each closed and then freed,
    in the order audio, video, peer audio, peer video; the flagged slots end
    up empty and the others are as before the [start]. *)
Theorem recording_stop_after_start rw s start_req stop_req action action' :
  rec_action start_req = Some action ->
  strcaseeq action "start" = true ->
  rec_action stop_req = Some action' ->
  strcaseeq action' "stop" = true ->
  let record_audio := json_flag (rec_audio start_req) in
  let record_video := json_flag (rec_video start_req) in
  let record_peer_audio := json_flag (rec_peer_audio start_req) in
  let record_peer_video := json_flag (rec_peer_video start_req) in
  json_flag (rec_audio stop_req) = record_audio ->
  json_flag (rec_video stop_req) = record_video ->
  json_flag (rec_peer_audio stop_req) = record_peer_audio ->
  json_flag (rec_peer_video stop_req) = record_peer_video ->
  record_audio || record_video || record_peer_audio || record_peer_video
  = true ->
  let name := recording_filename rw (rec_filename start_req) in
  let released (flag : bool) filename :=
    if flag then close_recorder (rw_recorder_create rw filename) else [] in
  let kept (flag : bool) (old : option janus_recorder) :=
    if flag then None else old in
  let s1 := fst (fst (handle_recording rw s start_req)) in
  handle_recording rw s1 stop_req
  = (set_recorders (kept record_audio (arc s))
                   (kept record_peer_audio (arc_peer s))
                   (kept record_video (vrc s))
                   (kept record_peer_video (vrc_peer s)) s,
     Recording_updated,
     released record_audio (name "-user-audio" "-own-audio")
     ++ released record_video (name "-user-video" "-own-video")
     ++ released record_peer_audio (name "-peer-audio" "-peer-audio")
     ++ released record_peer_video (name "-peer-video" "-peer-video")).
Proof.
  intros Ha Hs Ha' Hs'. cbv zeta. intros F1 F2 F3 F4 Hf.
  assert (Nf : negb (json_flag (rec_audio start_req))
               && negb (json_flag (rec_video start_req))
               && negb (json_flag (rec_peer_audio start_req))
               && negb (json_flag (rec_peer_video start_req)) = false).
  { destruct (json_flag (rec_audio start_req));
      destruct (json_flag (rec_video start_req));
      destruct (json_flag (rec_peer_audio start_req));
      destruct (json_flag (rec_peer_video start_req)); try reflexivity;
      discriminate. }
  assert (St : fst (fst (handle_recording rw s start_req))
               = fst (start_recording rw (rec_filename start_req)
                        (json_flag (rec_audio start_req))
                        (json_flag (rec_video start_req))
                        (json_flag (rec_peer_audio start_req))
                        (json_flag (rec_peer_video start_req)) s)).
  { unfold handle_recording. rewrite Ha, Hs. cbn [negb andb]. rewrite Nf.
    destruct (start_recording _ _ _ _ _ _ _). reflexivity. }
  rewrite St, start_recording_slots. clear St.
  unfold handle_recording. rewrite Ha', Hs', (stop_is_not_start _ Hs').
  cbn [negb andb]. rewrite F1, F2, F3, F4.
  rewrite Nf. unfold stop_recording, stop_recorder. cbn [arc vrc arc_peer vrc_peer set_recorders].
  destruct (json_flag (rec_audio start_req));
    destruct (json_flag (rec_video start_req));
    destruct (json_flag (rec_peer_audio start_req));
    destruct (json_flag (rec_peer_video start_req));
    reflexivity.
Qed.

(** A [recording] request leaves the session alone but for the four
    recorder slots, and a request that is refused leaves these alone as
    well and makes no call but a log line. *)
Theorem recording_touches_recorders_only rw s req :
  let '(s', reply, calls) := handle_recording rw s req in
  media s' = media s /\ sdp s' = sdp s
  /\ hangingup s' = hangingup s /\ destroyed s' = destroyed s
  /\ (reply <> Recording_updated ->
      s' = s
      /\ forallb (fun c => match c with Call (E_log _) => true | _ => false end)
                 calls = true).
Proof.
  unfold handle_recording.
  destruct (rec_action req) as [action|]; [|repeat split].
  destruct (negb (strcaseeq action "start") && negb (strcaseeq action "stop"));
    [repeat split|].
  destruct (negb _ && negb _ && negb _ && negb _); [repeat split|].
  destruct (strcaseeq action "start").
  - unfold start_recording.
    repeat match goal with
           | |- context [open_recorder ?rw ?f] =>
             destruct (open_recorder rw f)
           | |- context [if json_flag ?x then _ else _] =>
             destruct (json_flag x)
           end;
      cbn [orb]; repeat split;
      try (let N := fresh in intros N; exfalso; apply N; reflexivity);
      try (exfalso; match goal with N : _ <> _ |- _ => apply N end;
           reflexivity).
  - unfold stop_recording, stop_recorder.
    repeat match goal with
           | |- context [if json_flag ?x then _ else _] =>
             destruct (json_flag x)
           end;
      repeat split;
      try (let N := fresh in intros N; exfalso; apply N; reflexivity);
      try (exfalso; match goal with N : _ <> _ |- _ => apply N end;
           reflexivity).
Qed.

(** ** Connecting the sockets *)

Lemma connect_socket_connects fd port answer :
  port <> 0 -> In (Call_connect fd (htons port)) (connect_socket fd port answer).
Proof.
  intros H. unfold connect_socket. apply Z.eqb_neq in H. rewrite H.
  left. reflexivity.
Qed.

(** From the peer's SDP to [connect].  After an ingest in which the last
    line of a kind has a port other than 0, [janus_nosip_connect_sockets]
    connects the RTP socket of the kind to that port and its RTCP socket to
    the next one, both cut to 16 bits by [htons]. *)
Theorem connect_sockets_follows_sdp L m parsed answer changed (video : bool)
    pre l post a :
  m_lines parsed = pre ++ l :: post ->
  of_kind video l = true ->
  Forall (fun l' => of_kind video l' = false) post ->
  m_port l <> 0 -> m_port l + 1 <> 0 ->
  let m' :=
    fst (fst (janus_nosip_sdp_process L m parsed answer false changed)) in
  let calls := janus_nosip_connect_sockets m' a in
  In (Call_connect (k_rtp_fd (kind_media video m)) (htons (m_port l))) calls
  /\ In (Call_connect (k_rtcp_fd (kind_media video m))
                      (htons (m_port l + 1))) calls.
Proof.
  intros Hls Hl Hpost Hp Hp1. cbv zeta.
  destruct (@sdp_process_last_line L m parsed answer false changed video
              pre l post Hls Hl Hpost) as (k1 & K).
  unfold negotiated_kind in K.
  assert (Hp' : (m_port l =? 0) = false) by (apply Z.eqb_neq; exact Hp).
  rewrite Hp' in K. simpl in K. injection K as _ D1 D2 _.
  destruct (sdp_process_transport L m parsed answer changed) as [T _].
  set (m' := fst (fst (janus_nosip_sdp_process L m parsed answer false
                                               changed))) in *.
  assert (Fd : k_rtp_fd (kind_media video m') = k_rtp_fd (kind_media video m)
               /\ k_rtcp_fd (kind_media video m')
                  = k_rtcp_fd (kind_media video m)).
  { unfold transport, transport_kind in T. inversion T.
    destruct video; simpl; auto. }
  destruct Fd as [Fd1 Fd2]. rewrite <- Fd1, <- Fd2, <- D1 at 1.
  rewrite <- D2.
  assert (R1 : k_remote_rtp_port (kind_media video m') <> 0) by congruence.
  assert (R2 : k_remote_rtcp_port (kind_media video m') <> 0) by congruence.
  unfold janus_nosip_connect_sockets.
  destruct video; simpl in R1, R2 |- *; split;
    repeat (apply in_or_app; first [left; apply connect_socket_connects;
                                    assumption
                                   |right]);
    try (apply connect_socket_connects; assumption).
Qed.

(** ** RTCP after a refused RTCP socket *)

(** A refusal silences RTCP.  When the relay loop finds ECONNREFUSED on the
    RTCP socket of a kind it closes that socket and nothing else; from then
    on [janus_nosip_incoming_rtcp] sends nothing for that kind, while the
    RTP socket of the kind and the other kind are as before. *)
Theorem refused_rtcp_socket_goes_silent pipe_fd a s l P h (video : bool) len
    ra :
  Z.land (fa_revents a) (Z.lor POLLERR POLLHUP) <> 0 ->
  updated (media s) = false ->
  fa_so_error a = 111 ->
  audio_rtcp_fd (media s) <> video_rtcp_fd (media s) ->
  let fd := k_rtcp_fd (kind_media video (media s)) in
  let s' := fst (fst (fst (relay_fd pipe_fd fd a s l))) in
  plugin_handle h = Some s' ->
  k_rtcp_fd (kind_media video (media s')) = -1
  /\ k_rtp_fd (kind_media video (media s'))
     = k_rtp_fd (kind_media video (media s))
  /\ kind_media (negb video) (media s') = kind_media (negb video) (media s)
  /\ (janus_nosip_incoming_rtcp P (Some h) video len ra = []
      \/ janus_nosip_incoming_rtcp P (Some h) video len ra
         = [Call (E_log LOG_ERR)]).
Proof.
  intros Hr Hu He Hd. cbv zeta. unfold relay_fd.
  apply Z.eqb_neq in Hr. rewrite Hr, Hu, He. simpl.
  destruct video; simpl.
  - assert (E : (video_rtcp_fd (media s) =? audio_rtcp_fd (media s)) = false)
      by (apply Z.eqb_neq; congruence).
    rewrite E, Z.eqb_refl. simpl. intros Hh.
    repeat split. unfold janus_nosip_incoming_rtcp. rewrite Hh.
    destruct (stopped h || stopping P || negb (initialized P)); [auto|].
    destruct (gateway P); [|auto]. simpl.
    destruct (negb (destroyed s =? 0)); [auto|].
    rewrite andb_false_r. auto.
  - rewrite Z.eqb_refl. simpl. intros Hh.
    repeat split. unfold janus_nosip_incoming_rtcp. rewrite Hh.
    destruct (stopped h || stopping P || negb (initialized P)); [auto|].
    destruct (gateway P); [|auto]. simpl.
    destruct (negb (destroyed s =? 0)); [auto|].
    rewrite andb_false_r. auto.
Qed.

(** ** Configuration, continued *)




(** ** The table, continued *)

(** A query never shows a destroyed session.  On a table that keeps its
    discipline, the object [janus_nosip_query_session] returns always ends
    with the member [destroyed] equal to 0: a session that is marked
    destroyed is no longer found. *)
Theorem query_session_reports_live t handle info calls :
  table_ok t ->
  janus_nosip_query_session t handle = Some (Some info, calls) ->
  exists members,
    info = JSON_object (members ++ [("destroyed", JSON_integer 0)]).
Proof.
  intros Ok. unfold janus_nosip_query_session.
  destruct (not_running t); [discriminate|].
  destruct (janus_nosip_lookup_session t handle =? 0) eqn:Z0; [discriminate|].
  apply Z.eqb_neq in Z0.
  destruct (lookup_session_found _ Ok Z0) as (Hin & -> & s & Hs & Hd).
  rewrite Hs. intros H. inversion H; subst. clear H.
  unfold session_info. rewrite Hd. rewrite app_assoc. eauto.
Qed.

(** * The properties at concrete inputs *)

(** ** The port allocator *)

Lemma allocate_local_ports_even_pairs_witness :
  let w := binds_at_second 20001 30001 in
  let m' := fst (fst (allocated w audio_only)) in
  let es := snd (allocated w audio_only) in
  has_audio m' = has_audio audio_only
  /\ has_video m' = has_video audio_only
  /\ forall video : bool,
       k_has (kind_media video audio_only) = true ->
       let k := kind_media video m' in
       Z.even (k_local_rtp_port k) = true
       /\ k_local_rtcp_port k = k_local_rtp_port k + 1
       /\ bound_pair (aw_attempts w) k es.
Proof.
  intros w m' es.
  assert (H : janus_nosip_allocate_local_ports w audio_only
              = Some (m', 0, es))
    by (vm_compute; reflexivity).
  exact (@allocate_local_ports_even_pairs w audio_only m' es H).
Defined.

(** C7.  With the default range 10000-60000, a draw of 59999, which
    [g_random_int_range] may return, is rounded up to the RTP port 60000, and
    the RTCP socket is then bound to 60001, above [rtp_range_max]. *)
Theorem allocate_local_ports_rtcp_above_range :
  g_random_int_range_returns default_globals 59999
  /\ exists m' es,
       janus_nosip_allocate_local_ports (binds_at 59999) audio_only
       = Some (m', 0, es)
       /\ local_audio_rtp_port m' = 60000
       /\ local_audio_rtcp_port m' = 60001
       /\ rtp_range_max default_globals < local_audio_rtcp_port m'
       /\ In (E_bind (audio_rtcp_fd m') 60001) es.
Proof.
  split; [vm_compute; split; [discriminate|reflexivity]|].
  eexists. eexists. split; [vm_compute; reflexivity|].
  vm_compute. repeat split; tauto.
Qed.

(** ** [generate] *)



(** When [srtp_create] refuses the key drawn, the offer still goes out as
    RTP/SAVP and [has_srtp_local] is set, yet the attribute added reads
    [inline:(null)], which is no SDES key, and no outbound context exists. *)
Lemma generate_mandatory_offer_null_key :
  exists r parsed',
    janus_nosip_handler default_globals refusing_externals (binds_at 20000)
      janus_nosip_create_session
      (generate_request "offer" webrtc_audio_text (Some "sdes_mandatory"))
    = Some r
    /\ h_reply r = Reply_generated "offer" "v=0"
    /\ has_srtp_local (media (h_session r)) = true
    /\ audio_srtp_out (media (h_session r)) = None
    /\ sdp (h_session r) = Some parsed'
    /\ map m_proto (m_lines parsed') = [Some "RTP/SAVP"]
    /\ map (fun l => map a_value (filter (fun a => match a_name a with
                                                   | Some n =>
                                                     String.eqb n "crypto"
                                                   | None => false
                                                   end) (m_attributes l)))
           (m_lines parsed')
       = [[Some "1 AES_CM_128_HMAC_SHA1_80 inline:(null)"]]
    /\ map count_sdes_crypto (m_lines parsed') = [0%nat].
Proof.
  eexists. eexists. split; [vm_compute; reflexivity|].
  vm_compute. repeat split; reflexivity.
Qed.

(** C8.  The peer has offered SDES-SRTP ([has_srtp_remote] is true and
    [require_srtp] too); [generate] of the answer succeeds, yet
    [has_srtp_local] is still false: the answer advertises RTP/SAVP without
    a [crypto] attribute. *)
Theorem generate_answer_forgets_srtp :
  has_srtp_remote (media peer_offered_srtp) = true
  /\ has_srtp_local (media peer_offered_srtp) = false
  /\ exists r parsed',
       janus_nosip_handler default_globals example_externals
         (binds_at 20002) peer_offered_srtp
         (generate_request "answer" webrtc_audio_text None) = Some r
       /\ h_reply r = Reply_generated "answer" "v=0"
       /\ has_srtp_local (media (h_session r)) = false
       /\ has_srtp_local (media (h_session r))
          <> (has_srtp_local (media peer_offered_srtp)
              || has_srtp_remote (media peer_offered_srtp))
       /\ sdp (h_session r) = Some parsed'
       /\ map m_proto (m_lines parsed') = [Some "RTP/SAVP"]
       /\ map count_sdes_crypto (m_lines parsed') = [0%nat].
Proof.
  split; [vm_compute; reflexivity|]. split; [vm_compute; reflexivity|].
  eexists. eexists. split; [vm_compute; reflexivity|].
  vm_compute. repeat split; try reflexivity. discriminate.
Qed.

(** A session that negotiated audio once is given audio ports again by a
    [generate] whose SDP switches audio off. *)
Lemma generate_zero_port_still_allocates :
  has_audio (media offered_optional) = true
  /\ strstr webrtc_noaudio_text "m=audio 0" = true
  /\ exists r,
       janus_nosip_handler default_globals example_externals
         (binds_at 30000) offered_optional
         (generate_request "offer" webrtc_noaudio_text None) = Some r
       /\ h_reply r = Reply_generated "offer" "v=0"
       /\ has_audio (media (h_session r)) = true
       /\ local_audio_rtp_port (media (h_session r)) = 30000
       /\ local_audio_rtcp_port (media (h_session r)) = 30001
       /\ In (E_bind 7 30000) (h_effects r).
Proof.
  split; [vm_compute; reflexivity|]. split; [vm_compute; reflexivity|].
  eexists. split; [vm_compute; reflexivity|].
  vm_compute. repeat split; tauto.
Qed.

Lemma generate_zero_port_kind_witness :
  let r := run (binds_at 30000) janus_nosip_create_session
               (generate_request "offer" webrtc_noaudio_text None) in
  k_has (kind_media false (media (h_session r)))
  = k_has (kind_media false (media janus_nosip_create_session))
  /\ (k_has (kind_media false (media janus_nosip_create_session)) = false ->
      forall ty out,
        h_reply r = Reply_generated ty out ->
        k_rtp_fd (kind_media false (media (h_session r))) = -1
        /\ k_rtcp_fd (kind_media false (media (h_session r))) = -1
        /\ k_local_rtp_port (kind_media false (media (h_session r))) = 0
        /\ k_local_rtcp_port (kind_media false (media (h_session r))) = 0).
Proof.
  intro r.
  assert (H1 : generate (generate_request "offer" webrtc_noaudio_text None)
               = true) by reflexivity.
  assert (H2 : msg_sdp (generate_request "offer" webrtc_noaudio_text None)
               = Some webrtc_noaudio_text) by reflexivity.
  assert (H3 : strstr webrtc_noaudio_text
                      (if false then "m=video 0" else "m=audio 0") = true)
    by (vm_compute; reflexivity).
  assert (H4 : janus_nosip_handler default_globals example_externals
                 (binds_at 30000) janus_nosip_create_session
                 (generate_request "offer" webrtc_noaudio_text None)
               = Some r) by (vm_compute; reflexivity).
  exact (@generate_zero_port_kind _ _ _ _ _ _ _ false H1 H2 H3 H4).
Defined.

(** ** [process] *)



(** An SDP whose audio section has a [crypto] attribute without a value:
    the ingest hands the null [a->value] to [sscanf], and no reply
    follows. *)
Lemma process_valueless_crypto_faults :
  janus_sdp_parse example_externals valueless_crypto_text
  = Some valueless_crypto_offer
  /\ existsb valueless_crypto (m_lines valueless_crypto_offer) = true
  /\ janus_nosip_handler default_globals example_externals (binds_at 20000)
       janus_nosip_create_session
       (process_request "offer" valueless_crypto_text) = None.
Proof.
  repeat split; vm_compute; reflexivity.
Qed.

(** The peer's answer carried a key; a later answer in plain RTP is
    accepted, and [has_srtp_remote] stays set although that answer offers no
    key: the reply still names [sdes_mandatory]. *)
Lemma process_plain_answer_after_keyed :
  has_srtp_remote (media answered_srtp) = true
  /\ existsb (offers_key example_externals) (m_lines plain_answer) = false
  /\ exists r,
       janus_nosip_handler default_globals example_externals
         (binds_at 20000) answered_srtp
         (process_request "answer" plain_answer_text) = Some r
       /\ h_reply r
          = Reply_processed (Some "sdes_mandatory") "answer" plain_answer_text
       /\ has_srtp_remote (media (h_session r)) = true.
Proof.
  split; [vm_compute; reflexivity|].
  split; [vm_compute; reflexivity|].
  eexists. split; [vm_compute; reflexivity|].
  vm_compute. split; reflexivity.
Qed.

(** A rejected offer leaves its address, its profile and its direction
    behind in a fresh session. *)
Lemma process_invalid_sdp_changes_state :
  exists r,
    janus_nosip_handler default_globals example_externals (binds_at 20000)
      janus_nosip_create_session
      (process_request "offer" rejected_offer_text) = Some r
    /\ h_reply r
       = Reply_error 447 "No audio and no video being negotiated"
    /\ remote_ip (media janus_nosip_create_session) = None
    /\ remote_ip (media (h_session r)) = Some "198.51.100.7"
    /\ require_srtp (media janus_nosip_create_session) = false
    /\ require_srtp (media (h_session r)) = true
    /\ audio_send (media janus_nosip_create_session) = true
    /\ audio_send (media (h_session r)) = false
    /\ h_session r <> janus_nosip_create_session.
Proof.
  eexists. split; [vm_compute; reflexivity|].
  vm_compute. repeat split; try reflexivity. discriminate.
Qed.

Lemma process_invalid_sdp_after_ingest_witness :
  let r := run (binds_at 20000) janus_nosip_create_session
               (process_request "offer" rejected_offer_text) in
  sdp (h_session r) = sdp janus_nosip_create_session
  /\ transport (media (h_session r))
     = transport (media janus_nosip_create_session)
  /\ h_effects r = [].
Proof.
  intro r.
  assert (H1 : generate (process_request "offer" rejected_offer_text) = false)
    by reflexivity.
  assert (H2 : janus_nosip_handler default_globals example_externals
                 (binds_at 20000) janus_nosip_create_session
                 (process_request "offer" rejected_offer_text) = Some r)
    by (vm_compute; reflexivity).
  assert (H3 : h_reply r
               = Reply_error 447 "No audio and no video being negotiated")
    by (vm_compute; reflexivity).
  destruct (@process_invalid_sdp_after_ingest _ _ _ _ _ _ _ H1 H2 H3)
    as (type & text & parsed & _ & _ & _ & _ & S1 & T & E & _).
  auto.
Defined.

(** ** The relay loop *)

(** C2.  On a session with [has_srtp_remote], an RTP packet for which
    [srtp_unprotect] reports [srtp_err_status_replay_fail] is handed to the
    recorder and relayed to the gateway. *)
Theorem relay_forwards_replayed_packet :
  has_srtp_remote (media answered_srtp) = true
  /\ exists s' es,
       janus_nosip_relay_thread true
         [turn (Poll_ready [packet_in srtp_err_status_replay_fail]); hung_up]
         answered_srtp = Some (s', es)
       /\ In (E_save_frame None 172) es
       /\ In (E_relay_rtp false 172) es.
Proof.
  split; [vm_compute; reflexivity|].
  eexists. eexists. split; [vm_compute; reflexivity|].
  simpl. tauto.
Qed.

(** ECONNREFUSED on the audio RTP socket: the peer connection is not closed
    and the loop goes on to relay the next packet. *)
Lemma relay_ignores_refused_rtp :
  audio_rtp_fd (media answered_plain) = 7
  /\ exists s' es,
       janus_nosip_relay_thread true
         [turn (Poll_ready [socket_error 111]);
          turn (Poll_ready [packet_in srtp_err_status_ok]); hung_up]
         answered_plain = Some (s', es)
       /\ ~ In E_close_pc es
       /\ In (E_relay_rtp false 172) es.
Proof.
  split; [vm_compute; reflexivity|].
  eexists. eexists. split; [vm_compute; reflexivity|].
  simpl. split; [|tauto]. intuition discriminate.
Qed.

Lemma relay_scan_socket_error_witness :
  relay_scan 9 [(7, socket_error 104)] answered_plain
             {| goon := true; astep := 0; vstep := 0; ats := 0; vts := 0 |}
  = (answered_plain,
     {| goon := false; astep := 0; vstep := 0; ats := 0; vts := 0 |},
     [E_log LOG_ERR; E_log LOG_ERR; E_close_pc]).
Proof.
  assert (H1 : Z.land (fa_revents (socket_error 104))
                      (Z.lor POLLERR POLLHUP) <> 0)
    by (vm_compute; discriminate).
  assert (H2 : updated (media answered_plain) = false)
    by (vm_compute; reflexivity).
  destruct (@relay_scan_socket_error 9 7 (socket_error 104) []
              answered_plain
              {| goon := true; astep := 0; vstep := 0; ats := 0; vts := 0 |}
              H1 H2) as (_ & _ & F).
  apply F; simpl; discriminate.
Defined.

(** ** RTP from the WebRTC side *)

Lemma incoming_rtp_latches_ssrc_witness :
  exists s' es,
    janus_nosip_incoming_rtp live
      (Some {| stopped := false;
               plugin_handle := Some janus_nosip_create_session |})
      false rtp_packet 172 sent
    = (Some {| stopped := false; plugin_handle := Some s' |}, es)
    /\ audio_ssrc (media s') = 305419896
    /\ existsb records_or_sends es = false.
Proof.
  destruct (@incoming_rtp_latches_ssrc live
              {| stopped := false;
                 plugin_handle := Some janus_nosip_create_session |}
              janus_nosip_create_session false rtp_packet 172 sent
              eq_refl eq_refl eq_refl eq_refl eq_refl eq_refl)
    as (s' & es & H & _ & L).
  exists s', es. split; [exact H|].
  destruct (L eq_refl) as [L1 L2].
  split; [exact L1|]. apply L2. left. reflexivity.
Defined.

(** ** More of the port allocator *)

Lemma allocate_local_ports_returns_witness :
  exists m' ret es,
    janus_nosip_allocate_local_ports (always_refused 101) audio_only
    = Some (m', ret, es)
    /\ (ret = 0 \/ ret = -1).
Proof.
  assert (H1 : 0 < rtp_range_min default_globals) by (vm_compute; reflexivity).
  assert (H2 : Forall (fun a => g_random_int_range_returns default_globals
                                  (os_random a))
                      (aw_attempts (always_refused 101))).
  { apply Forall_forall. intros a Ha. apply repeat_spec in Ha. subst a.
    vm_compute. split; [discriminate|reflexivity]. }
  assert (H3 : (101 <= List.length (aw_attempts (always_refused 101)))%nat)
    by (vm_compute; lia).
  exact (@allocate_local_ports_returns default_globals (always_refused 101)
           audio_only H1 H2 H3).
Defined.

Lemma allocate_local_ports_gives_up_witness :
  exists m' es,
    janus_nosip_allocate_local_ports (always_refused 100) audio_only
    = Some (m', -1, es)
    /\ List.length (filter is_log_err es) = 100%nat
    /\ (let video := negb (has_audio audio_only) in
        k_local_rtp_port (kind_media video m') = 0
        /\ k_local_rtcp_port (kind_media video m') = 0).
Proof.
  assert (H1 : has_audio audio_only || has_video audio_only = true)
    by (vm_compute; reflexivity).
  assert (H2 : Forall bind_refused (aw_attempts (always_refused 100))).
  { apply Forall_forall. intros a Ha. apply repeat_spec in Ha. subst a.
    vm_compute. repeat split; discriminate. }
  assert (H3 : (100 <= List.length (aw_attempts (always_refused 100)))%nat)
    by (vm_compute; lia).
  exact (@allocate_local_ports_gives_up (always_refused 100) audio_only
           H1 H2 H3).
Defined.

Lemma generate_advertises_bound_ports_witness :
  let G := default_globals in
  let r := run (binds_at 20000) janus_nosip_create_session
               (generate_request "offer" webrtc_audio_text None) in
  exists parsed',
    sdp (h_session r) = Some parsed'
    /\ janus_sdp_write example_externals parsed' = Some "v=0"
    /\ Forall
         (fun l' =>
            is_audio (m_type l') || is_video (m_type l') = true ->
            let k := kind_media (is_video (m_type l')) (media (h_session r)) in
            m_port l' = uint16 (k_local_rtp_port k)
            /\ if k_has k
               then Z.even (k_local_rtp_port k) = true
                    /\ k_local_rtcp_port k = k_local_rtp_port k + 1
                    /\ (if rtp_range_min G <? rtp_range_max G
                        then rtp_range_min G <= k_local_rtp_port k
                             <= rtp_range_max G
                             /\ m_port l' = k_local_rtp_port k
                        else k_local_rtp_port k
                             = pick_even (rtp_range_min G))
               else m_port l' = 0)
         (m_lines parsed').
Proof.
  intros G r.
  assert (H1 : generate (generate_request "offer" webrtc_audio_text None)
               = true) by reflexivity.
  assert (H2 : 0 <= rtp_range_min G) by (vm_compute; discriminate).
  assert (H2' : rtp_range_max G <= 65535) by (vm_compute; discriminate).
  assert (H3 : Forall (fun a => g_random_int_range_returns G (os_random a))
                      (aw_attempts (binds_at 20000))).
  { repeat constructor; vm_compute; discriminate. }
  assert (H4 : janus_nosip_handler G example_externals
                 (binds_at 20000) janus_nosip_create_session
                 (generate_request "offer" webrtc_audio_text None) = Some r)
    by (vm_compute; reflexivity).
  assert (H5 : h_reply r = Reply_generated "offer" "v=0")
    by (vm_compute; reflexivity).
  exact (@generate_advertises_bound_ports G example_externals
           (binds_at 20000) janus_nosip_create_session
           (generate_request "offer" webrtc_audio_text None) r "offer" "v=0"
           H1 H2 H2' H3 H4 H5).
Defined.

(** With the range 20001-20001 the port drawn is 20001; the port bound and
    advertised is 20002, above the range. *)
Lemma generate_one_port_range_leaves_range :
  g_random_int_range_returns one_port_globals 20001
  /\ exists r parsed',
       janus_nosip_handler one_port_globals example_externals
         (binds_at 20001) janus_nosip_create_session
         (generate_request "offer" webrtc_audio_text None) = Some r
       /\ local_audio_rtp_port (media (h_session r)) = 20002
       /\ rtp_range_max one_port_globals
          < local_audio_rtp_port (media (h_session r))
       /\ sdp (h_session r) = Some parsed'
       /\ map m_port (m_lines parsed') = [20002].
Proof.
  split; [vm_compute; reflexivity|].
  eexists. eexists. split; [vm_compute; reflexivity|].
  vm_compute. repeat split; reflexivity.
Qed.

(** ** More of the ingest *)

Lemma sdp_process_last_line_decides_witness :
  let k :=
    kind_media false
      (fst (fst (janus_nosip_sdp_process example_externals
                   (media janus_nosip_create_session) peer_two_audio true
                   false false))) in
  (m_port second_audio_line <> 0 ->
   k_has k = true
   /\ k_remote_rtp_port k = m_port second_audio_line
   /\ k_remote_rtcp_port k = m_port second_audio_line + 1
   /\ k_send k
      = negb (is_sendonly_or_inactive (m_direction second_audio_line)))
  /\ (m_port second_audio_line = 0 -> k_send k = false).
Proof.
  assert (H1 : m_lines peer_two_audio
               = [{| m_type := JANUS_SDP_AUDIO; m_port := 40000;
                     m_proto := Some "RTP/AVP"; m_c_addr := None;
                     m_ptypes := [0]; m_direction := JANUS_SDP_DEFAULT;
                     m_attributes := [] |}]
                 ++ second_audio_line :: []) by reflexivity.
  assert (H2 : of_kind false second_audio_line = true)
    by (vm_compute; reflexivity).
  assert (H3 : Forall (fun l' => of_kind false l' = false)
                      (@nil janus_sdp_mline)) by constructor.
  exact (@sdp_process_last_line_decides example_externals
           (media janus_nosip_create_session) peer_two_audio true false false
           false _ second_audio_line [] H1 H2 H3).
Defined.


Lemma sdp_process_keeps_inbound_key_witness :
  (existsb (offers_key example_externals) (m_lines rekeyed_answer) = true
   /\ k_srtp_suite_in (kind_media false (media answered_srtp)) = 80
   /\ k_srtp_in (kind_media false (media answered_srtp))
      = Some {| policy_rtp := 80; policy_rtcp := 80;
                policy_key := zero_key |})
  /\ let m := media answered_srtp in
     let m' :=
       fst (fst (janus_nosip_sdp_process example_externals m rekeyed_answer
                                         true false false)) in
     k_srtp_in (kind_media false m') = k_srtp_in (kind_media false m)
     /\ k_srtp_suite_in (kind_media false m')
        = k_srtp_suite_in (kind_media false m).
Proof.
  assert (H : k_srtp_suite_in (kind_media false (media answered_srtp)) <> 0)
    by (vm_compute; discriminate).
  split; [repeat split; vm_compute; reflexivity|].
  exact (@sdp_process_keeps_inbound_key example_externals
           (media answered_srtp) rekeyed_answer true false false false H).
Defined.

(** ** More of the handler *)

Lemma handler_keeps_srtp_consistent_witness :
  srtp_consistent (media offered_mandatory).
Proof.
  assert (H1 : srtp_consistent (media janus_nosip_create_session)).
  { split; intros video; destruct video; simpl; intros N; exfalso; apply N;
      reflexivity. }
  assert (H2 : janus_nosip_handler default_globals example_externals
                 (binds_at 20000) janus_nosip_create_session
                 (generate_request "offer" webrtc_audio_text
                                   (Some "sdes_mandatory"))
               = Some (run (binds_at 20000) janus_nosip_create_session
                           (generate_request "offer" webrtc_audio_text
                                             (Some "sdes_mandatory"))))
    by (vm_compute; reflexivity).
  exact (@handler_keeps_srtp_consistent default_globals example_externals
           (binds_at 20000) janus_nosip_create_session
           (generate_request "offer" webrtc_audio_text (Some "sdes_mandatory"))
           _ H1 H2).
Defined.

Lemma relay_started_by_answers_witness :
  let r := run (binds_at 20000) offered_optional
               (process_request "answer" peer_srtp_text) in
  let answer :=
    match reply_type (h_reply r) with
    | None => false
    | Some type => negb (strcaseeq type "offer")
    end in
  ready (media (h_session r))
  = (if answer then true else ready (media offered_optional))
  /\ filter is_spawn (h_effects r)
     = (if answer then [E_spawn_relay_thread] else []).
Proof.
  assert (H : janus_nosip_handler default_globals example_externals
                (binds_at 20000) offered_optional
                (process_request "answer" peer_srtp_text)
              = Some (run (binds_at 20000) offered_optional
                          (process_request "answer" peer_srtp_text)))
    by (vm_compute; reflexivity).
  exact (@relay_started_by_answers default_globals example_externals
           (binds_at 20000) offered_optional
           (process_request "answer" peer_srtp_text) _ H).
Defined.

Lemma handler_never_signals_update_witness :
  let r := run (binds_at 20000) answered_plain
               (process_request "offer" peer_srtp_text) in
  updated (media (h_session r)) = updated (media answered_plain)
  /\ filter is_pipe_write (h_effects r) = [].
Proof.
  assert (H : janus_nosip_handler default_globals example_externals
                (binds_at 20000) answered_plain
                (process_request "offer" peer_srtp_text)
              = Some (run (binds_at 20000) answered_plain
                          (process_request "offer" peer_srtp_text)))
    by (vm_compute; reflexivity).
  exact (@handler_never_signals_update default_globals example_externals
           (binds_at 20000) answered_plain
           (process_request "offer" peer_srtp_text) _ H).
Defined.

Lemma handler_refusal_leaves_session_witness :
  let r := run (binds_at 20000) answered_srtp
               (process_request "offer" "not an sdp") in
  h_session r = answered_srtp /\ h_effects r = [].
Proof.
  assert (H1 : janus_nosip_handler default_globals example_externals
                 (binds_at 20000) answered_srtp
                 (process_request "offer" "not an sdp")
               = Some (run (binds_at 20000) answered_srtp
                           (process_request "offer" "not an sdp")))
    by (vm_compute; reflexivity).
  assert (H2 : h_reply (run (binds_at 20000) answered_srtp
                            (process_request "offer" "not an sdp"))
               = Reply_error 446 "Error parsing SDP")
    by (vm_compute; reflexivity).
  assert (H3 : 446 = 443 \/ 446 = 444 \/ 446 = 450
               \/ (446 = 446
                   /\ generate (process_request "offer" "not an sdp")
                      = false))
    by (right; right; right; split; reflexivity).
  exact (@handler_refusal_leaves_session default_globals example_externals
           (binds_at 20000) answered_srtp
           (process_request "offer" "not an sdp") _ 446 "Error parsing SDP"
           H1 H2 H3).
Defined.

Lemma generate_offer_unparsed_clears_srtp_witness :
  janus_nosip_handler default_globals example_externals (binds_at 20000)
    answered_srtp
    (generate_request "offer" "not an sdp" (Some "sdes_optional"))
  = Some {| h_session :=
              set_media
                (set_has_srtp_local true
                   (set_require_srtp false
                      (janus_nosip_srtp_cleanup (media answered_srtp))))
                answered_srtp;
            h_reply := Reply_error 446 "Error parsing SDP";
            h_effects := [] |}.
Proof.
  assert (H1 : generate (generate_request "offer" "not an sdp"
                                          (Some "sdes_optional")) = true)
    by reflexivity.
  assert (H2 : msg_sdp (generate_request "offer" "not an sdp"
                                         (Some "sdes_optional"))
               = Some "not an sdp") by reflexivity.
  assert (H3 : msg_sdp_type (generate_request "offer" "not an sdp"
                                              (Some "sdes_optional"))
               = Some "offer") by reflexivity.
  assert (H4 : strcaseeq "offer" "offer" = true) by (vm_compute; reflexivity).
  assert (H5 : strstr "not an sdp" "m=application" = false)
    by (vm_compute; reflexivity).
  assert (H6 : srtp_flags (generate_request "offer" "not an sdp"
                                            (Some "sdes_optional"))
               = Some (true, false)) by (vm_compute; reflexivity).
  assert (H7 : janus_sdp_parse example_externals "not an sdp" = None)
    by (vm_compute; reflexivity).
  exact (@generate_offer_unparsed_clears_srtp default_globals
           example_externals (binds_at 20000) answered_srtp
           (generate_request "offer" "not an sdp" (Some "sdes_optional"))
           "offer" "not an sdp" true false H1 H2 H3 H4 H5 H6 H7).
Defined.

(** ** More of the relay thread *)

Lemma relay_thread_leaves_torn_down_witness :
  let s' := fst (relayed [turn (Poll_ready [packet_in srtp_err_status_ok]);
                          hung_up] answered_srtp) in
  (forall video, kind_torn_down (kind_media video (media s')))
  /\ has_srtp_local (media s') = false
  /\ has_srtp_remote (media s') = false
  /\ require_srtp (media s') = false
  /\ pipefd0 (media s') <= 0 /\ pipefd1 (media s') <= 0.
Proof.
  intro s'.
  assert (H : janus_nosip_relay_thread true
                [turn (Poll_ready [packet_in srtp_err_status_ok]); hung_up]
                answered_srtp
              = Some (s', snd (relayed
                                 [turn (Poll_ready
                                          [packet_in srtp_err_status_ok]);
                                  hung_up] answered_srtp)))
    by (vm_compute; reflexivity).
  exact (@relay_thread_leaves_torn_down true
           [turn (Poll_ready [packet_in srtp_err_status_ok]); hung_up]
           answered_srtp s' _ H).
Defined.

Lemma relay_loop_stops_when_asked_witness :
  exists r,
    relay_loop true 9 [turn Poll_timeout; hung_up] answered_plain
      {| goon := true; astep := 0; vstep := 0; ats := 0; vts := 0 |} []
    = Some r.
Proof.
  assert (H : Exists asked_to_stop [turn Poll_timeout; hung_up]).
  { apply Exists_cons_tl. apply Exists_cons_hd. right. simpl. discriminate. }
  exact (@relay_loop_stops_when_asked true 9 [turn Poll_timeout; hung_up]
           answered_plain
           {| goon := true; astep := 0; vstep := 0; ats := 0; vts := 0 |} []
           H).
Defined.

Lemma relay_thread_strides_positive_witness :
  let its := [turn (Poll_ready [packet_in srtp_err_status_ok]);
              turn (Poll_ready [later_packet_in]);
              turn (Poll_ready [packet_in srtp_err_status_ok]);
              turn (Poll_ready [later_packet_in]);
              hung_up] in
  let es := snd (relayed its answered_plain) in
  strides false es = [960; 960; 160; 160]
  /\ Forall stride_positive es
  /\ forall video : bool,
       exists n k d,
         strides video es
         = repeat (default_stride video) n ++ repeat d k
         /\ 0 < d
         /\ (k <> 0%nat -> timestamp_difference (received its) d).
Proof.
  intros its es.
  assert (H : janus_nosip_relay_thread true its answered_plain
              = Some (fst (relayed its answered_plain), es))
    by (vm_compute; reflexivity).
  split; [vm_compute; reflexivity|].
  exact (@relay_thread_strides_positive true its answered_plain _ es H).
Defined.

Lemma refused_rtcp_socket_goes_silent_witness :
  let fd := k_rtcp_fd (kind_media false (media answered_plain)) in
  let s' :=
    fst (fst (fst (relay_fd 9 fd (socket_error 111) answered_plain
                     {| goon := true; astep := 0; vstep := 0; ats := 0;
                        vts := 0 |}))) in
  let h := {| stopped := false; plugin_handle := Some s' |} in
  k_rtcp_fd (kind_media false (media s')) = -1
  /\ k_rtp_fd (kind_media false (media s'))
     = k_rtp_fd (kind_media false (media answered_plain))
  /\ kind_media (negb false) (media s')
     = kind_media (negb false) (media answered_plain)
  /\ (janus_nosip_incoming_rtcp live (Some h) false 64 sent = []
      \/ janus_nosip_incoming_rtcp live (Some h) false 64 sent
         = [Call (E_log LOG_ERR)]).
Proof.
  intros fd s' h.
  assert (H1 : Z.land (fa_revents (socket_error 111))
                      (Z.lor POLLERR POLLHUP) <> 0)
    by (vm_compute; discriminate).
  assert (H2 : updated (media answered_plain) = false)
    by (vm_compute; reflexivity).
  assert (H3 : fa_so_error (socket_error 111) = 111) by reflexivity.
  assert (H4 : audio_rtcp_fd (media answered_plain)
               <> video_rtcp_fd (media answered_plain))
    by (vm_compute; discriminate).
  assert (H5 : plugin_handle h = Some s') by reflexivity.
  exact (@refused_rtcp_socket_goes_silent 9 (socket_error 111) answered_plain
           {| goon := true; astep := 0; vstep := 0; ats := 0; vts := 0 |}
           live h false 64 sent H1 H2 H3 H4 H5).
Defined.

(** ** RTCP from the WebRTC side *)

Lemma incoming_rtcp_ignores_direction_witness :
  let h := {| stopped := false; plugin_handle := Some answered_plain |} in
  let gated :=
    set_media
      (set_kind_media false
         (set_k_send false (kind_media false (media answered_plain)))
         (media answered_plain)) answered_plain in
  janus_nosip_incoming_rtcp live
    (Some {| stopped := stopped h; plugin_handle := Some gated |}) false 64
    sent
  = janus_nosip_incoming_rtcp live (Some h) false 64 sent.
Proof.
  intros h.
  assert (H : plugin_handle h = Some answered_plain) by reflexivity.
  exact (@incoming_rtcp_ignores_direction live h answered_plain false false
           64 sent H).
Defined.

(** ** Connecting the sockets *)

Lemma connect_sockets_follows_sdp_witness :
  let m := media offered_optional in
  let m' :=
    fst (fst (janus_nosip_sdp_process example_externals m plain_answer true
                                      false false)) in
  let calls :=
    janus_nosip_connect_sockets m'
      {| ca_audio_rtp := 0; ca_audio_rtcp := 0; ca_video_rtp := 0;
         ca_video_rtcp := 0 |} in
  In (Call_connect (k_rtp_fd (kind_media false m))
                   (htons (m_port plain_answer_line))) calls
  /\ In (Call_connect (k_rtcp_fd (kind_media false m))
                      (htons (m_port plain_answer_line + 1))) calls.
Proof.
  assert (H1 : m_lines plain_answer = [] ++ plain_answer_line :: [])
    by reflexivity.
  assert (H2 : of_kind false plain_answer_line = true)
    by (vm_compute; reflexivity).
  assert (H3 : Forall (fun l' => of_kind false l' = false)
                      (@nil janus_sdp_mline)) by constructor.
  assert (H4 : m_port plain_answer_line <> 0) by (vm_compute; discriminate).
  assert (H5 : m_port plain_answer_line + 1 <> 0)
    by (vm_compute; discriminate).
  exact (@connect_sockets_follows_sdp example_externals
           (media offered_optional) plain_answer true false false [] 
           plain_answer_line []
           {| ca_audio_rtp := 0; ca_audio_rtcp := 0; ca_video_rtp := 0;
              ca_video_rtcp := 0 |} H1 H2 H3 H4 H5).
Defined.

(** ** Configuration *)

Lemma init_leaves_ordered_range_witness :
  let st' :=
    snd (janus_nosip_init example_init_answers (Some swapped_range_config)
                          initial_statics) in
  0 <= st_rtp_range_min st' <= st_rtp_range_max st'
  /\ 0 < st_rtp_range_max st' <= 65535
  /\ st_local_ip st' <> None.
Proof.
  assert (H1 : 0 <= st_rtp_range_min initial_statics
               <= st_rtp_range_max initial_statics) by (simpl; lia).
  assert (H2 : 0 < st_rtp_range_max initial_statics <= 65535)
    by (simpl; lia).
  exact (@init_leaves_ordered_range example_init_answers
           (Some swapped_range_config) initial_statics H1 H2).
Defined.


(** ** The session table *)

Lemma one_session_ok : table_ok one_session.
Proof.
  apply create_session_ok;
    [exact empty_table_ok|discriminate|reflexivity].
Qed.

Lemma peer_srtp_text_only text parsed :
  msg_sdp (process_request "offer" peer_srtp_text) = Some text ->
  janus_sdp_parse example_externals text = Some parsed ->
  existsb valueless_crypto (m_lines parsed) = false.
Proof.
  intros E P. injection E as <-.
  assert (X : janus_sdp_parse example_externals peer_srtp_text
              = Some peer_srtp) by (vm_compute; reflexivity).
  rewrite X in P. injection P as <-. vm_compute. reflexivity.
Qed.

Lemma session_table_never_dangles_witness :
  exists t,
    run_ops default_globals example_externals empty_table one_session_life
    = Some t
    /\ table_ok t.
Proof.
  assert (H : ops_allowed default_globals example_externals empty_table
                          one_session_life).
  { unfold one_session_life.
    apply ops_allowed_cons;
      [split; [discriminate|reflexivity]|].
    intros t1 E1. clear E1.
    apply ops_allowed_cons;
      [simpl; intros s; apply process_is_answered;
       [reflexivity|exact peer_srtp_text_only]|].
    intros t2 E2. clear E2.
    apply ops_allowed_cons; [exact I|]. intros t3 _.
    apply ops_allowed_cons; [exact I|]. intros t4 _.
    apply ops_allowed_cons; [exact I|]. intros t5 _.
    apply ops_allowed_cons; [simpl; discriminate|]. intros t6 _.
    apply ops_allowed_cons; [exact I|]. intros t7 _.
    apply ops_allowed_cons;
      [simpl; intros s; apply process_is_answered;
       [reflexivity|exact peer_srtp_text_only]|].
    intros t8 _. exact I. }
  exact (@session_table_never_dangles default_globals example_externals
           one_session_life H).
Defined.

Lemma destroyed_handle_is_unknown_witness :
  let t' := destroyed_at 7 in
  janus_nosip_lookup_session t' 1 = 0
  /\ (forall later,
         janus_nosip_destroy_session t' 1 later
         = Some (Some (-2), t', [Call (E_log LOG_ERR)]))
  /\ janus_nosip_query_session t' 1
     = Some (None, [Call (E_log LOG_ERR)])
  /\ janus_nosip_hangup_media t' 1
     = Some (t', [Call (E_log LOG_INFO); Call (E_log LOG_ERR)])
  /\ janus_nosip_setup_media t' 1
     = Some (t', [Call (E_log LOG_INFO); Call (E_log LOG_ERR)])
  /\ (forall G L w msg,
         exists logs, handle_queued G L w t' 1 msg = Some (t', None, logs)).
Proof.
  intro t'.
  assert (H : janus_nosip_destroy_session one_session 1 7
              = Some (None, t',
                      [Call (E_log LOG_VERB); Call (E_log LOG_INFO)]))
    by (vm_compute; reflexivity).
  exact (@destroyed_handle_is_unknown one_session 1 7 t' _ one_session_ok H).
Defined.

Lemma destroyed_session_outlives_grace_witness :
  let t' := destroyed_at 7 in
  let t'' := reaped_at t' 5000007 in
  let p := tb_plugin_handle one_session 1 in
  p <> 0
  /\ (exists s, tb_heap t' p = Some s /\ destroyed s = 7)
  /\ tb_plugin_handle t' 1 = p
  /\ tb_plugin_handle t'' 1 = p
  /\ if 5000007 - 7 >=? grace_period
     then tb_heap t'' p = None /\ ~ In p (tb_old_sessions t'')
     else tb_heap t'' p = tb_heap t' p /\ In p (tb_old_sessions t'').
Proof.
  intros t' t''.
  assert (H1 : 7 <> 0) by discriminate.
  assert (H2 : janus_nosip_destroy_session one_session 1 7
               = Some (None, t',
                       [Call (E_log LOG_VERB); Call (E_log LOG_INFO)]))
    by (vm_compute; reflexivity).
  assert (H3 : janus_nosip_watchdog t' 5000007
               = Some (t'', [Call (E_log LOG_HUGE); Call (E_log LOG_VERB)]))
    by (vm_compute; reflexivity).
  exact (@destroyed_session_outlives_grace one_session 1 7 t' _ 5000007 t'' _
           one_session_ok H1 H2 H3).
Defined.

Lemma in_call_table_ok : table_ok in_call_table.
Proof.
  apply table_ok_store;
    [exact one_session_ok|left; reflexivity|reflexivity].
Qed.

Lemma hangup_media_acts_once_witness :
  (pipefd1 (media in_call_session) = 10
   /\ arc in_call_session = Some "/tmp/call-user-audio")
  /\ let s := in_call_session in
     let p := tb_plugin_handle in_call_table 1 in
     let s1 := set_recorders None None None None (set_hangingup 1 s) in
     exists t1 t2,
       janus_nosip_hangup_media in_call_table 1
       = Some (t1,
               [Call (E_log LOG_INFO)]
               ++ (if pipefd1 (media s) >? 0
                   then [Call (E_pipe_write (pipefd1 (media s)))] else [])
               ++ close_recorder (arc s) ++ close_recorder (arc_peer s)
               ++ close_recorder (vrc s) ++ close_recorder (vrc_peer s))
       /\ tb_heap t1 p = Some s1
       /\ janus_nosip_hangup_media t1 1
          = Some (t2, [Call (E_log LOG_INFO)])
       /\ tb_heap t2 p = Some (set_hangingup 2 s1).
Proof.
  assert (H1 : not_running in_call_table = false) by reflexivity.
  assert (H2 : In 1 (tb_sessions in_call_table)) by (left; reflexivity).
  assert (H3 : tb_heap in_call_table (tb_plugin_handle in_call_table 1)
               = Some in_call_session) by reflexivity.
  assert (H4 : hangingup in_call_session = 0) by (vm_compute; reflexivity).
  split; [split; vm_compute; reflexivity|].
  exact (@hangup_media_acts_once in_call_table 1 in_call_session
           in_call_table_ok H1 H2 H3 H4).
Defined.

Lemma query_session_reports_live_witness :
  exists members,
    session_info janus_nosip_create_session
    = JSON_object (members ++ [("destroyed", JSON_integer 0)]).
Proof.
  assert (H : janus_nosip_query_session one_session 1
              = Some (Some (session_info janus_nosip_create_session), []))
    by reflexivity.
  exact (@query_session_reports_live one_session 1 _ _ one_session_ok H).
Defined.

(** ** The [recording] request *)

Lemma recording_start_overwrites_witness :
  let rw := example_recording_world in
  let s := recording_session in
  let req := recording_of_video "start" in
  let record_audio := json_flag (rec_audio req) in
  let record_video := json_flag (rec_video req) in
  let record_peer_audio := json_flag (rec_peer_audio req) in
  let record_peer_video := json_flag (rec_peer_video req) in
  let name := recording_filename rw (rec_filename req) in
  let slot (flag : bool) filename (old : option janus_recorder) :=
    if flag then rw_recorder_create rw filename else old in
  let '(s', reply, calls) := handle_recording rw s req in
  reply = Recording_updated
  /\ s' = set_recorders
            (slot record_audio (name "-user-audio" "-own-audio") (arc s))
            (slot record_peer_audio (name "-peer-audio" "-peer-audio")
                  (arc_peer s))
            (slot record_video (name "-user-video" "-own-video") (vrc s))
            (slot record_peer_video (name "-peer-video" "-peer-video")
                  (vrc_peer s))
            s
  /\ filter is_recorder_release calls = []
  /\ filter is_pli calls
     = (if record_video then [Call (E_relay_rtcp true 12)] else []).
Proof.
  assert (H1 : rec_action (recording_of_video "start") = Some "start")
    by reflexivity.
  assert (H2 : strcaseeq "start" "start" = true) by (vm_compute; reflexivity).
  assert (H3 : json_flag (rec_audio (recording_of_video "start"))
               || json_flag (rec_video (recording_of_video "start"))
               || json_flag (rec_peer_audio (recording_of_video "start"))
               || json_flag (rec_peer_video (recording_of_video "start"))
               = true) by reflexivity.
  exact (@recording_start_overwrites example_recording_world
           recording_session (recording_of_video "start") "start" H1 H2 H3).
Defined.

Lemma recording_stop_after_start_witness :
  let rw := example_recording_world in
  let s := recording_session in
  let start_req := recording_of_video "start" in
  let stop_req := recording_of_video "STOP" in
  let record_audio := json_flag (rec_audio start_req) in
  let record_video := json_flag (rec_video start_req) in
  let record_peer_audio := json_flag (rec_peer_audio start_req) in
  let record_peer_video := json_flag (rec_peer_video start_req) in
  let name := recording_filename rw (rec_filename start_req) in
  let released (flag : bool) filename :=
    if flag then close_recorder (rw_recorder_create rw filename) else [] in
  let kept (flag : bool) (old : option janus_recorder) :=
    if flag then None else old in
  let s1 := fst (fst (handle_recording rw s start_req)) in
  handle_recording rw s1 stop_req
  = (set_recorders (kept record_audio (arc s))
                   (kept record_peer_audio (arc_peer s))
                   (kept record_video (vrc s))
                   (kept record_peer_video (vrc_peer s)) s,
     Recording_updated,
     released record_audio (name "-user-audio" "-own-audio")
     ++ released record_video (name "-user-video" "-own-video")
     ++ released record_peer_audio (name "-peer-audio" "-peer-audio")
     ++ released record_peer_video (name "-peer-video" "-peer-video")).
Proof.
  assert (H1 : rec_action (recording_of_video "start") = Some "start")
    by reflexivity.
  assert (H2 : strcaseeq "start" "start" = true) by (vm_compute; reflexivity).
  assert (H3 : rec_action (recording_of_video "STOP") = Some "STOP")
    by reflexivity.
  assert (H4 : strcaseeq "STOP" "stop" = true) by (vm_compute; reflexivity).
  assert (H5 : json_flag (rec_audio (recording_of_video "start"))
               || json_flag (rec_video (recording_of_video "start"))
               || json_flag (rec_peer_audio (recording_of_video "start"))
               || json_flag (rec_peer_video (recording_of_video "start"))
               = true) by reflexivity.
  exact (@recording_stop_after_start example_recording_world
           recording_session (recording_of_video "start")
           (recording_of_video "STOP") "start" "STOP" H1 H2 H3 H4
           eq_refl eq_refl eq_refl eq_refl H5).
Defined.
